(** * DeepNova: the code quality analysis pipeline, embedded and verified

    A shallow embedding of the backend services of DeepNova
    ([app/services/validators.py], [language_detector.py], [security.py],
    [complexity.py], [analysis_engine.py], [compare.py], and the interface
    of [app/utils/ai_client.py]), the vocabulary in which the properties of
    the specification are stated, and the proofs of these properties.  The
    embedding also covers the Gemini client of [ai_client.py],
    [app/services/structure.py], [chat_with_ai] of [ai_service.py] and the
    handlers of [app/api/routes_chat.py], [routes_code.py] and
    [routes_compare.py], with further properties that the code shows.

    Conventions of the embedding.
    - A Python [str] is a [string]: the sequence of the bytes of its UTF-8
      encoding.  Concatenation, equality, substring search ([in]),
      [str.count], [startswith]/[endswith], slices and the per-character
      loops over ASCII delimiters are exact on every text.  The white space
      of [str.strip] and [str.split] and the line boundaries of
      [str.splitlines] are those of Python, with the characters beyond
      ASCII among them.  [str.lower] is exact in the capitals of ASCII and
      in the two characters beyond ASCII whose lower case holds an ASCII
      letter; it keeps the other characters beyond ASCII as they are.
    - A Python [int] is a [Z].  A [float] is the rational ([Q], in lowest
      terms) that the double stands for: a literal, a conversion of an
      integer and each operation round to the nearest double, to the even
      mantissa on a tie, as binary64 does ([PyFloat.round64]); the
      exponent is not bounded above, no float of the pipeline being large.
      [maintainability_binary64_agrees] checks the maintainability index
      against its computation with the floats of the kernel.
    - [ast.parse] and [ast.unparse] belong to CPython: they are parameters
      of the sections that use them.  [ast.parse] either returns a tree or
      raises [SyntaxError]; the tree keeps what the visitors of the engine
      look at.
    - A dict is a [gmap]; the results that the services return as dicts
      with fixed keys are records.  Where Python raises [KeyError] the
      embedding is shown not to get there ([visit_never_raises]).
    - The generative AI client is an interface with two operations that act
      on the state of the outside world; the asynchronous functions of the
      engine are computations in the state monad over that world. *)

From Stdlib Require Import String Ascii List ZArith QArith Qround Qpower Bool Lia Lqa.
From Stdlib Require Import DecimalString Sorted.
From Corelib Require Import PrimFloat.
From Stdlib Require Import Uint63 SpecFloat FloatOps.
From stdpp Require Import gmap strings.

Import ListNotations.
Set Warnings "-register-all,-abstract-large-number".
Local Open Scope string_scope.
Local Open Scope bool_scope.

(* ===================================================================== *)
(** * Python string primitives *)
(* ===================================================================== *)

Module PyStr.

(** Truthiness of a string: [bool(s)]. *)
Definition truthy (s : string) : bool :=
  match s with EmptyString => false | _ => true end.

(** [s.startswith(p)] *)
Fixpoint startswith (p s : string) : bool :=
  match p, s with
  | EmptyString, _ => true
  | String a p', String b s' => Ascii.eqb a b && startswith p' s'
  | String _ _, EmptyString => false
  end.

(** [x in xs] for a list of strings. *)
Definition mem (x : string) (xs : list string) : bool :=
  existsb (String.eqb x) xs.

(** The characters of one, two and three bytes. *)
Definition byte1 (a : ascii) : string := String a EmptyString.
Definition byte2 (a b : ascii) : string := String a (String b EmptyString).
Definition byte3 (a b c : ascii) : string :=
  String a (String b (String c EmptyString)).

(** The white space of Python, the characters [c] with [c.isspace()]:
    [strip] and [split] drop them.  These are the tab, the line feed, the
    vertical tab, the form feed, the carriage return, the four separators
    0x1c-0x1f and the space, and beyond ASCII U+0085, U+00A0, U+1680,
    U+2000 to U+200A, U+2028, U+2029, U+202F, U+205F and U+3000. *)
Definition whitespace : list string :=
  (map byte1 ["009"; "010"; "011"; "012"; "013"; "028"; "029"; "030"; "031"; " "]
   ++ [byte2 "194" "133"; byte2 "194" "160"; byte3 "225" "154" "128"]
   ++ map (byte3 "226" "128")
        ["128"; "129"; "130"; "131"; "132"; "133"; "134"; "135"; "136"; "137";
         "138"; "168"; "169"; "175"]
   ++ [byte3 "226" "129" "159"; byte3 "227" "128" "128"])%char%list.

(** The line boundaries of [str.splitlines] other than the pair of a
    carriage return and a line feed: the line feed, the vertical tab, the
    form feed, the carriage return, the separators 0x1c-0x1e, and beyond
    ASCII U+0085, U+2028 and U+2029. *)
Definition line_breaks : list string :=
  (map byte1 ["010"; "011"; "012"; "013"; "028"; "029"; "030"]
   ++ [byte2 "194" "133"; byte3 "226" "128" "168"; byte3 "226" "128" "169"])%char%list.

(** The number of bytes of the character of [chars] that [s] starts with,
    and 0 when it starts with none. *)
Definition length_at (chars : list string) (s : string) : nat :=
  match List.find (fun ch => startswith ch s) chars with
  | Some ch => String.length ch
  | None => 0
  end.

(** The white space, and the line boundary, at the start of [s]. *)
Definition space_at (s : string) : nat := length_at whitespace s.
Definition break_at (s : string) : nat := length_at line_breaks s.

Definition lower_char (c : ascii) : ascii :=
  let n := N_of_ascii c in
  if ((65 <=? n) && (n <=? 90))%N then ascii_of_N (n + 32) else c.

(** [s.lower()].  The capitals of ASCII become small letters, and so do
    the two characters beyond ASCII whose lower case holds an ASCII letter:
    the Kelvin sign U+212A, which becomes "k", and the dotted capital I
    U+0130, which becomes "i" and the combining dot U+0307.  Every other
    character beyond ASCII is kept as it is: its lower case holds no ASCII
    character, so that the ASCII texts that occur in [s.lower()], which is
    all the code asks of it, are those that occur here. *)
Fixpoint lower (s : string) : string :=
  match s with
  | EmptyString => EmptyString
  | String c s1 =>
      if Ascii.eqb c "196" then
        match s1 with
        | String c2 s2 =>
            if Ascii.eqb c2 "176"
            then String "i" (String "204" (String "135" (lower s2)))
            else String c (lower s1)
        | EmptyString => String c EmptyString
        end
      else if Ascii.eqb c "226" then
        match s1 with
        | String c2 (String c3 s3) =>
            if Ascii.eqb c2 "132" && Ascii.eqb c3 "170"
            then String "k" (lower s3)
            else String c (lower s1)
        | _ => String c (lower s1)
        end
      else String (lower_char c) (lower s1)
  end.

(** [s.lstrip()]: [s] from its first character that is no white space.
    [skip] bytes of a white space character are still to be passed over. *)
Fixpoint lstrip_from (skip : nat) (s : string) : string :=
  match s with
  | EmptyString => EmptyString
  | String _ s' =>
      match skip with
      | S k => lstrip_from k s'
      | O =>
          match space_at s with
          | S k => lstrip_from k s'
          | O => s
          end
      end
  end.

Definition lstrip (s : string) : string := lstrip_from 0 s.

(** [s.rstrip()]: [s] up to its last character that is no white space.
    What is left of the rest of the text, with the byte before it, is
    dropped when it is one white space character. *)
Fixpoint rstrip (s : string) : string :=
  match s with
  | EmptyString => EmptyString
  | String c s' =>
      let kept := String c (rstrip s') in
      if mem kept whitespace then EmptyString else kept
  end.

(** [s.strip()] *)
Definition strip (s : string) : string := lstrip (rstrip s).

(** [sub in s] *)
Fixpoint contains (sub s : string) : bool :=
  startswith sub s ||
  match s with
  | EmptyString => false
  | String _ s' => contains sub s'
  end.

Fixpoint rev_onto (s acc : string) : string :=
  match s with
  | EmptyString => acc
  | String c s' => rev_onto s' (String c acc)
  end.

Definition rev (s : string) : string := rev_onto s EmptyString.

(** [s.endswith(p)] *)
Definition endswith (p s : string) : bool := startswith (rev p) (rev s).

(** [s.startswith((p1, p2, ...))] with a tuple of prefixes. *)
Definition startswith_any (ps : list string) (s : string) : bool :=
  existsb (fun p => startswith p s) ps.

(** [s.count(sub)]: the occurrences of [sub] in [s], scanned from the left
    without overlap.  [skip] characters of a counted occurrence are still
    to be passed over. *)
Fixpoint count_from (skip : nat) (sub s : string) : nat :=
  match s with
  | EmptyString => 0
  | String _ s' =>
      match skip with
      | S k => count_from k sub s'
      | O =>
          if startswith sub s
          then S (count_from (String.length sub - 1) sub s')
          else count_from 0 sub s'
      end
  end.

Definition count (sub s : string) : nat :=
  match sub with
  | EmptyString => S (String.length s)
  | _ => count_from 0 sub s
  end.

(** [s.splitlines()].  [cur] is the line being read; [after_cr] tells that
    the previous character was a carriage return that ended a line, so
    that a line feed right after it belongs to the same boundary; [skip]
    bytes of a boundary are still to be passed over. *)
Fixpoint splitlines_go (cur : string) (after_cr : bool) (skip : nat) (s : string)
  : list string :=
  match s with
  | EmptyString => if truthy cur then [cur] else []
  | String c s' =>
      match skip with
      | S k => splitlines_go cur false k s'
      | O =>
          if after_cr && Ascii.eqb c "010" then splitlines_go cur false 0 s'
          else
            match break_at s with
            | S k => cur :: splitlines_go EmptyString (Ascii.eqb c "013") k s'
            | O => splitlines_go (cur ++ String c EmptyString) false 0 s'
            end
      end
  end.

Definition splitlines (s : string) : list string :=
  splitlines_go EmptyString false 0 s.

(** A byte that continues a UTF-8 character (10xxxxxx). *)
Definition is_continuation (c : ascii) : bool :=
  let n := N_of_ascii c in ((128 <=? n) && (n <=? 191))%N.

(** [s[:n]]: the first [n] characters of [s]. *)
Fixpoint slice_to (n : nat) (s : string) : string :=
  match s with
  | EmptyString => EmptyString
  | String c s' =>
      if is_continuation c then String c (slice_to n s')
      else match n with
           | O => EmptyString
           | S k => String c (slice_to k s')
           end
  end.

(** [len(s)] in characters. *)
Fixpoint len (s : string) : nat :=
  match s with
  | EmptyString => 0
  | String c s' => if is_continuation c then len s' else S (len s')
  end.

(** [s.split()[0]] for a string that holds a character that is no white
    space: its first word. *)
Fixpoint first_word_go (s : string) : string :=
  match s with
  | EmptyString => EmptyString
  | String c s' =>
      match space_at s with
      | S _ => EmptyString
      | O => String c (first_word_go s')
      end
  end.

Definition first_word (s : string) : string := first_word_go (lstrip s).

(** [sep.join(parts)] *)
Fixpoint join (sep : string) (parts : list string) : string :=
  match parts with
  | [] => EmptyString
  | [p] => p
  | p :: rest => p ++ sep ++ join sep rest
  end.

(** [str(n)] for an integer. *)
Definition of_Z (n : Z) : string := NilZero.string_of_int (Z.to_int n).

(** The line feed. *)
Definition nl : string := String "010" EmptyString.

(** The index of the character after [c], when [c] stands at the index
    [i]: a byte that continues a character starts none. *)
Definition next_index (i : Z) (c : ascii) : Z :=
  if is_continuation c then i else (i + 1)%Z.

(** [s.find(sub)]: the index, in characters, of the first occurrence of
    [sub] in [s], or -1.  [i] is the index of the first character of [s]. *)
Fixpoint find_from (i : Z) (sub s : string) : Z :=
  if startswith sub s then i
  else match s with
       | EmptyString => (-1)%Z
       | String c s' => find_from (next_index i c) sub s'
       end.

Definition find (sub s : string) : Z := find_from 0 sub s.

(** [s.rfind(sub)]: the index of the last occurrence, or -1. *)
Fixpoint rfind_from (i : Z) (sub s : string) : Z :=
  match s with
  | EmptyString => if startswith sub s then i else (-1)%Z
  | String c s' =>
      let later := rfind_from (next_index i c) sub s' in
      if (later =? -1)%Z then (if startswith sub s then i else (-1)%Z) else later
  end.

Definition rfind (sub s : string) : Z := rfind_from 0 sub s.

(** The text from its first byte that starts a character. *)
Fixpoint skip_continuation (s : string) : string :=
  match s with
  | EmptyString => EmptyString
  | String c s' => if is_continuation c then skip_continuation s' else s
  end.

(** [s[n:]]: [s] without its first [n] characters. *)
Fixpoint slice_from (n : nat) (s : string) : string :=
  match n, s with
  | O, _ => s
  | S _, EmptyString => EmptyString
  | S k, String _ s' => slice_from k (skip_continuation s')
  end.

(** [s[start:stop]] for [0 <= start <= stop]. *)
Definition slice (start stop : Z) (s : string) : string :=
  slice_to (Z.to_nat (stop - start)) (slice_from (Z.to_nat start) s).

(** What follows the prefix [p] in a text that starts with [p]. *)
Fixpoint after_prefix (p s : string) : string :=
  match p, s with
  | String _ p', String _ s' => after_prefix p' s'
  | _, _ => s
  end.

(** [s.split(sep, 1)] for a separator that is not empty: [s] cut at the
    first occurrence of [sep], or [s] alone. *)
Fixpoint split_once (sep s : string) : list string :=
  if startswith sep s then [EmptyString; after_prefix sep s]
  else match s with
       | EmptyString => [EmptyString]
       | String c s' =>
           match split_once sep s' with
           | before :: after => String c before :: after
           | [] => []
           end
       end.

End PyStr.


(* ===================================================================== *)
(** * The Python syntax tree, as far as the engine looks at it *)
(* ===================================================================== *)

Module ast.

(** A node of the tree built by [ast.parse].  The constructors are the node
    classes the visitors of the engine have a method for (and [Name], which
    [visit_Call] tests for); every other class is [Other].  [children] are
    the child nodes in the order in which [NodeVisitor.generic_visit] walks
    the fields of the node; for a [Call] the node of its [func] field, which
    is walked first, is kept apart. *)
Inductive node : Type :=
| FunctionDef (name : string) (children : list node)
| Call (func : node) (children : list node)
| Name (id : string)
| For (children : list node)
| While (children : list node)
| ListComp (children : list node)
| DictComp (children : list node)
| SetComp (children : list node)
| Other (children : list node).

(** The outcome of [ast.parse(code)]: a tree, or a [SyntaxError] whose
    [str(exc)] is [msg]. *)
Inductive parse_result : Type :=
| Parsed (tree : node)
| SyntaxError (msg : string).

End ast.

(* ===================================================================== *)
(** * validators.py *)
(* ===================================================================== *)

Module validators.

(** [ValidationResult.to_dict()]: [{"valid": ..., "error": ...}] *)
Record ValidationResult : Type :=
  mkValidationResult { valid : bool; error : option string }.

(** [opening = {"(": ")", "{": "}", "[": "]"}] *)
Definition opening (ch : ascii) : option ascii :=
  if Ascii.eqb ch "(" then Some ")"%char
  else if Ascii.eqb ch "{" then Some "}"%char
  else if Ascii.eqb ch "[" then Some "]"%char
  else None.

(** [closing = {v: k for k, v in opening.items()}] *)
Definition closing (ch : ascii) : option ascii :=
  if Ascii.eqb ch ")" then Some "("%char
  else if Ascii.eqb ch "}" then Some "{"%char
  else if Ascii.eqb ch "]" then Some "["%char
  else None.

(** The loop of [_balanced_brackets]; the top of the stack is the head of
    the list. *)
Fixpoint _balanced_brackets_loop (stack : list ascii) (code : string) : bool :=
  match code with
  | EmptyString => match stack with [] => true | _ :: _ => false end
  | String ch rest =>
      match opening ch with
      | Some _ => _balanced_brackets_loop (ch :: stack) rest
      | None =>
          match closing ch with
          | Some o =>
              match stack with
              | [] => false
              | top :: stack' =>
                  if Ascii.eqb top o
                  then _balanced_brackets_loop stack' rest
                  else false
              end
          | None => _balanced_brackets_loop stack rest
          end
      end
  end.

Definition _balanced_brackets (code : string) : bool :=
  _balanced_brackets_loop [] code.

Definition _balanced_quotes (code : string) : bool :=
  let single := PyStr.count "'" code in
  let double := PyStr.count (String "034"%char EmptyString) code in
  let backtick := PyStr.count "`" code in
  Nat.even single && Nat.even double && Nat.even backtick.

Definition semicolon_languages : list string :=
  ["javascript"; "typescript"; "java"; "c"; "cpp"; "c++"].

Section validate.

Variable ast_parse : string -> ast.parse_result.

Definition validate_code (language code : string) : ValidationResult :=
  let lang := PyStr.lower (PyStr.strip language) in
  if negb (PyStr.truthy (PyStr.strip code)) then
    mkValidationResult false (Some "Empty code")
  else if PyStr.mem lang ["generic"; ""] then
    mkValidationResult true None
  else if PyStr.mem lang ["py"; "python"] then
    match ast_parse code with
    | ast.SyntaxError msg => mkValidationResult false (Some msg)
    | ast.Parsed _ => mkValidationResult true None
    end
  else if negb (_balanced_brackets code) then
    mkValidationResult false (Some "Unbalanced brackets/braces")
  else if negb (_balanced_quotes code) then
    mkValidationResult false (Some "Unbalanced quotes")
  else
    let lines :=
      List.filter (fun ln => PyStr.truthy (PyStr.strip ln)) (PyStr.splitlines code) in
    if (3 <=? length lines)%nat
       && negb (PyStr.contains ";" code)
       && PyStr.mem lang semicolon_languages
    then mkValidationResult false (Some "No semicolons found in multi-line code")
    else mkValidationResult true None.

End validate.

End validators.

(* ===================================================================== *)
(** * Python floats *)
(* ===================================================================== *)

Module PyFloat.

(** A float is the rational it stands for, in lowest terms, so that equal
    values are equal terms. *)

(** [2^e], for an integer [e]. *)
Definition pow2 (e : Z) : Q :=
  match e with
  | Z0 => 1
  | Zpos p => inject_Z (Zpos (2 ^ p))
  | Zneg p => 1 # (2 ^ p)
  end.

(** The greatest [e] with [2^e <= x], for [x > 0]. *)
Definition ilog2 (x : Q) : Z :=
  let l := (Z.log2 (Qnum x) - Z.log2 (Zpos (Qden x)))%Z in
  if Qle_bool (pow2 l) x then l else (l - 1)%Z.

(** The integer nearest to [x], the even one of two that are as near. *)
Definition round_half_even (x : Q) : Z :=
  let f := Qfloor x in
  match Qcompare (x - inject_Z f) (1 # 2) with
  | Lt => f
  | Gt => (f + 1)%Z
  | Eq => if Z.even f then f else (f + 1)%Z
  end.

(** The double nearest to [x > 0], of two that are as near the one with
    the even mantissa: around [x] the doubles are the multiples of [2^q],
    for [q] 52 bits below the leading bit of [x], and never below the
    exponent -1074 of the least double. *)
Definition round64_pos (x : Q) : Q :=
  let q := Z.max (ilog2 x - 52) (-1074) in
  Qred (inject_Z (round_half_even (x / pow2 q)) * pow2 q).

(** The double nearest to [x]: the rounding of binary64, to which every
    operation on floats rounds its exact result, and a decimal literal its
    value. *)
Definition round64 (x : Q) : Q :=
  match Qcompare x 0 with
  | Eq => 0
  | Gt => round64_pos x
  | Lt => Qred (- round64_pos (- x))
  end.

(** [float(n)], and [x - y], [x * y] and [x / y] on floats. *)
Definition of_Z (n : Z) : Q := round64 (inject_Z n).
Definition sub (x y : Q) : Q := round64 (x - y).
Definition mul (x y : Q) : Q := round64 (x * y).
Definition div (x y : Q) : Q := round64 (x / y).

(** [x < y], [min(x, y)] and [max(x, y)]: no rounding. *)
Definition ltb (x y : Q) : bool :=
  match (x ?= y)%Q with Lt => true | _ => false end.
Definition min (x y : Q) : Q := if ltb y x then y else x.
Definition max (x y : Q) : Q := if ltb x y then y else x.

End PyFloat.

(* ===================================================================== *)
(** * models/schemas.py *)
(* ===================================================================== *)

Module schemas.

Record CodeAnalysisRequest : Type := mkCodeAnalysisRequest {
  req_file_path : option string;
  req_code : string;
  req_language : option string
}.

Record Issue : Type := mkIssue {
  issue_type : string;
  issue_message : string;
  issue_line : option Z;
  issue_severity : option string
}.

Record CodeAnalysisResponse : Type := mkCodeAnalysisResponse {
  resp_file_path : option string;
  resp_language : option string;
  resp_issues : list Issue;
  resp_complexity : option Q;
  resp_security_findings : list Issue;
  resp_summary : option string
}.

Record CodeCompareRequest : Type := mkCodeCompareRequest {
  original_code : string;
  modified_code : string;
  cmp_language : option string
}.

Record CodeDiff : Type := mkCodeDiff {
  added : list string;
  removed : list string;
  changed : list string
}.

Record CodeCompareResponse : Type := mkCodeCompareResponse {
  diff : CodeDiff;
  diff_risk_score : option Q;
  diff_summary : option string
}.

Record StructureInfo : Type := mkStructureInfo {
  functions : list string;
  classes : list string
}.

Record ChatMessage : Type := mkChatMessage {
  role : string;
  content : string
}.

Record ChatRequest : Type := mkChatRequest {
  messages : list ChatMessage;
  context_snippet : option string
}.

Record ChatResponse : Type := mkChatResponse {
  chat_messages : list ChatMessage
}.

End schemas.

(* ===================================================================== *)
(** * language_detector.py *)
(* ===================================================================== *)

Module language_detector.

Record DetectionResult : Type :=
  mkDetectionResult { language : string; confidence : Q }.

Definition signals : list (string * list string) :=
  [ ("python", ["def "; "import "; "print("; "async def"; "self"; "elif "; "lambda "]);
    ("javascript", ["console.log"; "function "; "=>"; "var "; "let "; "const "]);
    ("java", ["public class"; "system.out"; "public static void"]);
    ("cpp", ["#include"; "std::"; "cout<<"; "cout <<"]);
    ("c", ["printf("; "scanf("; "int main("]);
    ("typescript", ["interface "; "type "; ": string"; ": number"]) ].

(** The inner loop: [scores[lang] += 1] for every pattern found. *)
Definition score (snippet : string) (patterns : list string) : Z :=
  fold_left
    (fun acc pat => if PyStr.contains pat snippet then (acc + 1)%Z else acc)
    patterns 0%Z.

Definition detect_language (code : string) : DetectionResult :=
  let snippet := PyStr.lower code in
  let scores := map (fun '(lang, patterns) => (lang, score snippet patterns)) signals in
  let '(best_lang, best_score) :=
    fold_left
      (fun '(best_lang, best_score) '(lang, sc) =>
         if (best_score <? sc)%Z then (lang, sc) else (best_lang, best_score))
      scores ("generic", 0%Z) in
  if (best_score =? 0)%Z then mkDetectionResult "generic" 0
  else
    let patterns :=
      match find (fun '(lang, _) => String.eqb lang best_lang) signals with
      | Some (_, ps) => ps
      | None => []
      end in
    let max_possible :=
      if (Z.of_nat (length patterns) =? 0)%Z then 1%Z else Z.of_nat (length patterns) in
    mkDetectionResult best_lang
      (PyFloat.min 1 (PyFloat.div (PyFloat.of_Z best_score) (PyFloat.of_Z max_possible))).

End language_detector.

(* ===================================================================== *)
(** * security.py and complexity.py *)
(* ===================================================================== *)

Module security.

Definition suspicious_patterns : list string :=
  ["eval("; "exec("; "os.system("; "subprocess.call("; "password"; "secret"; "api_key"].

Definition analyze_security (payload : schemas.CodeAnalysisRequest)
  : schemas.CodeAnalysisResponse :=
  let lowered := PyStr.lower (schemas.req_code payload) in
  let issues :=
    flat_map
      (fun pattern =>
         if PyStr.contains pattern lowered
         then [schemas.mkIssue "security"
                 ("Suspicious pattern detected: " ++ pattern) None (Some "warning")]
         else [])
      suspicious_patterns in
  schemas.mkCodeAnalysisResponse
    (schemas.req_file_path payload) (schemas.req_language payload)
    [] None issues None.

End security.

Module complexity.

Definition analyze_complexity (payload : schemas.CodeAnalysisRequest)
  : schemas.CodeAnalysisResponse :=
  let line_count := length (PyStr.splitlines (schemas.req_code payload)) in
  schemas.mkCodeAnalysisResponse
    (schemas.req_file_path payload) (schemas.req_language payload)
    [] (Some (PyFloat.of_Z (Z.of_nat line_count))) [] None.

End complexity.

(* ===================================================================== *)
(** * utils/ai_client.py: the interface of the AI client *)
(* ===================================================================== *)

Module ai_client.

(** A value of a JSON object returned by the client.  Of a float, a list or
    an object the engine only reads the truth value and [str(...)]. *)
Inductive json : Type :=
| JNull
| JBool (b : bool)
| JInt (n : Z)
| JStr (s : string)
| JOther (truth : bool) (repr : string).

Definition json_truthy (v : option json) : bool :=
  match v with
  | None | Some JNull => false
  | Some (JBool b) => b
  | Some (JInt n) => negb (n =? 0)%Z
  | Some (JStr s) => PyStr.truthy s
  | Some (JOther t _) => t
  end.

Definition json_str (v : json) : string :=
  match v with
  | JNull => "None"
  | JBool true => "True"
  | JBool false => "False"
  | JInt n => PyStr.of_Z n
  | JStr s => s
  | JOther _ r => r
  end.

(** [str(d.get(k) or default)] *)
Definition get_str_or (d : gmap string json) (k : string) (default : string) : string :=
  if json_truthy (d !! k)
  then match d !! k with Some v => json_str v | None => default end
  else default.

(** The two operations of [GeminiClient] and [StubAIClient], acting on the
    state [W] of the world outside the process. *)
Record AIClient (W : Type) : Type := mkAIClient {
  chat : string -> option string -> W -> string * W;
  openai_json : string -> string -> gmap string json -> W -> gmap string json * W
}.
Arguments chat {W} _ _ _ _.
Arguments openai_json {W} _ _ _ _ _.

(** [StubAIClient] *)
Definition StubAIClient (W : Type) : AIClient W := {|
  chat := fun prompt context w =>
    let snippet := PyStr.slice_to 120 (default "" context) in
    ("(stubbed AI) You said: " ++ PyStr.slice_to 200 prompt
       ++ ". Context: " ++ snippet, w);
  openai_json := fun _ _ json_schema_hint w =>
    (<["note" := JStr "No AI API key configured; returning stubbed JSON."]>
       (<["_stubbed" := JBool true]> json_schema_hint), w)
|}.

(** Truthiness of a string that may be [None]. *)
Definition truthy_opt (s : option string) : bool :=
  match s with Some s => PyStr.truthy s | None => false end.

(** What the client reads of a response of the Gemini SDK: its [text]
    ([None] when the attribute is missing or holds [None]) and its
    candidates (none when the attribute is missing or empty), and of a
    candidate the parts of its content (none when the content is
    missing). *)
Record Part : Type := mkPart { part_text : option string }.
Record Candidate : Type := mkCandidate { parts : list Part }.
Record Response : Type := mkResponse {
  text : option string;
  candidates : list Candidate
}.

(** The end of [_call]: the text of the response, or else the texts of the
    parts of the first candidate, stripped. *)
Definition response_text (response : Response) : string :=
  let text := text response in
  let text :=
    if negb (truthy_opt text) then
      match candidates response with
      | candidate :: _ =>
          match parts candidate with
          | [] => text
          | ps => Some (String.concat "" (map (fun p => default "" (part_text p)) ps))
          end
      | [] => text
      end
    else text in
  PyStr.strip (default "" text).

(** The outcome of [json.loads]: a dict, another value, or an exception. *)
Inductive loads_result : Type :=
| Dict (d : gmap string json)
| NotDict
| Raised.

Section gemini.

Context {W : Type}.

(** [self._model.generate_content]: the response, or [None] for an
    exception, and the world after the call. *)
Variable generate_content : string -> W -> option Response * W.
Variable json_loads : string -> loads_result.

(** [_call], run in the executor: [None] stands for an exception, of the
    request or of the reading of the response. *)
Definition _call (prompt : string) (w : W) : option string * W :=
  let (response, w') := generate_content prompt w in
  (option_map response_text response, w').

Definition GeminiClient_chat (prompt : string) (context : option string) (w : W)
  : string * W :=
  let merged_prompt :=
    if truthy_opt context then
      "Context:" ++ PyStr.nl ++ default "" context ++ PyStr.nl ++ PyStr.nl
      ++ "User prompt:" ++ PyStr.nl ++ prompt
    else prompt in
  let snippet := PyStr.slice_to 120 (default "" context) in
  match _call merged_prompt w with
  | (Some reply, w') =>
      if negb (PyStr.truthy reply)
      then ("(stubbed AI) You said: " ++ PyStr.slice_to 200 prompt
              ++ ". Context: " ++ snippet, w')
      else (reply, w')
  | (None, w') =>
      ("(stubbed AI due to Gemini error) "
         ++ "You said: " ++ PyStr.slice_to 200 prompt ++ ". Context: " ++ snippet ++ ". "
         ++ "Reason: Gemini request failed.", w')
  end.

Definition _safe_json_loads (text : string) : option (gmap string json) :=
  match json_loads text with
  | Dict obj => Some obj
  | NotDict => None
  | Raised =>
      let start := PyStr.find "{" text in
      let end_ := PyStr.rfind "}" text in
      if (start =? -1)%Z || (end_ =? -1)%Z || (end_ <=? start)%Z then None
      else
        match json_loads (PyStr.slice start (end_ + 1) text) with
        | Dict obj => Some obj
        | NotDict | Raised => None
        end
  end.

Definition GeminiClient_openai_json (system_prompt user_prompt : string)
    (json_schema_hint : gmap string json) (w : W) : gmap string json * W :=
  let full_prompt :=
    PyStr.strip system_prompt ++ PyStr.nl ++ PyStr.nl
    ++ PyStr.strip user_prompt ++ PyStr.nl ++ PyStr.nl
    ++ "Return ONLY valid JSON. No markdown. No extra keys." in
  match _call full_prompt w with
  | (None, w') =>
      (<["note" := JStr "Gemini request failed; returning stubbed JSON."]>
         (<["_stubbed" := JBool true]> json_schema_hint), w')
  | (Some content, w') =>
      match _safe_json_loads content with
      | None =>
          (<["raw" := JStr (PyStr.slice_to 2000 content)]>
             (<["_parse_error" := JBool true]> json_schema_hint), w')
      | Some parsed => (parsed, w')
      end
  end.

(** [GeminiClient] *)
Definition GeminiClient : AIClient W := {|
  chat := GeminiClient_chat;
  openai_json := GeminiClient_openai_json
|}.

End gemini.

End ai_client.

(** The state monad of the asynchronous functions. *)
Module Async.

Definition M (W A : Type) : Type := W -> A * W.
Definition ret {W A} (a : A) : M W A := fun w => (a, w).
Definition bind {W A B} (m : M W A) (k : A -> M W B) : M W B :=
  fun w => let (a, w') := m w in k a w'.

End Async.

Notation "'await' x <- m ;; k" := (Async.bind m (fun x => k))
  (at level 10, x pattern, m at level 99, k at level 200).

(* ===================================================================== *)
(** * analysis_engine.py: the estimators *)
(* ===================================================================== *)

Module analysis_engine.

Definition nl : string := String "010" EmptyString.

(** The state of [ComplexityVisitor]. *)
Record ComplexityVisitor : Type := mkComplexityVisitor {
  loop_depth : Z;
  max_loop_depth : Z;
  self_calls_per_func : gmap string Z;
  current_func : option string;
  has_log_loop : bool
}.

(** [ComplexityVisitor.__init__] *)
Definition ComplexityVisitor_init : ComplexityVisitor :=
  mkComplexityVisitor 0 0 ∅ None false.

(** [d.setdefault(k, 0)] *)
Definition setdefault0 (k : string) (d : gmap string Z) : gmap string Z :=
  match d !! k with
  | Some _ => d
  | None => <[k := 0%Z]> d
  end.

(** [d[k] += 1] for a key that is there.  The visitors do this for the
    name of the function they are in, which [setdefault] has put into the
    dict ([visit_never_raises]); for a missing key, where Python raises
    [KeyError], this counts from 0. *)
Definition increment (k : string) (d : gmap string Z) : gmap string Z :=
  <[k := (default 0 (d !! k) + 1)%Z]> d.

(** [max(d.values(), default=0)] *)
Definition max_values (d : gmap string Z) : Z :=
  match map snd (map_to_list d) with
  | [] => 0%Z
  | v :: vs => fold_left Z.max vs v
  end.

(** The test of [visit_While] on the source text of the loop. *)
Definition looks_logarithmic (lowered : string) : bool :=
  existsb (fun v => PyStr.contains v lowered)
    ["low"; "high"; "start"; "end"; "left"; "right"]
  && (PyStr.contains "// 2" lowered || PyStr.contains ">> 1" lowered
      || PyStr.contains "/= 2" lowered).

(** The direct self-call test of [visit_Call]. *)
Definition is_self_call (func : ast.node) (current : option string) : option string :=
  match func, current with
  | ast.Name id, Some cf =>
      if PyStr.truthy cf && String.eqb id cf then Some cf else None
  | _, _ => None
  end.

Section estimators.

Variable ast_parse : string -> ast.parse_result.
Variable ast_unparse : ast.node -> string.

(** [ComplexityVisitor.visit]: the [visit_*] methods, and [generic_visit]
    for the other nodes. *)
Fixpoint complexity_visit (node : ast.node) (self : ComplexityVisitor)
  : ComplexityVisitor :=
  let generic_visit :=
    fix walk (children : list ast.node) (self : ComplexityVisitor) :=
      match children with
      | [] => self
      | child :: rest => walk rest (complexity_visit child self)
      end in
  match node with
  | ast.FunctionDef name children =>
      let prev_func := current_func self in
      let self :=
        mkComplexityVisitor (loop_depth self) (max_loop_depth self)
          (setdefault0 name (self_calls_per_func self)) (Some name)
          (has_log_loop self) in
      let self := generic_visit children self in
      mkComplexityVisitor (loop_depth self) (max_loop_depth self)
        (self_calls_per_func self) prev_func (has_log_loop self)
  | ast.Call func children =>
      let self :=
        match is_self_call func (current_func self) with
        | Some cf =>
            mkComplexityVisitor (loop_depth self) (max_loop_depth self)
              (increment cf (self_calls_per_func self)) (current_func self)
              (has_log_loop self)
        | None => self
        end in
      generic_visit children (complexity_visit func self)
  | ast.For children =>
      let depth := (loop_depth self + 1)%Z in
      let self :=
        mkComplexityVisitor depth (Z.max (max_loop_depth self) depth)
          (self_calls_per_func self) (current_func self) (has_log_loop self) in
      let self := generic_visit children self in
      mkComplexityVisitor (loop_depth self - 1)%Z (max_loop_depth self)
        (self_calls_per_func self) (current_func self) (has_log_loop self)
  | ast.While children =>
      let depth := (loop_depth self + 1)%Z in
      let lowered := PyStr.lower (ast_unparse node) in
      let self :=
        mkComplexityVisitor depth (Z.max (max_loop_depth self) depth)
          (self_calls_per_func self) (current_func self)
          (if looks_logarithmic lowered then true else has_log_loop self) in
      let self := generic_visit children self in
      mkComplexityVisitor (loop_depth self - 1)%Z (max_loop_depth self)
        (self_calls_per_func self) (current_func self) (has_log_loop self)
  | ast.Name _ => self
  | ast.ListComp children | ast.DictComp children | ast.SetComp children
  | ast.Other children => generic_visit children self
  end.

(** The decision at the end of the Python branch of [_estimate_big_o]. *)
Definition big_o_of_visitor (visitor : ComplexityVisitor) : string :=
  let max_self_calls := max_values (self_calls_per_func visitor) in
  if has_log_loop visitor then "O(log n)"
  else if (2 <=? max_self_calls)%Z then "O(2^n)"
  else if (max_self_calls =? 1)%Z then "O(n)"
  else if (2 <=? max_loop_depth visitor)%Z then "O(n^2)"
  else if (max_loop_depth visitor =? 1)%Z then "O(n)"
  else "O(1)".

Definition bisect_conditions : list string :=
  [ "while (low <="; "while (low >="; "while(low <="; "while(low >=";
    "while (start <="; "while(start <="; "while (begin <="; "while(begin <=";
    "while (left <="; "while(left <="; "while (left < right"; "while(left < right";
    "while left <="; "while left >="; "while start <="; "while begin <=" ].

(** The loop over the lines of the text fallback: (max_depth, current_depth). *)
Definition text_depth_step (acc : Z * Z) (line : string) : Z * Z :=
  let '(max_depth, current_depth) := acc in
  let stripped := PyStr.strip line in
  let '(max_depth, current_depth) :=
    if PyStr.startswith_any ["for "; "while "] stripped
    then (Z.max max_depth (current_depth + 1), current_depth + 1)%Z
    else (max_depth, current_depth) in
  if PyStr.endswith ":" stripped
     && negb (PyStr.startswith_any ["for "; "while "; "if "; "elif "] stripped)
  then (max_depth, Z.max (current_depth - 1) 0)
  else (max_depth, current_depth).

Definition is_python (lang : string) : bool := PyStr.mem lang ["python"; "py"].

Definition _estimate_big_o (code : string) (language : option string) : string :=
  let lang := PyStr.lower (default "" language) in
  if is_python lang then
    match ast_parse code with
    | ast.SyntaxError _ => "O(1)"
    | ast.Parsed tree =>
        big_o_of_visitor (complexity_visit tree ComplexityVisitor_init)
    end
  else
    let lowered := PyStr.lower code in
    let has_range_vars :=
      existsb (fun tok => PyStr.contains tok lowered)
        ["low"; "high"; "start"; "end"; "left"; "right"] in
    let has_bisect_loop :=
      existsb (fun cond => PyStr.contains cond lowered) bisect_conditions in
    let has_mid_calc :=
      PyStr.contains "mid" lowered
      && (PyStr.contains "/ 2" lowered || PyStr.contains ">> 1" lowered) in
    if has_range_vars && has_bisect_loop && has_mid_calc then "O(log n)"
    else
      let '(max_depth, _) :=
        fold_left text_depth_step (PyStr.splitlines code) (0%Z, 0%Z) in
      if (2 <=? max_depth)%Z then "O(n^2)"
      else if (max_depth =? 1)%Z then "O(n)"
      else "O(1)".

(** The state of [SpaceVisitor]. *)
Record SpaceVisitor : Type := mkSpaceVisitor {
  sp_self_calls_per_func : gmap string Z;
  sp_current_func : option string;
  has_linear_allocation : bool
}.

Fixpoint space_visit (node : ast.node) (self : SpaceVisitor) : SpaceVisitor :=
  let generic_visit :=
    fix walk (children : list ast.node) (self : SpaceVisitor) :=
      match children with
      | [] => self
      | child :: rest => walk rest (space_visit child self)
      end in
  match node with
  | ast.FunctionDef name children =>
      let prev := sp_current_func self in
      let self :=
        mkSpaceVisitor (setdefault0 name (sp_self_calls_per_func self))
          (Some name) (has_linear_allocation self) in
      let self := generic_visit children self in
      mkSpaceVisitor (sp_self_calls_per_func self) prev (has_linear_allocation self)
  | ast.Call func children =>
      let self :=
        match is_self_call func (sp_current_func self) with
        | Some cf =>
            mkSpaceVisitor (increment cf (sp_self_calls_per_func self))
              (sp_current_func self) (has_linear_allocation self)
        | None => self
        end in
      generic_visit children (space_visit func self)
  | ast.ListComp children | ast.DictComp children | ast.SetComp children =>
      generic_visit children
        (mkSpaceVisitor (sp_self_calls_per_func self) (sp_current_func self) true)
  | ast.Name _ => self
  | ast.For children | ast.While children | ast.Other children =>
      generic_visit children self
  end.

Definition _estimate_space_complexity (code : string) (language : option string)
  : string :=
  let lang := PyStr.lower (default "" language) in
  if negb (is_python lang) then "O(1)"
  else
    match ast_parse code with
    | ast.SyntaxError _ => "O(1)"
    | ast.Parsed tree =>
        let v := space_visit tree (mkSpaceVisitor ∅ None false) in
        let max_self_calls := max_values (sp_self_calls_per_func v) in
        if (1 <=? max_self_calls)%Z then "O(n)"
        else if has_linear_allocation v then "O(n)"
        else "O(1)"
    end.

End estimators.

Definition cyclomatic_keywords : list string :=
  ["if "; "elif "; "for "; "while "; "case "; " except "; " and "; " or "].

Definition _estimate_cyclomatic_complexity (code : string) : Z :=
  let lowered := PyStr.lower code in
  fold_left
    (fun complexity kw => (complexity + Z.of_nat (PyStr.count kw lowered))%Z)
    cyclomatic_keywords 1%Z.

Definition _estimate_maintainability (cyclomatic : Z) (code : string) : Q :=
  let line_count := Z.max (Z.of_nat (length (PyStr.splitlines code))) 1 in
  let score := 100%Q in
  let score := PyFloat.sub score (PyFloat.mul (PyFloat.of_Z cyclomatic) (3 # 2)) in
  let score :=
    PyFloat.sub score
      (PyFloat.mul (PyFloat.of_Z line_count) (PyFloat.round64 (1 # 10))) in
  PyFloat.max 0 (PyFloat.min 100 score)%Q.

(** [sorted(kinds)] for the set [kinds] of the messages: insertion into a
    sorted list without repetition. *)
Fixpoint insert_sorted (x : string) (xs : list string) : list string :=
  match xs with
  | [] => [x]
  | y :: ys =>
      match String.compare x y with
      | Lt => x :: xs
      | Eq => xs
      | Gt => y :: insert_sorted x ys
      end
  end.

Definition sorted_set (xs : list string) : list string :=
  fold_right insert_sorted [] xs.

Definition _summarise_security (issues : list schemas.Issue) : string :=
  match issues with
  | [] => "No obvious security issues detected by simple rules."
  | _ =>
      let kinds := sorted_set (map schemas.issue_message issues) in
      "Potential security concerns: " ++ PyStr.join ", " kinds ++ "."
  end.

Definition _compute_risk (big_o : string) (cyclomatic_complexity : Z)
    (security_issues : list schemas.Issue) (maintainability : Q) : Z * string :=
  let score := 0%Z in
  let score := if PyStr.contains "n^2" big_o then (score + 2)%Z else score in
  let score := if (15 <? cyclomatic_complexity)%Z then (score + 2)%Z else score in
  let score :=
    match security_issues with [] => score | _ :: _ => (score + 3)%Z end in
  let score := if PyFloat.ltb maintainability 50%Q then (score + 2)%Z else score in
  let level :=
    if (score <=? 2)%Z then "Low"
    else if (score <=? 4)%Z then "Medium"
    else if (score <=? 6)%Z then "High"
    else "Critical" in
  (score, level).

Definition _estimate_complexity_trend (cyclomatic : Z) : string :=
  if (15 <=? cyclomatic)%Z then "increasing"
  else if (8 <=? cyclomatic)%Z then "slightly_increasing"
  else "stable".

(** The dict returned by [analyze_code].  The five keys of the refined
    analysis are missing from the error payload and may hold [None] in the
    other: both read as [None]. *)
Record AnalysisResult : Type := mkAnalysisResult {
  big_o : string;
  cyclomatic_complexity : Z;
  maintainability : Q;
  security_summary : string;
  ai_summary : string;
  risk_score : Z;
  risk_level : string;
  complexity_trend : string;
  language_detected : option string;
  detection_confidence : Q;
  was_corrected : bool;
  original_valid : bool;
  corrected_code : option string;
  algorithm : option string;
  time_complexity : option string;
  space_complexity : option string;
  recommendation : option string;
  explanation : option string;
  error : option string;
  message : option string
}.

Definition _syntax_error_response (language_detected : option string)
    (detection_confidence : Q) (was_corrected original_valid : bool)
    (corrected_code : option string) (message : string) : AnalysisResult :=
  {| big_o := "N/A";
     cyclomatic_complexity := 0;
     maintainability := 0;
     security_summary := "";
     ai_summary := "";
     risk_score := 0;
     risk_level := "Unknown";
     complexity_trend := "unknown";
     language_detected := language_detected;
     detection_confidence := detection_confidence;
     was_corrected := was_corrected;
     original_valid := original_valid;
     corrected_code := corrected_code;
     algorithm := None;
     time_complexity := None;
     space_complexity := None;
     recommendation := None;
     explanation := None;
     error := Some "SyntaxError";
     message := Some message |}.

(** The dict returned by [_refine_python_complexity_with_gemini]. *)
Record Refined : Type := mkRefined {
  ref_algorithm : string;
  ref_time_complexity : string;
  ref_space_complexity : string;
  ref_recommendation : string;
  ref_explanation : string
}.

Definition alias_map : list (string * string) :=
  [ ("python", "python"); ("py", "python"); ("javascript", "javascript");
    ("js", "javascript"); ("typescript", "typescript"); ("ts", "typescript");
    ("java", "java"); ("c++", "cpp"); ("cpp", "cpp"); ("c", "c") ].

Fixpoint assoc_get (k : string) (d : list (string * string)) : option string :=
  match d with
  | [] => None
  | (k', v) :: d' => if String.eqb k k' then Some v else assoc_get k d'
  end.

(** [s or default] for strings. *)
Definition str_or (s default : string) : string :=
  if PyStr.truthy s then s else default.

Section pipeline.

Context {W : Type}.
Variable client : ai_client.AIClient W.
Variable ast_parse : string -> ast.parse_result.
Variable ast_unparse : ast.node -> string.

Definition _ai_suggestion_summary (code : string) : Async.M W string :=
  let prompt :=
    "Summarise the main issues and possible improvements in the following code. "
    ++ "Keep it to 2–3 sentences, plain text only." ++ nl ++ nl
    ++ PyStr.slice_to 4000 code in
  ai_client.chat client prompt None.

Definition attempt_auto_correction (language code : string) : Async.M W string :=
  let lang := str_or language "code" in
  let prompt :=
    "Fix syntax and runtime errors in the following " ++ lang ++ " code." ++ nl
    ++ "Do NOT change business logic." ++ nl
    ++ "Return ONLY corrected code." ++ nl
    ++ "No explanation." ++ nl
    ++ "No markdown." ++ nl ++ nl
    ++ PyStr.slice_to 6000 code in
  await reply <- ai_client.chat client prompt None ;;
  let lowered := PyStr.lower reply in
  if PyStr.contains "stubbed ai" lowered || negb (PyStr.truthy (PyStr.strip reply))
  then Async.ret code
  else Async.ret (PyStr.strip reply).

(** [f"{preliminary}"]: the labels of the estimators hold no quote and no
    backslash, so their [repr] is the label between single quotes. *)
Definition preliminary_repr (time_c space_c : string) : string :=
  "{'time_complexity': '" ++ time_c ++ "', 'space_complexity': '" ++ space_c ++ "'}".

Definition _refine_python_complexity_with_gemini (code : string)
    (preliminary_time preliminary_space : string) : Async.M W (option Refined) :=
  let schema_hint : gmap string ai_client.json :=
    <["algorithm" := ai_client.JStr "Unknown"]>
      (<["time_complexity" := ai_client.JStr preliminary_time]>
         (<["space_complexity" := ai_client.JStr preliminary_space]>
            (<["recommendation" := ai_client.JStr ""]>
               (<["explanation" := ai_client.JStr ""]> ∅)))) in
  let system_prompt := "You are a Python code analysis assistant." in
  let user_prompt :=
    "Input 1: User-submitted Python code." ++ nl
    ++ "Input 2: Rule-based analysis JSON from AST estimator:" ++ nl
    ++ preliminary_repr preliminary_time preliminary_space ++ nl ++ nl
    ++ "Task:" ++ nl
    ++ "- Recognize algorithm type (e.g., Binary Search, Merge Sort, DFS, BFS, DP, or custom)." ++ nl
    ++ "- Correct rule-based time and space complexity estimates." ++ nl
    ++ "- Suggest optimizations (iterative vs recursive, memoization, loop improvements)." ++ nl
    ++ "- Provide explanation in human-readable language." ++ nl ++ nl
    ++ "Output Requirements:" ++ nl
    ++ "Return strict JSON only with fields:" ++ nl
    ++ "{ " ++ PyStr.join ", "
         (map (fun '(k, v) => String "034"%char k ++ String "034"%char ": "
                              ++ String "034"%char v ++ String "034"%char EmptyString)
            [ ("algorithm", "..."); ("time_complexity", "O(...)");
              ("space_complexity", "O(...)"); ("recommendation", "...");
              ("explanation", "...") ])
    ++ " }" ++ nl
    ++ "Truncate explanation to 300 characters if too long." ++ nl
    ++ "Do not include any extra text or commentary." ++ nl ++ nl
    ++ "CODE:" ++ nl
    ++ PyStr.slice_to 6000 code in
  await result <- ai_client.openai_json client system_prompt user_prompt schema_hint ;;
  if ai_client.json_truthy (result !! "_stubbed")
     || ai_client.json_truthy (result !! "_parse_error")
  then Async.ret None
  else
    let algorithm := ai_client.get_str_or result "algorithm" "Unknown" in
    let time_c := ai_client.get_str_or result "time_complexity" preliminary_time in
    let space_c := ai_client.get_str_or result "space_complexity" preliminary_space in
    let recommendation := ai_client.get_str_or result "recommendation" "" in
    let explanation := ai_client.get_str_or result "explanation" "" in
    let explanation :=
      if (300 <? PyStr.len explanation)%nat
      then PyStr.slice_to 300 explanation else explanation in
    Async.ret (Some (mkRefined algorithm time_c space_c recommendation explanation)).

Definition _detect_language_via_ai (code fallback_language : string)
    (fallback_confidence : Q) : Async.M W (string * Q) :=
  let prompt :=
    "Detect the programming language of the following code." ++ nl
    ++ "Return ONLY the language name." ++ nl
    ++ "No explanation." ++ nl ++ nl
    ++ PyStr.slice_to 6000 code in
  await reply <- ai_client.chat client prompt None ;;
  let lowered := PyStr.strip (PyStr.lower reply) in
  if PyStr.contains "stubbed ai" lowered || negb (PyStr.truthy lowered)
  then Async.ret (str_or fallback_language "generic", fallback_confidence)
  else
    let token := PyStr.first_word lowered in
    match assoc_get token alias_map with
    | Some lang => Async.ret (lang, PyFloat.round64 (9 # 10))
    | None => Async.ret ("generic", 0%Q)
    end.

(** [analyze_code]: language, validation, one attempt at a correction, and
    the metrics of the final code.  The early [return] of the structured
    error is the [inl] of [outcome]. *)
Definition analyze_code (code : string) (language : option string)
  : Async.M W AnalysisResult :=
  let override_language := PyStr.lower (PyStr.strip (default "" language)) in
  let detection_result := language_detector.detect_language code in
  let detected_language :=
    PyStr.lower (str_or (language_detector.language detection_result) "generic") in
  let detection_confidence := language_detector.confidence detection_result in
  let effective_language :=
    str_or override_language (str_or detected_language "generic") in
  let effective_language :=
    if String.eqb effective_language "python" && PyStr.contains "#include" code
    then "c" else effective_language in
  await (effective_language, detection_confidence) <-
    (if negb (PyStr.truthy override_language)
        && PyFloat.ltb detection_confidence (1 # 2)
     then _detect_language_via_ai code detected_language detection_confidence
     else Async.ret (effective_language, detection_confidence)) ;;
  let validation := validators.validate_code ast_parse effective_language code in
  let original_valid := validators.valid validation in
  await outcome <-
    (if negb original_valid then
       await corrected_code <- attempt_auto_correction effective_language code ;;
       let revalidation :=
         validators.validate_code ast_parse effective_language corrected_code in
       if validators.valid revalidation
       then Async.ret (inr (corrected_code, true))
       else
         Async.ret
           (inl (_syntax_error_response (Some effective_language)
                   detection_confidence false false None
                   (str_or (default "" (validators.error validation))
                      "Code is invalid even after correction.")))
     else Async.ret (inr (code, false))) ;;
  match outcome with
  | inl error_response => Async.ret error_response
  | inr (final_code, was_corrected) =>
      let payload :=
        schemas.mkCodeAnalysisRequest None final_code (Some effective_language) in
      let complexity_result := complexity.analyze_complexity payload in
      let security_result := security.analyze_security payload in
      let big_o := _estimate_big_o ast_parse ast_unparse final_code (Some effective_language) in
      let space_o := _estimate_space_complexity ast_parse final_code (Some effective_language) in
      let cyclomatic := _estimate_cyclomatic_complexity final_code in
      let maintainability := _estimate_maintainability cyclomatic final_code in
      let security_summary :=
        _summarise_security (schemas.resp_security_findings security_result) in
      await ai_summary <- _ai_suggestion_summary final_code ;;
      await refined <-
        (if is_python effective_language
         then _refine_python_complexity_with_gemini final_code big_o space_o
         else Async.ret None) ;;
      let big_o :=
        match refined with
        | Some r => str_or (ref_time_complexity r) big_o
        | None => big_o
        end in
      let '(risk_score, risk_level) :=
        _compute_risk big_o cyclomatic
          (schemas.resp_security_findings security_result) maintainability in
      let complexity_trend := _estimate_complexity_trend cyclomatic in
      Async.ret
        {| big_o := big_o;
           cyclomatic_complexity := cyclomatic;
           maintainability := maintainability;
           security_summary := security_summary;
           ai_summary := ai_summary;
           risk_score := risk_score;
           risk_level := risk_level;
           complexity_trend := complexity_trend;
           language_detected := Some effective_language;
           detection_confidence := detection_confidence;
           was_corrected := was_corrected;
           original_valid := original_valid;
           corrected_code := if was_corrected then Some final_code else None;
           algorithm := option_map ref_algorithm refined;
           time_complexity :=
             match refined with
             | Some r => Some (ref_time_complexity r)
             | None => Some big_o
             end;
           space_complexity :=
             match refined with
             | Some r => Some (ref_space_complexity r)
             | None => Some space_o
             end;
           recommendation := option_map ref_recommendation refined;
           explanation := option_map ref_explanation refined;
           error := None;
           message := None |}
  end.

(** [run_full_analysis] *)
Definition run_full_analysis (payload : schemas.CodeAnalysisRequest)
  : Async.M W AnalysisResult :=
  analyze_code (schemas.req_code payload) (schemas.req_language payload).

End pipeline.

End analysis_engine.

(* ===================================================================== *)
(** * compare.py *)
(* ===================================================================== *)

Module compare.

(** [compare_versions]: the raw diff by lines.  The response leaves
    [metrics_comparison], [error] and [message] at [None]. *)
Definition compare_versions (payload : schemas.CodeCompareRequest)
  : schemas.CodeCompareResponse :=
  let original_lines := PyStr.splitlines (schemas.original_code payload) in
  let modified_lines := PyStr.splitlines (schemas.modified_code payload) in
  let added := List.filter (fun line => negb (PyStr.mem line original_lines)) modified_lines in
  let removed := List.filter (fun line => negb (PyStr.mem line modified_lines)) original_lines in
  let changed : list string := [] in
  let diff := schemas.mkCodeDiff added removed changed in
  let risk_score := PyFloat.of_Z (Z.of_nat (length added + length removed)) in
  let summary := "Basic diff calculated. Replace with smarter analysis as needed." in
  schemas.mkCodeCompareResponse diff (Some risk_score) (Some summary).

(** Lower rank is better. *)
Definition _big_o_rank (big_o : string) : Z :=
  let s := PyStr.lower big_o in
  if PyStr.contains "n^2" s then 3
  else if PyStr.contains "n)" s || PyStr.contains "o(n" s then 2
  else if PyStr.contains "1" s then 1
  else 4.

Definition _pick_better (a_risk b_risk a_cyclomatic b_cyclomatic
    a_big_o_rank b_big_o_rank : Z) : string :=
  if negb (a_risk =? b_risk)%Z then
    (if (a_risk <? b_risk)%Z then "A" else "B")
  else if negb (a_cyclomatic =? b_cyclomatic)%Z then
    (if (a_cyclomatic <? b_cyclomatic)%Z then "A" else "B")
  else if negb (a_big_o_rank =? b_big_o_rank)%Z then
    (if (a_big_o_rank <? b_big_o_rank)%Z then "A" else "B")
  else "A".

Definition _notes_for_metric (name a_val b_val better : string) : list string :=
  if String.eqb a_val b_val
  then [name ++ ": no change (" ++ a_val ++ ")."]
  else [name ++ ": " ++ a_val ++ " → " ++ b_val ++ " (better: " ++ better ++ ")."].

Definition _notes_for_delta (name : string) (a_val b_val : Z) (better : string)
    (lower_is_better : bool) : list string :=
  if (a_val =? b_val)%Z
  then [name ++ ": no change (" ++ PyStr.of_Z a_val ++ ")."]
  else
    let direction := if (b_val <? a_val)%Z then "decreased" else "increased" in
    let desirability :=
      if lower_is_better
      then (if (b_val <? a_val)%Z then "good" else "worse")
      else (if (a_val <? b_val)%Z then "good" else "worse") in
    [name ++ ": " ++ PyStr.of_Z a_val ++ " → " ++ PyStr.of_Z b_val
       ++ " (" ++ direction ++ ", " ++ desirability ++ "; better: " ++ better ++ ")."].

Record SideMetrics : Type := mkSideMetrics {
  side_big_o : string;
  side_cyclomatic_complexity : Z;
  side_maintainability : Q;
  side_risk_score : Z;
  side_risk_level : string
}.

Record Delta : Type := mkDelta {
  delta_cyclomatic_complexity : Z;
  delta_risk_score : Z
}.

Record MetricsComparison : Type := mkMetricsComparison {
  metrics_A : SideMetrics;
  metrics_B : SideMetrics;
  delta : Delta
}.

(** The dict returned by [compare_codes]; a key that is missing is [None]. *)
Record CompareResult : Type := mkCompareResult {
  error : option string;
  message : option string;
  better_version : option string;
  improvement_notes : option (list string);
  metrics_comparison : option MetricsComparison
}.

Definition is_compilation_error (r : analysis_engine.AnalysisResult) : bool :=
  match analysis_engine.error r with
  | Some e => String.eqb e "CompilationError"
  | None => false
  end.

(** [compare_codes] after its two analyses. *)
Definition compare_results (a b : analysis_engine.AnalysisResult) : CompareResult :=
  if is_compilation_error a || is_compilation_error b then
    let which :=
      ((if is_compilation_error a then ["A"] else [])
       ++ (if is_compilation_error b then ["B"] else []))%list in
    {| error := Some "CompilationError";
       message :=
         Some ("Code is invalid even after correction for versions: "
               ++ PyStr.join ", " which ++ ".");
       better_version := None;
       improvement_notes := None;
       metrics_comparison := None |}
  else
    let a_big_o_rank := _big_o_rank (analysis_engine.big_o a) in
    let b_big_o_rank := _big_o_rank (analysis_engine.big_o b) in
    let a_cyclomatic := analysis_engine.cyclomatic_complexity a in
    let b_cyclomatic := analysis_engine.cyclomatic_complexity b in
    let a_risk := analysis_engine.risk_score a in
    let b_risk := analysis_engine.risk_score b in
    let better_version :=
      _pick_better a_risk b_risk a_cyclomatic b_cyclomatic a_big_o_rank b_big_o_rank in
    let notes :=
      (_notes_for_metric "Big‑O" (analysis_engine.big_o a) (analysis_engine.big_o b)
         better_version
       ++ _notes_for_delta "Cyclomatic complexity" a_cyclomatic b_cyclomatic
            better_version true
       ++ _notes_for_delta "Risk score" a_risk b_risk better_version true)%list in
    let metrics_comparison :=
      {| metrics_A :=
           mkSideMetrics (analysis_engine.big_o a) a_cyclomatic
             (analysis_engine.maintainability a) a_risk (analysis_engine.risk_level a);
         metrics_B :=
           mkSideMetrics (analysis_engine.big_o b) b_cyclomatic
             (analysis_engine.maintainability b) b_risk (analysis_engine.risk_level b);
         delta := mkDelta (b_cyclomatic - a_cyclomatic) (b_risk - a_risk) |} in
    {| error := None;
       message := None;
       better_version := Some better_version;
       improvement_notes := Some notes;
       metrics_comparison := Some metrics_comparison |}.

Section compare_codes.

Context {W : Type}.
Variable client : ai_client.AIClient W.
Variable ast_parse : string -> ast.parse_result.
Variable ast_unparse : ast.node -> string.

Definition compare_codes (code_a code_b : string) (language : option string)
  : Async.M W CompareResult :=
  await a <- analysis_engine.analyze_code client ast_parse ast_unparse code_a language ;;
  await b <- analysis_engine.analyze_code client ast_parse ast_unparse code_b language ;;
  Async.ret (compare_results a b).

End compare_codes.

End compare.

(* ===================================================================== *)
(** * services/ai_service.py and the routes *)
(* ===================================================================== *)

Module ai_service.

Section ai_service.

Context {W : Type}.

(** The client that [get_ai_client()] returns. *)
Variable client : ai_client.AIClient W.

Definition chat_with_ai (payload : schemas.ChatRequest)
  : Async.M W schemas.ChatMessage :=
  let last_user_message :=
    List.find (fun m => String.eqb (schemas.role m) "user")
      (List.rev (schemas.messages payload)) in
  let prompt :=
    match last_user_message with
    | Some m => schemas.content m
    | None => ""
    end in
  await reply_text <- ai_client.chat client prompt (schemas.context_snippet payload) ;;
  Async.ret (schemas.mkChatMessage "assistant" reply_text).

End ai_service.

End ai_service.

Module routes_chat.

Section routes_chat.

Context {W : Type}.
Variable client : ai_client.AIClient W.

(** [POST /chat] *)
Definition chat (payload : schemas.ChatRequest) : Async.M W schemas.ChatResponse :=
  await reply <- ai_service.chat_with_ai client payload ;;
  Async.ret (schemas.mkChatResponse (schemas.messages payload ++ [reply])%list).

End routes_chat.

End routes_chat.

Module routes_code.

Section routes_code.

Context {W : Type}.
Variable client : ai_client.AIClient W.
Variable ast_parse : string -> ast.parse_result.
Variable ast_unparse : ast.node -> string.

(** [POST /code/analyze]: the response model is built from the keys of the
    result of [analyze_code]. *)
Definition analyze_code (payload : schemas.CodeAnalysisRequest)
  : Async.M W analysis_engine.AnalysisResult :=
  analysis_engine.analyze_code client ast_parse ast_unparse
    (schemas.req_code payload) (schemas.req_language payload).

End routes_code.

End routes_code.

Module routes_compare.

(** [CodeCompareResponse] with the fields that the route fills in. *)
Record CodeCompareResponse : Type := mkCodeCompareResponse {
  diff : schemas.CodeDiff;
  risk_score : option Q;
  summary : option string;
  metrics_comparison : option compare.MetricsComparison;
  error : option string;
  message : option string
}.

Section routes_compare.

Context {W : Type}.
Variable client : ai_client.AIClient W.
Variable ast_parse : string -> ast.parse_result.
Variable ast_unparse : ast.node -> string.

(** [POST /compare] *)
Definition compare_code (payload : schemas.CodeCompareRequest)
  : Async.M W CodeCompareResponse :=
  let base := compare.compare_versions payload in
  await metrics <-
    compare.compare_codes client ast_parse ast_unparse
      (schemas.original_code payload) (schemas.modified_code payload)
      (schemas.cmp_language payload) ;;
  Async.ret
    {| diff := schemas.diff base;
       risk_score := schemas.diff_risk_score base;
       summary := schemas.diff_summary base;
       metrics_comparison :=
         if negb (ai_client.truthy_opt (compare.error metrics))
         then compare.metrics_comparison metrics else None;
       error := compare.error metrics;
       message := compare.message metrics |}.

End routes_compare.

End routes_compare.

(* ===================================================================== *)
(** * services/structure.py *)
(* ===================================================================== *)

Module structure.

(** The fields of [CodeAnalysisResponse] that [analyze_structure] sets. *)
Record CodeAnalysisResponse : Type := mkCodeAnalysisResponse {
  file_path : option string;
  language : option string;
  structure : option schemas.StructureInfo
}.

(** [parts[i]] for an index that is there ([split_has_second]). *)
Definition item (i : nat) (parts : list string) : string := nth i parts "".

(** The body of the loop of [analyze_structure]. *)
Definition structure_step (acc : list string * list string) (line : string)
  : list string * list string :=
  let '(functions, classes) := acc in
  let stripped := PyStr.strip line in
  if PyStr.startswith "def " stripped then
    let name :=
      item 0 (PyStr.split_once "(" (item 1 (PyStr.split_once "def " stripped))) in
    ((functions ++ [name])%list, classes)
  else if PyStr.startswith "class " stripped then
    let name :=
      item 0
        (PyStr.split_once ":"
           (item 0 (PyStr.split_once "(" (item 1 (PyStr.split_once "class " stripped))))) in
    (functions, (classes ++ [name])%list)
  else (functions, classes).

Definition analyze_structure (payload : schemas.CodeAnalysisRequest)
  : CodeAnalysisResponse :=
  let '(functions, classes) :=
    fold_left structure_step (PyStr.splitlines (schemas.req_code payload)) ([], []) in
  mkCodeAnalysisResponse (schemas.req_file_path payload) (schemas.req_language payload)
    (Some (schemas.mkStructureInfo functions classes)).

(** What the service reads of a [pathlib.Path]: [str(path)], [path.name]
    and [path.suffix]. *)
Record Path : Type := mkPath {
  path_str : string;
  path_name : string;
  path_suffix : string
}.

(** What the service reads of the file system: [path.exists()],
    [path.is_file()], [path.stat().st_size] and [path.read_text(...)], the
    last two with [None] for an exception. *)
Record FileSystem : Type := mkFileSystem {
  path_exists : Path -> bool;
  path_is_file : Path -> bool;
  st_size : Path -> option Z;
  read_text : Path -> option string
}.

Record RiskyModule : Type := mkRiskyModule {
  risky_file_path : string;
  risky_language : string;
  reasons : list string
}.

(** The dict returned by [analyze_file_structure]; [language_breakdown] in
    the order of the dict. *)
Record FileStructure : Type := mkFileStructure {
  total_files : Z;
  language_breakdown : list (string * Z);
  risky_modules : list RiskyModule;
  summary : string
}.

Definition languages_by_suffix : list (string * string) :=
  [ (".py", "python"); (".js", "javascript"); (".ts", "typescript");
    (".tsx", "typescript"); (".jsx", "javascript"); (".java", "java");
    (".go", "go"); (".rs", "rust"); (".rb", "ruby"); (".php", "php");
    (".cs", "csharp"); (".cpp", "cpp"); (".c", "c"); (".h", "c");
    (".json", "json"); (".yml", "yaml"); (".yaml", "yaml"); (".md", "markdown");
    (".sql", "sql"); (".sh", "shell"); (".bat", "shell"); (".ps1", "shell");
    (".env", "env") ].

Definition _language_from_path (path : Path) : string :=
  let ext := PyStr.lower (path_suffix path) in
  default "other" (analysis_engine.assoc_get ext languages_by_suffix).

Definition risky_name_keywords : list string :=
  [ "auth"; "login"; "password"; "secret"; "token"; "key"; "keys"; "crypto";
    "payment"; "billing"; "admin"; "rbac"; "acl"; "permission"; "oauth"; "jwt";
    "session"; "webhook" ].

Definition _risk_reasons_for_path (path : Path) : list string :=
  let name := PyStr.lower (path_str path) in
  let reasons :=
    flat_map
      (fun kw => if PyStr.contains kw name then ["name_contains:" ++ kw] else [])
      risky_name_keywords in
  if PyStr.startswith ".env" (path_name path)
  then (reasons ++ ["sensitive_env_file"])%list
  else reasons.

Definition patterns : list (string * list string) :=
  [ ("hardcoded_password", ["password ="; "pwd ="; "pass ="; "password:"]);
    ("secret_like", ["api_key"; "apikey"; "secret"; "token"; "bearer "]);
    ("dangerous_exec",
     ["eval("; "exec("; "os.system("; "subprocess.call("; "subprocess.run("]);
    ("sql_string", ["select "; "insert "; "update "; "delete "]) ].

(** [Counter]: the counts by key, in the order in which the keys came.
    [c[k] += 1]. *)
Fixpoint counter_add (k : string) (c : list (string * Z)) : list (string * Z) :=
  match c with
  | [] => [(k, 1%Z)]
  | (k', n) :: rest =>
      if String.eqb k k' then (k', (n + 1)%Z) :: rest
      else (k', n) :: counter_add k rest
  end.

(** The order of the key [(-kv[1], kv[0])]: [a] does not come after [b]. *)
Definition key_le (a b : string * Z) : bool :=
  (snd b <? snd a)%Z
  || ((snd a =? snd b)%Z
      && match String.compare (fst a) (fst b) with Gt => false | _ => true end).

(** [sorted(items, key=...)]: a stable insertion sort. *)
Fixpoint insert_by_key (x : string * Z) (xs : list (string * Z))
  : list (string * Z) :=
  match xs with
  | [] => [x]
  | y :: ys => if key_le y x then y :: insert_by_key x ys else x :: xs
  end.

Definition sorted_by_key (xs : list (string * Z)) : list (string * Z) :=
  fold_left (fun acc x => insert_by_key x acc) xs [].

Definition _structure_summary (total_files : Z)
    (language_breakdown : list (string * Z)) (risky_modules : list RiskyModule)
  : string :=
  if (total_files =? 0)%Z then "No files provided."
  else
    let top_lang :=
      match language_breakdown with
      | item :: _ => item
      | [] => ("other", total_files)
      end in
    let risky_count := Z.of_nat (length risky_modules) in
    "Scanned " ++ PyStr.of_Z total_files ++ " files. "
    ++ "Top language: " ++ fst top_lang ++ " (" ++ PyStr.of_Z (snd top_lang) ++ "). "
    ++ "Flagged " ++ PyStr.of_Z risky_count
    ++ " potentially risky module(s) using simple heuristics.".

Section file_structure.

(** [Path(p)], of pathlib, and the file system. *)
Variable Path_of : string -> Path.
Variable fs : FileSystem.

(** Light content scanning; best-effort and safe. *)
Definition _risk_reasons_for_content (path : Path) : list string :=
  if negb (path_exists fs path) || negb (path_is_file fs path) then []
  else
    match st_size fs path with
    | None => []
    | Some size =>
        if (1000000 <? size)%Z then ["file_too_large_to_scan"]
        else
          match read_text fs path with
          | None => []
          | Some text =>
              let lowered := PyStr.lower text in
              flat_map
                (fun '(label, needles) =>
                   if existsb (fun n => PyStr.contains n lowered) needles
                   then [label] else [])
                patterns
          end
    end.

(** The body of the loop of [analyze_file_structure]. *)
Definition file_step (acc : list (string * Z) * list RiskyModule) (p : Path)
  : list (string * Z) * list RiskyModule :=
  let '(language_counts, risky) := acc in
  let language := _language_from_path p in
  let language_counts := counter_add language language_counts in
  let reasons := (_risk_reasons_for_path p ++ _risk_reasons_for_content p)%list in
  match reasons with
  | [] => (language_counts, risky)
  | _ :: _ =>
      (language_counts,
       (risky ++ [mkRiskyModule (path_str p) language
                    (analysis_engine.sorted_set reasons)])%list)
  end.

Definition analyze_file_structure (file_paths : list string) : FileStructure :=
  let paths := map Path_of file_paths in
  let total_files := Z.of_nat (length paths) in
  let '(language_counts, risky) := fold_left file_step paths ([], []) in
  let language_breakdown := sorted_by_key language_counts in
  let summary := _structure_summary total_files language_breakdown risky in
  mkFileStructure total_files language_breakdown risky summary.

End file_structure.

End structure.

(* ===================================================================== *)
(** * The vocabulary of the properties *)
(* ===================================================================== *)

(** A line of text, with its line feed. *)
Definition line (text : string) : string := text ++ analysis_engine.nl.

(** ** The risk aggregator *)

(** The points a rule adds to the score when it applies. *)
Definition risk_points (applies : bool) (points : Z) : Z :=
  if applies then points else 0%Z.

(** The scores the specification lists. *)
Definition listed_scores : list Z := [0; 2; 3; 4; 5; 7; 9]%Z.

(** The scores [_compute_risk] can return. *)
Definition possible_scores : list Z := [0; 2; 3; 4; 5; 6; 7; 9]%Z.

(** ** The structural scorer on the floats of the kernel *)

(** [float(n)] for a small integer. *)
Definition float_of_Z (n : Z) : float := PrimFloat.of_uint63 (Uint63.of_Z n).

(** [_estimate_maintainability] on the cyclomatic complexity and the line
    count, computed with the floats of the kernel, which are those of
    Python; the literal 0.1 is the double 0x1.999999999999ap-4. *)
Definition maintainability_binary64 (cyclomatic line_count : Z) : float :=
  let score := 100%float in
  let score := (score - float_of_Z cyclomatic * 1.5)%float in
  let score := (score - float_of_Z line_count * 0x1.999999999999ap-4)%float in
  let low := if PrimFloat.ltb score 100%float then score else 100%float in
  if PrimFloat.ltb 0%float low then low else 0%float.

(** The rational a finite float stands for. *)
Definition value_of_float (f : float) : option Q :=
  match Prim2SF f with
  | S754_zero _ => Some 0%Q
  | S754_finite sign mantissa exponent =>
      let v := (inject_Z (Zpos mantissa) * PyFloat.pow2 exponent)%Q in
      Some (if sign then (- v)%Q else v)
  | _ => None
  end.

(** [_estimate_maintainability] on the two counts. *)
Definition maintainability_of_counts (cyclomatic line_count : Z) : Q :=
  PyFloat.max 0
    (PyFloat.min 100
       (PyFloat.sub (PyFloat.sub 100 (PyFloat.mul (PyFloat.of_Z cyclomatic) (3 # 2)))
          (PyFloat.mul (PyFloat.of_Z line_count) (PyFloat.round64 (1 # 10))))).

(** The integers from 1 to [n]. *)
Definition upto (n : nat) : list Z := map Z.of_nat (seq 1 n).

(** ** The verdict of a comparison *)

(** [s] holds [sub] as a substring. *)
Definition has_substring (sub s : string) : Prop :=
  exists pre post, s = pre ++ sub ++ post.

(** The rank of a label as the specification words it: the three labels it
    names in their order, and every other label last. *)
Definition listed_rank (label : string) : Z :=
  if String.eqb label "O(1)" then 1
  else if String.eqb label "O(n)" then 2
  else if String.eqb label "O(n^2)" then 3
  else 4.

(** A parser and an unparser to run the pipeline on text that is no Python:
    the engine does not call them there. *)
Definition reject_all (code : string) : ast.parse_result :=
  ast.SyntaxError "invalid syntax".
Definition unparse_blank (node : ast.node) : string := "".

(** The other label. *)
Definition swap_version (v : string) : string :=
  if String.eqb v "A" then "B" else if String.eqb v "B" then "A" else v.

Definition negate_delta (d : compare.Delta) : compare.Delta :=
  compare.mkDelta (- compare.delta_cyclomatic_complexity d)
    (- compare.delta_risk_score d).

(** The two sides tie on all that the verdict looks at. *)
Definition full_tie (a b : analysis_engine.AnalysisResult) : Prop :=
  analysis_engine.risk_score a = analysis_engine.risk_score b
  /\ analysis_engine.cyclomatic_complexity a = analysis_engine.cyclomatic_complexity b
  /\ compare._big_o_rank (analysis_engine.big_o a)
     = compare._big_o_rank (analysis_engine.big_o b).

(** What the two orders of a comparison have in common: the verdicts
    [v_ab], [v_ba] and the metric tables [m_ab], [m_ba] of
    [compare_results a b] and [compare_results b a]. *)
Definition mirrored (a b : analysis_engine.AnalysisResult) : Prop :=
  exists v_ab v_ba m_ab m_ba,
    compare.better_version (compare.compare_results a b) = Some v_ab
    /\ compare.better_version (compare.compare_results b a) = Some v_ba
    /\ compare.metrics_comparison (compare.compare_results a b) = Some m_ab
    /\ compare.metrics_comparison (compare.compare_results b a) = Some m_ba
    /\ compare.delta m_ba = negate_delta (compare.delta m_ab)
    /\ compare.metrics_A m_ba = compare.metrics_B m_ab
    /\ compare.metrics_B m_ba = compare.metrics_A m_ab
    /\ (~ full_tie a b -> v_ba = swap_version v_ab)
    /\ (full_tie a b -> v_ab = "A" /\ v_ba = "A").

(** ** Blank text and the lines of a text *)

(** The text is blank: it is made of white space characters alone. *)
Inductive whitespace_only : string -> Prop :=
| blank_empty : whitespace_only ""
| blank_space sp s :
    In sp PyStr.whitespace -> whitespace_only s -> whitespace_only (sp ++ s).

(** The byte occurs in a white space character. *)
Definition space_byte (c : ascii) : bool :=
  existsb (fun sp => existsb (Ascii.eqb c) (list_ascii_of_string sp)) PyStr.whitespace.

(** The carriage return, the line feed, and the two as one boundary. *)
Definition cr : string := String "013" "".
Definition lf : string := String "010" "".
Definition crlf : string := cr ++ lf.

(** The text starts with a character: not in the middle of one. *)
Definition starts_char (x : string) : Prop :=
  match x with
  | EmptyString => True
  | String d _ => PyStr.is_continuation d = false
  end.

(** No line boundary occurs in the text. *)
Definition unbroken (l : string) : Prop :=
  forall b, In b PyStr.line_breaks -> ~ has_substring b l.

(** [b] is the boundary that ends a line before the text [rest]: a
    carriage return with the line feed after it, or another boundary, the
    carriage return alone only when no line feed follows it. *)
Definition ends_line (b rest : string) : Prop :=
  b = crlf
  \/ (In b PyStr.line_breaks /\ ~ (b = cr /\ exists r, rest = lf ++ r)).

(** The lines of a text: the texts between its line boundaries, each
    without a boundary; when the text ends with a boundary, or is empty, no
    empty line follows. *)
Inductive lines_of : string -> list string -> Prop :=
| lines_none : lines_of "" []
| lines_last l : l <> "" -> unbroken l -> lines_of l [l]
| lines_more l b rest ls :
    unbroken l -> ends_line b rest -> lines_of rest ls ->
    lines_of (l ++ b ++ rest) (l :: ls).


(** ** The raw diff *)

(** [bs] is [as_] with blank lines put in. *)
Inductive blank_lines_added : list string -> list string -> Prop :=
| bla_done : blank_lines_added [] []
| bla_keep line as_ bs :
    blank_lines_added as_ bs -> blank_lines_added (line :: as_) (line :: bs)
| bla_blank line as_ bs :
    whitespace_only line ->
    blank_lines_added as_ bs -> blank_lines_added as_ (line :: bs).

(** ** The stages of [analyze_code] *)

Section stages_defs.

Context {W : Type}.
Variable client : ai_client.AIClient W.
Variable ast_parse : string -> ast.parse_result.
Variable ast_unparse : ast.node -> string.

(** Step 1 of the pipeline: the language the code is taken to be written
    in and the confidence of that, after the call to the AI client that a
    low confidence triggers. *)
Definition resolve_language (code : string) (language : option string)
  : Async.M W (string * Q) :=
  let override_language := PyStr.lower (PyStr.strip (default "" language)) in
  let detection_result := language_detector.detect_language code in
  let detected_language :=
    PyStr.lower
      (analysis_engine.str_or (language_detector.language detection_result) "generic") in
  let detection_confidence := language_detector.confidence detection_result in
  let effective_language :=
    analysis_engine.str_or override_language
      (analysis_engine.str_or detected_language "generic") in
  let effective_language :=
    if String.eqb effective_language "python" && PyStr.contains "#include" code
    then "c" else effective_language in
  if negb (PyStr.truthy override_language)
     && PyFloat.ltb detection_confidence (1 # 2)
  then analysis_engine._detect_language_via_ai client code detected_language
         detection_confidence
  else Async.ret (effective_language, detection_confidence).

(** Steps 5 and 6: the metrics of the code that passed validation. *)
Definition final_metrics (effective_language : string) (detection_confidence : Q)
    (original_valid : bool) (final_code : string) (was_corrected : bool)
  : Async.M W analysis_engine.AnalysisResult :=
  let payload :=
    schemas.mkCodeAnalysisRequest None final_code (Some effective_language) in
  let security_result := security.analyze_security payload in
  let big_o :=
    analysis_engine._estimate_big_o ast_parse ast_unparse final_code
      (Some effective_language) in
  let space_o :=
    analysis_engine._estimate_space_complexity ast_parse final_code
      (Some effective_language) in
  let cyclomatic := analysis_engine._estimate_cyclomatic_complexity final_code in
  let maintainability :=
    analysis_engine._estimate_maintainability cyclomatic final_code in
  await ai_summary <- analysis_engine._ai_suggestion_summary client final_code ;;
  await refined <-
    (if analysis_engine.is_python effective_language
     then analysis_engine._refine_python_complexity_with_gemini client final_code
            big_o space_o
     else Async.ret None) ;;
  let big_o :=
    match refined with
    | Some r => analysis_engine.str_or (analysis_engine.ref_time_complexity r) big_o
    | None => big_o
    end in
  let risk :=
    analysis_engine._compute_risk big_o cyclomatic
      (schemas.resp_security_findings security_result) maintainability in
  Async.ret
    {| analysis_engine.big_o := big_o;
       analysis_engine.cyclomatic_complexity := cyclomatic;
       analysis_engine.maintainability := maintainability;
       analysis_engine.security_summary :=
         analysis_engine._summarise_security
           (schemas.resp_security_findings security_result);
       analysis_engine.ai_summary := ai_summary;
       analysis_engine.risk_score := fst risk;
       analysis_engine.risk_level := snd risk;
       analysis_engine.complexity_trend :=
         analysis_engine._estimate_complexity_trend cyclomatic;
       analysis_engine.language_detected := Some effective_language;
       analysis_engine.detection_confidence := detection_confidence;
       analysis_engine.was_corrected := was_corrected;
       analysis_engine.original_valid := original_valid;
       analysis_engine.corrected_code :=
         if was_corrected then Some final_code else None;
       analysis_engine.algorithm :=
         option_map analysis_engine.ref_algorithm refined;
       analysis_engine.time_complexity :=
         match refined with
         | Some r => Some (analysis_engine.ref_time_complexity r)
         | None => Some big_o
         end;
       analysis_engine.space_complexity :=
         match refined with
         | Some r => Some (analysis_engine.ref_space_complexity r)
         | None => Some space_o
         end;
       analysis_engine.recommendation :=
         option_map analysis_engine.ref_recommendation refined;
       analysis_engine.explanation :=
         option_map analysis_engine.ref_explanation refined;
       analysis_engine.error := None;
       analysis_engine.message := None |}.

(** The message of the structured error. *)
Definition first_validation_message (v : validators.ValidationResult) : string :=
  analysis_engine.str_or (default "" (validators.error v))
    "Code is invalid even after correction.".

End stages_defs.

Section correction_loop_defs.

Context {W : Type}.
Variable client : ai_client.AIClient W.
Variable ast_parse : string -> ast.parse_result.
Variable ast_unparse : ast.node -> string.

(** The language and the confidence the pipeline settles on, and the world
    after that. *)
Definition resolved (code : string) (language : option string) (w : W)
  : string * Q * W :=
  resolve_language client code language w.

Definition resolved_language code language w : string :=
  fst (fst (resolved code language w)).
Definition resolved_confidence code language w : Q :=
  snd (fst (resolved code language w)).

(** The first validation, of the code as submitted. *)
Definition first_validation code language w : validators.ValidationResult :=
  validators.validate_code ast_parse (resolved_language code language w) code.

(** The one attempt at a correction: the candidate and the world after the
    call. *)
Definition correction code language w : string * W :=
  analysis_engine.attempt_auto_correction client
    (resolved_language code language w) code (snd (resolved code language w)).

(** The second validation, of the candidate. *)
Definition second_validation code language w : validators.ValidationResult :=
  validators.validate_code ast_parse (resolved_language code language w)
    (fst (correction code language w)).

(** Both validations fail. *)
Definition invalid_after_correction code language w : Prop :=
  validators.valid (first_validation code language w) = false
  /\ validators.valid (second_validation code language w) = false.

(** The code the metrics are computed of, when one of the validations
    passes. *)
Definition final_code code language w : string :=
  if validators.valid (first_validation code language w) then code
  else fst (correction code language w).

End correction_loop_defs.

(** ** Clients for the AI interface *)

(** A client whose answers depend on the request alone, and that leaves the
    world as it is. *)
Definition pure_client (W : Type)
    (chat_reply : string -> option string -> string)
    (json_reply : string -> string -> gmap string ai_client.json
                  -> gmap string ai_client.json)
  : ai_client.AIClient W :=
  ai_client.mkAIClient W
    (fun prompt context w => (chat_reply prompt context, w))
    (fun system_prompt user_prompt hint w =>
       (json_reply system_prompt user_prompt hint, w)).

Definition stub_chat_reply (prompt : string) (context : option string) : string :=
  "(stubbed AI) You said: " ++ PyStr.slice_to 200 prompt
  ++ ". Context: " ++ PyStr.slice_to 120 (default "" context).

Definition stub_json_reply (system_prompt user_prompt : string)
    (hint : gmap string ai_client.json) : gmap string ai_client.json :=
  <["note" := ai_client.JStr "No AI API key configured; returning stubbed JSON."]>
    (<["_stubbed" := ai_client.JBool true]> hint).

(** A computation that returns the same value in every world and leaves
    the world as it is. *)
Definition stateless {W A : Type} (m : Async.M W A) : Prop :=
  exists a, forall w, m w = (a, w).

(** A client whose chat always answers [reply]. *)
Definition scripted_client (reply : string) : ai_client.AIClient unit :=
  ai_client.mkAIClient unit
    (fun _ _ w => (reply, w))
    (ai_client.openai_json (ai_client.StubAIClient unit)).

(** ** The syntax validator *)











(** ** The summary of a Python tree *)

Section node_induction_defs.

Variable P : ast.node -> Prop.
Hypothesis P_FunctionDef : forall name cs, List.Forall P cs -> P (ast.FunctionDef name cs).
Hypothesis P_Call : forall func cs, P func -> List.Forall P cs -> P (ast.Call func cs).
Hypothesis P_Name : forall id, P (ast.Name id).
Hypothesis P_For : forall cs, List.Forall P cs -> P (ast.For cs).
Hypothesis P_While : forall cs, List.Forall P cs -> P (ast.While cs).
Hypothesis P_ListComp : forall cs, List.Forall P cs -> P (ast.ListComp cs).
Hypothesis P_DictComp : forall cs, List.Forall P cs -> P (ast.DictComp cs).
Hypothesis P_SetComp : forall cs, List.Forall P cs -> P (ast.SetComp cs).
Hypothesis P_Other : forall cs, List.Forall P cs -> P (ast.Other cs).

Fixpoint node_induction (n : ast.node) : P n :=
  let all :=
    fix all (cs : list ast.node) : List.Forall P cs :=
      match cs with
      | [] => @List.Forall_nil _ P
      | c :: cs' => @List.Forall_cons _ P c cs' (node_induction c) (all cs')
      end in
  match n with
  | ast.FunctionDef name cs => P_FunctionDef name cs (all cs)
  | ast.Call func cs => P_Call func cs (node_induction func) (all cs)
  | ast.Name id => P_Name id
  | ast.For cs => P_For cs (all cs)
  | ast.While cs => P_While cs (all cs)
  | ast.ListComp cs => P_ListComp cs (all cs)
  | ast.DictComp cs => P_DictComp cs (all cs)
  | ast.SetComp cs => P_SetComp cs (all cs)
  | ast.Other cs => P_Other cs (all cs)
  end.

End node_induction_defs.

Definition sum_of (xs : list Z) : Z := fold_right Z.add 0%Z xs.
Definition max_of (xs : list Z) : Z := fold_right Z.max 0%Z xs.

(** The depth to which [for] and [while] loops are nested in a tree. *)
Fixpoint loop_nesting (n : ast.node) : Z :=
  match n with
  | ast.For cs | ast.While cs => (1 + max_of (map loop_nesting cs))%Z
  | ast.Call func cs => Z.max (loop_nesting func) (max_of (map loop_nesting cs))
  | ast.Name _ => 0%Z
  | ast.FunctionDef _ cs | ast.ListComp cs | ast.DictComp cs | ast.SetComp cs
  | ast.Other cs => max_of (map loop_nesting cs)
  end.

(** The calls [f(...)] of a tree that lie in no function definition of the
    tree: within the body of a function named [f], its direct self-calls. *)
Fixpoint own_calls (f : string) (n : ast.node) : Z :=
  match n with
  | ast.FunctionDef _ _ => 0%Z
  | ast.Call func cs =>
      ((match func with
        | ast.Name id => if String.eqb id f then 1 else 0
        | _ => 0
        end)
       + own_calls f func + sum_of (map (own_calls f) cs))%Z
  | ast.Name _ => 0%Z
  | ast.For cs | ast.While cs | ast.ListComp cs | ast.DictComp cs | ast.SetComp cs
  | ast.Other cs => sum_of (map (own_calls f) cs)
  end.

(** The direct self-calls of all the functions of a tree that are named
    [f]. *)
Fixpoint counted (f : string) (n : ast.node) : Z :=
  match n with
  | ast.FunctionDef name cs =>
      ((if String.eqb name f && PyStr.truthy f
        then sum_of (map (own_calls f) cs) else 0)
       + sum_of (map (counted f) cs))%Z
  | ast.Call func cs => (counted f func + sum_of (map (counted f) cs))%Z
  | ast.Name _ => 0%Z
  | ast.For cs | ast.While cs | ast.ListComp cs | ast.DictComp cs | ast.SetComp cs
  | ast.Other cs => sum_of (map (counted f) cs)
  end.

(** The direct self-calls of each function definition of a tree, one entry
    for each definition. *)
Fixpoint per_function (n : ast.node) : list Z :=
  match n with
  | ast.FunctionDef name cs =>
      (if PyStr.truthy name then sum_of (map (own_calls name) cs) else 0%Z)
      :: flat_map per_function cs
  | ast.Call func cs => (per_function func ++ flat_map per_function cs)%list
  | ast.Name _ => []
  | ast.For cs | ast.While cs | ast.ListComp cs | ast.DictComp cs | ast.SetComp cs
  | ast.Other cs => flat_map per_function cs
  end.

Section log_loops_defs.

Variable ast_unparse : ast.node -> string.

(** Some [while] loop of the tree has a source text with a bound variable
    and a halving. *)
Fixpoint has_log_while (n : ast.node) : bool :=
  match n with
  | ast.While cs =>
      analysis_engine.looks_logarithmic (PyStr.lower (ast_unparse n))
      || existsb has_log_while cs
  | ast.Call func cs => has_log_while func || existsb has_log_while cs
  | ast.Name _ => false
  | ast.FunctionDef _ cs | ast.For cs | ast.ListComp cs | ast.DictComp cs
  | ast.SetComp cs | ast.Other cs => existsb has_log_while cs
  end.

End log_loops_defs.

(** The decision of the specification, on the counts of the function
    definitions. *)
Definition listed_big_o (log_loop : bool) (self_calls : list Z) (depth : Z) : string :=
  if log_loop then "O(log n)"
  else if (2 <=? max_of self_calls)%Z then "O(2^n)"
  else if (max_of self_calls =? 1)%Z then "O(n)"
  else if (2 <=? depth)%Z then "O(n^2)"
  else if (depth =? 1)%Z then "O(n)"
  else "O(1)".

(** ** The visitor against the summary *)

Section visitor_defs.

Variable ast_unparse : ast.node -> string.

Local Abbreviation visit := (analysis_engine.complexity_visit ast_unparse).

(** [generic_visit]: the children, one after the other. *)
Definition visit_children (cs : list ast.node)
    (self : analysis_engine.ComplexityVisitor) : analysis_engine.ComplexityVisitor :=
  fold_left (fun self child => visit child self) cs self.

(** The count kept under the name [f]. *)
Definition count_in (d : gmap string Z) (f : string) : Z := default 0%Z (d !! f).

(** The visitor is inside a function named [f]. *)
Definition inside (current : option string) (f : string) : bool :=
  match current with
  | Some g => PyStr.truthy g && String.eqb g f
  | None => false
  end.

(** The state [self'] is [self] after a walk that met loops nested [depth]
    deep, a logarithmic loop if [log], [own f] calls of [f] outside inner
    functions and [inner f] direct self-calls of inner functions named [f]. *)
Definition advanced (depth : Z) (log : bool) (own inner : string -> Z)
    (self self' : analysis_engine.ComplexityVisitor) : Prop :=
  analysis_engine.loop_depth self' = analysis_engine.loop_depth self
  /\ analysis_engine.max_loop_depth self'
     = Z.max (analysis_engine.max_loop_depth self)
         (analysis_engine.loop_depth self + depth)
  /\ analysis_engine.current_func self' = analysis_engine.current_func self
  /\ analysis_engine.has_log_loop self' = analysis_engine.has_log_loop self || log
  /\ forall f,
      count_in (analysis_engine.self_calls_per_func self') f
      = (count_in (analysis_engine.self_calls_per_func self) f
         + (if inside (analysis_engine.current_func self) f then own f else 0)
         + inner f)%Z.

(** The loop depth never exceeds the maximum seen. *)
Definition depth_bounded (self : analysis_engine.ComplexityVisitor) : Prop :=
  (analysis_engine.loop_depth self <= analysis_engine.max_loop_depth self)%Z.

Definition summarises (n : ast.node) : Prop :=
  forall self,
    depth_bounded self ->
    advanced (loop_nesting n) (has_log_while ast_unparse n)
      (fun f => own_calls f n) (fun f => counted f n) self (visit n self).

End visitor_defs.

Section key_present_defs.

Variable ast_unparse : ast.node -> string.

Local Abbreviation visit := (analysis_engine.complexity_visit ast_unparse).

(** The visitor with [self.self_calls_per_func[self.current_func] += 1] as
    Python runs it: [None] stands for the [KeyError] of a missing key. *)
Fixpoint visit_checked (node : ast.node) (self : analysis_engine.ComplexityVisitor)
  : option analysis_engine.ComplexityVisitor :=
  let generic_visit :=
    fix walk (children : list ast.node) (self : analysis_engine.ComplexityVisitor) :=
      match children with
      | [] => Some self
      | child :: rest =>
          match visit_checked child self with
          | Some self' => walk rest self'
          | None => None
          end
      end in
  match node with
  | ast.FunctionDef name children =>
      let prev_func := analysis_engine.current_func self in
      let self :=
        analysis_engine.mkComplexityVisitor (analysis_engine.loop_depth self)
          (analysis_engine.max_loop_depth self)
          (analysis_engine.setdefault0 name (analysis_engine.self_calls_per_func self))
          (Some name) (analysis_engine.has_log_loop self) in
      match generic_visit children self with
      | Some self =>
          Some (analysis_engine.mkComplexityVisitor (analysis_engine.loop_depth self)
                  (analysis_engine.max_loop_depth self)
                  (analysis_engine.self_calls_per_func self) prev_func
                  (analysis_engine.has_log_loop self))
      | None => None
      end
  | ast.Call func children =>
      let updated :=
        match analysis_engine.is_self_call func (analysis_engine.current_func self) with
        | Some cf =>
            match analysis_engine.self_calls_per_func self !! cf with
            | Some v =>
                Some (analysis_engine.mkComplexityVisitor
                        (analysis_engine.loop_depth self)
                        (analysis_engine.max_loop_depth self)
                        (<[cf := (v + 1)%Z]> (analysis_engine.self_calls_per_func self))
                        (analysis_engine.current_func self)
                        (analysis_engine.has_log_loop self))
            | None => None
            end
        | None => Some self
        end in
      match updated with
      | Some self =>
          match visit_checked func self with
          | Some self => generic_visit children self
          | None => None
          end
      | None => None
      end
  | ast.For children =>
      let depth := (analysis_engine.loop_depth self + 1)%Z in
      let self :=
        analysis_engine.mkComplexityVisitor depth
          (Z.max (analysis_engine.max_loop_depth self) depth)
          (analysis_engine.self_calls_per_func self)
          (analysis_engine.current_func self) (analysis_engine.has_log_loop self) in
      match generic_visit children self with
      | Some self =>
          Some (analysis_engine.mkComplexityVisitor
                  (analysis_engine.loop_depth self - 1)%Z
                  (analysis_engine.max_loop_depth self)
                  (analysis_engine.self_calls_per_func self)
                  (analysis_engine.current_func self)
                  (analysis_engine.has_log_loop self))
      | None => None
      end
  | ast.While children =>
      let depth := (analysis_engine.loop_depth self + 1)%Z in
      let lowered := PyStr.lower (ast_unparse node) in
      let self :=
        analysis_engine.mkComplexityVisitor depth
          (Z.max (analysis_engine.max_loop_depth self) depth)
          (analysis_engine.self_calls_per_func self)
          (analysis_engine.current_func self)
          (if analysis_engine.looks_logarithmic lowered then true
           else analysis_engine.has_log_loop self) in
      match generic_visit children self with
      | Some self =>
          Some (analysis_engine.mkComplexityVisitor
                  (analysis_engine.loop_depth self - 1)%Z
                  (analysis_engine.max_loop_depth self)
                  (analysis_engine.self_calls_per_func self)
                  (analysis_engine.current_func self)
                  (analysis_engine.has_log_loop self))
      | None => None
      end
  | ast.Name _ => Some self
  | ast.ListComp children | ast.DictComp children | ast.SetComp children
  | ast.Other children => generic_visit children self
  end.

Definition children_checked (cs : list ast.node)
    (self : analysis_engine.ComplexityVisitor)
  : option analysis_engine.ComplexityVisitor :=
  fold_left
    (fun acc child =>
       match acc with Some self => visit_checked child self | None => None end)
    cs (Some self).

(** The name of the function being visited is a key of the dict. *)
Definition current_is_key (self : analysis_engine.ComplexityVisitor) : Prop :=
  forall f,
    analysis_engine.current_func self = Some f ->
    is_Some (analysis_engine.self_calls_per_func self !! f).

(** A walk keeps the current function and loses no key. *)
Definition keeps_keys (self self' : analysis_engine.ComplexityVisitor) : Prop :=
  analysis_engine.current_func self' = analysis_engine.current_func self
  /\ forall f,
      is_Some (analysis_engine.self_calls_per_func self !! f) ->
      is_Some (analysis_engine.self_calls_per_func self' !! f).

Definition never_raises (n : ast.node) : Prop :=
  forall self,
    current_is_key self ->
    visit_checked n self = Some (visit n self) /\ keeps_keys self (visit n self).

End key_present_defs.

(** ** The decision of the estimate, and two programs *)

(** The decision of [_estimate_big_o] on the summary of the tree. *)
Definition decided (log : bool) (calls : string -> Z) (depth : Z) (result : string)
  : Prop :=
  (log = true -> result = "O(log n)")
  /\ (log = false -> (exists f, (2 <= calls f)%Z) -> result = "O(2^n)")
  /\ (log = false -> (forall f, (calls f <= 1)%Z) -> (exists f, calls f = 1%Z) ->
      result = "O(n)")
  /\ (log = false -> (forall f, (calls f <= 0)%Z) -> (2 <= depth)%Z ->
      result = "O(n^2)")
  /\ (log = false -> (forall f, (calls f <= 0)%Z) -> depth = 1%Z ->
      result = "O(n)")
  /\ (log = false -> (forall f, (calls f <= 0)%Z) -> (depth <= 0)%Z ->
      result = "O(1)").

(** A parser that knows one source text. *)
Definition parses_to (source : string) (tree : ast.node) (code : string)
  : ast.parse_result :=
  if String.eqb code source then ast.Parsed tree
  else ast.SyntaxError "invalid syntax".

(** [f] defined twice, each definition with one direct self-call. *)
Definition twice_defined_source : string :=
  line "def f(n):" ++ line "    return f(n - 1)"
  ++ line "def f(n):" ++ line "    return f(n - 2)".

(** [n - k] as a tree: the operands and the operator. *)
Definition minus_tree : ast.node :=
  ast.Other [ast.Name "n"; ast.Other []; ast.Other []].

(** [def f(n): return f(n - k)]: the arguments, and the [return] of the
    call. *)
Definition recursive_def_tree : ast.node :=
  ast.FunctionDef "f"
    [ ast.Other [ast.Other []];
      ast.Other [ast.Call (ast.Name "f") [minus_tree]] ].

Definition twice_defined_tree : ast.node :=
  ast.Other [recursive_def_tree; recursive_def_tree].

(** A function with one direct self-call and one loop. *)
Definition loop_and_recursion_source : string :=
  line "def f(n):" ++ line "    for i in range(n):" ++ line "        pass"
  ++ line "    return f(n - 1)".

Definition loop_and_recursion_tree : ast.node :=
  ast.Other
    [ ast.FunctionDef "f"
        [ ast.Other [ast.Other []];
          ast.For [ast.Name "i"; ast.Call (ast.Name "range") [ast.Name "n"];
                   ast.Other []];
          ast.Other [ast.Call (ast.Name "f") [minus_tree]] ] ].

(** A bisection: [while low <= high:] with [mid = (low + high) // 2] in
    its body.  The tree of the loop, and an unparser that gives the source
    text of a [while] loop as that of this one. *)
Definition bisection_source : string :=
  line "while low <= high:" ++ line "    mid = (low + high) // 2"
  ++ line "    low = mid + 1".

Definition bisection_tree : ast.node :=
  ast.Other
    [ ast.While
        [ ast.Other [ast.Name "low"; ast.Other []; ast.Name "high"];
          ast.Other [ast.Name "mid";
                     ast.Other [ast.Other [ast.Name "low"; ast.Other []; ast.Name "high"];
                                ast.Other []; ast.Other []]];
          ast.Other [ast.Name "low";
                     ast.Other [ast.Name "mid"; ast.Other []; ast.Other []]] ] ].

Definition unparse_bisection (node : ast.node) : string :=
  match node with
  | ast.While _ => bisection_source
  | _ => ""
  end.

(* ===================================================================== *)
(** * The vocabulary of the further properties *)
(* ===================================================================== *)

(** ** Brackets *)



(** The messages of the validator that do not come from the parser. *)
Definition structural_messages : list string :=
  [ "Empty code"; "Unbalanced brackets/braces"; "Unbalanced quotes";
    "No semicolons found in multi-line code" ].

(** ** The language detector *)

(** The patterns of the list that occur in the text. *)
Definition found_in (text : string) (patterns : list string) : list string :=
  List.filter (fun pat => PyStr.contains pat text) patterns.

(** How many of the patterns occur in the lower-cased code. *)
Definition hits (code : string) (patterns : list string) : Z :=
  Z.of_nat (length (found_in (PyStr.lower code) patterns)).

(** The languages that [signals] lists before [lang], with their patterns. *)
Fixpoint listed_before (lang : string) (table : list (string * list string))
  : list (string * list string) :=
  match table with
  | [] => []
  | (l, ps) :: rest =>
      if String.eqb l lang then [] else (l, ps) :: listed_before lang rest
  end.

(** No pattern of any language occurs in the code. *)
Definition no_signal (code : string) : Prop :=
  forall lang ps, In (lang, ps) language_detector.signals -> hits code ps = 0%Z.

(** [lang], with the patterns [ps], wins the vote on the code: some pattern
    of it occurs, no language has more patterns in the code, and the
    languages listed before it have fewer. *)
Definition wins (code lang : string) (ps : list string) : Prop :=
  In (lang, ps) language_detector.signals
  /\ (0 < hits code ps)%Z
  /\ (forall l qs, In (l, qs) language_detector.signals ->
        (hits code qs <= hits code ps)%Z)
  /\ (forall l qs, In (l, qs) (listed_before lang language_detector.signals) ->
        (hits code qs < hits code ps)%Z).

(** ** The security rules *)

(** The finding that [analyze_security] reports for a pattern. *)
Definition finding (pattern : string) : schemas.Issue :=
  schemas.mkIssue "security" ("Suspicious pattern detected: " ++ pattern) None
    (Some "warning").

(** The request with its code in lower case. *)
Definition lowered_request (payload : schemas.CodeAnalysisRequest)
  : schemas.CodeAnalysisRequest :=
  schemas.mkCodeAnalysisRequest (schemas.req_file_path payload)
    (PyStr.lower (schemas.req_code payload)) (schemas.req_language payload).

(** ** The summary of the findings *)

(** The strings of the list ascend strictly, each below the next, in the
    order on strings of [sorted]. *)
Definition ascending (xs : list string) : Prop :=
  Sorted (fun a b => String.compare a b = Lt) xs.

(** ** The time estimate of text that is no Python *)

(** The line opens a loop for the text fallback of [_estimate_big_o]. *)
Definition loop_header (line : string) : bool :=
  PyStr.startswith_any ["for "; "while "] (PyStr.strip line).

(** The line closes a block for the text fallback: it ends with a colon
    and opens neither a loop nor a branch. *)
Definition block_exit (line : string) : bool :=
  PyStr.endswith ":" (PyStr.strip line)
  && negb (PyStr.startswith_any ["for "; "while "; "if "; "elif "] (PyStr.strip line)).

(** The lines of the code that open a loop. *)
Definition loop_lines (code : string) : list string :=
  List.filter loop_header (PyStr.splitlines code).

(** Some string of the list occurs in the text. *)
Definition has_one_of (subs : list string) (text : string) : Prop :=
  exists sub, In sub subs /\ has_substring sub text.

(** The lower-cased code names a bound, holds one of the loop conditions of
    a bisection, and computes a middle by a halving. *)
Definition looks_like_bisection (code : string) : Prop :=
  let lowered := PyStr.lower code in
  has_one_of ["low"; "high"; "start"; "end"; "left"; "right"] lowered
  /\ has_one_of analysis_engine.bisect_conditions lowered
  /\ has_substring "mid" lowered
  /\ has_one_of ["/ 2"; ">> 1"] lowered.

(** ** The space estimate of Python code *)

(** The tree holds a list, dict or set comprehension. *)
Fixpoint has_comprehension (n : ast.node) : bool :=
  match n with
  | ast.ListComp _ | ast.DictComp _ | ast.SetComp _ => true
  | ast.Call func cs => has_comprehension func || existsb has_comprehension cs
  | ast.Name _ => false
  | ast.FunctionDef _ cs | ast.For cs | ast.While cs | ast.Other cs =>
      existsb has_comprehension cs
  end.

(** [generic_visit] of the space visitor: the children, one after the
    other. *)
Definition space_children (cs : list ast.node) (self : analysis_engine.SpaceVisitor)
  : analysis_engine.SpaceVisitor :=
  fold_left (fun self child => analysis_engine.space_visit child self) cs self.

(** The state [self'] is [self] after a walk that met a comprehension if
    [alloc], [own f] calls of [f] outside inner functions and [inner f]
    direct self-calls of inner functions named [f]. *)
Definition space_advanced (alloc : bool) (own inner : string -> Z)
    (self self' : analysis_engine.SpaceVisitor) : Prop :=
  analysis_engine.sp_current_func self' = analysis_engine.sp_current_func self
  /\ analysis_engine.has_linear_allocation self'
     = analysis_engine.has_linear_allocation self || alloc
  /\ forall f,
      count_in (analysis_engine.sp_self_calls_per_func self') f
      = (count_in (analysis_engine.sp_self_calls_per_func self) f
         + (if inside (analysis_engine.sp_current_func self) f then own f else 0)
         + inner f)%Z.

Definition space_summarises (n : ast.node) : Prop :=
  forall self,
    space_advanced (has_comprehension n) (fun f => own_calls f n)
      (fun f => counted f n) self (analysis_engine.space_visit n self).

(** The initial state of the space visitor. *)
Definition SpaceVisitor_init : analysis_engine.SpaceVisitor :=
  analysis_engine.mkSpaceVisitor ∅ None false.

(** [squares = [i * i for i in range(n)]], as source and as tree. *)
Definition squares_source : string := line "squares = [i * i for i in range(n)]".

Definition squares_tree : ast.node :=
  ast.Other
    [ ast.Other
        [ ast.Name "squares";
          ast.ListComp
            [ ast.Other [ast.Name "i"; ast.Other []; ast.Name "i"];
              ast.Other [ast.Name "i"; ast.Call (ast.Name "range") [ast.Name "n"]] ] ] ].

(** The space visitor with
    [self.self_calls_per_func[self.current_func] += 1] as Python runs it:
    [None] stands for the [KeyError] of a missing key. *)
Fixpoint space_visit_checked (node : ast.node) (self : analysis_engine.SpaceVisitor)
  : option analysis_engine.SpaceVisitor :=
  let generic_visit :=
    fix walk (children : list ast.node) (self : analysis_engine.SpaceVisitor) :=
      match children with
      | [] => Some self
      | child :: rest =>
          match space_visit_checked child self with
          | Some self' => walk rest self'
          | None => None
          end
      end in
  match node with
  | ast.FunctionDef name children =>
      let prev := analysis_engine.sp_current_func self in
      let self :=
        analysis_engine.mkSpaceVisitor
          (analysis_engine.setdefault0 name (analysis_engine.sp_self_calls_per_func self))
          (Some name) (analysis_engine.has_linear_allocation self) in
      match generic_visit children self with
      | Some self =>
          Some (analysis_engine.mkSpaceVisitor
                  (analysis_engine.sp_self_calls_per_func self) prev
                  (analysis_engine.has_linear_allocation self))
      | None => None
      end
  | ast.Call func children =>
      let updated :=
        match analysis_engine.is_self_call func (analysis_engine.sp_current_func self) with
        | Some cf =>
            match analysis_engine.sp_self_calls_per_func self !! cf with
            | Some v =>
                Some (analysis_engine.mkSpaceVisitor
                        (<[cf := (v + 1)%Z]> (analysis_engine.sp_self_calls_per_func self))
                        (analysis_engine.sp_current_func self)
                        (analysis_engine.has_linear_allocation self))
            | None => None
            end
        | None => Some self
        end in
      match updated with
      | Some self =>
          match space_visit_checked func self with
          | Some self => generic_visit children self
          | None => None
          end
      | None => None
      end
  | ast.ListComp children | ast.DictComp children | ast.SetComp children =>
      generic_visit children
        (analysis_engine.mkSpaceVisitor (analysis_engine.sp_self_calls_per_func self)
           (analysis_engine.sp_current_func self) true)
  | ast.Name _ => Some self
  | ast.For children | ast.While children | ast.Other children =>
      generic_visit children self
  end.

Definition space_children_checked (cs : list ast.node)
    (self : analysis_engine.SpaceVisitor) : option analysis_engine.SpaceVisitor :=
  fold_left
    (fun acc child =>
       match acc with Some self => space_visit_checked child self | None => None end)
    cs (Some self).

(** The name of the function being visited is a key of the dict. *)
Definition space_current_is_key (self : analysis_engine.SpaceVisitor) : Prop :=
  forall f,
    analysis_engine.sp_current_func self = Some f ->
    is_Some (analysis_engine.sp_self_calls_per_func self !! f).

(** A walk keeps the current function and loses no key. *)
Definition space_keeps_keys (self self' : analysis_engine.SpaceVisitor) : Prop :=
  analysis_engine.sp_current_func self' = analysis_engine.sp_current_func self
  /\ forall f,
      is_Some (analysis_engine.sp_self_calls_per_func self !! f) ->
      is_Some (analysis_engine.sp_self_calls_per_func self' !! f).

Definition space_never_raises (n : ast.node) : Prop :=
  forall self,
    space_current_is_key self ->
    space_visit_checked n self = Some (analysis_engine.space_visit n self)
    /\ space_keeps_keys self (analysis_engine.space_visit n self).

(** ** The language of an analysis *)

(** The names that the alias table of [_detect_language_via_ai] maps to. *)
Definition canonical_languages : list string :=
  ["python"; "javascript"; "typescript"; "java"; "cpp"; "c"].

(** The languages an analysis can settle on when none is asked for. *)
Definition known_languages : list string := "generic" :: canonical_languages.

(** The language asked for, stripped and in lower case; empty when none is
    asked for. *)
Definition override_of (language : option string) : string :=
  PyStr.lower (PyStr.strip (default "" language)).

(** The self-heal of [analyze_code]: "python" for code with "#include" is
    taken as "c". *)
Definition healed (lang code : string) : string :=
  if String.eqb lang "python" && PyStr.contains "#include" code then "c" else lang.

(** ** The result of an analysis *)

(** The findings of the security rules on a text. *)
Definition findings_of (code : string) : list schemas.Issue :=
  schemas.resp_security_findings
    (security.analyze_security (schemas.mkCodeAnalysisRequest None code None)).

(** The levels of a risk that was computed. *)
Definition risk_levels : list string := ["Low"; "Medium"; "High"; "Critical"].

(** ** The refinement by the client *)

(** The labels of [_estimate_big_o]. *)
Definition big_o_labels : list string :=
  ["O(log n)"; "O(2^n)"; "O(n^2)"; "O(n)"; "O(1)"].

(** The reply of the client is flagged as stubbed or as unparsed. *)
Definition flagged (reply : gmap string ai_client.json) : bool :=
  ai_client.json_truthy (reply !! "_stubbed")
  || ai_client.json_truthy (reply !! "_parse_error").

(** The reply holds nothing, or nothing true, under the key. *)
Definition lacks (reply : gmap string ai_client.json) (key : string) : Prop :=
  ai_client.json_truthy (reply !! key) = false.

(** ** The raw diff, the other way round *)

(** The request with its two versions exchanged. *)
Definition swapped (payload : schemas.CodeCompareRequest) : schemas.CodeCompareRequest :=
  schemas.mkCodeCompareRequest (schemas.modified_code payload)
    (schemas.original_code payload) (schemas.cmp_language payload).

(** ** The Gemini client *)

(** The reply of [GeminiClient.chat] when the request fails. *)
Definition gemini_error_reply (prompt : string) (context : option string) : string :=
  "(stubbed AI due to Gemini error) You said: " ++ PyStr.slice_to 200 prompt
  ++ ". Context: " ++ PyStr.slice_to 120 (default "" context)
  ++ ". Reason: Gemini request failed.".

(** A backend of which every request fails. *)
Definition failing_backend (W : Type) (prompt : string) (w : W)
  : option ai_client.Response * W := (None, w).

(** A parser of JSON that accepts no text. *)
Definition loads_nothing (text : string) : ai_client.loads_result := ai_client.Raised.

(** A client that gives no answer: every chat reply carries the marker
    "stubbed ai" in some letter case, and every JSON reply is flagged. *)
Definition gives_no_answer {W : Type} (client : ai_client.AIClient W) : Prop :=
  (forall prompt context w,
      has_substring "stubbed ai"
        (PyStr.lower (fst (ai_client.chat client prompt context w))))
  /\ (forall system_prompt user_prompt hint w,
      flagged (fst (ai_client.openai_json client system_prompt user_prompt hint w))
      = true).

(** The reply of [GeminiClient.openai_json] when the request fails. *)
Definition request_failed_reply (hint : gmap string ai_client.json)
  : gmap string ai_client.json :=
  <["note" := ai_client.JStr "Gemini request failed; returning stubbed JSON."]>
    (<["_stubbed" := ai_client.JBool true]> hint).

(** Its reply when the text of the response is no JSON object. *)
Definition parse_error_reply (hint : gmap string ai_client.json) (content : string)
  : gmap string ai_client.json :=
  <["raw" := ai_client.JStr (PyStr.slice_to 2000 content)]>
    (<["_parse_error" := ai_client.JBool true]> hint).

(** ** The structure of a text and of a set of files *)

(** After stripping, the line starts with "def ". *)
Definition def_line (line : string) : bool :=
  PyStr.startswith "def " (PyStr.strip line).

(** After stripping, the line starts with "class ". *)
Definition class_line (line : string) : bool :=
  PyStr.startswith "class " (PyStr.strip line).

(** [name] is what stands in the line between "def " and the first
    opening parenthesis, or the end of the line when there is none. *)
Definition defines_function (line name : string) : Prop :=
  exists rest,
    PyStr.strip line = "def " ++ name ++ rest
    /\ ~ has_substring "(" name
    /\ (rest = "" \/ exists r, rest = "(" ++ r).

(** [name] is what stands in the line between "class " and the first
    opening parenthesis or colon, or the end of the line. *)
Definition defines_class (line name : string) : Prop :=
  exists rest,
    PyStr.strip line = "class " ++ name ++ rest
    /\ ~ has_substring "(" name
    /\ ~ has_substring ":" name
    /\ (rest = "" \/ exists r, rest = "(" ++ r \/ rest = ":" ++ r).

(** [c[k]] of a [Counter]: the count of [k], 0 for a key that is not
    there. *)
Fixpoint counter_get (k : string) (c : list (string * Z)) : Z :=
  match c with
  | [] => 0%Z
  | (k', n) :: rest => if String.eqb k k' then n else counter_get k rest
  end.

(** The sum of the counts. *)
Definition total_of (c : list (string * Z)) : Z :=
  fold_right Z.add 0%Z (map snd c).

(** The number of the paths whose language is [l]. *)
Definition files_in (l : string) (paths : list structure.Path) : Z :=
  Z.of_nat
    (length
       (List.filter
          (fun p => String.eqb (structure._language_from_path p) l) paths)).

(** [a] stands before [b] in the breakdown: the greater count first, and
    of two equal counts the smaller name. *)
Definition ranked_before (a b : string * Z) : Prop :=
  (snd b < snd a)%Z
  \/ (snd a = snd b /\ String.compare (fst a) (fst b) = Lt).

(** The reasons found for a path: those of its name, then those of its
    content. *)
Definition reasons_of (fs : structure.FileSystem) (p : structure.Path)
  : list string :=
  (structure._risk_reasons_for_path p
   ++ structure._risk_reasons_for_content fs p)%list.

(** Some reason was found for the path. *)
Definition reported (fs : structure.FileSystem) (p : structure.Path) : bool :=
  match reasons_of fs p with [] => false | _ :: _ => true end.

(** The entry of the risky modules for a path. *)
Definition report_of (fs : structure.FileSystem) (p : structure.Path)
  : structure.RiskyModule :=
  structure.mkRiskyModule (structure.path_str p) (structure._language_from_path p)
    (analysis_engine.sorted_set (reasons_of fs p)).

(** [m] is the entry of [p]: its path and language, and the reasons found
    for it, each once, in ascending order, and at least one. *)
Definition reports (fs : structure.FileSystem) (p : structure.Path)
    (m : structure.RiskyModule) : Prop :=
  structure.risky_file_path m = structure.path_str p
  /\ structure.risky_language m = structure._language_from_path p
  /\ structure.reasons m <> []
  /\ ascending (structure.reasons m)
  /\ forall x, In x (structure.reasons m) <-> In x (reasons_of fs p).

(** The sentence of the summary for a scan of [total] files. *)
Definition scan_summary (total : Z) (top : string) (count flagged_modules : Z)
  : string :=
  "Scanned " ++ PyStr.of_Z total ++ " files. Top language: " ++ top
  ++ " (" ++ PyStr.of_Z count ++ "). Flagged " ++ PyStr.of_Z flagged_modules
  ++ " potentially risky module(s) using simple heuristics.".

(* ===================================================================== *)
(** * Facts about the string primitives *)
(* ===================================================================== *)

Lemma append_nil_l (s : string) : "" ++ s = s.
Proof. reflexivity. Qed.

Lemma append_cons (c : ascii) (s t : string) : String c s ++ t = String c (s ++ t).
Proof. reflexivity. Qed.

Lemma append_assoc (s t u : string) : (s ++ t) ++ u = s ++ (t ++ u).
Proof.
  induction s as [|c s IH]; [reflexivity|].
  rewrite !append_cons. now rewrite IH.
Qed.

Lemma append_nil_r (s : string) : s ++ "" = s.
Proof.
  induction s as [|c s IH]; [reflexivity|]. rewrite append_cons. now rewrite IH.
Qed.

Lemma length_append (s t : string) :
  String.length (s ++ t) = String.length s + String.length t.
Proof.
  induction s as [|c s IH]; [reflexivity|]. rewrite append_cons. cbn. now rewrite IH.
Qed.

Lemma startswith_iff p s :
  PyStr.startswith p s = true <-> exists post, s = p ++ post.
Proof.
  revert s. induction p as [|a p IH]; intros s; simpl.
  - split; [intros _; now exists s | trivial].
  - destruct s as [|b s].
    + split; [discriminate | intros [post H]; discriminate].
    + rewrite andb_true_iff, Ascii.eqb_eq, IH. split.
      * intros [-> [post ->]]. now exists post.
      * intros [post H]. injection H as -> ->. split; [reflexivity | now exists post].
Qed.

(** [sub in s] holds exactly when [s] is [pre ++ sub ++ post]. *)
Lemma contains_iff sub s :
  PyStr.contains sub s = true <-> exists pre post, s = pre ++ sub ++ post.
Proof.
  induction s as [|c s IH].
  - simpl. rewrite orb_false_r, startswith_iff. split.
    + intros [post H]. exists "", post. exact H.
    + intros [pre [post H]]. destruct pre; [|discriminate].
      exists post. exact H.
  - cbn [PyStr.contains]. rewrite orb_true_iff, startswith_iff, IH. split.
    + intros [[post H] | [pre [post H]]].
      * exists "", post. exact H.
      * exists (String c pre), post. simpl. now rewrite H.
    + intros [pre [post H]]. destruct pre as [|c' pre].
      * left. exists post. exact H.
      * right. simpl in H. injection H as _ H. now exists pre, post.
Qed.

Lemma mem_iff (x : string) (xs : list string) : PyStr.mem x xs = true <-> In x xs.
Proof.
  unfold PyStr.mem. rewrite existsb_exists. split.
  - intros [y [Hin Heq]]. apply String.eqb_eq in Heq. now subst.
  - intros Hin. exists x. split; [exact Hin | apply String.eqb_refl].
Qed.

(** ** White space *)

(** The character of the list that a text starts with. *)
Lemma length_at_found (chars : list string) (s : string) (k : nat) :
  PyStr.length_at chars s = S k ->
  exists ch t, In ch chars /\ s = ch ++ t /\ String.length ch = S k.
Proof.
  unfold PyStr.length_at.
  destruct (List.find _ chars) as [ch|] eqn:Hf; [|discriminate].
  intros Hk. apply List.find_some in Hf. destruct Hf as [Hin Hst].
  apply startswith_iff in Hst. destruct Hst as [t ->]. now exists ch, t.
Qed.

Lemma length_at_none (chars : list string) (s : string) :
  ~ In "" chars ->
  PyStr.length_at chars s = 0 ->
  forall ch, In ch chars -> PyStr.startswith ch s = false.
Proof.
  unfold PyStr.length_at. intros Hne.
  destruct (List.find _ chars) as [ch|] eqn:Hf.
  - intros Hk. apply List.find_some in Hf. destruct Hf as [Hin _].
    destruct ch; [now contradiction Hne | discriminate Hk].
  - intros _ ch Hin.
    destruct (PyStr.startswith ch s) eqn:Hst; [|reflexivity].
    now rewrite (List.find_none _ _ Hf ch Hin) in Hst.
Qed.

Lemma whitespace_not_empty : ~ In "" PyStr.whitespace.
Proof. cbv. intuition discriminate. Qed.

Lemma line_breaks_not_empty : ~ In "" PyStr.line_breaks.
Proof. cbv. intuition discriminate. Qed.

(** Every byte of a white space character is a byte of white space. *)
Lemma whitespace_bytes (sp : string) (c : ascii) :
  In sp PyStr.whitespace -> In c (list_ascii_of_string sp) -> space_byte c = true.
Proof.
  intros Hsp Hc. unfold space_byte. apply existsb_exists. exists sp.
  split; [exact Hsp|]. apply existsb_exists. exists c.
  split; [exact Hc | apply Ascii.eqb_refl].
Qed.

Lemma in_bytes_app (pre : string) (c : ascii) (post : string) :
  In c (list_ascii_of_string (pre ++ String c post)).
Proof.
  induction pre as [|x pre IH]; [now left|]. rewrite append_cons. now right.
Qed.

(** What holds a byte that is in no white space character is no white
    space character. *)
Lemma not_whitespace (pre : string) (c : ascii) (post : string) :
  space_byte c = false -> PyStr.mem (pre ++ String c post) PyStr.whitespace = false.
Proof.
  intros Hc. destruct (PyStr.mem _ _) eqn:Hm; [|reflexivity].
  apply mem_iff in Hm. rewrite (whitespace_bytes _ c Hm (in_bytes_app _ _ _)) in Hc.
  discriminate Hc.
Qed.

(** [lstrip], one character at a time. *)
Lemma lstrip_skip (sp t : string) :
  PyStr.lstrip_from (String.length sp) (sp ++ t) = PyStr.lstrip t.
Proof.
  induction sp as [|c sp IH]; [reflexivity|].
  rewrite append_cons. cbn [String.length PyStr.lstrip_from]. exact IH.
Qed.

Lemma space_at_whitespace (sp t : string) :
  In sp PyStr.whitespace -> PyStr.space_at (sp ++ t) = String.length sp.
Proof.
  intros Hin. cbv [PyStr.whitespace map app PyStr.byte1 PyStr.byte2 PyStr.byte3] in Hin.
  repeat (destruct Hin as [<-|Hin]; [reflexivity|]). contradiction.
Qed.

Lemma lstrip_space (sp t : string) :
  In sp PyStr.whitespace -> PyStr.lstrip (sp ++ t) = PyStr.lstrip t.
Proof.
  intros Hin. pose proof (space_at_whitespace sp t Hin) as Hat.
  destruct sp as [|c sp]; [now contradiction whitespace_not_empty|].
  unfold PyStr.lstrip at 1. rewrite append_cons in *.
  cbn [PyStr.lstrip_from]. rewrite Hat. cbn [String.length]. apply lstrip_skip.
Qed.

Lemma lstrip_kept (s : string) : PyStr.space_at s = 0 -> PyStr.lstrip s = s.
Proof.
  intros H. destruct s as [|c s]; [reflexivity|].
  unfold PyStr.lstrip. cbn [PyStr.lstrip_from]. now rewrite H.
Qed.

(** A text starts with a white space character, or with none. *)
Lemma leading_space_ind (P : string -> Prop) :
  (forall s, PyStr.space_at s = 0 -> P s) ->
  (forall sp t, In sp PyStr.whitespace -> P t -> P (sp ++ t)) ->
  forall s, P s.
Proof.
  intros Hnone Hspace s.
  assert (H : forall n s, String.length s <= n -> P s).
  { clear s. induction n as [|n IH]; intros s Hn.
    - destruct s; [|cbn in Hn; lia]. now apply Hnone.
    - destruct (PyStr.space_at s) as [|k] eqn:Hat; [now apply Hnone|].
      apply length_at_found in Hat. destruct Hat as (sp & t & Hin & -> & Hlen).
      apply Hspace; [exact Hin|]. apply IH. rewrite length_append in Hn. lia. }
  now apply (H (String.length s)).
Qed.

(** A text is its leading white space and what [lstrip] keeps of it. *)
Lemma lstrip_decompose (s : string) :
  exists w,
    whitespace_only w /\ s = w ++ PyStr.lstrip s /\ PyStr.space_at (PyStr.lstrip s) = 0.
Proof.
  induction s as [s Hat | sp t Hin (w & Hw & Ht & Hs)] using leading_space_ind.
  - exists "". rewrite (lstrip_kept s Hat). repeat split; [constructor | exact Hat].
  - exists (sp ++ w). rewrite lstrip_space by exact Hin.
    split; [now constructor|]. split; [|exact Hs].
    rewrite append_assoc. now rewrite <- Ht.
Qed.

Lemma whitespace_only_app (v w : string) :
  whitespace_only v -> whitespace_only w -> whitespace_only (v ++ w).
Proof.
  induction 1 as [|sp s Hin Hs IH]; intros Hw; [exact Hw|].
  rewrite append_assoc. constructor; [exact Hin | now apply IH].
Qed.

Lemma lstrip_blank (w t : string) :
  whitespace_only w -> PyStr.lstrip (w ++ t) = PyStr.lstrip t.
Proof.
  induction 1 as [|sp s Hin Hs IH]; [reflexivity|].
  rewrite append_assoc, lstrip_space by exact Hin. exact IH.
Qed.

Lemma lstrip_empty_iff (s : string) : PyStr.lstrip s = "" <-> whitespace_only s.
Proof.
  split.
  - intros H. destruct (lstrip_decompose s) as (w & Hw & Hs & _).
    rewrite H, append_nil_r in Hs. now subst.
  - intros H. rewrite <- (append_nil_r s). now rewrite lstrip_blank.
Qed.

Lemma lstrip_idempotent (s : string) : PyStr.lstrip (PyStr.lstrip s) = PyStr.lstrip s.
Proof.
  destruct (lstrip_decompose s) as (_ & _ & _ & Hat). now apply lstrip_kept.
Qed.

(** [rstrip], one byte at a time. *)
Lemma rstrip_cons (c : ascii) (s : string) :
  PyStr.rstrip (String c s)
  = if PyStr.mem (String c (PyStr.rstrip s)) PyStr.whitespace
    then "" else String c (PyStr.rstrip s).
Proof. reflexivity. Qed.

Lemma rstrip_whitespace (sp : string) :
  In sp PyStr.whitespace -> PyStr.rstrip sp = "".
Proof.
  intros Hin. cbv [PyStr.whitespace map app PyStr.byte1 PyStr.byte2 PyStr.byte3] in Hin.
  repeat (destruct Hin as [<-|Hin]; [reflexivity|]). contradiction.
Qed.

Lemma rstrip_app_blank (a s : string) :
  PyStr.rstrip s = "" -> PyStr.rstrip (a ++ s) = PyStr.rstrip a.
Proof.
  intros Hs. induction a as [|c a IH]; [exact Hs|].
  rewrite append_cons, !rstrip_cons. now rewrite IH.
Qed.

(** A text is what [rstrip] keeps of it and its trailing white space. *)
Lemma rstrip_decompose (s : string) :
  exists w, whitespace_only w /\ s = PyStr.rstrip s ++ w.
Proof.
  induction s as [|c s (w & Hw & Hs)]; [exists ""; split; [constructor | reflexivity]|].
  rewrite rstrip_cons.
  destruct (PyStr.mem (String c (PyStr.rstrip s)) PyStr.whitespace) eqn:Hm.
  - exists (String c (PyStr.rstrip s) ++ w). split.
    + constructor; [now apply mem_iff | exact Hw].
    + rewrite append_cons. cbn [append]. now rewrite <- Hs.
  - exists w. split; [exact Hw|]. rewrite append_cons. now rewrite <- Hs.
Qed.

Lemma rstrip_blank (s : string) : whitespace_only s -> PyStr.rstrip s = "".
Proof.
  induction 1 as [|sp s Hin Hs IH]; [reflexivity|].
  rewrite rstrip_app_blank by exact IH. now apply rstrip_whitespace.
Qed.

Lemma rstrip_empty_iff (s : string) : PyStr.rstrip s = "" <-> whitespace_only s.
Proof.
  split; [|apply rstrip_blank].
  intros H. destruct (rstrip_decompose s) as (w & Hw & Hs).
  rewrite H in Hs. cbn [append] in Hs. now subst.
Qed.

Lemma rstrip_idempotent (s : string) : PyStr.rstrip (PyStr.rstrip s) = PyStr.rstrip s.
Proof.
  induction s as [|c s IH]; [reflexivity|]. rewrite rstrip_cons.
  destruct (PyStr.mem (String c (PyStr.rstrip s)) PyStr.whitespace) eqn:Hm;
    [reflexivity|].
  rewrite rstrip_cons, IH. now rewrite Hm.
Qed.

Lemma rstrip_not_blank (s : string) :
  whitespace_only (PyStr.rstrip s) -> PyStr.rstrip s = "".
Proof. intros H. apply rstrip_blank in H. now rewrite rstrip_idempotent in H. Qed.

(** What ends in no white space still does without a prefix. *)
Lemma rstrip_suffix (a u : string) :
  PyStr.rstrip (a ++ u) = a ++ u -> PyStr.rstrip u = u.
Proof.
  induction a as [|c a IH]; [trivial|].
  rewrite append_cons, rstrip_cons.
  destruct (PyStr.mem _ PyStr.whitespace); [discriminate|].
  intros H. injection H as H. now apply IH.
Qed.

(** What ends in no white space still does after [lstrip]. *)
Lemma rstrip_lstrip (t : string) :
  PyStr.rstrip t = t -> PyStr.rstrip (PyStr.lstrip t) = PyStr.lstrip t.
Proof.
  intros Ht. destruct (lstrip_decompose t) as (w & _ & Hw & _).
  rewrite Hw in Ht at 1 2. now apply rstrip_suffix in Ht.
Qed.

(** [not code.strip()] holds exactly for the blank texts. *)
Lemma strip_empty_iff (s : string) :
  PyStr.truthy (PyStr.strip s) = false <-> whitespace_only s.
Proof.
  unfold PyStr.strip. split.
  - intros H. apply rstrip_empty_iff, rstrip_not_blank, lstrip_empty_iff.
    now destruct (PyStr.lstrip (PyStr.rstrip s)).
  - intros H. apply rstrip_empty_iff in H. now rewrite H.
Qed.

(** A stripped text starts and ends with no white space, and stripping it
    again changes nothing. *)
Lemma strip_is_stripped (s : string) :
  PyStr.lstrip (PyStr.strip s) = PyStr.strip s
  /\ PyStr.rstrip (PyStr.strip s) = PyStr.strip s
  /\ PyStr.strip (PyStr.strip s) = PyStr.strip s.
Proof.
  unfold PyStr.strip.
  assert (Hr : PyStr.rstrip (PyStr.lstrip (PyStr.rstrip s)) = PyStr.lstrip (PyStr.rstrip s))
    by apply rstrip_lstrip, rstrip_idempotent.
  split; [apply lstrip_idempotent|]. split; [exact Hr|].
  rewrite Hr. apply lstrip_idempotent.
Qed.

(** A byte that is in no white space character stops [rstrip] and
    [lstrip]. *)
Lemma rstrip_app_nonspace (a : string) (c : ascii) (t : string) :
  space_byte c = false ->
  PyStr.rstrip (a ++ String c t) = a ++ String c (PyStr.rstrip t).
Proof.
  intros Hc. induction a as [|x a IH].
  - rewrite !append_nil_l, rstrip_cons.
    pose proof (not_whitespace "" c (PyStr.rstrip t) Hc) as H.
    rewrite append_nil_l in H. now rewrite H.
  - rewrite append_cons, rstrip_cons, IH.
    pose proof (not_whitespace (String x a) c (PyStr.rstrip t) Hc) as H.
    rewrite append_cons in H. now rewrite H.
Qed.

(** Two ways to cut a text: one cut lies before the other. *)
Lemma append_eq_append (a b c d : string) :
  a ++ b = c ++ d ->
  (exists z, a = c ++ z /\ d = z ++ b) \/ (exists z, c = a ++ z /\ b = z ++ d).
Proof.
  revert c. induction a as [|x a IH]; intros c H.
  - right. exists c. now split.
  - destruct c as [|y c].
    + left. exists (String x a). now split.
    + rewrite !append_cons in H. injection H as -> H.
      destruct (IH c H) as [(z & -> & ->) | (z & -> & ->)];
        [left | right]; exists z; now split.
Qed.

Lemma space_at_nonspace (v : string) (d : ascii) (t : string) :
  space_byte d = false ->
  PyStr.space_at v = 0 -> PyStr.space_at (v ++ String d t) = 0.
Proof.
  intros Hd Hv. destruct (PyStr.space_at (v ++ String d t)) as [|k] eqn:Hat;
    [reflexivity|].
  exfalso. apply length_at_found in Hat. destruct Hat as (sp & t' & Hin & Heq & _).
  apply append_eq_append in Heq. destruct Heq as [(z & -> & _) | (z & -> & Hz)].
  - pose proof (length_at_none _ _ whitespace_not_empty Hv sp Hin) as Hst.
    assert (Hyes : PyStr.startswith sp (sp ++ z) = true)
      by (apply startswith_iff; now exists z).
    congruence.
  - destruct z as [|x z].
    + rewrite append_nil_r in Hin.
      pose proof (length_at_none _ _ whitespace_not_empty Hv v Hin) as Hst.
      assert (Hyes : PyStr.startswith v v = true)
        by (apply startswith_iff; exists ""; now rewrite append_nil_r).
      congruence.
    + rewrite append_cons in Hz. injection Hz as <- _.
      rewrite (whitespace_bytes _ d Hin (in_bytes_app _ _ _)) in Hd. discriminate Hd.
Qed.

Lemma lstrip_app_nonspace (pre : string) (d : ascii) (t : string) :
  space_byte d = false ->
  PyStr.lstrip (pre ++ String d t) = PyStr.lstrip pre ++ String d t.
Proof.
  intros Hd. induction pre as [v Hv | sp v Hin IH] using leading_space_ind.
  - rewrite (lstrip_kept v Hv). apply lstrip_kept. now apply space_at_nonspace.
  - rewrite append_assoc, (lstrip_space sp (v ++ String d t) Hin),
      (lstrip_space sp v Hin). exact IH.
Qed.

(** A text that starts with a byte of no white space character is not
    blank. *)
Lemma not_blank_cons (c : ascii) (s : string) :
  space_byte c = false -> ~ whitespace_only (String c s).
Proof.
  intros Hc H. inversion H as [|sp t Hin Ht Heq].
  destruct sp as [|x sp]; [now contradiction whitespace_not_empty|].
  rewrite append_cons in Heq. injection Heq as -> _.
  rewrite (whitespace_bytes _ c Hin) in Hc; [discriminate Hc | now left].
Qed.

(** ** Lower case *)

Lemma lower_char_idempotent (c : ascii) :
  PyStr.lower_char (PyStr.lower_char c) = PyStr.lower_char c.
Proof. destruct c as [[] [] [] [] [] [] [] []]; reflexivity. Qed.

(** A byte that [lower_char] gives beyond ASCII is the byte it was given. *)
Lemma lower_char_beyond (c b : ascii) :
  (128 <=? N_of_ascii b)%N = true -> PyStr.lower_char c = b -> c = b.
Proof.
  destruct c as [[] [] [] [] [] [] [] []]; cbv [PyStr.lower_char];
    cbn; intros Hb <-; first [reflexivity | discriminate Hb].
Qed.

Lemma lower_plain (c : ascii) (s : string) :
  Ascii.eqb c "196" = false -> Ascii.eqb c "226" = false ->
  PyStr.lower (String c s) = String (PyStr.lower_char c) (PyStr.lower s).
Proof. intros H1 H2. cbn [PyStr.lower]. now rewrite H1, H2. Qed.

(** A text whose lower case starts with one of the bytes 0x84, 0xaa and
    0xb0 starts with that byte. *)
Lemma lower_head (b : ascii) (s x : string) :
  In b ["132"; "170"; "176"]%char ->
  PyStr.lower s = String b x -> exists s', s = String b s' /\ x = PyStr.lower s'.
Proof.
  intros Hb H. destruct s as [|c s1]; [discriminate H|].
  cbn [PyStr.lower] in H.
  destruct (Ascii.eqb_spec c "196") as [->|H196].
  { destruct s1 as [|c2 s2].
    - injection H as <- _. cbn in Hb. intuition discriminate.
    - destruct (Ascii.eqb c2 "176"); injection H as <- _;
        cbn in Hb; intuition discriminate. }
  destruct (Ascii.eqb_spec c "226") as [->|H226].
  { destruct s1 as [|c2 [|c3 s3]];
      [| |destruct (Ascii.eqb c2 "132" && Ascii.eqb c3 "170")];
      injection H as <- _; cbn in Hb; intuition discriminate. }
  injection H as Hc <-. exists s1. split; [|reflexivity].
  f_equal. apply lower_char_beyond; [|exact Hc].
  cbn in Hb. destruct Hb as [<-|[<-|[<-|[]]]]; reflexivity.
Qed.

Lemma lower_dotted (s1 : string) :
  PyStr.lower (String "196" s1)
  = match s1 with
    | String c2 s2 =>
        if Ascii.eqb c2 "176"
        then String "i" (String "204" (String "135" (PyStr.lower s2)))
        else String "196" (PyStr.lower s1)
    | EmptyString => String "196" EmptyString
    end.
Proof. reflexivity. Qed.

Lemma lower_kelvin (s1 : string) :
  PyStr.lower (String "226" s1)
  = match s1 with
    | String c2 (String c3 s3) =>
        if Ascii.eqb c2 "132" && Ascii.eqb c3 "170"
        then String "k" (PyStr.lower s3)
        else String "226" (PyStr.lower s1)
    | _ => String "226" (PyStr.lower s1)
    end.
Proof. reflexivity. Qed.

(** Before the lower case of a text that starts with no 0xb0, the byte
    0xc4 is kept; before that of a text that starts with no 0x84 0xaa, the
    byte 0xe2. *)
Lemma lower_keeps_dotted (s1 : string) :
  (forall s2, s1 <> String "176" s2) ->
  PyStr.lower (PyStr.lower s1) = PyStr.lower s1 ->
  PyStr.lower (String "196" (PyStr.lower s1)) = String "196" (PyStr.lower s1).
Proof.
  intros Hs1 IH. rewrite lower_dotted.
  destruct (PyStr.lower s1) as [|a y] eqn:Hl; [reflexivity|].
  destruct (Ascii.eqb_spec a "176") as [->|Ha].
  - exfalso. apply lower_head in Hl; [|cbn; auto].
    destruct Hl as (s' & -> & _). now apply (Hs1 s').
  - now rewrite IH.
Qed.

Lemma lower_keeps_kelvin (s1 : string) :
  (forall s3, s1 <> String "132" (String "170" s3)) ->
  PyStr.lower (PyStr.lower s1) = PyStr.lower s1 ->
  PyStr.lower (String "226" (PyStr.lower s1)) = String "226" (PyStr.lower s1).
Proof.
  intros Hs1 IH. rewrite lower_kelvin.
  destruct (PyStr.lower s1) as [|a [|b y]] eqn:Hl; [reflexivity| |].
  - now rewrite IH.
  - destruct (Ascii.eqb_spec a "132") as [->|Ha];
      [destruct (Ascii.eqb_spec b "170") as [->|Hb]|]; cbn [andb].
    + exfalso. apply lower_head in Hl; [|cbn; auto].
      destruct Hl as (s' & -> & Hl). symmetry in Hl.
      apply lower_head in Hl; [|cbn; auto].
      destruct Hl as (s'' & -> & _). now apply (Hs1 s'').
    + now rewrite IH.
    + now rewrite IH.
Qed.

Lemma lower_idempotent (s : string) : PyStr.lower (PyStr.lower s) = PyStr.lower s.
Proof.
  assert (H : forall n s, String.length s <= n ->
                PyStr.lower (PyStr.lower s) = PyStr.lower s).
  { clear s. induction n as [|n IH]; intros s Hn.
    { destruct s; [reflexivity | cbn in Hn; lia]. }
    destruct s as [|c s1]; [reflexivity|]. cbn [String.length] in Hn.
    assert (IH1 : PyStr.lower (PyStr.lower s1) = PyStr.lower s1) by (apply IH; lia).
    destruct (Ascii.eqb_spec c "196") as [->|H196].
    { rewrite (lower_dotted s1). destruct s1 as [|c2 s2]; [reflexivity|].
      destruct (Ascii.eqb_spec c2 "176") as [->|H176].
      - rewrite 3!lower_plain by reflexivity.
        rewrite IH; [reflexivity | cbn [String.length] in Hn; lia].
      - apply lower_keeps_dotted; [congruence | exact IH1]. }
    destruct (Ascii.eqb_spec c "226") as [->|H226].
    { rewrite (lower_kelvin s1). destruct s1 as [|c2 [|c3 s3]].
      - reflexivity.
      - apply lower_keeps_kelvin; [congruence | exact IH1].
      - destruct (Ascii.eqb_spec c2 "132") as [->|H132];
          [destruct (Ascii.eqb_spec c3 "170") as [->|H170]|]; cbn [andb].
        + rewrite lower_plain by reflexivity.
          rewrite IH; [reflexivity | cbn [String.length] in Hn; lia].
        + apply lower_keeps_kelvin; [congruence | exact IH1].
        + apply lower_keeps_kelvin; [congruence | exact IH1]. }
    rewrite lower_plain by (now apply Ascii.eqb_neq).
    rewrite lower_plain.
    - now rewrite lower_char_idempotent, IH1.
    - apply Ascii.eqb_neq. intros Hc. apply H196.
      now apply lower_char_beyond in Hc.
    - apply Ascii.eqb_neq. intros Hc. apply H226.
      now apply lower_char_beyond in Hc. }
  now apply (H (String.length s)).
Qed.

(** ** The lines of a text *)

(** After its first byte, a line boundary holds bytes that continue a
    character, and no other. *)
Lemma line_break_tail (bk : string) (c : ascii) (tl : string) (d : ascii) :
  In bk PyStr.line_breaks -> bk = String c tl -> In d (list_ascii_of_string tl) ->
  PyStr.is_continuation d = true.
Proof.
  intros Hin -> Hd.
  cbv [PyStr.line_breaks map app PyStr.byte1 PyStr.byte2 PyStr.byte3] in Hin.
  repeat (destruct Hin as [Heq|Hin];
          [injection Heq as <- <-; cbn in Hd; intuition (subst; reflexivity)|]).
  contradiction.
Qed.

Lemma line_break_starts_char (b rest : string) :
  In b PyStr.line_breaks -> starts_char (b ++ rest).
Proof.
  intros Hin.
  cbv [PyStr.line_breaks map app PyStr.byte1 PyStr.byte2 PyStr.byte3] in Hin.
  repeat (destruct Hin as [<-|Hin]; [reflexivity|]). contradiction.
Qed.

Lemma unbroken_tail (c : ascii) (l : string) : unbroken (String c l) -> unbroken l.
Proof.
  intros H b Hb (pre & post & ->). apply (H b Hb). now exists (String c pre), post.
Qed.

Lemma unbroken_cons (c : ascii) (l x : string) :
  PyStr.break_at (String c (l ++ x)) = 0 -> unbroken l -> unbroken (String c l).
Proof.
  intros Hat Hl b Hb (pre & post & Heq). destruct pre as [|p pre].
  - rewrite append_nil_l in Heq.
    pose proof (length_at_none _ _ line_breaks_not_empty Hat b Hb) as Hst.
    assert (Hyes : PyStr.startswith b (String c (l ++ x)) = true).
    { apply startswith_iff. exists (post ++ x).
      rewrite <- append_cons, Heq. now rewrite append_assoc. }
    congruence.
  - rewrite append_cons in Heq. injection Heq as _ ->.
    apply (Hl b Hb). now exists pre, post.
Qed.

(** Where a line goes on, no boundary starts. *)
Lemma break_at_unbroken (c : ascii) (l x : string) :
  unbroken (String c l) -> starts_char x -> PyStr.break_at (String c (l ++ x)) = 0.
Proof.
  intros Hl Hx. destruct (PyStr.break_at (String c (l ++ x))) as [|k] eqn:Hat;
    [reflexivity|].
  exfalso. apply length_at_found in Hat. destruct Hat as (bk & t & Hin & Heq & _).
  rewrite <- append_cons in Heq. apply append_eq_append in Heq.
  destruct Heq as [(z & Hz & _) | (z & Hz & Hx')].
  - apply (Hl bk Hin). exists "", z. exact Hz.
  - destruct z as [|d z].
    + rewrite append_nil_r in Hz. apply (Hl bk Hin). exists "", "".
      rewrite append_nil_r. now rewrite Hz.
    + rewrite append_cons in Hz. subst x. rewrite append_cons in Hx.
      cbn [starts_char] in Hx.
      rewrite (line_break_tail bk c (l ++ String d z) d Hin Hz (in_bytes_app _ _ _)) in Hx.
      discriminate Hx.
Qed.

(** [splitlines], one line at a time. *)
Lemma splitlines_line (l : string) :
  forall cur x,
    unbroken l -> starts_char x ->
    PyStr.splitlines_go cur false 0 (l ++ x)
    = PyStr.splitlines_go (cur ++ l) false 0 x.
Proof.
  induction l as [|c l IH]; intros cur x Hl Hx.
  - now rewrite append_nil_l, append_nil_r.
  - rewrite append_cons. cbn [PyStr.splitlines_go andb].
    rewrite (break_at_unbroken c l x Hl Hx).
    rewrite IH by (try exact Hx; now apply unbroken_tail in Hl).
    now rewrite append_assoc.
Qed.

Lemma splitlines_break (b : string) (cur rest : string) :
  In b PyStr.line_breaks ->
  PyStr.splitlines_go cur false 0 (b ++ rest)
  = cur :: PyStr.splitlines_go "" (String.eqb b cr) 0 rest.
Proof.
  intros Hin.
  cbv [PyStr.line_breaks map app PyStr.byte1 PyStr.byte2 PyStr.byte3] in Hin.
  repeat (destruct Hin as [<-|Hin]; [reflexivity|]). contradiction.
Qed.

Lemma splitlines_after_cr_lf (cur rest : string) :
  PyStr.splitlines_go cur true 0 (lf ++ rest) = PyStr.splitlines_go cur false 0 rest.
Proof. reflexivity. Qed.

Lemma splitlines_after_cr (cur s : string) :
  (forall r, s <> lf ++ r) ->
  PyStr.splitlines_go cur true 0 s = PyStr.splitlines_go cur false 0 s.
Proof.
  intros Hs. destruct s as [|c s]; [reflexivity|].
  cbn [PyStr.splitlines_go andb].
  destruct (Ascii.eqb_spec c "010") as [->|Hc]; [|reflexivity].
  now contradiction (Hs s).
Qed.

(** A text has the lines that [splitlines] gives, and no others. *)
Lemma lines_of_unique (s : string) (ls : list string) :
  lines_of s ls -> PyStr.splitlines s = ls.
Proof.
  unfold PyStr.splitlines.
  induction 1 as [|l Hne Hl|l b rest ls Hl Hb Hrest IH].
  - reflexivity.
  - rewrite <- (append_nil_r l) at 1. rewrite splitlines_line by easy.
    destruct l; [congruence | reflexivity].
  - destruct Hb as [->|[Hin Hcr]].
    + unfold crlf. rewrite append_assoc.
      rewrite splitlines_line;
        [|exact Hl | apply line_break_starts_char; cbv; auto].
      rewrite splitlines_break by (cbv; auto).
      change (String.eqb cr cr) with true.
      now rewrite splitlines_after_cr_lf, IH.
    + rewrite splitlines_line;
        [|exact Hl | now apply line_break_starts_char].
      rewrite splitlines_break by exact Hin. rewrite append_nil_l. f_equal.
      destruct (String.eqb_spec b cr) as [->|Hne]; [|exact IH].
      rewrite splitlines_after_cr; [exact IH|].
      intros r Hr. apply Hcr. split; [reflexivity | now exists r].
Qed.

Lemma unbroken_empty : unbroken "".
Proof.
  intros b Hb (pre & post & Heq). destruct pre; [|discriminate Heq].
  destruct b; [now apply line_breaks_not_empty | discriminate Heq].
Qed.

Lemma lines_of_exist (s : string) : exists ls, lines_of s ls.
Proof.
  assert (H : forall n s, String.length s <= n -> exists ls, lines_of s ls).
  { clear s. induction n as [|n IH]; intros s Hn.
    { destruct s; [|cbn in Hn; lia]. exists []. constructor. }
    destruct s as [|c s]; [exists []; constructor|]. cbn [String.length] in Hn.
    destruct (PyStr.break_at (String c s)) as [|k] eqn:Hat.
    - destruct (IH s) as [ls Hls]; [lia|].
      inversion Hls as [Hs|l Hne Hl Hs|l b rest ls' Hl Hb Hrest Hs]; subst.
      + exists [String c ""]. apply lines_last; [discriminate|].
        apply (unbroken_cons c "" ""); [exact Hat | apply unbroken_empty].
      + exists [String c s]. apply lines_last; [discriminate|].
        apply (unbroken_cons c s ""); [now rewrite append_nil_r | exact Hl].
      + exists (String c l :: ls'). rewrite <- append_cons.
        apply lines_more; [|exact Hb | exact Hrest].
        now apply (unbroken_cons c l (b ++ rest)).
    - apply length_at_found in Hat. destruct Hat as (bk & rest & Hin & Heq & Hlen).
      assert (Hshort : String.length rest <= n).
      { apply (f_equal String.length) in Heq. rewrite length_append in Heq.
        cbn [String.length] in Heq. lia. }
      rewrite Heq.
      destruct (String.eqb_spec bk cr) as [->|Hcr].
      + destruct rest as [|d rest].
        * exists [""]. rewrite <- (append_nil_l (cr ++ "")).
          apply lines_more; [apply unbroken_empty | | constructor].
          right. split; [exact Hin|]. intros [_ [r Hr]]. discriminate Hr.
        * destruct (Ascii.eqb_spec d "010") as [->|Hd].
          -- destruct (IH rest) as [ls Hls]; [cbn [String.length] in Hshort; lia|].
             exists ("" :: ls).
             change (lines_of ("" ++ crlf ++ rest) ("" :: ls)).
             apply lines_more; [apply unbroken_empty | now left | exact Hls].
          -- destruct (IH (String d rest) Hshort) as [ls Hls].
             exists ("" :: ls). rewrite <- (append_nil_l (cr ++ String d rest)).
             apply lines_more; [apply unbroken_empty | | exact Hls].
             right. split; [exact Hin|]. intros [_ [r Hr]].
             injection Hr as Hr _. now apply Hd.
      + destruct (IH rest Hshort) as [ls Hls].
        exists ("" :: ls). rewrite <- (append_nil_l (bk ++ rest)).
        apply lines_more; [apply unbroken_empty | | exact Hls].
        right. split; [exact Hin|]. now intros [Hbk _]. }
  now apply (H (String.length s)).
Qed.

(** [splitlines] gives the lines of the text. *)
Lemma lines_of_splitlines (s : string) : lines_of s (PyStr.splitlines s).
Proof.
  destruct (lines_of_exist s) as [ls Hls].
  now rewrite (lines_of_unique s ls Hls).
Qed.

Lemma lines_of_iff (s : string) (ls : list string) :
  lines_of s ls <-> ls = PyStr.splitlines s.
Proof.
  split; [intros H; symmetry; now apply lines_of_unique|].
  intros ->. apply lines_of_splitlines.
Qed.


(* ===================================================================== *)
(** * Floats *)
(* ===================================================================== *)

Section Floats.

Local Open Scope Q_scope.

(** ** Powers of two *)

Lemma pow2_Qpower (e : Z) : PyFloat.pow2 e == (2 # 1) ^ e.
Proof.
  destruct e as [|p|p]; cbn [PyFloat.pow2].
  - reflexivity.
  - rewrite Pos2Z.inj_pow. now rewrite Zpower_Qpower by lia.
  - change ((2 # 1) ^ Z.neg p) with (/ ((2 # 1) ^ Z.pos p)).
    rewrite <- (Zpower_Qpower 2 (Z.pos p)) by lia.
    rewrite <- Pos2Z.inj_pow. reflexivity.
Qed.

Lemma pow2_pos (e : Z) : 0 < PyFloat.pow2 e.
Proof. rewrite pow2_Qpower. now apply Qpower_0_lt. Qed.

Lemma pow2_add (a b : Z) : PyFloat.pow2 (a + b) == PyFloat.pow2 a * PyFloat.pow2 b.
Proof. rewrite !pow2_Qpower. now apply Qpower_plus. Qed.

Lemma pow2_le (a b : Z) : (a <= b)%Z -> PyFloat.pow2 a <= PyFloat.pow2 b.
Proof. intros H. rewrite !pow2_Qpower. now apply Qpower_le_compat_l. Qed.

Lemma pow2_nonneg (n : Z) : (0 <= n)%Z -> PyFloat.pow2 n == inject_Z (2 ^ n).
Proof. intros H. rewrite pow2_Qpower. now rewrite Zpower_Qpower. Qed.

(** ** The leading bit *)

Lemma ilog2_spec (x : Q) :
  0 < x ->
  PyFloat.pow2 (PyFloat.ilog2 x) <= x /\ x < PyFloat.pow2 (PyFloat.ilog2 x + 1).
Proof.
  intros Hx. destruct x as [a b].
  assert (Ha : (0 < a)%Z) by (unfold Qlt in Hx; cbn in Hx; lia).
  unfold PyFloat.ilog2. cbn [Qnum Qden].
  set (la := Z.log2 a). set (lb := Z.log2 (Z.pos b)).
  destruct (Z.log2_spec a Ha) as [Ha1 Ha2]. fold la in Ha1, Ha2.
  destruct (Z.log2_spec (Z.pos b) (Pos2Z.is_pos b)) as [Hb1 Hb2]. fold lb in Hb1, Hb2.
  assert (Hla : (0 <= la)%Z) by apply Z.log2_nonneg.
  assert (Hlb : (0 <= lb)%Z) by apply Z.log2_nonneg.
  assert (Hxb : (a # b) * inject_Z (Z.pos b) == inject_Z a).
  { unfold Qeq, Qmult, inject_Z. cbn. lia. }
  assert (Hpos : 0 < a # b) by exact Hx.
  assert (HA : PyFloat.pow2 (la - lb - 1) <= a # b).
  { apply (Qmult_le_r _ _ (PyFloat.pow2 (lb + 1))); [apply pow2_pos|].
    rewrite <- pow2_add. replace (la - lb - 1 + (lb + 1))%Z with la by lia.
    rewrite (pow2_nonneg la Hla), (pow2_nonneg (lb + 1)) by lia.
    apply Qle_trans with (inject_Z a); [now rewrite <- Zle_Qle|].
    rewrite <- Hxb. apply Qmult_le_l; [exact Hpos|].
    rewrite <- Zle_Qle. unfold Z.succ in Hb2. lia. }
  assert (HB : a # b < PyFloat.pow2 (la - lb + 1)).
  { apply (Qmult_lt_r _ _ (PyFloat.pow2 lb)); [apply pow2_pos|].
    rewrite <- pow2_add. replace (la - lb + 1 + lb)%Z with (la + 1)%Z by lia.
    rewrite (pow2_nonneg lb Hlb), (pow2_nonneg (la + 1)) by lia.
    apply Qle_lt_trans with (inject_Z a); [|rewrite <- Zlt_Qlt; unfold Z.succ in Ha2; lia].
    rewrite <- Hxb. apply Qmult_le_l; [exact Hpos|]. now rewrite <- Zle_Qle. }
  destruct (Qle_bool (PyFloat.pow2 (la - lb)) (a # b)) eqn:Hle.
  - apply Qle_bool_iff in Hle. now split.
  - split; [exact HA|]. replace (la - lb - 1 + 1)%Z with (la - lb)%Z by lia.
    apply Qnot_le_lt. intros H. apply Qle_bool_iff in H. congruence.
Qed.

Lemma ilog2_le (x y : Q) : 0 < x -> x <= y -> (PyFloat.ilog2 x <= PyFloat.ilog2 y)%Z.
Proof.
  intros Hx Hxy.
  assert (Hy : 0 < y) by lra.
  destruct (ilog2_spec x Hx) as [Hx1 _]. destruct (ilog2_spec y Hy) as [_ Hy2].
  destruct (Z_le_gt_dec (PyFloat.ilog2 x) (PyFloat.ilog2 y)) as [H|H]; [exact H|].
  exfalso. assert (Hp := pow2_le (PyFloat.ilog2 y + 1) (PyFloat.ilog2 x) ltac:(lia)).
  lra.
Qed.

(** ** Rounding to an integer *)

Lemma round_half_even_bounds (x : Q) :
  (Qfloor x <= PyFloat.round_half_even x <= Qfloor x + 1)%Z.
Proof.
  unfold PyFloat.round_half_even.
  destruct (Qcompare _ _); [destruct (Z.even _)| |]; lia.
Qed.

Lemma round_half_even_Z (n : Z) : PyFloat.round_half_even (inject_Z n) = n.
Proof.
  unfold PyFloat.round_half_even. rewrite Qfloor_Z.
  destruct (Qcompare (inject_Z n - inject_Z n) (1 # 2)) eqn:Hc; [|reflexivity|].
  - apply Qeq_alt in Hc. lra.
  - apply Qgt_alt in Hc. lra.
Qed.

Lemma round_half_even_le (x y : Q) :
  x <= y -> (PyFloat.round_half_even x <= PyFloat.round_half_even y)%Z.
Proof.
  intros Hxy. pose proof (Qfloor_resp_le x y Hxy) as Hf.
  pose proof (round_half_even_bounds x) as Hx.
  pose proof (round_half_even_bounds y) as Hy.
  destruct (Z.eq_dec (Qfloor x) (Qfloor y)) as [Heq|Hne]; [|lia].
  unfold PyFloat.round_half_even. rewrite <- Heq.
  destruct (Qcompare (x - inject_Z (Qfloor x)) (1 # 2)) eqn:Hcx;
    destruct (Qcompare (y - inject_Z (Qfloor x)) (1 # 2)) eqn:Hcy;
    try (destruct (Z.even (Qfloor x)); lia); try lia; exfalso.
  - apply Qeq_alt in Hcx. apply Qlt_alt in Hcy. lra.
  - apply Qgt_alt in Hcx. apply Qeq_alt in Hcy. lra.
  - apply Qgt_alt in Hcx. apply Qlt_alt in Hcy. lra.
Qed.

Lemma round_half_even_Qle (x : Q) (n : Z) :
  x <= inject_Z n -> (PyFloat.round_half_even x <= n)%Z.
Proof. intros H. apply round_half_even_le in H. now rewrite round_half_even_Z in H. Qed.

Lemma round_half_even_Qge (x : Q) (n : Z) :
  inject_Z n <= x -> (n <= PyFloat.round_half_even x)%Z.
Proof. intros H. apply round_half_even_le in H. now rewrite round_half_even_Z in H. Qed.

(** ** Rounding to a double *)

Lemma round64_pos_nonneg (x : Q) : 0 < x -> 0 <= PyFloat.round64_pos x.
Proof.
  intros Hx. unfold PyFloat.round64_pos. rewrite Qred_correct.
  set (q := Z.max _ _). pose proof (pow2_pos q) as Hq.
  apply Qmult_le_0_compat; [|lra].
  change 0 with (inject_Z 0). rewrite <- Zle_Qle.
  apply round_half_even_Qge. apply Qle_shift_div_l; [exact Hq|].
  change (inject_Z 0) with 0. lra.
Qed.

Lemma round64_pos_le (x y : Q) :
  0 < x -> x <= y -> PyFloat.round64_pos x <= PyFloat.round64_pos y.
Proof.
  intros Hx Hxy. assert (Hy : 0 < y) by lra.
  pose proof (ilog2_le x y Hx Hxy) as He.
  destruct (ilog2_spec x Hx) as [_ Hx2]. destruct (ilog2_spec y Hy) as [Hy1 _].
  unfold PyFloat.round64_pos. rewrite !Qred_correct.
  set (ex := PyFloat.ilog2 x) in *. set (ey := PyFloat.ilog2 y) in *.
  set (qx := Z.max (ex - 52) (-1074)). set (qy := Z.max (ey - 52) (-1074)).
  pose proof (pow2_pos qx) as Hqx. pose proof (pow2_pos qy) as Hqy.
  destruct (Z.eq_dec qx qy) as [Heq|Hne].
  - rewrite <- Heq. apply Qmult_le_compat_r; [|lra].
    rewrite <- Zle_Qle. apply round_half_even_le.
    unfold Qdiv. apply Qmult_le_compat_r; [exact Hxy|].
    apply Qinv_le_0_compat. lra.
  - assert (Hlt : (qx < qy)%Z) by lia.
    assert (Hqy' : qy = (ey - 52)%Z) by lia.
    assert (Hexy : (ex + 1 <= ey)%Z) by lia.
    apply Qle_trans with (PyFloat.pow2 ey).
    + assert (Hsplit : PyFloat.pow2 ey == inject_Z (2 ^ (ey - qx)) * PyFloat.pow2 qx).
      { rewrite <- pow2_nonneg by lia. rewrite <- pow2_add. now replace (ey - qx + qx)%Z with ey by lia. }
      rewrite Hsplit. apply Qmult_le_compat_r; [|lra].
      rewrite <- Zle_Qle. apply round_half_even_Qle.
      apply Qle_shift_div_r; [exact Hqx|]. rewrite <- Hsplit.
      pose proof (pow2_le (ex + 1) ey Hexy). lra.
    + assert (Hsplit : PyFloat.pow2 ey == inject_Z (2 ^ 52) * PyFloat.pow2 qy).
      { rewrite <- pow2_nonneg by lia. rewrite <- pow2_add. now replace (52 + qy)%Z with ey by lia. }
      rewrite Hsplit. apply Qmult_le_compat_r; [|lra].
      rewrite <- Zle_Qle. apply round_half_even_Qge.
      apply Qle_shift_div_l; [exact Hqy|]. now rewrite <- Hsplit.
Qed.

(** Rounding keeps the order. *)
Lemma round64_le (x y : Q) : x <= y -> PyFloat.round64 x <= PyFloat.round64 y.
Proof.
  intros Hxy. unfold PyFloat.round64.
  destruct (Qcompare x 0) eqn:Hx; destruct (Qcompare y 0) eqn:Hy;
    rewrite ?Qred_correct;
    repeat match goal with
           | H : Qcompare _ _ = Eq |- _ => apply Qeq_alt in H
           | H : Qcompare _ _ = Lt |- _ => apply Qlt_alt in H
           | H : Qcompare _ _ = Gt |- _ => apply Qgt_alt in H
           end;
    try lra.
  - apply round64_pos_nonneg in Hy. lra.
  - assert (H : 0 < - x) by lra. apply round64_pos_nonneg in H. lra.
  - assert (H : 0 < - y) by lra.
    apply (round64_pos_le (- y) (- x)) in H; [lra | lra].
  - assert (H : 0 < - x) by lra. apply round64_pos_nonneg in H.
    apply round64_pos_nonneg in Hy. lra.
  - now apply round64_pos_le.
Qed.

(** ** The operations *)

Lemma of_Z_le (a b : Z) : (a <= b)%Z -> PyFloat.of_Z a <= PyFloat.of_Z b.
Proof. intros H. apply round64_le. now rewrite <- Zle_Qle. Qed.

Lemma of_Z_ge_1 (n : Z) : (1 <= n)%Z -> 1 <= PyFloat.of_Z n.
Proof.
  intros H. apply of_Z_le in H.
  now replace (PyFloat.of_Z 1) with 1 in H by (vm_compute; reflexivity).
Qed.

Lemma of_Z_nonneg (n : Z) : (0 <= n)%Z -> 0 <= PyFloat.of_Z n.
Proof.
  intros H. apply of_Z_le in H.
  now replace (PyFloat.of_Z 0) with 0 in H by (vm_compute; reflexivity).
Qed.

Lemma ltb_iff (x y : Q) : PyFloat.ltb x y = true <-> x < y.
Proof.
  unfold PyFloat.ltb. rewrite Qlt_alt. destruct (x ?= y); split; congruence.
Qed.

Lemma ltb_false_iff (x y : Q) : PyFloat.ltb x y = false <-> y <= x.
Proof.
  rewrite <- not_true_iff_false, ltb_iff. split.
  - apply Qnot_lt_le.
  - intros H1 H2. exact (Qlt_not_le _ _ H2 H1).
Qed.

Lemma min_le (x y b : Q) : y <= b -> PyFloat.min x y <= b.
Proof.
  intros H. unfold PyFloat.min. destruct (PyFloat.ltb y x) eqn:E; [exact H|].
  apply ltb_false_iff in E. lra.
Qed.

Lemma max_bounds (y b : Q) : 0 <= b -> y <= b -> 0 <= PyFloat.max 0 y <= b.
Proof.
  intros Hb H. unfold PyFloat.max. destruct (PyFloat.ltb 0 y) eqn:E.
  - apply ltb_iff in E. lra.
  - lra.
Qed.

Lemma round64_canonical (x : Q) : Qred (PyFloat.round64 x) = PyFloat.round64 x.
Proof.
  unfold PyFloat.round64, PyFloat.round64_pos.
  destruct (Qcompare x 0); [reflexivity| |]; apply Qred_complete, Qred_correct.
Qed.

(** Equal rationals round to the same double. *)
Lemma round64_eq (x y : Q) : x == y -> PyFloat.round64 x = PyFloat.round64 y.
Proof.
  intros H. rewrite <- (round64_canonical x), <- (round64_canonical y).
  apply Qred_complete. apply Qle_antisym; apply round64_le; lra.
Qed.

Lemma Qred_inject_Z (n : Z) : Qred (inject_Z n) = inject_Z n.
Proof.
  unfold Qred, inject_Z.
  pose proof (Z.ggcd_gcd n 1) as Hg.
  pose proof (Z.ggcd_correct_divisors n 1) as Hd.
  destruct (Z.ggcd n 1) as [g [a b]]. cbn [fst snd] in *.
  rewrite Z.gcd_1_r in Hg. subst g. destruct Hd as [Ha Hb].
  replace a with n by lia. replace b with 1%Z by lia. reflexivity.
Qed.

(** [float(n)] is [n] up to [2^53]. *)
Lemma of_Z_exact (n : Z) : (0 <= n <= 2 ^ 53)%Z -> PyFloat.of_Z n = inject_Z n.
Proof.
  intros [H0 H53].
  destruct (Z.eq_dec n 0%Z) as [->|Hn0]; [vm_compute; reflexivity|].
  destruct (Z.eq_dec n (2 ^ 53)%Z) as [->|Hn53]; [vm_compute; reflexivity|].
  assert (Hpos : 0 < inject_Z n)
    by (change 0 with (inject_Z 0); rewrite <- Zlt_Qlt; lia).
  unfold PyFloat.of_Z, PyFloat.round64.
  destruct (Qcompare (inject_Z n) 0) eqn:Hc;
    [apply Qeq_alt in Hc; lra | apply Qlt_alt in Hc; lra |].
  unfold PyFloat.round64_pos. cbv zeta.
  destruct (ilog2_spec _ Hpos) as [Hlo Hhi].
  set (e := PyFloat.ilog2 (inject_Z n)) in *.
  assert (He0 : (0 <= e)%Z).
  { destruct (Z_le_gt_dec 0%Z e) as [H|H]; [exact H|]. exfalso.
    pose proof (pow2_le (e + 1)%Z 0%Z ltac:(lia)) as Hp. cbn [PyFloat.pow2] in Hp.
    assert (1 <= inject_Z n)
      by (change 1 with (inject_Z 1); rewrite <- Zle_Qle; lia).
    lra. }
  assert (He52 : (e <= 52)%Z).
  { destruct (Z_le_gt_dec e 52%Z) as [H|H]; [exact H|]. exfalso.
    pose proof (pow2_le 53%Z e ltac:(lia)) as Hp.
    assert (inject_Z n < PyFloat.pow2 53).
    { rewrite (pow2_nonneg 53) by lia. rewrite <- Zlt_Qlt. lia. }
    lra. }
  replace (Z.max (e - 52) (-1074)) with (e - 52)%Z by lia.
  set (k := (52 - e)%Z).
  assert (Hinv : / PyFloat.pow2 (e - 52) == PyFloat.pow2 k).
  { rewrite !pow2_Qpower. replace (e - 52)%Z with (- k)%Z by lia.
    rewrite Qpower_opp. apply Qinv_involutive. }
  assert (Hx : inject_Z n / PyFloat.pow2 (e - 52) == inject_Z (n * 2 ^ k)).
  { unfold Qdiv. rewrite Hinv, pow2_nonneg by lia. now rewrite inject_Z_mult. }
  assert (Hr : PyFloat.round_half_even (inject_Z n / PyFloat.pow2 (e - 52))
               = (n * 2 ^ k)%Z).
  { apply Z.le_antisymm;
      [apply round_half_even_Qle | apply round_half_even_Qge];
      rewrite Hx; apply Qle_refl. }
  rewrite Hr, <- (Qred_inject_Z n). apply Qred_complete.
  rewrite inject_Z_mult, <- (pow2_nonneg k), <- Qmult_assoc, <- pow2_add by lia.
  replace (k + (e - 52))%Z with 0%Z by lia. cbn [PyFloat.pow2]. ring.
Qed.

Lemma of_Z_small (k : Z) : (0 <= k <= 7)%Z -> PyFloat.of_Z k = inject_Z k.
Proof.
  intros H.
  assert (Hk : (k = 0 \/ k = 1 \/ k = 2 \/ k = 3 \/ k = 4 \/ k = 5 \/ k = 6 \/ k = 7)%Z)
    by lia.
  repeat (destruct Hk as [->|Hk]; [vm_compute; reflexivity|]).
  subst k. vm_compute. reflexivity.
Qed.

(** [min(1.0, h / float(n))] for counts [0 < h <= n <= 7]: the double
    nearest to the fraction, above 0 and at most 1. *)
Lemma confidence_value (h n : Z) :
  (0 < h <= n)%Z -> (n <= 7)%Z ->
  let c := PyFloat.min 1 (PyFloat.div (PyFloat.of_Z h) (PyFloat.of_Z n)) in
  c = PyFloat.round64 (inject_Z h / inject_Z n) /\ 0 < c /\ c <= 1.
Proof.
  intros [Hh Hn] H7. cbv zeta.
  rewrite !of_Z_small by lia. unfold PyFloat.div.
  assert (Hnq : 0 < inject_Z n)
    by (change 0 with (inject_Z 0); rewrite <- Zlt_Qlt; lia).
  assert (Hhq : 1 <= inject_Z h)
    by (change 1 with (inject_Z 1); rewrite <- Zle_Qle; lia).
  assert (Hle : inject_Z h <= inject_Z n) by now rewrite <- Zle_Qle.
  assert (Hn7 : inject_Z n <= 7)
    by (change 7 with (inject_Z 7); now rewrite <- Zle_Qle).
  assert (Hlow : 1 # 8 <= inject_Z h / inject_Z n).
  { apply Qle_shift_div_l; [exact Hnq|]. lra. }
  assert (Hone : inject_Z h / inject_Z n <= 1).
  { apply Qle_shift_div_r; [exact Hnq|]. now rewrite Qmult_1_l. }
  apply round64_le in Hlow, Hone.
  replace (PyFloat.round64 (1 # 8)) with (1 # 8) in Hlow by (vm_compute; reflexivity).
  replace (PyFloat.round64 1) with 1 in Hone by (vm_compute; reflexivity).
  set (q := PyFloat.round64 (inject_Z h / inject_Z n)) in *.
  unfold PyFloat.min. destruct (PyFloat.ltb q 1) eqn:Hlt.
  - split; [reflexivity|]. split; [lra | exact Hone].
  - apply ltb_false_iff in Hlt.
    assert (Hq : q = 1).
    { subst q. rewrite <- round64_canonical.
      change 1 with (Qred 1). apply Qred_complete. now apply Qle_antisym. }
    rewrite Hq. split; [reflexivity|]. split; [reflexivity | discriminate].
Qed.

End Floats.
(* ===================================================================== *)
(** * Properties *)
(* ===================================================================== *)

(** ** The embedding on small inputs *)

Example lower_keeps_symbols :
  PyStr.lower "While (LOW <= High)" = "while (low <= high)".
Proof. reflexivity. Qed.

Example strip_both_ends : PyStr.strip (line "  a b" ++ " ") = "a b".
Proof. reflexivity. Qed.

Example count_without_overlap : PyStr.count "aa" "aaaaa" = 2.
Proof. reflexivity. Qed.

Example splitlines_crlf :
  PyStr.splitlines
    ("a" ++ String "013" analysis_engine.nl ++ analysis_engine.nl ++ line "b")
  = ["a"; ""; "b"].
Proof. reflexivity. Qed.

Example str_of_int : PyStr.of_Z (-12) = "-12" /\ PyStr.of_Z 0 = "0".
Proof. split; reflexivity. Qed.

Example brackets_nested : validators._balanced_brackets "f(a[1]) { g(); }" = true.
Proof. reflexivity. Qed.

Example brackets_crossed : validators._balanced_brackets "f(a[1)]" = false.
Proof. reflexivity. Qed.

Example brackets_unclosed : validators._balanced_brackets "f(" = false.
Proof. reflexivity. Qed.

Example quotes_apostrophe : validators._balanced_quotes "it's" = false.
Proof. reflexivity. Qed.

Example validate_no_semicolons ast_parse :
  validators.validate_code ast_parse " JavaScript "
    (line "let a = 1" ++ line "let b = 2" ++ "let c = 3")
  = validators.mkValidationResult false
      (Some "No semicolons found in multi-line code").
Proof. reflexivity. Qed.

Example detect_python :
  language_detector.detect_language (line "def f(x):" ++ "    print(x)")
  = language_detector.mkDetectionResult "python" (PyFloat.round64 (2 # 7)).
Proof. vm_compute. reflexivity. Qed.

(** The scenario of the specification: text that holds "eval(" has one
    finding, a warning that names the pattern. *)
Example security_eval :
  schemas.resp_security_findings
    (security.analyze_security (schemas.mkCodeAnalysisRequest None "x = EVAL(y)" None))
  = [schemas.mkIssue "security" "Suspicious pattern detected: eval(" None
       (Some "warning")].
Proof. reflexivity. Qed.

Example cyclomatic_keywords_add_up :
  analysis_engine._estimate_cyclomatic_complexity "if a and b: pass" = 3%Z.
Proof. reflexivity. Qed.

Example max_values_two_keys :
  analysis_engine.max_values (<["f" := 2%Z]> (<["g" := 5%Z]> ∅)) = 5%Z.
Proof. vm_compute. reflexivity. Qed.

(** A nested loop in text that is no Python: quadratic, and a low risk. *)
Example analyze_nested_loops :
  let r :=
    fst (analysis_engine.analyze_code (ai_client.StubAIClient unit)
           (fun _ => ast.SyntaxError "invalid syntax") (fun _ => "")
           (line "for i in xs:" ++ line "  for j in ys:" ++ "    total += i * j")
           (Some "generic") tt) in
  analysis_engine.big_o r = "O(n^2)"
  /\ analysis_engine.cyclomatic_complexity r = 3%Z
  /\ analysis_engine.maintainability r = PyFloat.round64 (476 # 5)
  /\ analysis_engine.risk_score r = 2%Z
  /\ analysis_engine.risk_level r = "Low"
  /\ analysis_engine.error r = None.
Proof. vm_compute. repeat split. Qed.

(* ===================================================================== *)
(** ** The risk aggregator ([_compute_risk]) *)
(* ===================================================================== *)

(** C6, counterexample: a quadratic label, a cyclomatic complexity of 16, no
    security finding and a maintainability of 40 score 2 + 2 + 2 = 6, which
    is none of the listed scores. *)
Lemma compute_risk_score_six :
  fst (analysis_engine._compute_risk "O(n^2)" 16 [] 40) = 6%Z
  /\ ~ In (fst (analysis_engine._compute_risk "O(n^2)" 16 [] 40)) listed_scores.
Proof.
  split; [reflexivity|].
  cbn. intros H. repeat (destruct H as [H|H]; [discriminate H|]). exact H.
Qed.

(** C6, amended: the score is the sum of 2 for a label that contains "n^2",
    2 for a cyclomatic complexity above 15, 3 for a non-empty list of
    security findings and 2 for a maintainability below 50; it is one of
    0, 2, 3, 4, 5, 6, 7, 9; the level is Low for 0-2, Medium for 3-4, High
    for 5-6 and Critical from 7 on. *)
Theorem compute_risk_score_and_level
    (big_o : string) (cyclomatic : Z) (issues : list schemas.Issue) (m : Q) :
  let score := fst (analysis_engine._compute_risk big_o cyclomatic issues m) in
  let level := snd (analysis_engine._compute_risk big_o cyclomatic issues m) in
  (exists quadratic complex insecure unmaintainable : bool,
      (quadratic = true <-> exists pre post, big_o = pre ++ "n^2" ++ post)
      /\ (complex = true <-> (15 < cyclomatic)%Z)
      /\ (insecure = true <-> issues <> [])
      /\ (unmaintainable = true <-> (m < 50)%Q)
      /\ score = (risk_points quadratic 2 + risk_points complex 2
                  + risk_points insecure 3 + risk_points unmaintainable 2)%Z)
  /\ In score possible_scores
  /\ ((0 <= score <= 2)%Z -> level = "Low")
  /\ ((3 <= score <= 4)%Z -> level = "Medium")
  /\ ((5 <= score <= 6)%Z -> level = "High")
  /\ ((7 <= score)%Z -> level = "Critical").
Proof.
  intros score level. subst score level. unfold analysis_engine._compute_risk.
  split.
  - exists (PyStr.contains "n^2" big_o), (15 <? cyclomatic)%Z,
      (match issues with [] => false | _ => true end), (PyFloat.ltb m 50).
    rewrite contains_iff, Z.ltb_lt, ltb_iff.
    repeat split; try tauto.
    + destruct issues; [discriminate | intros _; discriminate].
    + destruct issues; [congruence | reflexivity].
    + destruct (PyStr.contains "n^2" big_o), (15 <? cyclomatic)%Z, issues,
        (PyFloat.ltb m 50); reflexivity.
  - destruct (PyStr.contains "n^2" big_o), (15 <? cyclomatic)%Z, issues,
      (PyFloat.ltb m 50); cbn; (split; [tauto|]);
      repeat split; intros; solve [reflexivity | lia].
Qed.

(** Each of the eight scores is returned on some input. *)
Lemma compute_risk_scores_attained (s : Z) :
  In s possible_scores ->
  exists big_o cyclomatic issues m,
    fst (analysis_engine._compute_risk big_o cyclomatic issues m) = s.
Proof.
  pose (i := schemas.mkIssue "security" "x" None None).
  intros H. cbn in H.
  destruct H as [<-|[<-|[<-|[<-|[<-|[<-|[<-|[<-|[]]]]]]]]].
  - now exists "O(1)", 1%Z, [], 90%Q.
  - now exists "O(n^2)", 1%Z, [], 90%Q.
  - now exists "O(1)", 1%Z, [i], 90%Q.
  - now exists "O(n^2)", 16%Z, [], 90%Q.
  - now exists "O(n^2)", 1%Z, [i], 90%Q.
  - now exists "O(n^2)", 16%Z, [], 40%Q.
  - now exists "O(n^2)", 16%Z, [i], 90%Q.
  - now exists "O(n^2)", 16%Z, [i], 40%Q.
Qed.

(* ===================================================================== *)
(** ** The verdict of a comparison ([_big_o_rank], [_pick_better]) *)
(* ===================================================================== *)

(** C4, counterexample: the label O(log n) holds "n)", so its rank is that
    of O(n) and not the last one; with equal risk scores and equal
    cyclomatic complexities a side labelled O(log n) wins against a side
    labelled O(n^2), where the order of the specification makes it lose. *)
Lemma log_label_beats_quadratic :
  compare._big_o_rank "O(log n)" = 2%Z
  /\ listed_rank "O(log n)" = 4%Z
  /\ compare._pick_better 0 0 1 1
       (compare._big_o_rank "O(log n)") (compare._big_o_rank "O(n^2)") = "A"
  /\ compare._pick_better 0 0 1 1
       (listed_rank "O(log n)") (listed_rank "O(n^2)") = "B".
Proof. repeat split. Qed.

Lemma big_o_rank_cases (label : string) :
  let s := PyStr.lower label in
  let rank := compare._big_o_rank label in
  (rank = 3%Z <-> has_substring "n^2" s)
  /\ (rank = 2%Z <->
      ~ has_substring "n^2" s /\ (has_substring "n)" s \/ has_substring "o(n" s))
  /\ (rank = 1%Z <->
      ~ has_substring "n^2" s /\ ~ has_substring "n)" s
      /\ ~ has_substring "o(n" s /\ has_substring "1" s)
  /\ (rank = 4%Z <->
      ~ has_substring "n^2" s /\ ~ has_substring "n)" s
      /\ ~ has_substring "o(n" s /\ ~ has_substring "1" s).
Proof.
  intros s rank. subst s rank. unfold compare._big_o_rank, has_substring.
  rewrite <- !contains_iff.
  destruct (PyStr.contains "n^2" (PyStr.lower label)),
    (PyStr.contains "n)" (PyStr.lower label)),
    (PyStr.contains "o(n" (PyStr.lower label)),
    (PyStr.contains "1" (PyStr.lower label)); cbn;
    repeat split; intros; try discriminate; try tauto; try reflexivity;
    intuition discriminate.
Qed.

(** C4, amended: the side with the strictly lower risk score wins; on equal
    risk scores the side with the strictly lower cyclomatic complexity; on a
    further tie the side whose label has the strictly lower rank; on a full
    tie the verdict is A.  The rank of a label is read off its lower-cased
    text: 3 when it holds "n^2", else 2 when it holds "n)" or "o(n", else 1
    when it holds "1", else 4.  So O(1) < O(n) < O(n^2), O(log n) and O(2^n)
    rank as O(n) does, and N/A ranks last. *)
Theorem pick_better_chain (a_risk b_risk a_cyclomatic b_cyclomatic : Z)
    (a_label b_label : string) :
  let a_rank := compare._big_o_rank a_label in
  let b_rank := compare._big_o_rank b_label in
  let verdict :=
    compare._pick_better a_risk b_risk a_cyclomatic b_cyclomatic a_rank b_rank in
  ((a_risk < b_risk)%Z -> verdict = "A")
  /\ ((b_risk < a_risk)%Z -> verdict = "B")
  /\ (a_risk = b_risk -> (a_cyclomatic < b_cyclomatic)%Z -> verdict = "A")
  /\ (a_risk = b_risk -> (b_cyclomatic < a_cyclomatic)%Z -> verdict = "B")
  /\ (a_risk = b_risk -> a_cyclomatic = b_cyclomatic ->
      (a_rank < b_rank)%Z -> verdict = "A")
  /\ (a_risk = b_risk -> a_cyclomatic = b_cyclomatic ->
      (b_rank < a_rank)%Z -> verdict = "B")
  /\ (a_risk = b_risk -> a_cyclomatic = b_cyclomatic ->
      a_rank = b_rank -> verdict = "A")
  /\ (a_rank = 3%Z <-> has_substring "n^2" (PyStr.lower a_label))
  /\ (a_rank = 2%Z <->
      ~ has_substring "n^2" (PyStr.lower a_label)
      /\ (has_substring "n)" (PyStr.lower a_label)
          \/ has_substring "o(n" (PyStr.lower a_label)))
  /\ (a_rank = 1%Z <->
      ~ has_substring "n^2" (PyStr.lower a_label)
      /\ ~ has_substring "n)" (PyStr.lower a_label)
      /\ ~ has_substring "o(n" (PyStr.lower a_label)
      /\ has_substring "1" (PyStr.lower a_label))
  /\ (a_rank = 4%Z <->
      ~ has_substring "n^2" (PyStr.lower a_label)
      /\ ~ has_substring "n)" (PyStr.lower a_label)
      /\ ~ has_substring "o(n" (PyStr.lower a_label)
      /\ ~ has_substring "1" (PyStr.lower a_label))
  /\ map compare._big_o_rank ["O(1)"; "O(n)"; "O(n^2)"; "O(log n)"; "O(2^n)"; "N/A"]
     = [1; 2; 3; 2; 2; 4]%Z.
Proof.
  intros a_rank b_rank verdict.
  assert (Hchain :
    ((a_risk < b_risk)%Z -> verdict = "A")
    /\ ((b_risk < a_risk)%Z -> verdict = "B")
    /\ (a_risk = b_risk -> (a_cyclomatic < b_cyclomatic)%Z -> verdict = "A")
    /\ (a_risk = b_risk -> (b_cyclomatic < a_cyclomatic)%Z -> verdict = "B")
    /\ (a_risk = b_risk -> a_cyclomatic = b_cyclomatic ->
        (a_rank < b_rank)%Z -> verdict = "A")
    /\ (a_risk = b_risk -> a_cyclomatic = b_cyclomatic ->
        (b_rank < a_rank)%Z -> verdict = "B")
    /\ (a_risk = b_risk -> a_cyclomatic = b_cyclomatic ->
        a_rank = b_rank -> verdict = "A")).
  { subst verdict. unfold compare._pick_better.
    generalize a_rank b_rank. intros ra rb.
    destruct (Z.eqb_spec a_risk b_risk), (Z.ltb_spec a_risk b_risk),
      (Z.eqb_spec a_cyclomatic b_cyclomatic),
      (Z.ltb_spec a_cyclomatic b_cyclomatic),
      (Z.eqb_spec ra rb), (Z.ltb_spec ra rb); cbn;
      repeat split; intros; solve [reflexivity | lia]. }
  destruct Hchain as (c1 & c2 & c3 & c4 & c5 & c6 & c7).
  destruct (big_o_rank_cases a_label) as (H3 & H2 & H1 & H4).
  do 7 (split; [assumption|]).
  split; [exact H3|]. split; [exact H2|]. split; [exact H1|].
  split; [exact H4 | reflexivity].
Qed.

(* ===================================================================== *)
(** ** Comparing in both orders ([compare_results]) *)
(* ===================================================================== *)

(** C3, counterexample: "x = 1" and "y = 2" tie on every metric, and the
    verdict is A in both orders: the first call names "x = 1" the better
    version, the second names "y = 2". *)
Lemma full_tie_names_both_versions :
  let client := ai_client.StubAIClient unit in
  let run a b :=
    fst (compare.compare_codes client reject_all unparse_blank a b (Some "generic") tt) in
  compare.better_version (run "x = 1" "y = 2") = Some "A"
  /\ compare.better_version (run "y = 2" "x = 1") = Some "A"
  /\ compare.better_version (run "y = 2" "x = 1")
     <> option_map swap_version (compare.better_version (run "x = 1" "y = 2")).
Proof.
  vm_compute. repeat split. discriminate.
Qed.

Lemma pick_better_swap (ra rb ca cb ka kb : Z) :
  (ra <> rb \/ ca <> cb \/ ka <> kb) ->
  compare._pick_better rb ra cb ca kb ka
  = swap_version (compare._pick_better ra rb ca cb ka kb).
Proof.
  intros H. unfold compare._pick_better.
  destruct (Z.eqb_spec ra rb), (Z.eqb_spec rb ra), (Z.ltb_spec ra rb),
    (Z.ltb_spec rb ra), (Z.eqb_spec ca cb), (Z.eqb_spec cb ca),
    (Z.ltb_spec ca cb), (Z.ltb_spec cb ca), (Z.eqb_spec ka kb),
    (Z.eqb_spec kb ka), (Z.ltb_spec ka kb), (Z.ltb_spec kb ka);
    cbn; try reflexivity; lia.
Qed.

Lemma pick_better_tie (r c k : Z) : compare._pick_better r r c c k k = "A".
Proof. unfold compare._pick_better. now rewrite !Z.eqb_refl. Qed.

(** Two analyses without error, compared in both orders. *)
Lemma compare_results_mirrored (a b : analysis_engine.AnalysisResult) :
  analysis_engine.error a = None ->
  analysis_engine.error b = None ->
  mirrored a b.
Proof.
  intros Ha Hb.
  unfold mirrored, compare.compare_results, compare.is_compilation_error.
  rewrite Ha, Hb. cbn [orb].
  eexists _, _, _, _. cbn.
  do 4 (split; [reflexivity|]).
  split; [unfold negate_delta; cbn; f_equal; lia|].
  do 2 (split; [reflexivity|]).
  unfold full_tie. split.
  - intros Hne. apply pick_better_swap.
    destruct (Z.eq_dec (analysis_engine.risk_score a) (analysis_engine.risk_score b));
      [|tauto].
    destruct (Z.eq_dec (analysis_engine.cyclomatic_complexity a)
                (analysis_engine.cyclomatic_complexity b)); [|tauto].
    right. right. intros Hk. apply Hne. auto.
  - intros (-> & -> & ->). split; apply pick_better_tie.
Qed.

(* ===================================================================== *)
(** ** The raw diff ([compare_versions]) *)
(* ===================================================================== *)

Lemma mem_false_iff (x : string) (xs : list string) :
  PyStr.mem x xs = false <-> ~ In x xs.
Proof. rewrite <- mem_iff. symmetry. apply not_true_iff_false. Qed.

Lemma blank_lines_added_incl as_ bs :
  blank_lines_added as_ bs -> forall line, In line as_ -> In line bs.
Proof.
  induction 1 as [|l as_ bs _ IH|l as_ bs _ _ IH]; intros line Hin.
  - exact Hin.
  - destruct Hin as [->|Hin]; [now left | right; now apply IH].
  - right. now apply IH.
Qed.

Lemma blank_lines_added_new as_ bs :
  blank_lines_added as_ bs ->
  forall line, In line bs -> In line as_ \/ whitespace_only line.
Proof.
  induction 1 as [|l as_ bs _ IH|l as_ bs Hl _ IH]; intros line Hin.
  - now left.
  - destruct Hin as [->|Hin]; [left; now left|].
    destruct (IH _ Hin) as [H|H]; [left; now right | now right].
  - destruct Hin as [->|Hin]; [now right | now apply IH].
Qed.

Lemma count_occ_filter (keep : string -> bool) (xs : list string) (x : string) :
  count_occ string_dec (List.filter keep xs) x
  = if keep x then count_occ string_dec xs x else 0.
Proof.
  induction xs as [|y xs IH]; simpl.
  - now destruct (keep x).
  - destruct (keep y) eqn:Hy; simpl; destruct (string_dec y x) as [->|Hne].
    + rewrite Hy in *. now rewrite IH.
    + exact IH.
    + rewrite Hy in *. exact IH.
    + exact IH.
Qed.

(** C9: the two texts are cut into their lines, the texts between the
    line boundaries of Python.  The diff lists as added the lines of the
    modified text that occur nowhere in the original, each as often as the
    modified text has it, as removed the lines of the original that occur
    nowhere in the modified text, and never a changed line; when the
    modified text is the original with blank lines put in, nothing is
    removed and every added line is blank. *)
Theorem compare_versions_diff (payload : schemas.CodeCompareRequest) :
  let original_lines := PyStr.splitlines (schemas.original_code payload) in
  let modified_lines := PyStr.splitlines (schemas.modified_code payload) in
  let d := schemas.diff (compare.compare_versions payload) in
  lines_of (schemas.original_code payload) original_lines
  /\ lines_of (schemas.modified_code payload) modified_lines
  /\ (forall line,
      In line (schemas.added d)
      <-> In line modified_lines /\ ~ In line original_lines)
  /\ (forall line,
      In line (schemas.removed d)
      <-> In line original_lines /\ ~ In line modified_lines)
  /\ (forall line,
      ~ In line original_lines ->
      count_occ string_dec (schemas.added d) line
      = count_occ string_dec modified_lines line)
  /\ (forall line,
      ~ In line modified_lines ->
      count_occ string_dec (schemas.removed d) line
      = count_occ string_dec original_lines line)
  /\ schemas.changed d = []
  /\ (blank_lines_added original_lines modified_lines ->
      schemas.removed d = []
      /\ Forall whitespace_only (schemas.added d)).
Proof.
  intros original_lines modified_lines d. subst d. cbn.
  fold original_lines modified_lines.
  split; [apply lines_of_splitlines|]. split; [apply lines_of_splitlines|].
  split; [|split; [|split; [|split; [|split]]]].
  - intros line. rewrite filter_In, negb_true_iff, mem_false_iff. tauto.
  - intros line. rewrite filter_In, negb_true_iff, mem_false_iff. tauto.
  - intros line Hnot. rewrite count_occ_filter.
    apply mem_false_iff in Hnot. now rewrite Hnot.
  - intros line Hnot. rewrite count_occ_filter.
    apply mem_false_iff in Hnot. now rewrite Hnot.
  - reflexivity.
  - intros Hadd. split.
    + destruct (List.filter _ original_lines) as [|l rest] eqn:Hf; [reflexivity|].
      assert (Hin : In l (List.filter (fun line => negb (PyStr.mem line modified_lines))
                            original_lines)) by (rewrite Hf; now left).
      apply filter_In in Hin. destruct Hin as [Hin Hmem].
      apply negb_true_iff, mem_false_iff in Hmem.
      exfalso. apply Hmem. eapply blank_lines_added_incl; eassumption.
    + apply List.Forall_forall. intros line Hin.
      apply filter_In in Hin. destruct Hin as [Hin Hmem].
      apply negb_true_iff, mem_false_iff in Hmem.
      destruct (blank_lines_added_new _ _ Hadd _ Hin) as [H|H]; [contradiction|].
      exact H.
Qed.

Example compare_versions_blank_line :
  schemas.diff
    (compare.compare_versions
       (schemas.mkCodeCompareRequest
          ("x = 1" ++ analysis_engine.nl ++ "y = 2")
          ("x = 1" ++ analysis_engine.nl ++ analysis_engine.nl ++ "y = 2") None))
  = schemas.mkCodeDiff [""] [] [].
Proof. reflexivity. Qed.

(* ===================================================================== *)
(** ** The stages of [analyze_code] *)
(* ===================================================================== *)

Section stages.

Context {W : Type}.
Variable client : ai_client.AIClient W.
Variable ast_parse : string -> ast.parse_result.
Variable ast_unparse : ast.node -> string.

(** [analyze_code] by its stages: language, first validation, the attempt
    at a correction and the second validation, metrics. *)
Lemma analyze_code_stages (code : string) (language : option string) (w : W) :
  analysis_engine.analyze_code client ast_parse ast_unparse code language w
  = let '(lang, conf, w1) := resolve_language client code language w in
    let validation := validators.validate_code ast_parse lang code in
    if validators.valid validation
    then final_metrics client ast_parse ast_unparse lang conf true code false w1
    else
      let '(corrected, w2) :=
        analysis_engine.attempt_auto_correction client lang code w1 in
      if validators.valid (validators.validate_code ast_parse lang corrected)
      then final_metrics client ast_parse ast_unparse lang conf false corrected true w2
      else (analysis_engine._syntax_error_response (Some lang) conf false false
              None (first_validation_message validation), w2).
Proof.
  unfold analysis_engine.analyze_code, Async.bind.
  fold (resolve_language client code language).
  destruct (resolve_language client code language w) as [[lang conf] w1].
  destruct (validators.valid (validators.validate_code ast_parse lang code)) eqn:Hv;
    cbn [negb].
  - unfold Async.ret at 1. unfold final_metrics, Async.bind.
    destruct (analysis_engine._ai_suggestion_summary client code w1) as [s w2].
    destruct (_ w2) as [refined w3]. unfold Async.ret.
    destruct (analysis_engine._compute_risk _ _ _ _); reflexivity.
  - destruct (analysis_engine.attempt_auto_correction client lang code w1)
      as [corrected w2].
    destruct (validators.valid (validators.validate_code ast_parse lang corrected)).
    + unfold Async.ret at 1. unfold final_metrics, Async.bind.
      destruct (analysis_engine._ai_suggestion_summary client corrected w2) as [s w3].
      destruct (_ w3) as [refined w4]. unfold Async.ret.
      destruct (analysis_engine._compute_risk _ _ _ _); reflexivity.
    + reflexivity.
Qed.

End stages.

(* ===================================================================== *)
(** ** The structural scorer *)
(* ===================================================================== *)

Lemma cyclomatic_at_least_one (code : string) :
  (1 <= analysis_engine._estimate_cyclomatic_complexity code)%Z.
Proof.
  unfold analysis_engine._estimate_cyclomatic_complexity.
  generalize (PyStr.lower code). intros lowered.
  assert (H : forall kws acc, (1 <= acc)%Z ->
    (1 <= fold_left
            (fun complexity kw => (complexity + Z.of_nat (PyStr.count kw lowered))%Z)
            kws acc)%Z).
  { induction kws as [|kw kws IH]; intros acc Hacc; simpl; [exact Hacc|].
    apply IH. lia. }
  apply H. lia.
Qed.

Lemma maintainability_bound (cyclomatic : Z) (code : string) :
  (1 <= cyclomatic)%Z ->
  (0 <= analysis_engine._estimate_maintainability cyclomatic code
   <= PyFloat.round64 (492 # 5))%Q.
Proof.
  intros Hc. unfold analysis_engine._estimate_maintainability.
  set (n := Z.max (Z.of_nat (length (PyStr.splitlines code))) 1).
  assert (Hn : (1 <= n)%Z) by (subst n; lia).
  apply of_Z_ge_1 in Hc, Hn.
  generalize dependent (PyFloat.of_Z cyclomatic). intros c Hc.
  generalize dependent (PyFloat.of_Z n). clear n. intros n Hn.
  unfold PyFloat.sub, PyFloat.mul.
  set (tenth := PyFloat.round64 (1 # 10)).
  assert (Htenth : (0 < tenth)%Q) by (vm_compute; reflexivity).
  assert (H1 : (3 # 2 <= PyFloat.round64 (c * (3 # 2)))%Q).
  { replace (3 # 2)%Q with (PyFloat.round64 (3 # 2)) at 1 by (vm_compute; reflexivity).
    apply round64_le. lra. }
  assert (H2 : (PyFloat.round64 (100 - PyFloat.round64 (c * (3 # 2))) <= 197 # 2)%Q).
  { replace (197 # 2)%Q with (PyFloat.round64 (100 - (3 # 2)))
      by (vm_compute; reflexivity).
    apply round64_le. lra. }
  assert (H3 : (tenth <= PyFloat.round64 (n * tenth))%Q).
  { replace tenth with (PyFloat.round64 tenth) at 1 by (vm_compute; reflexivity).
    apply round64_le. rewrite <- (Qmult_1_l tenth) at 1.
    apply Qmult_le_compat_r; [exact Hn | lra]. }
  apply max_bounds; [vm_compute; discriminate|]. apply min_le.
  replace (PyFloat.round64 (492 # 5)) with (PyFloat.round64 ((197 # 2) - tenth))
    by (vm_compute; reflexivity).
  apply round64_le. lra.
Qed.

(** The model of binary64 against the floats of the kernel: on every
    cyclomatic complexity up to 70 (beyond 66 the index is 0) and every
    line count up to 150, [_estimate_maintainability] is the value that the
    same operations give on the floats of the processor. *)
Example maintainability_binary64_agrees :
  forallb
    (fun c =>
       forallb
         (fun n =>
            match value_of_float (maintainability_binary64 c n) with
            | Some v => Qeq_bool v (maintainability_of_counts c n)
            | None => false
            end)
         (upto 150))
    (upto 70)
  = true.
Proof. vm_compute. reflexivity. Qed.

Lemma maintainability_of_counts_eq (cyclomatic : Z) (code : string) :
  analysis_engine._estimate_maintainability cyclomatic code
  = maintainability_of_counts cyclomatic
      (Z.max (Z.of_nat (length (PyStr.splitlines code))) 1).
Proof.
  unfold analysis_engine._estimate_maintainability, maintainability_of_counts.
  reflexivity.
Qed.

Section pipeline_metrics.

Context {W : Type}.
Variable client : ai_client.AIClient W.
Variable ast_parse : string -> ast.parse_result.
Variable ast_unparse : ast.node -> string.

(** What [final_metrics] returns does not carry an error, and its structural
    metrics are those of the final code. *)
Lemma final_metrics_fields lang conf original_valid final_code was_corrected (w : W) :
  let r :=
    fst (final_metrics client ast_parse ast_unparse lang conf original_valid
           final_code was_corrected w) in
  analysis_engine.error r = None
  /\ analysis_engine.message r = None
  /\ analysis_engine.cyclomatic_complexity r
     = analysis_engine._estimate_cyclomatic_complexity final_code
  /\ analysis_engine.maintainability r
     = analysis_engine._estimate_maintainability
         (analysis_engine._estimate_cyclomatic_complexity final_code) final_code
  /\ analysis_engine.original_valid r = original_valid
  /\ analysis_engine.was_corrected r = was_corrected.
Proof.
  unfold final_metrics, Async.bind.
  destruct (analysis_engine._ai_suggestion_summary client final_code w) as [s w1].
  destruct (_ w1) as [refined w2]. cbn. repeat split.
Qed.

End pipeline_metrics.

(** C10: the cyclomatic complexity is at least 1 and the line count is taken
    as at least 1, so the maintainability index is at most the float that
    100.0 - 1.5 - 0.1 gives, which is the double written 98.4 (and it is at
    least 0), for the estimator on its own and for every result of the
    pipeline; the text "x = 1" reaches it.  That double is the nearest to
    98.4, above it by 1/(5 * 2^45), and below 100. *)
Theorem maintainability_at_most_98_4 :
  (forall code,
      (1 <= analysis_engine._estimate_cyclomatic_complexity code)%Z
      /\ (0 <= analysis_engine._estimate_maintainability
                 (analysis_engine._estimate_cyclomatic_complexity code) code)%Q
      /\ (analysis_engine._estimate_maintainability
            (analysis_engine._estimate_cyclomatic_complexity code) code
          <= PyFloat.round64 (492 # 5))%Q)
  /\ (forall (W : Type) (client : ai_client.AIClient W) ast_parse ast_unparse
             code language (w : W),
      (analysis_engine.maintainability
         (fst (analysis_engine.analyze_code client ast_parse ast_unparse
                 code language w)) <= PyFloat.round64 (492 # 5))%Q)
  /\ analysis_engine._estimate_maintainability
       (analysis_engine._estimate_cyclomatic_complexity "x = 1") "x = 1"
     = PyFloat.round64 (492 # 5)
  /\ (PyFloat.round64 (492 # 5) == (492 # 5) + (1 # (5 * 2 ^ 45)))%Q
  /\ (PyFloat.round64 (492 # 5) < 100)%Q.
Proof.
  split; [|split; [|split; [|split]]].
  - intros code. split; [apply cyclomatic_at_least_one|].
    apply maintainability_bound, cyclomatic_at_least_one.
  - intros W client ast_parse ast_unparse code language w.
    rewrite analyze_code_stages.
    destruct (resolve_language client code language w) as [[lang conf] w1].
    cbv zeta.
    destruct (validators.valid (validators.validate_code ast_parse lang code)).
    + destruct (final_metrics_fields client ast_parse ast_unparse lang conf true
                  code false w1) as (_ & _ & _ & -> & _).
      apply maintainability_bound, cyclomatic_at_least_one.
    + destruct (analysis_engine.attempt_auto_correction client lang code w1)
        as [corrected w2].
      destruct (validators.valid (validators.validate_code ast_parse lang corrected)).
      * destruct (final_metrics_fields client ast_parse ast_unparse lang conf false
                    corrected true w2) as (_ & _ & _ & -> & _).
        apply maintainability_bound, cyclomatic_at_least_one.
      * cbn. vm_compute. discriminate.
  - vm_compute. reflexivity.
  - vm_compute. reflexivity.
  - vm_compute. reflexivity.
Qed.

(* ===================================================================== *)
(** ** The correction loop *)
(* ===================================================================== *)

Section correction_loop.

Context {W : Type}.
Variable client : ai_client.AIClient W.
Variable ast_parse : string -> ast.parse_result.
Variable ast_unparse : ast.node -> string.

Lemma analyze_code_invalid code language w :
  invalid_after_correction client ast_parse code language w ->
  analysis_engine.analyze_code client ast_parse ast_unparse code language w
  = (analysis_engine._syntax_error_response
       (Some (resolved_language client code language w))
       (resolved_confidence client code language w) false false None
       (first_validation_message (first_validation client ast_parse code language w)),
     snd (correction client code language w)).
Proof.
  intros [H1 H2]. rewrite analyze_code_stages.
  unfold first_validation, second_validation, correction, resolved_language,
    resolved_confidence, resolved in *.
  destruct (resolve_language client code language w) as [[lang conf] w1].
  cbn [fst snd] in *. cbv zeta. rewrite H1.
  destruct (analysis_engine.attempt_auto_correction client lang code w1)
    as [corrected w2].
  cbn [fst snd] in *. now rewrite H2.
Qed.

Lemma analyze_code_valid code language w :
  ~ invalid_after_correction client ast_parse code language w ->
  let r :=
    fst (analysis_engine.analyze_code client ast_parse ast_unparse code language w) in
  analysis_engine.error r = None
  /\ validators.valid
       (validators.validate_code ast_parse (resolved_language client code language w)
          (final_code client ast_parse code language w)) = true
  /\ analysis_engine.cyclomatic_complexity r
     = analysis_engine._estimate_cyclomatic_complexity (final_code client ast_parse code language w)
  /\ analysis_engine.maintainability r
     = analysis_engine._estimate_maintainability
         (analysis_engine._estimate_cyclomatic_complexity (final_code client ast_parse code language w))
         (final_code client ast_parse code language w).
Proof.
  intros Hnot. cbv zeta. rewrite analyze_code_stages.
  unfold invalid_after_correction, final_code, first_validation, second_validation,
    correction, resolved_language, resolved_confidence, resolved in *.
  destruct (resolve_language client code language w) as [[lang conf] w1].
  cbn [fst snd] in *. cbv zeta.
  destruct (validators.valid (validators.validate_code ast_parse lang code)) eqn:H1.
  - destruct (final_metrics_fields client ast_parse ast_unparse lang conf true
                code false w1) as (He & _ & Hc & Hm & _).
    now rewrite He, Hc, Hm, H1.
  - destruct (analysis_engine.attempt_auto_correction client lang code w1)
      as [corrected w2].
    cbn [fst snd] in *.
    destruct (validators.valid (validators.validate_code ast_parse lang corrected))
      eqn:H2.
    + destruct (final_metrics_fields client ast_parse ast_unparse lang conf false
                  corrected true w2) as (He & _ & Hc & Hm & _).
      now rewrite He, Hc, Hm.
    + exfalso. apply Hnot. now split.
Qed.

(** The empty text with a candidate that passes the validation. *)
Lemma empty_code_corrected language w :
  validators.valid (second_validation client ast_parse "" language w) = true ->
  let r :=
    fst (analysis_engine.analyze_code client ast_parse ast_unparse "" language w) in
  let candidate := fst (correction client "" language w) in
  analysis_engine.error r = None
  /\ analysis_engine.original_valid r = false
  /\ analysis_engine.was_corrected r = true
  /\ analysis_engine.cyclomatic_complexity r
     = analysis_engine._estimate_cyclomatic_complexity candidate
  /\ analysis_engine.maintainability r
     = analysis_engine._estimate_maintainability
         (analysis_engine._estimate_cyclomatic_complexity candidate) candidate.
Proof.
  intros H2. cbv zeta. rewrite analyze_code_stages.
  unfold second_validation, correction, resolved_language, resolved in *.
  destruct (resolve_language client "" language w) as [[lang conf] w1].
  cbn [fst snd] in *. cbv zeta.
  replace (validators.valid (validators.validate_code ast_parse lang ""))
    with false by reflexivity.
  destruct (analysis_engine.attempt_auto_correction client lang "" w1)
    as [corrected w2].
  cbn [fst snd] in *. rewrite H2.
  destruct (final_metrics_fields client ast_parse ast_unparse lang conf false
              corrected true w2) as (He & _ & Hc & Hm & Ho & Hw).
  now rewrite He, Hc, Hm, Ho, Hw.
Qed.

End correction_loop.

(* ===================================================================== *)
(** ** The stub client *)
(* ===================================================================== *)

(** The marker of the stub survives [lower] and [strip]. *)
Lemma stub_marker_kept (rest : string) :
  let reply := "(stubbed AI) You said: " ++ rest in
  PyStr.contains "stubbed ai" (PyStr.lower reply) = true
  /\ PyStr.contains "stubbed ai" (PyStr.strip (PyStr.lower reply)) = true.
Proof.
  cbv zeta.
  change (PyStr.lower ("(stubbed AI) You said: " ++ rest))
    with ("(stubbed ai" ++ String ")" (" you said: " ++ PyStr.lower rest)).
  split; [reflexivity|].
  unfold PyStr.strip. rewrite rstrip_app_nonspace by reflexivity. reflexivity.
Qed.

Section stub.

Variable W : Type.

Lemma stub_attempt_auto_correction (lang code : string) (w : W) :
  analysis_engine.attempt_auto_correction (ai_client.StubAIClient W) lang code w
  = (code, w).
Proof.
  unfold analysis_engine.attempt_auto_correction, Async.bind.
  cbn [ai_client.chat ai_client.StubAIClient].
  match goal with
  | |- context [PyStr.lower ("(stubbed AI) You said: " ++ ?rest)] =>
      rewrite (proj1 (stub_marker_kept rest))
  end.
  reflexivity.
Qed.

Lemma stub_detect_language_via_ai (code fallback : string) (conf : Q) (w : W) :
  analysis_engine._detect_language_via_ai (ai_client.StubAIClient W) code fallback
    conf w
  = (analysis_engine.str_or fallback "generic", conf, w).
Proof.
  unfold analysis_engine._detect_language_via_ai, Async.bind.
  cbn [ai_client.chat ai_client.StubAIClient].
  match goal with
  | |- context [PyStr.lower ("(stubbed AI) You said: " ++ ?rest)] =>
      rewrite (proj2 (stub_marker_kept rest))
  end.
  reflexivity.
Qed.

(** With the stub client the empty text is invalid at both validations,
    whatever language is asked for. *)
Lemma stub_empty_invalid ast_parse (language : option string) (w : W) :
  invalid_after_correction (ai_client.StubAIClient W) ast_parse "" language w.
Proof.
  unfold invalid_after_correction, second_validation, correction.
  rewrite stub_attempt_auto_correction. cbn [fst].
  unfold first_validation. split; reflexivity.
Qed.

End stub.

(* ===================================================================== *)
(** ** Clients that answer by a function of the request *)
(* ===================================================================== *)

Lemma stub_is_pure (W : Type) :
  ai_client.StubAIClient W = pure_client W stub_chat_reply stub_json_reply.
Proof. reflexivity. Qed.

Lemma stateless_ret {W A : Type} (a : A) : stateless (@Async.ret W A a).
Proof. now exists a. Qed.

Lemma stateless_bind {W A B : Type} (m : Async.M W A) (k : A -> Async.M W B) :
  stateless m -> (forall a, stateless (k a)) -> stateless (Async.bind m k).
Proof.
  intros [a Ha] Hk. destruct (Hk a) as [b Hb]. exists b. intros w.
  unfold Async.bind. now rewrite Ha, Hb.
Qed.

(** Take the cases of the condition of the computation at hand. *)
Ltac by_condition :=
  cbv beta zeta;
  match goal with
  | |- stateless (if ?b then _ else _) => destruct b
  | |- stateless (match ?o with Some _ => _ | None => _ end) => destruct o
  end.

Section deterministic.

Variable W : Type.
Variable chat_reply : string -> option string -> string.
Variable json_reply :
  string -> string -> gmap string ai_client.json -> gmap string ai_client.json.
Variable ast_parse : string -> ast.parse_result.
Variable ast_unparse : ast.node -> string.

Local Abbreviation client := (pure_client W chat_reply json_reply).

Lemma stateless_chat prompt context :
  stateless (ai_client.chat client prompt context).
Proof. now exists (chat_reply prompt context). Qed.

Lemma stateless_openai_json system_prompt user_prompt hint :
  stateless (ai_client.openai_json client system_prompt user_prompt hint).
Proof. now exists (json_reply system_prompt user_prompt hint). Qed.

Lemma stateless_attempt_auto_correction lang code :
  stateless (analysis_engine.attempt_auto_correction client lang code).
Proof.
  apply stateless_bind; [apply stateless_chat|].
  intros reply. by_condition; apply stateless_ret.
Qed.

Lemma stateless_detect_language_via_ai code fallback conf :
  stateless (analysis_engine._detect_language_via_ai client code fallback conf).
Proof.
  apply stateless_bind; [apply stateless_chat|].
  intros reply. by_condition; [apply stateless_ret|].
  by_condition; apply stateless_ret.
Qed.

Lemma stateless_refine code time_c space_c :
  stateless
    (analysis_engine._refine_python_complexity_with_gemini client code time_c space_c).
Proof.
  apply stateless_bind; [apply stateless_openai_json|].
  intros result. by_condition; apply stateless_ret.
Qed.

Lemma stateless_resolve_language code language :
  stateless (resolve_language client code language).
Proof.
  unfold resolve_language.
  by_condition; [apply stateless_detect_language_via_ai | apply stateless_ret].
Qed.

Lemma stateless_final_metrics lang conf original_valid final_code was_corrected :
  stateless
    (final_metrics client ast_parse ast_unparse lang conf original_valid final_code
       was_corrected).
Proof.
  apply stateless_bind; [apply stateless_chat|]. intros summary.
  apply stateless_bind.
  - by_condition; [apply stateless_refine | apply stateless_ret].
  - intros refined. apply stateless_ret.
Qed.

(** With such a client [analyze_code] is a function of the code and of the
    language asked for. *)
Lemma stateless_analyze_code code language :
  stateless (analysis_engine.analyze_code client ast_parse ast_unparse code language).
Proof.
  destruct (stateless_resolve_language code language) as [[lang conf] Hr].
  destruct (stateless_final_metrics lang conf true code false) as [r1 H1].
  destruct (stateless_attempt_auto_correction lang code) as [corrected Hc].
  destruct (stateless_final_metrics lang conf false corrected true) as [r2 H2].
  eexists. intros w. rewrite analyze_code_stages, Hr. cbv zeta.
  rewrite H1, Hc, H2.
  instantiate (1 :=
    if validators.valid (validators.validate_code ast_parse lang code) then r1
    else if validators.valid (validators.validate_code ast_parse lang corrected)
         then r2
         else analysis_engine._syntax_error_response (Some lang) conf false false
                None
                (first_validation_message
                   (validators.validate_code ast_parse lang code))).
  destruct (validators.valid (validators.validate_code ast_parse lang code));
    [reflexivity|].
  destruct (validators.valid (validators.validate_code ast_parse lang corrected));
    reflexivity.
Qed.

End deterministic.

(** C3, amended: with a client that answers by a function of the request,
    and both sides analyzed without error, the two calls compare the same
    two analyses, exchange the metrics of the sides and negate the deltas;
    when the sides differ in risk score, cyclomatic complexity or rank of
    the label, the verdict of the second call is the other label, that is
    the same version; when they tie on all three, both calls answer A. *)
Theorem compare_codes_mirrored (W : Type)
    (chat_reply : string -> option string -> string)
    (json_reply : string -> string -> gmap string ai_client.json
                  -> gmap string ai_client.json)
    (ast_parse : string -> ast.parse_result) (ast_unparse : ast.node -> string)
    (code_a code_b : string) (language : option string) (w : W) :
  let client := pure_client W chat_reply json_reply in
  let a :=
    fst (analysis_engine.analyze_code client ast_parse ast_unparse code_a language w) in
  let b :=
    fst (analysis_engine.analyze_code client ast_parse ast_unparse code_b language w) in
  analysis_engine.error a = None ->
  analysis_engine.error b = None ->
  fst (compare.compare_codes client ast_parse ast_unparse code_a code_b language w)
  = compare.compare_results a b
  /\ fst (compare.compare_codes client ast_parse ast_unparse code_b code_a language w)
     = compare.compare_results b a
  /\ mirrored a b.
Proof.
  cbv zeta. intros Ha Hb.
  destruct (stateless_analyze_code W chat_reply json_reply ast_parse ast_unparse
              code_a language) as [ra Hra].
  destruct (stateless_analyze_code W chat_reply json_reply ast_parse ast_unparse
              code_b language) as [rb Hrb].
  rewrite Hra in Ha |- *. rewrite Hrb in Hb |- *. cbn [fst] in Ha, Hb |- *.
  unfold compare.compare_codes, Async.bind, Async.ret.
  split; [now rewrite Hra, Hrb|]. split; [now rewrite Hrb, Hra|].
  now apply compare_results_mirrored.
Qed.

(** C3, the theorem at a flat snippet and a nested loop, with the stub
    client. *)
Lemma compare_codes_mirrored_witness :
  let client := pure_client unit stub_chat_reply stub_json_reply in
  let code_a := "x = 1" in
  let code_b :=
    "for i in xs:" ++ analysis_engine.nl ++ "  for j in ys:"
    ++ analysis_engine.nl ++ "    total += i * j" in
  let a :=
    fst (analysis_engine.analyze_code client reject_all unparse_blank code_a
           (Some "generic") tt) in
  let b :=
    fst (analysis_engine.analyze_code client reject_all unparse_blank code_b
           (Some "generic") tt) in
  analysis_engine.error a = None
  /\ analysis_engine.error b = None
  /\ fst (compare.compare_codes client reject_all unparse_blank code_a code_b
            (Some "generic") tt)
     = compare.compare_results a b
  /\ fst (compare.compare_codes client reject_all unparse_blank code_b code_a
            (Some "generic") tt)
     = compare.compare_results b a
  /\ mirrored a b.
Proof.
  intros client code_a code_b a b.
  split; [reflexivity|]. split; [reflexivity|].
  apply (compare_codes_mirrored unit stub_chat_reply stub_json_reply reject_all
           unparse_blank code_a code_b (Some "generic") tt); reflexivity.
Defined.

(* ===================================================================== *)
(** ** Code that stays invalid *)
(* ===================================================================== *)

Lemma invalid_has_message ast_parse (language code : string) :
  validators.valid (validators.validate_code ast_parse language code) = false ->
  exists msg,
    validators.error (validators.validate_code ast_parse language code) = Some msg.
Proof.
  unfold validators.validate_code.
  repeat match goal with
         | |- context [if ?b then _ else _] => destruct b
         | |- context [match ast_parse ?c with _ => _ end] => destruct (ast_parse c)
         end; cbn; intros H; try discriminate H; eexists; reflexivity.
Qed.

(** C8, counterexample: the empty text fails the first validation, and a
    client that answers the request for a correction with "x = 1" makes
    the pipeline go on with that text: the result carries no error, says
    that the code was corrected, and holds the metrics of "x = 1". *)
Lemma empty_code_gets_metrics :
  let client := scripted_client "x = 1" in
  let r :=
    fst (analysis_engine.analyze_code client reject_all unparse_blank ""
           (Some "generic") tt) in
  first_validation client reject_all "" (Some "generic") tt
  = validators.mkValidationResult false (Some "Empty code")
  /\ ~ invalid_after_correction client reject_all "" (Some "generic") tt
  /\ analysis_engine.error r = None
  /\ analysis_engine.message r = None
  /\ analysis_engine.original_valid r = false
  /\ analysis_engine.was_corrected r = true
  /\ analysis_engine.corrected_code r = Some "x = 1"
  /\ analysis_engine.big_o r = "O(1)"
  /\ analysis_engine.cyclomatic_complexity r = 1%Z
  /\ analysis_engine.maintainability r = PyFloat.round64 (492 # 5)
  /\ analysis_engine.risk_score r = 0%Z
  /\ analysis_engine.risk_level r = "Low".
Proof.
  cbv zeta. split; [reflexivity|]. split.
  - intros [_ H]. vm_compute in H. discriminate H.
  - vm_compute. repeat split.
Qed.

(** C8, amended: when both validations fail, what [analyze_code] returns is
    the structured error with the neutral metrics (N/A, 0, 0, 0) and the
    kind SyntaxError, and the client is not called again after the attempt
    at a correction; otherwise the result carries no error and its metrics
    are those of code that passed validation.  The empty text always fails
    the first validation, with the message "Empty code"; it ends in the
    error, with that message, exactly when the candidate that the client
    returns is invalid too, and else in a result without error that is
    marked as corrected.  With the stub client, which returns the code as
    it is, the empty text ends in the error. *)
Theorem invalid_code_gets_no_metrics
    (W : Type) (client : ai_client.AIClient W)
    (ast_parse : string -> ast.parse_result) (ast_unparse : ast.node -> string)
    (code : string) (language : option string) (w : W) :
  let outcome :=
    analysis_engine.analyze_code client ast_parse ast_unparse code language w in
  let r := fst outcome in
  (invalid_after_correction client ast_parse code language w ->
     analysis_engine.error r = Some "SyntaxError"
     /\ analysis_engine.big_o r = "N/A"
     /\ analysis_engine.cyclomatic_complexity r = 0%Z
     /\ analysis_engine.maintainability r = 0%Q
     /\ analysis_engine.risk_score r = 0%Z
     /\ analysis_engine.risk_level r = "Unknown"
     /\ analysis_engine.complexity_trend r = "unknown"
     /\ analysis_engine.security_summary r = ""
     /\ analysis_engine.ai_summary r = ""
     /\ analysis_engine.time_complexity r = None
     /\ analysis_engine.space_complexity r = None
     /\ analysis_engine.was_corrected r = false
     /\ analysis_engine.corrected_code r = None
     /\ snd outcome = snd (correction client code language w))
  /\ (~ invalid_after_correction client ast_parse code language w ->
      analysis_engine.error r = None
      /\ validators.valid
           (validators.validate_code ast_parse
              (resolved_language client code language w)
              (final_code client ast_parse code language w)) = true
      /\ analysis_engine.cyclomatic_complexity r
         = analysis_engine._estimate_cyclomatic_complexity
             (final_code client ast_parse code language w)
      /\ analysis_engine.maintainability r
         = analysis_engine._estimate_maintainability
             (analysis_engine._estimate_cyclomatic_complexity
                (final_code client ast_parse code language w))
             (final_code client ast_parse code language w))
  /\ (let r0 :=
        fst (analysis_engine.analyze_code client ast_parse ast_unparse "" language w) in
      let candidate := fst (correction client "" language w) in
      first_validation client ast_parse "" language w
      = validators.mkValidationResult false (Some "Empty code")
      /\ (validators.valid (second_validation client ast_parse "" language w) = false
          <-> analysis_engine.error r0 = Some "SyntaxError")
      /\ (validators.valid (second_validation client ast_parse "" language w) = false ->
          analysis_engine.message r0 = Some "Empty code"
          /\ analysis_engine.big_o r0 = "N/A"
          /\ analysis_engine.cyclomatic_complexity r0 = 0%Z
          /\ analysis_engine.maintainability r0 = 0%Q
          /\ analysis_engine.risk_score r0 = 0%Z
          /\ analysis_engine.was_corrected r0 = false)
      /\ (validators.valid (second_validation client ast_parse "" language w) = true ->
          analysis_engine.error r0 = None
          /\ analysis_engine.original_valid r0 = false
          /\ analysis_engine.was_corrected r0 = true
          /\ analysis_engine.cyclomatic_complexity r0
             = analysis_engine._estimate_cyclomatic_complexity candidate
          /\ analysis_engine.maintainability r0
             = analysis_engine._estimate_maintainability
                 (analysis_engine._estimate_cyclomatic_complexity candidate)
                 candidate))
  /\ (let stub := ai_client.StubAIClient W in
      let r0 :=
        fst (analysis_engine.analyze_code stub ast_parse ast_unparse "" language w) in
      invalid_after_correction stub ast_parse "" language w
      /\ analysis_engine.error r0 = Some "SyntaxError"
      /\ analysis_engine.message r0 = Some "Empty code"
      /\ analysis_engine.big_o r0 = "N/A"
      /\ analysis_engine.cyclomatic_complexity r0 = 0%Z
      /\ analysis_engine.maintainability r0 = 0%Q
      /\ analysis_engine.risk_score r0 = 0%Z).
Proof.
  cbv zeta. split; [|split; [|split]].
  - intros H. rewrite (analyze_code_invalid _ _ ast_unparse _ _ _ H). cbn.
    repeat split.
  - intros H. exact (analyze_code_valid client ast_parse ast_unparse code language w H).
  - assert (H1 : first_validation client ast_parse "" language w
                 = validators.mkValidationResult false (Some "Empty code"))
      by reflexivity.
    split; [exact H1|].
    assert (Hinvalid :
      validators.valid (second_validation client ast_parse "" language w) = false ->
      invalid_after_correction client ast_parse "" language w).
    { intros H2. split; [now rewrite H1 | exact H2]. }
    assert (Hvalid :
      validators.valid (second_validation client ast_parse "" language w) = true ->
      ~ invalid_after_correction client ast_parse "" language w).
    { intros H2 [_ H3]. congruence. }
    split; [split|split].
    + intros H2. now rewrite (analyze_code_invalid _ _ ast_unparse _ _ _ (Hinvalid H2)).
    + intros He.
      destruct (validators.valid (second_validation client ast_parse "" language w))
        eqn:H2; [|reflexivity].
      destruct (analyze_code_valid client ast_parse ast_unparse "" language w
                  (Hvalid eq_refl)) as [Hnone _].
      cbv zeta in Hnone. congruence.
    + intros H2. rewrite (analyze_code_invalid _ _ ast_unparse _ _ _ (Hinvalid H2)).
      rewrite H1. cbn. repeat split.
    + intros H2. apply empty_code_corrected. exact H2.
  - split; [apply stub_empty_invalid|].
    rewrite (analyze_code_invalid _ _ ast_unparse _ _ _
               (stub_empty_invalid W ast_parse language w)).
    cbn. repeat split.
Qed.

(* ===================================================================== *)
(** ** The message of the structured error *)
(* ===================================================================== *)

(** C2, counterexample: JavaScript "(" fails the first validation on its
    brackets; the client answers with a lone quote, which fails the second
    validation on its quotes; the result carries the message of the first
    validation. *)
Lemma error_message_is_not_the_second :
  let client := scripted_client "'" in
  let r :=
    fst (analysis_engine.analyze_code client reject_all unparse_blank "("
           (Some "javascript") tt) in
  validators.error (first_validation client reject_all "(" (Some "javascript") tt)
  = Some "Unbalanced brackets/braces"
  /\ validators.error (second_validation client reject_all "(" (Some "javascript") tt)
     = Some "Unbalanced quotes"
  /\ analysis_engine.error r = Some "SyntaxError"
  /\ analysis_engine.message r = Some "Unbalanced brackets/braces"
  /\ analysis_engine.message r
     <> validators.error
          (second_validation client reject_all "(" (Some "javascript") tt).
Proof.
  vm_compute. repeat split. discriminate.
Qed.

(** C2, amended: when both validations fail, the result has the kind
    SyntaxError and its message is the message of the first validation, of
    the code as submitted (the text "Code is invalid even after correction."
    when that message is empty). *)
Theorem error_message_is_the_first
    (W : Type) (client : ai_client.AIClient W)
    (ast_parse : string -> ast.parse_result) (ast_unparse : ast.node -> string)
    (code : string) (language : option string) (w : W) :
  invalid_after_correction client ast_parse code language w ->
  let r :=
    fst (analysis_engine.analyze_code client ast_parse ast_unparse code language w) in
  analysis_engine.error r = Some "SyntaxError"
  /\ exists msg,
      validators.error (first_validation client ast_parse code language w) = Some msg
      /\ analysis_engine.message r
         = Some (if PyStr.truthy msg then msg
                 else "Code is invalid even after correction.").
Proof.
  intros H. cbv zeta. rewrite (analyze_code_invalid _ _ ast_unparse _ _ _ H).
  cbn [fst]. split; [reflexivity|].
  destruct H as [H1 _].
  destruct (invalid_has_message _ _ _ H1) as [msg Hmsg].
  exists msg. split; [exact Hmsg|].
  cbn. unfold first_validation_message, first_validation. now rewrite Hmsg.
Qed.

(** C2, the theorem at JavaScript "(" and a client that answers with a
    lone quote. *)
Lemma error_message_is_the_first_witness :
  let client := scripted_client "'" in
  let r :=
    fst (analysis_engine.analyze_code client reject_all unparse_blank "("
           (Some "javascript") tt) in
  invalid_after_correction client reject_all "(" (Some "javascript") tt
  /\ analysis_engine.error r = Some "SyntaxError"
  /\ exists msg,
      validators.error (first_validation client reject_all "(" (Some "javascript") tt)
      = Some msg
      /\ analysis_engine.message r
         = Some (if PyStr.truthy msg then msg
                 else "Code is invalid even after correction.").
Proof.
  intros client r.
  assert (H : invalid_after_correction client reject_all "(" (Some "javascript") tt)
    by (split; reflexivity).
  split; [exact H|].
  exact (error_message_is_the_first unit client reject_all unparse_blank "("
           (Some "javascript") tt H).
Defined.

(* ===================================================================== *)
(** ** A side that stays invalid, in a comparison *)
(* ===================================================================== *)

(** [analyze_code] never returns the error kind [compare_codes] tests for. *)
Lemma analyze_code_no_compilation_error
    (W : Type) (client : ai_client.AIClient W)
    (ast_parse : string -> ast.parse_result) (ast_unparse : ast.node -> string)
    (code : string) (language : option string) (w : W) :
  compare.is_compilation_error
    (fst (analysis_engine.analyze_code client ast_parse ast_unparse code language w))
  = false.
Proof.
  unfold compare.is_compilation_error.
  destruct (validators.valid (first_validation client ast_parse code language w))
    eqn:H1;
    [|destruct (validators.valid (second_validation client ast_parse code language w))
        eqn:H2].
  - destruct (analyze_code_valid client ast_parse ast_unparse code language w)
      as [He _]; [intros [H _]; congruence|]. now rewrite He.
  - destruct (analyze_code_valid client ast_parse ast_unparse code language w)
      as [He _]; [intros [_ H]; congruence|]. now rewrite He.
  - rewrite (analyze_code_invalid client ast_parse ast_unparse code language w);
      [reflexivity | now split].
Qed.

(** C1, what the code does instead: [compare_codes] looks for the error kind
    "CompilationError", and [analyze_code] reports a side that stays invalid
    with the kind "SyntaxError".  So no comparison returns the error result:
    every one carries a verdict, notes and a metrics table.  With the stub
    client, the empty text against "x = 1" gives the verdict A, three notes
    and the table of the neutral metrics of the error against the metrics
    of "x = 1". *)
Theorem compare_codes_compares_invalid_sides :
  (forall (W : Type) (client : ai_client.AIClient W) ast_parse ast_unparse
          code_a code_b language (w : W),
      let r :=
        fst (compare.compare_codes client ast_parse ast_unparse code_a code_b
               language w) in
      compare.error r = None
      /\ compare.better_version r <> None
      /\ compare.improvement_notes r <> None
      /\ compare.metrics_comparison r <> None)
  /\ (let client := ai_client.StubAIClient unit in
      let r :=
        fst (compare.compare_codes client reject_all unparse_blank "" "x = 1"
               (Some "generic") tt) in
      invalid_after_correction client reject_all "" (Some "generic") tt
      /\ compare.error r = None
      /\ compare.message r = None
      /\ compare.better_version r = Some "A"
      /\ compare.improvement_notes r
         = Some [ "Big‑O: N/A → O(1) (better: A).";
                  "Cyclomatic complexity: 0 → 1 (increased, worse; better: A).";
                  "Risk score: no change (0)." ]
      /\ compare.metrics_comparison r
         = Some (compare.mkMetricsComparison
                   (compare.mkSideMetrics "N/A" 0 0 0 "Unknown")
                   (compare.mkSideMetrics "O(1)" 1 (PyFloat.round64 (492 # 5)) 0 "Low")
                   (compare.mkDelta 1 0))).
Proof.
  split.
  - intros W client ast_parse ast_unparse code_a code_b language w. cbv zeta.
    unfold compare.compare_codes, Async.bind.
    pose proof (analyze_code_no_compilation_error W client ast_parse ast_unparse
                  code_a language w) as Ha.
    destruct (analysis_engine.analyze_code client ast_parse ast_unparse code_a
                language w) as [a w1].
    pose proof (analyze_code_no_compilation_error W client ast_parse ast_unparse
                  code_b language w1) as Hb.
    destruct (analysis_engine.analyze_code client ast_parse ast_unparse code_b
                language w1) as [b w2].
    cbn [fst] in *. unfold Async.ret, compare.compare_results. cbn [fst].
    rewrite Ha, Hb. cbn. repeat split; discriminate.
  - cbv zeta. split; [split; reflexivity|].
    vm_compute. repeat split.
Qed.

(* ===================================================================== *)
(** ** The syntax validator *)
(* ===================================================================== *)

(** *** Brackets *)









(** *** Blank text and quotes *)



(** *** The rules in their order *)






(* ===================================================================== *)
(** ** The time-complexity estimate of Python code *)
(* ===================================================================== *)

(** *** What the visitor computes *)

Section visitor.

Variable ast_unparse : ast.node -> string.

Local Abbreviation visit := (analysis_engine.complexity_visit ast_unparse).

Lemma walk_is_visit_children (cs : list ast.node) :
  forall self,
    (fix walk (children : list ast.node) (self : analysis_engine.ComplexityVisitor) :=
       match children with
       | [] => self
       | child :: rest => walk rest (visit child self)
       end) cs self
    = visit_children ast_unparse cs self.
Proof.
  induction cs as [|c cs IH]; intros self; [reflexivity|]. cbn. apply IH.
Qed.

Lemma max_of_nonneg (xs : list Z) : (0 <= max_of xs)%Z.
Proof.
  unfold max_of. induction xs as [|x xs IH]; cbn [fold_right]; lia.
Qed.

Lemma loop_nesting_nonneg (n : ast.node) : (0 <= loop_nesting n)%Z.
Proof.
  destruct n; cbn [loop_nesting];
    try match goal with
        | |- context [max_of ?l] => pose proof (max_of_nonneg l)
        end; lia.
Qed.

Lemma advanced_bounded depth log own inner self self' :
  depth_bounded self -> advanced depth log own inner self self' ->
  depth_bounded self'.
Proof.
  unfold depth_bounded. intros H (Hd & Hm & _). rewrite Hd, Hm. lia.
Qed.

Lemma visit_children_summarises (cs : list ast.node) :
  List.Forall (summarises ast_unparse) cs ->
  forall self,
    depth_bounded self ->
    advanced (max_of (map loop_nesting cs))
      (existsb (has_log_while ast_unparse) cs)
      (fun f => sum_of (map (own_calls f) cs))
      (fun f => sum_of (map (counted f) cs))
      self (visit_children ast_unparse cs self).
Proof.
  induction 1 as [|c cs Hc _ IH]; intros self Hb.
  - unfold advanced. cbn. unfold depth_bounded in Hb.
    repeat split; try reflexivity.
    + lia.
    + now rewrite orb_false_r.
    + intros f. destruct (inside _ f); lia.
  - cbn [visit_children fold_left].
    pose proof (Hc self Hb) as H1.
    pose proof (advanced_bounded _ _ _ _ _ _ Hb H1) as Hb1.
    pose proof (IH (visit c self) Hb1) as H2.
    fold (visit_children ast_unparse cs (visit c self)).
    destruct H1 as (Hd1 & Hm1 & Hc1 & Hl1 & Hk1).
    destruct H2 as (Hd2 & Hm2 & Hc2 & Hl2 & Hk2).
    unfold advanced. cbn [map max_of sum_of existsb fold_right].
    fold (max_of (map loop_nesting cs)).
    repeat split.
    + congruence.
    + rewrite Hm2, Hm1, Hd1. lia.
    + congruence.
    + rewrite Hl2, Hl1. now rewrite orb_assoc.
    + intros f. rewrite Hk2, Hk1, Hc1.
      fold (sum_of (map (own_calls f) cs)). fold (sum_of (map (counted f) cs)).
      destruct (inside _ f); lia.
Qed.

Lemma count_in_setdefault0 (name : string) (d : gmap string Z) (f : string) :
  count_in (analysis_engine.setdefault0 name d) f = count_in d f.
Proof.
  unfold count_in, analysis_engine.setdefault0.
  destruct (d !! name) eqn:Hn; [reflexivity|].
  destruct (decide (name = f)) as [->|Hne].
  - now rewrite lookup_insert_eq, Hn.
  - now rewrite lookup_insert_ne.
Qed.

Lemma count_in_increment (cf : string) (d : gmap string Z) (f : string) :
  count_in (analysis_engine.increment cf d) f
  = (count_in d f + (if String.eqb cf f then 1 else 0))%Z.
Proof.
  unfold count_in, analysis_engine.increment.
  destruct (String.eqb_spec cf f) as [->|Hne].
  - now rewrite lookup_insert_eq.
  - rewrite lookup_insert_ne by exact Hne. lia.
Qed.

(** The visitor computes the summary of the tree it walks. *)
Lemma visit_summarises (n : ast.node) : (summarises ast_unparse) n.
Proof.
  induction n as [name cs IH|func cs IHf IH|id|cs IH|cs IH|cs IH|cs IH|cs IH|cs IH]
    using node_induction; intros self Hb.
  - (* FunctionDef *)
    cbn [analysis_engine.complexity_visit]. rewrite walk_is_visit_children.
    match goal with
    | |- context [visit_children ast_unparse cs ?s] => set (self1 := s)
    end.
    assert (Hb1 : depth_bounded self1) by exact Hb.
    destruct (visit_children_summarises cs IH self1 Hb1) as (Hd & Hm & Hc & Hl & Hk).
    unfold advanced. cbn [analysis_engine.loop_depth analysis_engine.max_loop_depth
      analysis_engine.current_func analysis_engine.has_log_loop
      analysis_engine.self_calls_per_func loop_nesting has_log_while own_calls counted].
    repeat split; try assumption.
    intros f. rewrite Hk. subst self1.
    cbn [analysis_engine.self_calls_per_func analysis_engine.current_func inside].
    rewrite count_in_setdefault0.
    destruct (String.eqb_spec name f) as [->|Hne]; cbn [andb].
    + rewrite andb_true_r. destruct (inside _ f), (PyStr.truthy f); lia.
    + rewrite andb_false_r. destruct (inside _ f); lia.
  - (* Call *)
    cbn [analysis_engine.complexity_visit]. rewrite walk_is_visit_children.
    match goal with
    | |- context [visit func ?s] => set (self1 := s)
    end.
    assert (H1 : analysis_engine.loop_depth self1 = analysis_engine.loop_depth self
                 /\ analysis_engine.max_loop_depth self1
                    = analysis_engine.max_loop_depth self
                 /\ analysis_engine.current_func self1
                    = analysis_engine.current_func self
                 /\ analysis_engine.has_log_loop self1
                    = analysis_engine.has_log_loop self
                 /\ forall f,
                     count_in (analysis_engine.self_calls_per_func self1) f
                     = (count_in (analysis_engine.self_calls_per_func self) f
                        + (if inside (analysis_engine.current_func self) f
                           then match func with
                                | ast.Name id => if String.eqb id f then 1 else 0
                                | _ => 0
                                end
                           else 0))%Z).
    { subst self1. unfold analysis_engine.is_self_call, inside.
      destruct func as [| |id| | | | | |];
        try (repeat split; try reflexivity; intros f;
             destruct (analysis_engine.current_func self) as [g|];
             try destruct (PyStr.truthy g && String.eqb g f); lia).
      destruct (analysis_engine.current_func self) as [g|] eqn:Hg;
        [|repeat split; try reflexivity; try assumption; intros f; lia].
      destruct (PyStr.truthy g) eqn:Ht; cbn [andb];
        [|repeat split; try reflexivity; try assumption; intros f; lia].
      destruct (String.eqb_spec id g) as [->|Hne].
      - cbn [analysis_engine.loop_depth analysis_engine.max_loop_depth
          analysis_engine.current_func analysis_engine.has_log_loop
          analysis_engine.self_calls_per_func].
        repeat split; try assumption. intros f. rewrite count_in_increment.
        destruct (String.eqb g f); lia.
      - repeat split; try reflexivity; try assumption. intros f.
        destruct (String.eqb_spec g f) as [->|Hgf]; [|lia].
        destruct (String.eqb_spec id f); [contradiction | lia]. }
    destruct H1 as (Hd1 & Hm1 & Hc1 & Hl1 & Hk1).
    assert (Hb1 : depth_bounded self1)
      by (unfold depth_bounded in *; rewrite Hd1, Hm1; exact Hb).
    pose proof (IHf self1 Hb1) as H2.
    pose proof (advanced_bounded _ _ _ _ _ _ Hb1 H2) as Hb2.
    destruct (visit_children_summarises cs IH _ Hb2) as (Hd3 & Hm3 & Hc3 & Hl3 & Hk3).
    destruct H2 as (Hd2 & Hm2 & Hc2 & Hl2 & Hk2).
    unfold advanced. cbn [loop_nesting has_log_while own_calls counted].
    repeat split.
    + congruence.
    + rewrite Hm3, Hm2, Hd2, Hm1, Hd1. lia.
    + congruence.
    + rewrite Hl3, Hl2, Hl1. now rewrite orb_assoc.
    + intros f. rewrite Hk3, Hk2, Hk1, Hc2, Hc1.
      destruct (inside _ f); lia.
  - (* Name *)
    cbn [analysis_engine.complexity_visit]. unfold advanced, depth_bounded in *.
    cbn [loop_nesting has_log_while own_calls counted].
    repeat split; try lia.
    + now rewrite orb_false_r.
    + intros f. destruct (inside _ f); lia.
  - (* For *)
    cbn [analysis_engine.complexity_visit]. rewrite walk_is_visit_children.
    match goal with
    | |- context [visit_children ast_unparse cs ?s] => set (self1 := s)
    end.
    assert (Hb1 : depth_bounded self1)
      by (unfold depth_bounded in *; subst self1; cbn; lia).
    destruct (visit_children_summarises cs IH self1 Hb1) as (Hd & Hm & Hc & Hl & Hk).
    unfold advanced. cbn [analysis_engine.loop_depth analysis_engine.max_loop_depth
      analysis_engine.current_func analysis_engine.has_log_loop
      analysis_engine.self_calls_per_func loop_nesting has_log_while own_calls counted].
    pose proof (max_of_nonneg (map loop_nesting cs)).
    subst self1. cbn in Hd, Hm, Hc, Hl, Hk.
    repeat split; try assumption; try lia.
  - (* While *)
    cbn [analysis_engine.complexity_visit]. rewrite walk_is_visit_children.
    match goal with
    | |- context [visit_children ast_unparse cs ?s] => set (self1 := s)
    end.
    assert (Hb1 : depth_bounded self1)
      by (unfold depth_bounded in *; subst self1; cbn; lia).
    destruct (visit_children_summarises cs IH self1 Hb1) as (Hd & Hm & Hc & Hl & Hk).
    unfold advanced. cbn [analysis_engine.loop_depth analysis_engine.max_loop_depth
      analysis_engine.current_func analysis_engine.has_log_loop
      analysis_engine.self_calls_per_func loop_nesting has_log_while own_calls counted].
    pose proof (max_of_nonneg (map loop_nesting cs)).
    subst self1. cbn in Hd, Hm, Hc, Hl, Hk.
    repeat split; try assumption; try lia.
    rewrite Hl.
    destruct (analysis_engine.looks_logarithmic _), (analysis_engine.has_log_loop self);
      reflexivity.
  - cbn [analysis_engine.complexity_visit]. rewrite walk_is_visit_children.
    exact (visit_children_summarises cs IH self Hb).
  - cbn [analysis_engine.complexity_visit]. rewrite walk_is_visit_children.
    exact (visit_children_summarises cs IH self Hb).
  - cbn [analysis_engine.complexity_visit]. rewrite walk_is_visit_children.
    exact (visit_children_summarises cs IH self Hb).
  - cbn [analysis_engine.complexity_visit]. rewrite walk_is_visit_children.
    exact (visit_children_summarises cs IH self Hb).
Qed.

End visitor.

(** *** The visitor raises no [KeyError] *)

Section key_present.

Variable ast_unparse : ast.node -> string.

Local Abbreviation visit := (analysis_engine.complexity_visit ast_unparse).

Lemma children_checked_none (cs : list ast.node) :
  fold_left
    (fun acc child =>
       match acc with Some self => visit_checked ast_unparse child self | None => None end)
    cs None = None.
Proof. induction cs as [|c cs IH]; [reflexivity | exact IH]. Qed.

Lemma walk_is_children_checked (cs : list ast.node) :
  forall self,
    (fix walk (children : list ast.node) (self : analysis_engine.ComplexityVisitor) :=
       match children with
       | [] => Some self
       | child :: rest =>
           match visit_checked ast_unparse child self with
           | Some self' => walk rest self'
           | None => None
           end
       end) cs self
    = children_checked ast_unparse cs self.
Proof.
  induction cs as [|c cs IH]; intros self; [reflexivity|].
  unfold children_checked. cbn [fold_left].
  destruct (visit_checked ast_unparse c self) as [self'|].
  - apply IH.
  - now rewrite children_checked_none.
Qed.

Lemma keeps_keys_current self self' :
  current_is_key self -> keeps_keys self self' -> current_is_key self'.
Proof.
  intros Hk [Hc Hs] f Hf. rewrite Hc in Hf. apply Hs. now apply Hk.
Qed.

Lemma children_never_raise (cs : list ast.node) :
  List.Forall (never_raises ast_unparse) cs ->
  forall self,
    current_is_key self ->
    children_checked ast_unparse cs self = Some (visit_children ast_unparse cs self)
    /\ keeps_keys self (visit_children ast_unparse cs self).
Proof.
  induction 1 as [|c cs Hc _ IH]; intros self Hk.
  - split; [reflexivity|]. split; [reflexivity | auto].
  - destruct (Hc self Hk) as [He Hkeep].
    pose proof (keeps_keys_current _ _ Hk Hkeep) as Hk'.
    destruct (IH _ Hk') as [He' Hkeep'].
    unfold children_checked, visit_children in *. cbn [fold_left].
    rewrite He. split; [exact He'|].
    destruct Hkeep as [H1 H2], Hkeep' as [H1' H2'].
    split; [congruence | auto].
Qed.

Lemma setdefault0_keeps (name f : string) (d : gmap string Z) :
  is_Some (d !! f) -> is_Some (analysis_engine.setdefault0 name d !! f).
Proof.
  unfold analysis_engine.setdefault0. destruct (d !! name) eqn:Hn; [auto|].
  intros Hf. destruct (decide (name = f)) as [->|Hne].
  - rewrite Hn in Hf. now destruct Hf.
  - now rewrite lookup_insert_ne.
Qed.

Lemma setdefault0_key (name : string) (d : gmap string Z) :
  is_Some (analysis_engine.setdefault0 name d !! name).
Proof.
  unfold analysis_engine.setdefault0. destruct (d !! name) eqn:Hn.
  - rewrite Hn. eauto.
  - rewrite lookup_insert_eq. eauto.
Qed.

(** Whenever the visitor adds 1 to the count of the current function, the
    count is there: the checked visitor returns what the visitor returns. *)
Lemma visit_never_raises (n : ast.node) : (never_raises ast_unparse) n.
Proof.
  induction n as [name cs IH|func cs IHf IH|id|cs IH|cs IH|cs IH|cs IH|cs IH|cs IH]
    using node_induction; intros self Hk.
  - cbn [visit_checked analysis_engine.complexity_visit].
    rewrite walk_is_children_checked, walk_is_visit_children.
    match goal with
    | |- context [visit_children ast_unparse cs ?s] => set (self1 := s)
    end.
    assert (Hk1 : current_is_key self1).
    { intros f [= <-]. apply setdefault0_key. }
    destruct (children_never_raise cs IH self1 Hk1) as [He [_ Hs]].
    rewrite He. split; [reflexivity|]. split; [reflexivity|].
    intros f Hf. cbn. apply Hs. subst self1. cbn. now apply setdefault0_keeps.
  - cbn [visit_checked analysis_engine.complexity_visit].
    rewrite walk_is_visit_children.
    assert (Hup :
      exists self1,
        match analysis_engine.is_self_call func (analysis_engine.current_func self)
        with
        | Some cf =>
            match analysis_engine.self_calls_per_func self !! cf with
            | Some v =>
                Some (analysis_engine.mkComplexityVisitor
                        (analysis_engine.loop_depth self)
                        (analysis_engine.max_loop_depth self)
                        (<[cf := (v + 1)%Z]> (analysis_engine.self_calls_per_func self))
                        (analysis_engine.current_func self)
                        (analysis_engine.has_log_loop self))
            | None => None
            end
        | None => Some self
        end = Some self1
        /\ match analysis_engine.is_self_call func (analysis_engine.current_func self)
           with
           | Some cf =>
               analysis_engine.mkComplexityVisitor (analysis_engine.loop_depth self)
                 (analysis_engine.max_loop_depth self)
                 (analysis_engine.increment cf (analysis_engine.self_calls_per_func self))
                 (analysis_engine.current_func self)
                 (analysis_engine.has_log_loop self)
           | None => self
           end = self1
        /\ keeps_keys self self1).
    { destruct (analysis_engine.is_self_call func (analysis_engine.current_func self))
        as [cf|] eqn:Hcall.
      - assert (Hcur : analysis_engine.current_func self = Some cf).
        { unfold analysis_engine.is_self_call in Hcall.
          destruct func; try discriminate Hcall.
          destruct (analysis_engine.current_func self) as [g|]; [|discriminate Hcall].
          destruct (PyStr.truthy g && String.eqb id g); now inversion Hcall. }
        destruct (Hk cf Hcur) as [v Hv]. rewrite Hv.
        eexists. split; [reflexivity|]. split.
        + unfold analysis_engine.increment. now rewrite Hv.
        + split; [reflexivity|]. intros f Hf. cbn.
          destruct (decide (cf = f)) as [->|Hne].
          * rewrite lookup_insert_eq. eauto.
          * now rewrite lookup_insert_ne.
      - exists self. split; [reflexivity|]. split; [reflexivity|].
        split; [reflexivity | auto]. }
    destruct Hup as (self1 & -> & -> & Hkeep1).
    pose proof (keeps_keys_current _ _ Hk Hkeep1) as Hk1.
    destruct (IHf self1 Hk1) as [He2 Hkeep2]. rewrite He2.
    rewrite walk_is_children_checked.
    pose proof (keeps_keys_current _ _ Hk1 Hkeep2) as Hk2.
    destruct (children_never_raise cs IH _ Hk2) as [He3 Hkeep3].
    split; [exact He3|].
    destruct Hkeep1 as [A1 B1], Hkeep2 as [A2 B2], Hkeep3 as [A3 B3].
    split; [congruence | auto].
  - split; [reflexivity|]. split; [reflexivity | auto].
  - cbn [visit_checked analysis_engine.complexity_visit].
    rewrite walk_is_children_checked, walk_is_visit_children.
    match goal with
    | |- context [visit_children ast_unparse cs ?s] => set (self1 := s)
    end.
    assert (Hk1 : current_is_key self1) by exact Hk.
    destruct (children_never_raise cs IH self1 Hk1) as [He [Hc Hs]].
    rewrite He. split; [reflexivity|]. split; [exact Hc | exact Hs].
  - cbn [visit_checked analysis_engine.complexity_visit].
    rewrite walk_is_children_checked, walk_is_visit_children.
    match goal with
    | |- context [visit_children ast_unparse cs ?s] => set (self1 := s)
    end.
    assert (Hk1 : current_is_key self1) by exact Hk.
    destruct (children_never_raise cs IH self1 Hk1) as [He [Hc Hs]].
    rewrite He. split; [reflexivity|]. split; [exact Hc | exact Hs].
  - cbn [visit_checked analysis_engine.complexity_visit].
    rewrite walk_is_children_checked, walk_is_visit_children.
    exact (children_never_raise cs IH self Hk).
  - cbn [visit_checked analysis_engine.complexity_visit].
    rewrite walk_is_children_checked, walk_is_visit_children.
    exact (children_never_raise cs IH self Hk).
  - cbn [visit_checked analysis_engine.complexity_visit].
    rewrite walk_is_children_checked, walk_is_visit_children.
    exact (children_never_raise cs IH self Hk).
  - cbn [visit_checked analysis_engine.complexity_visit].
    rewrite walk_is_children_checked, walk_is_visit_children.
    exact (children_never_raise cs IH self Hk).
Qed.

(** From the initial state the checked visitor returns the state of the
    visitor. *)
Lemma visit_checked_from_init (tree : ast.node) :
  visit_checked ast_unparse tree analysis_engine.ComplexityVisitor_init
  = Some (visit tree analysis_engine.ComplexityVisitor_init).
Proof.
  apply visit_never_raises. intros f Hf. discriminate Hf.
Qed.

End key_present.

(** *** The decision *)

Lemma fold_left_max_spec (vs : list Z) :
  forall v,
    (v <= fold_left Z.max vs v)%Z
    /\ (forall x, In x vs -> (x <= fold_left Z.max vs v)%Z)
    /\ (fold_left Z.max vs v = v \/ In (fold_left Z.max vs v) vs).
Proof.
  induction vs as [|y vs IH]; intros v; cbn [fold_left].
  - repeat split; [lia | intros x [] | now left].
  - destruct (IH (Z.max v y)) as (H1 & H2 & H3). repeat split.
    + lia.
    + intros x [<-|Hx]; [lia | now apply H2].
    + destruct H3 as [H3|H3]; [|right; now right].
      destruct (Z.max_spec v y) as [[_ Hm]|[_ Hm]].
      * right. left. now rewrite H3, Hm.
      * left. now rewrite H3, Hm.
Qed.

(** [max(d.values(), default=0)] is 0 for the empty dict and else the
    greatest value of the dict. *)
Lemma max_values_spec (d : gmap string Z) :
  (forall k v, d !! k = Some v -> (v <= analysis_engine.max_values d)%Z)
  /\ ((d = ∅ /\ analysis_engine.max_values d = 0%Z)
      \/ exists k, d !! k = Some (analysis_engine.max_values d)).
Proof.
  unfold analysis_engine.max_values.
  destruct (map_to_list d) as [|[k0 v0] rest] eqn:Hl.
  - apply map_to_list_empty_iff in Hl. subst d. split.
    + intros k v H. rewrite lookup_empty in H. discriminate H.
    + now left.
  - cbn [map snd].
    destruct (fold_left_max_spec (map snd rest) v0) as (H1 & H2 & H3).
    assert (Hin : forall k v, d !! k = Some v <-> (k, v) = (k0, v0) \/ In (k, v) rest).
    { intros k v. rewrite <- elem_of_map_to_list, Hl, <- list_elem_of_In.
      rewrite elem_of_cons. reflexivity. }
    split.
    + intros k v Hkv. apply Hin in Hkv. destruct Hkv as [[= -> ->]|Hkv]; [exact H1|].
      apply H2. apply in_map_iff. now exists (k, v).
    + right. destruct H3 as [H3|H3].
      * exists k0. rewrite H3. apply Hin. now left.
      * apply in_map_iff in H3. destruct H3 as [[k v] [Hv Hkv]]. cbn in Hv.
        exists k. rewrite <- Hv. apply Hin. now right.
Qed.

Section decision.

Variable ast_parse : string -> ast.parse_result.
Variable ast_unparse : ast.node -> string.

(** The state of the visitor after the walk of a whole tree. *)
Lemma visited_tree (tree : ast.node) :
  let visitor :=
    analysis_engine.complexity_visit ast_unparse tree
      analysis_engine.ComplexityVisitor_init in
  analysis_engine.max_loop_depth visitor = loop_nesting tree
  /\ analysis_engine.has_log_loop visitor = has_log_while ast_unparse tree
  /\ forall f,
      count_in (analysis_engine.self_calls_per_func visitor) f = counted f tree.
Proof.
  cbv zeta.
  destruct (visit_summarises ast_unparse tree analysis_engine.ComplexityVisitor_init)
    as (_ & Hm & _ & Hl & Hk).
  { unfold depth_bounded. cbn. lia. }
  pose proof (loop_nesting_nonneg tree).
  cbn in Hm, Hl, Hk. repeat split.
  - rewrite Hm. lia.
  - exact Hl.
  - intros f. rewrite Hk. unfold count_in. rewrite lookup_empty. cbn. lia.
Qed.

(** The greatest count of the visitor against the counts by name. *)
Lemma visited_max_self_calls (tree : ast.node) :
  let m :=
    analysis_engine.max_values
      (analysis_engine.self_calls_per_func
         (analysis_engine.complexity_visit ast_unparse tree
            analysis_engine.ComplexityVisitor_init)) in
  (forall f, (1 <= counted f tree)%Z -> (counted f tree <= m)%Z)
  /\ (m = 0%Z \/ exists f, counted f tree = m).
Proof.
  cbv zeta.
  destruct (visited_tree tree) as (_ & _ & Hk).
  set (d := analysis_engine.self_calls_per_func _) in *.
  destruct (max_values_spec d) as (Hle & Hmax). split.
  - intros f Hf. specialize (Hk f). unfold count_in in Hk.
    destruct (d !! f) as [v|] eqn:Hv; cbn in Hk; [|lia].
    subst v. now apply (Hle f).
  - destruct Hmax as [[_ H0]|[k Hk']]; [now left|].
    right. exists k. rewrite <- Hk. unfold count_in. now rewrite Hk'.
Qed.

End decision.

(** C5, counterexample: each of the two definitions of [f] holds exactly
    one direct self-call and no function holds more, which the specification
    decides as O(n); the visitor keeps one count under the name [f], finds 2
    there, and the estimate is O(2^n). *)
Lemma same_name_counts_add_up :
  per_function twice_defined_tree = [1; 1]%Z
  /\ listed_big_o (has_log_while unparse_blank twice_defined_tree)
       (per_function twice_defined_tree) (loop_nesting twice_defined_tree)
     = "O(n)"
  /\ analysis_engine._estimate_big_o
       (parses_to twice_defined_source twice_defined_tree) unparse_blank
       twice_defined_source (Some "python")
     = "O(2^n)".
Proof. vm_compute. repeat split. Qed.

(** C5, amended: for Python code that parses, the estimate is decided in
    this order by the log-loop flag, the direct self-calls counted by
    function name (the definitions that share a name share one count) and
    the loop nesting depth: a logarithmic [while] loop gives O(log n); else
    a name with 2 or more direct self-calls gives O(2^n); else a name with
    exactly 1 gives O(n); else a depth of 2 or more gives O(n^2), a depth of
    1 gives O(n), and no loop gives O(1).  Code that does not parse gives
    O(1). *)
Theorem estimate_big_o_python
    (ast_parse : string -> ast.parse_result) (ast_unparse : ast.node -> string)
    (code : string) (language : option string) :
  analysis_engine.is_python (PyStr.lower (default "" language)) = true ->
  (forall msg,
      ast_parse code = ast.SyntaxError msg ->
      analysis_engine._estimate_big_o ast_parse ast_unparse code language = "O(1)")
  /\ (forall tree,
      ast_parse code = ast.Parsed tree ->
      decided (has_log_while ast_unparse tree) (fun f => counted f tree)
        (loop_nesting tree)
        (analysis_engine._estimate_big_o ast_parse ast_unparse code language)).
Proof.
  intros Hpy. unfold analysis_engine._estimate_big_o. rewrite Hpy. split.
  - intros msg ->. reflexivity.
  - intros tree ->. unfold analysis_engine.big_o_of_visitor.
    destruct (visited_tree ast_unparse tree) as (Hdepth & Hlog & _).
    destruct (visited_max_self_calls ast_unparse tree) as (Hle & Hmax).
    cbv zeta in Hdepth, Hlog, Hle, Hmax.
    set (visitor := analysis_engine.complexity_visit ast_unparse tree
                      analysis_engine.ComplexityVisitor_init) in *.
    set (m := analysis_engine.max_values (analysis_engine.self_calls_per_func visitor))
      in *.
    rewrite Hdepth, Hlog. unfold decided.
    destruct (has_log_while ast_unparse tree).
    { repeat split; intros; solve [reflexivity | discriminate]. }
    split; [discriminate|].
    split.
    { intros _ [f Hf]. assert (2 <= m)%Z by (specialize (Hle f); lia).
      destruct (Z.leb_spec 2 m); [reflexivity | lia]. }
    split.
    { intros _ Hall [f Hf].
      assert (m = 1%Z).
      { specialize (Hle f). destruct Hmax as [H0|[k Hk]]; [lia|].
        specialize (Hall k). lia. }
      subst m. rewrite H. reflexivity. }
    assert (Hnone : (forall f, (counted f tree <= 0)%Z) -> (m <= 0)%Z).
    { intros Hall. destruct Hmax as [H0|[k Hk]]; [lia|]. specialize (Hall k). lia. }
    repeat split; intros _ Hall Hd; apply Hnone in Hall;
      destruct (Z.leb_spec 2 m); try lia;
      destruct (Z.eqb_spec m 1); try lia;
      destruct (Z.leb_spec 2 (loop_nesting tree)); try lia; try reflexivity;
      destruct (Z.eqb_spec (loop_nesting tree) 1); try lia; reflexivity.
Qed.

(** C5, the theorem at a function with one direct self-call and one loop
    of depth 1: the estimate is O(n). *)
Lemma estimate_big_o_python_witness :
  let ast_parse := parses_to loop_and_recursion_source loop_and_recursion_tree in
  analysis_engine.is_python (PyStr.lower (default "" (Some "python"))) = true
  /\ ast_parse loop_and_recursion_source = ast.Parsed loop_and_recursion_tree
  /\ counted "f" loop_and_recursion_tree = 1%Z
  /\ loop_nesting loop_and_recursion_tree = 1%Z
  /\ decided (has_log_while unparse_blank loop_and_recursion_tree)
       (fun f => counted f loop_and_recursion_tree)
       (loop_nesting loop_and_recursion_tree)
       (analysis_engine._estimate_big_o ast_parse unparse_blank
          loop_and_recursion_source (Some "python"))
  /\ analysis_engine._estimate_big_o ast_parse unparse_blank
       loop_and_recursion_source (Some "python") = "O(n)".
Proof.
  intros ast_parse.
  split; [reflexivity|]. split; [reflexivity|]. split; [reflexivity|].
  split; [reflexivity|]. split; [|reflexivity].
  apply (estimate_big_o_python ast_parse unparse_blank loop_and_recursion_source
           (Some "python")); reflexivity.
Defined.

(** The scenario of the specification: a [while] loop over [low] and
    [high] with [mid = (low + high) // 2] is estimated as O(log n). *)
Example bisection_is_logarithmic :
  analysis_engine._estimate_big_o (parses_to bisection_source bisection_tree)
    unparse_bisection bisection_source (Some "python")
  = "O(log n)".
Proof. reflexivity. Qed.

(* ===================================================================== *)
(** * Further properties of the services *)
(* ===================================================================== *)

(** ** The validator, beyond its rules *)



(** X2: the two fields of a validation result agree: the result is valid
    exactly when it carries no error message, and the message of an invalid
    result is one of the four messages of the structural rules or the
    message of the Python parser on that code. *)
Theorem validate_code_error_iff_invalid
    (ast_parse : string -> ast.parse_result) (language code : string) :
  let r := validators.validate_code ast_parse language code in
  (validators.valid r = true <-> validators.error r = None)
  /\ (forall msg,
      validators.error r = Some msg ->
      validators.valid r = false
      /\ (In msg structural_messages \/ ast_parse code = ast.SyntaxError msg)).
Proof.
  cbv zeta. unfold validators.validate_code, structural_messages.
  repeat match goal with
         | |- context [if ?b then _ else _] => destruct b
         | |- context [match ast_parse ?c with _ => _ end] =>
             destruct (ast_parse c) eqn:?
         end; cbn; (split; [split; congruence|]);
    intros msg' [= <-] || intros msg' [=]; (split; [reflexivity|]); auto 10.
Qed.

(* ===================================================================== *)
(** ** The language detector ([detect_language]) *)
(* ===================================================================== *)

Lemma score_is_hits (snippet : string) (patterns : list string) :
  language_detector.score snippet patterns
  = Z.of_nat (length (found_in snippet patterns)).
Proof.
  unfold language_detector.score, found_in.
  assert (H : forall acc,
    fold_left
      (fun acc pat => if PyStr.contains pat snippet then (acc + 1)%Z else acc)
      patterns acc
    = (acc + Z.of_nat (length (List.filter (fun pat => PyStr.contains pat snippet)
                                 patterns)))%Z).
  { induction patterns as [|p ps IH]; intros acc; cbn [fold_left List.filter].
    - cbn. lia.
    - rewrite IH. destruct (PyStr.contains p snippet); cbn [length]; lia. }
  rewrite H. lia.
Qed.

Lemma hits_bounds (code : string) (patterns : list string) :
  (0 <= hits code patterns <= Z.of_nat (length patterns))%Z.
Proof.
  unfold hits, found_in. pose proof (filter_length_le
    (fun pat => PyStr.contains pat (PyStr.lower code)) patterns). lia.
Qed.

(** The loop that picks the best score: it returns what it started with
    when no score is greater, and else the first of the greatest scores. *)
Lemma vote_spec (scores : list (string * Z)) :
  forall (b : string) (bs : Z),
    let r :=
      fold_left
        (fun '(best_lang, best_score) '(lang, sc) =>
           if (best_score <? sc)%Z then (lang, sc) else (best_lang, best_score))
        scores (b, bs) in
    (r = (b, bs) /\ forall e, In e scores -> (snd e <= bs)%Z)
    \/ exists pre post,
        scores = (pre ++ r :: post)%list
        /\ (bs < snd r)%Z
        /\ (forall e, In e pre -> (snd e < snd r)%Z)
        /\ (forall e, In e post -> (snd e <= snd r)%Z).
Proof.
  induction scores as [|[lang sc] scores IH]; intros b bs; cbn [fold_left].
  - left. split; [reflexivity | intros e []].
  - destruct (Z.ltb_spec bs sc) as [Hlt|Hge].
    + destruct (IH lang sc) as [[Hr Hall]|(pre & post & Hs & Hb & Hpre & Hpost)].
      * right. exists [], scores. cbv zeta in Hr |- *. rewrite Hr.
        repeat split; [exact Hlt | intros e [] | exact Hall].
      * right. exists ((lang, sc) :: pre), post. cbv zeta in Hs, Hb, Hpre, Hpost |- *.
        repeat split.
        -- cbn [app]. now rewrite <- Hs.
        -- lia.
        -- intros e [<-|He]; [exact Hb | now apply Hpre].
        -- exact Hpost.
    + destruct (IH b bs) as [[Hr Hall]|(pre & post & Hs & Hb & Hpre & Hpost)].
      * left. split; [exact Hr|]. intros e [<-|He]; [exact Hge | now apply Hall].
      * right. exists ((lang, sc) :: pre), post. cbv zeta in Hs, Hb, Hpre, Hpost |- *.
        repeat split.
        -- cbn [app]. now rewrite <- Hs.
        -- exact Hb.
        -- intros e [<-|He]; [cbn [snd]; lia | now apply Hpre].
        -- exact Hpost.
Qed.

(** In a table without a repeated name, the entry of a name is the one
    [find] returns, and the entries before it are those listed before. *)
Lemma table_entry (table : list (string * list string)) :
  forall pre lang ps post,
    table = (pre ++ (lang, ps) :: post)%list ->
    List.NoDup (map fst table) ->
    find (fun '(l, _) => String.eqb l lang) table = Some (lang, ps)
    /\ listed_before lang table = pre.
Proof.
  induction table as [|[l qs] table IH]; intros pre lang ps post Ht Hnd.
  - destruct pre; discriminate Ht.
  - destruct pre as [|[l' qs'] pre]; cbn [app] in Ht; injection Ht as -> -> Ht.
    + cbn [find listed_before]. now rewrite String.eqb_refl.
    + cbn [map fst] in Hnd. apply List.NoDup_cons_iff in Hnd. destruct Hnd as [Hnot Hnd].
      cbn [find listed_before].
      destruct (String.eqb_spec l' lang) as [->|Hne].
      * exfalso. apply Hnot. rewrite Ht, map_app, in_app_iff. right. now left.
      * destruct (IH pre lang ps post Ht Hnd) as [Hf Hl]. now rewrite Hf, Hl.
Qed.

Lemma signals_names_differ : List.NoDup (map fst language_detector.signals).
Proof.
  unfold language_detector.signals. cbn [map fst].
  repeat (apply List.NoDup_cons; [cbn [In]; intuition discriminate|]).
  apply List.NoDup_nil.
Qed.

(** The vote of [detect_language], case by case. *)
Lemma detect_language_cases (code : string) :
  let r := language_detector.detect_language code in
  (no_signal code /\ r = language_detector.mkDetectionResult "generic" 0)
  \/ exists lang ps,
      wins code lang ps
      /\ language_detector.language r = lang
      /\ language_detector.confidence r
         = PyFloat.min 1
             (PyFloat.div (PyFloat.of_Z (hits code ps))
                (PyFloat.of_Z (Z.of_nat (length ps)))).
Proof.
  cbv zeta. unfold language_detector.detect_language.
  set (table := language_detector.signals).
  set (scores := map _ table).
  assert (Hscores : forall l sc, In (l, sc) scores <->
            exists ps, In (l, ps) table /\ sc = hits code ps).
  { intros l sc. subst scores. rewrite in_map_iff. split.
    - intros [[l' ps] [[= -> <-] Hin]]. exists ps. split; [exact Hin|].
      apply score_is_hits.
    - intros [ps [Hin ->]]. exists (l, ps). split; [|exact Hin].
      now rewrite score_is_hits. }
  destruct (vote_spec scores "generic" 0) as [[Hr Hall]|(pre & post & Hs & Hb & Hpre & Hpost)];
    cbv zeta in *.
  - left. rewrite Hr. split; [|reflexivity].
    intros lang ps Hin. pose proof (hits_bounds code ps) as [Hlo _].
    assert (In (lang, hits code ps) scores) as He by (apply Hscores; eauto).
    apply Hall in He. cbn [snd] in He. lia.
  - right. destruct (fold_left _ scores _) as [best_lang best_score].
    cbn [snd] in *.
    destruct (Z.eqb_spec best_score 0) as [->|_]; [lia|].
    subst scores.
    apply map_eq_app in Hs. destruct Hs as (pre' & rest & Ht & Hpre' & Hrest).
    apply map_eq_cons in Hrest.
    destruct Hrest as ([lang ps] & post' & -> & [= -> Hsc] & Hpost').
    rewrite score_is_hits in Hsc. fold (hits code ps) in Hsc. subst best_score.
    destruct (table_entry table pre' best_lang ps post' Ht signals_names_differ)
      as [Hfind Hbefore].
    rewrite Hfind.
    pose proof (hits_bounds code ps) as [_ Hhi].
    destruct (Z.eqb_spec (Z.of_nat (length ps)) 0) as [Hz|_]; [lia|].
    exists best_lang, ps. split; [|split; reflexivity].
    assert (Hin : In (best_lang, ps) table).
    { rewrite Ht, in_app_iff. right. now left. }
    split; [exact Hin|]. split; [exact Hb|]. split.
    + intros l qs Hq. change (In (l, qs) table) in Hq.
      rewrite Ht, in_app_iff in Hq.
      destruct Hq as [Hq|[[= -> ->]|Hq]]; [| lia |].
      * assert (In (l, hits code qs) pre) as He.
        { rewrite <- Hpre', in_map_iff. exists (l, qs).
          split; [now rewrite score_is_hits | exact Hq]. }
        apply Hpre in He. cbn [snd] in He. lia.
      * assert (In (l, hits code qs) post) as He.
        { rewrite <- Hpost', in_map_iff. exists (l, qs).
          split; [now rewrite score_is_hits | exact Hq]. }
        apply Hpost in He. exact He.
    + intros l qs Hq. change (In (l, qs) (listed_before best_lang table)) in Hq.
      rewrite Hbefore in Hq.
      assert (In (l, hits code qs) pre) as He.
      { rewrite <- Hpre', in_map_iff. exists (l, qs).
        split; [now rewrite score_is_hits | exact Hq]. }
      apply Hpre in He. exact He.
Qed.

Lemma signals_sizes (lang : string) (ps : list string) :
  In (lang, ps) language_detector.signals -> (length ps <= 7)%nat.
Proof.
  unfold language_detector.signals. cbn [In].
  intros H. repeat (destruct H as [[= _ <-]|H]; [cbn [length]; lia|]).
  contradiction.
Qed.

(** X3: [detect_language] answers "generic" exactly when none of the
    patterns of its table occurs in the lower-cased code, and exactly then
    the confidence is 0; else the language is one of the six of the table
    and the confidence lies above 0 and is at most 1.  The letter case of
    the code does not matter. *)
Theorem detect_language_generic_iff_no_signal (code : string) :
  let r := language_detector.detect_language code in
  (language_detector.language r = "generic" <-> no_signal code)
  /\ (language_detector.language r = "generic"
      <-> language_detector.confidence r = 0%Q)
  /\ In (language_detector.language r)
       ("generic" :: map fst language_detector.signals)
  /\ (0 <= language_detector.confidence r <= 1)%Q
  /\ language_detector.detect_language (PyStr.lower code) = r.
Proof.
  cbv zeta. split; [|split; [|split; [|split]]].
  5: { unfold language_detector.detect_language. now rewrite lower_idempotent. }
  all: destruct (detect_language_cases code)
         as [[Hno Hr]|(lang & ps & Hw & Hl & Hc)]; cbv zeta in *.
  all: try (rewrite Hr; cbn; first [tauto | now left | split; apply Qle_refl || lra]).
  all: destruct Hw as (Hin & Hpos & _ & _);
    pose proof (hits_bounds code ps) as [_ Hhi];
    pose proof (signals_sizes lang ps Hin) as Hsize;
    destruct (confidence_value (hits code ps) (Z.of_nat (length ps)))
      as (Hv & Hc0 & Hc1); [lia|lia|]; cbv zeta in *; rewrite <- Hc in *.
  - rewrite Hl. split.
    + intros ->. unfold language_detector.signals in Hin. cbn [In] in Hin.
      intuition discriminate.
    + intros Hno. specialize (Hno lang ps Hin). lia.
  - rewrite Hl. split.
    + intros ->. unfold language_detector.signals in Hin. cbn [In] in Hin.
      intuition discriminate.
    + intros H0. rewrite H0 in Hc0. now apply Qlt_irrefl in Hc0.
  - rewrite Hl. right. apply in_map_iff. now exists (lang, ps).
  - split; [now apply Qlt_le_weak | exact Hc1].
Qed.

(** X4: when [detect_language] names a language, that language has the
    greatest number of its patterns in the lower-cased code, the languages
    that the table lists before it have strictly fewer (ties go to the
    language listed first), and the confidence is the share of its patterns
    that occur: the count of the winner over the size of its pattern
    list, as the float that the division gives (the double nearest to the
    fraction). *)
Theorem detect_language_first_of_the_best (code : string) :
  let r := language_detector.detect_language code in
  language_detector.language r <> "generic" ->
  exists ps,
    wins code (language_detector.language r) ps
    /\ language_detector.confidence r
       = PyFloat.round64
           (inject_Z (hits code ps) / inject_Z (Z.of_nat (length ps))).
Proof.
  cbv zeta. intros Hne.
  destruct (detect_language_cases code) as [[Hno Hr]|(lang & ps & Hw & Hl & Hc)];
    cbv zeta in *.
  - rewrite Hr in Hne. now contradiction Hne.
  - exists ps. rewrite Hl. split; [exact Hw|].
    destruct Hw as (Hin & Hpos & _ & _).
    pose proof (hits_bounds code ps) as [_ Hhi].
    pose proof (signals_sizes lang ps Hin) as Hsize.
    destruct (confidence_value (hits code ps) (Z.of_nat (length ps)))
      as (Hv & _ & _); [lia|lia|]. cbv zeta in Hv. now rewrite Hc.
Qed.

(** X4, the theorem at a text with one pattern of Python and one of
    JavaScript: Python, listed first, wins with 1 of its 7 patterns. *)
Lemma detect_language_first_of_the_best_witness :
  let code := "import os; let x = 1" in
  let r := language_detector.detect_language code in
  language_detector.language r <> "generic"
  /\ language_detector.language r = "python"
  /\ exists ps,
      wins code (language_detector.language r) ps
      /\ language_detector.confidence r
         = PyFloat.round64
             (inject_Z (hits code ps) / inject_Z (Z.of_nat (length ps))).
Proof.
  intros code r.
  assert (Hne : language_detector.language r <> "generic")
    by (vm_compute; discriminate).
  split; [exact Hne|]. split; [reflexivity|].
  exact (detect_language_first_of_the_best code Hne).
Defined.

(* ===================================================================== *)
(** ** The security rules ([analyze_security]) *)
(* ===================================================================== *)

Lemma append_inj_l (pre a b : string) : pre ++ a = pre ++ b -> a = b.
Proof.
  induction pre as [|c pre IH]; [trivial|].
  rewrite !append_cons. intros [= H]. now apply IH.
Qed.

Lemma finding_inj (p q : string) : finding p = finding q -> p = q.
Proof. unfold finding. intros [= H]. now apply append_inj_l in H. Qed.

Lemma findings_are_found (code : string) :
  schemas.resp_security_findings
    (security.analyze_security (schemas.mkCodeAnalysisRequest None code None))
  = map finding (found_in (PyStr.lower code) security.suspicious_patterns).
Proof.
  unfold security.analyze_security, found_in. cbn [schemas.resp_security_findings
    schemas.req_code].
  induction security.suspicious_patterns as [|p ps IH]; [reflexivity|].
  cbn [flat_map List.filter]. rewrite IH.
  now destruct (PyStr.contains p (PyStr.lower code)).
Qed.

(** X5: [analyze_security] reports one finding for each of its seven
    patterns that occurs in the lower-cased code, in the order of the list
    and none twice; each finding is a warning of type "security" that names
    its pattern.  There is no finding exactly when none of the patterns
    occurs; the letter case of the code does not matter; the file path and
    the language of the request are handed back, and nothing else is
    set. *)
Theorem analyze_security_findings (payload : schemas.CodeAnalysisRequest) :
  let r := security.analyze_security payload in
  let lowered := PyStr.lower (schemas.req_code payload) in
  schemas.resp_security_findings r
  = map finding (found_in lowered security.suspicious_patterns)
  /\ (forall issue,
      In issue (schemas.resp_security_findings r)
      <-> exists pattern,
          In pattern security.suspicious_patterns
          /\ has_substring pattern lowered
          /\ issue = finding pattern)
  /\ List.NoDup (schemas.resp_security_findings r)
  /\ length (schemas.resp_security_findings r) <= 7
  /\ (schemas.resp_security_findings r = []
      <-> forall pattern,
          In pattern security.suspicious_patterns -> ~ has_substring pattern lowered)
  /\ schemas.resp_security_findings (security.analyze_security (lowered_request payload))
     = schemas.resp_security_findings r
  /\ schemas.resp_file_path r = schemas.req_file_path payload
  /\ schemas.resp_language r = schemas.req_language payload
  /\ schemas.resp_issues r = []
  /\ schemas.resp_complexity r = None
  /\ schemas.resp_summary r = None.
Proof.
  cbv zeta.
  assert (Heq : schemas.resp_security_findings (security.analyze_security payload)
                = map finding (found_in (PyStr.lower (schemas.req_code payload))
                                 security.suspicious_patterns)).
  { rewrite <- findings_are_found. reflexivity. }
  assert (Hin : forall issue,
    In issue (map finding (found_in (PyStr.lower (schemas.req_code payload))
                             security.suspicious_patterns))
    <-> exists pattern,
        In pattern security.suspicious_patterns
        /\ has_substring pattern (PyStr.lower (schemas.req_code payload))
        /\ issue = finding pattern).
  { intros issue. rewrite in_map_iff. unfold found_in, has_substring. split.
    - intros [p [<- Hp]]. apply filter_In in Hp. destruct Hp as [Hp Hc].
      exists p. split; [exact Hp|]. split; [now apply contains_iff | reflexivity].
    - intros [p (Hp & Hc & ->)]. exists p. split; [reflexivity|].
      apply filter_In. split; [exact Hp | now apply contains_iff]. }
  rewrite Heq.
  split; [reflexivity|]. split; [exact Hin|]. split; [|split; [|split; [|split]]].
  - apply Finite.Injective_map_NoDup; [intros p q; apply finding_inj|].
    apply List.NoDup_filter. unfold security.suspicious_patterns.
    repeat (apply List.NoDup_cons; [cbn [In]; intuition discriminate|]).
    apply List.NoDup_nil.
  - rewrite length_map. unfold found_in.
    pose proof (filter_length_le
      (fun pat => PyStr.contains pat (PyStr.lower (schemas.req_code payload)))
      security.suspicious_patterns) as H. cbn [length security.suspicious_patterns] in H.
    exact H.
  - split.
    + intros Hnil p Hp Hsub.
      assert (In (finding p) []) as [].
      rewrite <- Hnil. apply Hin. now exists p.
    + intros Hnone.
      destruct (map finding _) as [|issue rest] eqn:Hm; [reflexivity|].
      assert (In issue (issue :: rest)) as Hi by now left.
      apply Hin in Hi. destruct Hi as [p (Hp & Hs & _)].
      now apply Hnone in Hs.
  - rewrite <- (findings_are_found (schemas.req_code payload)).
    unfold security.analyze_security, lowered_request.
    cbn [schemas.resp_security_findings schemas.req_code].
    now rewrite lower_idempotent.
  - repeat split.
Qed.

(* ===================================================================== *)
(** ** The cyclomatic estimate ([_estimate_cyclomatic_complexity]) *)
(* ===================================================================== *)

(** [s.count(sub)] is 0 exactly when [sub] does not occur in [s]. *)
Lemma count_zero_iff (a : ascii) (sub' s : string) :
  PyStr.count (String a sub') s = 0 <-> PyStr.contains (String a sub') s = false.
Proof.
  unfold PyStr.count. induction s as [|c s IH].
  - split; reflexivity.
  - cbn [PyStr.count_from PyStr.contains].
    destruct (PyStr.startswith (String a sub') (String c s)).
    + split; discriminate.
    + exact IH.
Qed.

Lemma cyclomatic_sum (lowered : string) (keywords : list string) :
  forall acc,
    fold_left
      (fun complexity kw => (complexity + Z.of_nat (PyStr.count kw lowered))%Z)
      keywords acc
    = (acc + sum_of (map (fun kw => Z.of_nat (PyStr.count kw lowered)) keywords))%Z.
Proof.
  induction keywords as [|kw kws IH]; intros acc; cbn [fold_left map sum_of fold_right].
  - lia.
  - rewrite IH. unfold sum_of. lia.
Qed.

(** An occurrence of "elif " holds an occurrence of "if ": the count of
    "if " is at least the count of "elif ", also when the scan for "if "
    still has up to two characters of an earlier occurrence to pass. *)
Lemma count_if_in_elif (n : nat) :
  forall s k,
    String.length s <= n -> k <= 2 ->
    PyStr.count_from 0 "elif " s <= PyStr.count_from k "if " s.
Proof.
  induction n as [|n IH]; intros s k Hlen Hk.
  - destruct s; [|cbn in Hlen; lia]. destruct k; cbn; lia.
  - destruct s as [|c s]; [destruct k; cbn; lia|].
    cbn [String.length] in Hlen.
    destruct (PyStr.startswith "elif " (String c s)) eqn:He.
    + apply startswith_iff in He. destruct He as [r Hr].
      change ("elif " ++ r) with (String "e" (String "l" (String "i" (String "f"
        (String " " r))))) in Hr.
      injection Hr as -> ->. cbn [String.length] in Hlen.
      assert (Hr : PyStr.count_from 0 "elif " r <= PyStr.count_from 0 "if " r)
        by (apply IH; lia).
      assert (HA : PyStr.count_from 0 "elif "
                     (String "e" (String "l" (String "i" (String "f" (String " " r)))))
                   = S (PyStr.count_from 0 "elif " r)).
      { cbn [PyStr.count_from PyStr.startswith Ascii.eqb Bool.eqb andb String.length
               Nat.sub]. reflexivity. }
      assert (HB : PyStr.count_from k "if "
                     (String "e" (String "l" (String "i" (String "f" (String " " r)))))
                   = S (PyStr.count_from 0 "if " r)).
      { destruct k as [|[|[|k]]]; [| | |lia];
          cbn [PyStr.count_from PyStr.startswith Ascii.eqb Bool.eqb andb String.length
                 Nat.sub]; reflexivity. }
      rewrite HA, HB. lia.
    + cbn [PyStr.count_from]. rewrite He.
      destruct k as [|k].
      * destruct (PyStr.startswith "if " (String c s)).
        -- cbn [String.length Nat.sub].
           assert (PyStr.count_from 0 "elif " s <= PyStr.count_from 2 "if " s)
             by (apply IH; lia).
           lia.
        -- apply IH; lia.
      * apply IH; lia.
Qed.

Lemma count_zero_iff_contains (kw s : string) :
  kw <> "" -> (PyStr.count kw s = 0 <-> PyStr.contains kw s = false).
Proof. destruct kw; [congruence | intros _; apply count_zero_iff]. Qed.

Lemma keyword_counts (lowered : string) (keywords : list string) :
  List.Forall (fun kw => kw <> "") keywords ->
  let total := sum_of (map (fun kw => Z.of_nat (PyStr.count kw lowered)) keywords) in
  (Z.of_nat (length (found_in lowered keywords)) <= total)%Z
  /\ (total = 0%Z <-> forall kw, In kw keywords -> PyStr.contains kw lowered = false).
Proof.
  cbv zeta. induction 1 as [|kw kws Hkw _ [IH1 IH2]];
    cbn [map sum_of fold_right found_in List.filter].
  - split; [cbn; lia|]. split; [intros _ kw [] | reflexivity].
  - fold (sum_of (map (fun kw => Z.of_nat (PyStr.count kw lowered)) kws)).
    fold (found_in lowered kws).
    pose proof (count_zero_iff_contains kw lowered Hkw) as Hz.
    destruct (PyStr.contains kw lowered) eqn:Hc.
    + assert (PyStr.count kw lowered <> 0) by (intros H0; apply Hz in H0; discriminate).
      split; [cbn [length]; lia|]. split; [lia|].
      intros Hall. specialize (Hall kw (or_introl eq_refl)). congruence.
    + assert (PyStr.count kw lowered = 0) as -> by now apply Hz.
      split; [lia|]. rewrite Z.add_0_l, IH2. split.
      * intros Hall k [<-|Hk]; [exact Hc | now apply Hall].
      * intros Hall k Hk. apply Hall. now right.
Qed.

(** X6: the cyclomatic estimate is 1 exactly when none of its eight
    keywords occurs in the lower-cased code; every keyword that occurs adds
    at least 1; every "elif " adds 2, since it is counted again as the
    "if " that it holds; and the letter case of the code does not
    matter. *)
Theorem cyclomatic_counts_keywords (code : string) :
  let lowered := PyStr.lower code in
  let c := analysis_engine._estimate_cyclomatic_complexity code in
  (c = 1%Z
   <-> forall kw, In kw analysis_engine.cyclomatic_keywords -> ~ has_substring kw lowered)
  /\ (1 + Z.of_nat (length (found_in lowered analysis_engine.cyclomatic_keywords))
      <= c)%Z
  /\ (1 + 2 * Z.of_nat (PyStr.count "elif " lowered) <= c)%Z
  /\ analysis_engine._estimate_cyclomatic_complexity lowered = c.
Proof.
  cbv zeta. unfold analysis_engine._estimate_cyclomatic_complexity.
  rewrite lower_idempotent, cyclomatic_sum.
  set (lowered := PyStr.lower code).
  assert (Hne : List.Forall (fun kw => kw <> "") analysis_engine.cyclomatic_keywords).
  { unfold analysis_engine.cyclomatic_keywords.
    repeat (apply List.Forall_cons; [discriminate|]). apply List.Forall_nil. }
  destruct (keyword_counts lowered _ Hne) as [Hfound Hzero]. cbv zeta in *.
  split; [|split; [|split]].
  - split.
    + intros H kw Hkw Hsub.
      assert (PyStr.contains kw lowered = false) as Hc by (apply Hzero; [lia | exact Hkw]).
      apply contains_iff in Hsub. congruence.
    + intros Hall.
      assert (sum_of (map (fun kw => Z.of_nat (PyStr.count kw lowered))
                        analysis_engine.cyclomatic_keywords) = 0%Z) as ->; [|reflexivity].
      apply Hzero. intros kw Hkw. apply not_true_iff_false. intros Hc.
      apply (Hall kw Hkw). now apply contains_iff.
  - lia.
  - unfold analysis_engine.cyclomatic_keywords.
    cbn [map sum_of fold_right].
    pose proof (count_if_in_elif (String.length lowered) lowered 0 (le_n _)
                  (Nat.le_0_l _)) as Hif.
    change (PyStr.count "if " lowered) with (PyStr.count_from 0 "if " lowered).
    change (PyStr.count "elif " lowered) with (PyStr.count_from 0 "elif " lowered).
    lia.
  - reflexivity.
Qed.

(* ===================================================================== *)
(** ** The summary of the findings ([_summarise_security]) *)
(* ===================================================================== *)

Lemma insert_sorted_in (x : string) (xs : list string) :
  forall m, In m (analysis_engine.insert_sorted x xs) <-> m = x \/ In m xs.
Proof.
  induction xs as [|y ys IH]; intros m; cbn [analysis_engine.insert_sorted].
  - cbn. intuition.
  - destruct (String.compare x y) eqn:Hc.
    + apply String.compare_eq_iff in Hc. subst y. cbn. intuition.
    + cbn. intuition.
    + cbn [In]. rewrite IH. intuition.
Qed.

Lemma insert_sorted_ascending (x : string) (xs : list string) :
  ascending xs -> ascending (analysis_engine.insert_sorted x xs).
Proof.
  unfold ascending. induction 1 as [|y ys Hs IH Hhd]; cbn [analysis_engine.insert_sorted].
  - repeat constructor.
  - destruct (String.compare x y) eqn:Hc.
    + now constructor.
    + constructor; [now constructor | now constructor].
    + constructor; [exact IH|].
      assert (Hyx : String.compare y x = Lt)
        by (rewrite String.compare_antisym, Hc; reflexivity).
      destruct ys as [|z zs]; cbn [analysis_engine.insert_sorted].
      * now constructor.
      * inversion Hhd as [|? ? Hyz]; subst.
        destruct (String.compare x z); now constructor.
Qed.

Lemma sorted_set_spec (xs : list string) :
  ascending (analysis_engine.sorted_set xs)
  /\ forall m, In m (analysis_engine.sorted_set xs) <-> In m xs.
Proof.
  unfold analysis_engine.sorted_set. induction xs as [|x xs [IH1 IH2]]; cbn [fold_right].
  - split; [constructor | reflexivity].
  - split; [now apply insert_sorted_ascending|].
    intros m. rewrite insert_sorted_in, IH2. cbn. intuition.
Qed.

(** X7: without findings the summary is the sentence that says so; with
    findings it lists their messages between "Potential security
    concerns: " and ".", separated by ", ": every message of a finding is
    listed, each once, and the messages ascend in the order on strings,
    whatever the order of the findings. *)
Theorem summarise_security_lists_messages (issues : list schemas.Issue) :
  (issues = [] ->
   analysis_engine._summarise_security issues
   = "No obvious security issues detected by simple rules.")
  /\ (issues <> [] ->
      exists kinds,
        analysis_engine._summarise_security issues
        = "Potential security concerns: " ++ PyStr.join ", " kinds ++ "."
        /\ ascending kinds
        /\ forall m,
            In m kinds <-> exists issue, In issue issues /\ schemas.issue_message issue = m).
Proof.
  split.
  - intros ->. reflexivity.
  - intros Hne. destruct issues as [|i issues]; [congruence|].
    exists (analysis_engine.sorted_set (map schemas.issue_message (i :: issues))).
    split; [reflexivity|].
    destruct (sorted_set_spec (map schemas.issue_message (i :: issues))) as [Ha Hin].
    split; [exact Ha|]. intros m. rewrite Hin, in_map_iff.
    split; intros [issue [H1 H2]]; exists issue; now split.
Qed.

(* ===================================================================== *)
(** ** The time estimate of text that is no Python ([_estimate_big_o]) *)
(* ===================================================================== *)

Lemma existsb_contains_iff (subs : list string) (text : string) :
  existsb (fun sub => PyStr.contains sub text) subs = true <-> has_one_of subs text.
Proof.
  unfold has_one_of, has_substring. rewrite existsb_exists.
  split; intros [sub [Hin Hc]]; exists sub; (split; [exact Hin|]);
    now apply contains_iff.
Qed.

(** The depths of the text fallback after some lines: the current depth
    stays between 0 and the greatest depth, which grows by at most 1 for
    each line that opens a loop and is at least 1 once a loop was opened;
    without a line that closes a block, the current depth is the number of
    loops opened. *)
Lemma text_depth_bounds (lines : list string) :
  forall max_depth current_depth,
    (0 <= current_depth <= max_depth)%Z ->
    let loops := Z.of_nat (length (List.filter loop_header lines)) in
    let '(max_depth', current_depth') :=
      fold_left analysis_engine.text_depth_step lines (max_depth, current_depth) in
    (0 <= current_depth' <= max_depth')%Z
    /\ (max_depth <= max_depth' <= Z.max max_depth (current_depth + loops))%Z
    /\ (1 <= loops -> 1 <= max_depth')%Z
    /\ (List.Forall (fun line => block_exit line = false) lines ->
        current_depth' = (current_depth + loops)%Z
        /\ max_depth' = Z.max max_depth (current_depth + loops)).
Proof.
  induction lines as [|line lines IH]; intros m c Hc; cbn [fold_left List.filter].
  - cbn. repeat split; lia.
  - assert (Hstep :
      analysis_engine.text_depth_step (m, c) line
      = let '(m1, c1) :=
          if loop_header line then (Z.max m (c + 1), c + 1)%Z else (m, c) in
        if block_exit line then (m1, Z.max (c1 - 1) 0) else (m1, c1))
      by reflexivity.
    rewrite Hstep. clear Hstep.
    destruct (loop_header line) eqn:Hl, (block_exit line) eqn:He; cbn [length].
    + specialize (IH (Z.max m (c + 1)) (Z.max (c + 1 - 1) 0)).
      destruct (fold_left _ lines _) as [m' c'].
      destruct IH as (H1 & H2 & H3 & H4); [lia|].
      split; [lia|]. split; [lia|]. split; [lia|].
      intros Hall. inversion Hall; congruence.
    + specialize (IH (Z.max m (c + 1)) (c + 1)%Z).
      destruct (fold_left _ lines _) as [m' c'].
      destruct IH as (H1 & H2 & H3 & H4); [lia|].
      split; [lia|]. split; [lia|]. split; [lia|].
      intros Hall. inversion Hall as [|? ? _ Hrest]; subst.
      destruct (H4 Hrest). lia.
    + specialize (IH m (Z.max (c - 1) 0)).
      destruct (fold_left _ lines _) as [m' c'].
      destruct IH as (H1 & H2 & H3 & H4); [lia|].
      split; [lia|]. split; [lia|]. split; [lia|].
      intros Hall. inversion Hall; congruence.
    + specialize (IH m c).
      destruct (fold_left _ lines _) as [m' c'].
      destruct IH as (H1 & H2 & H3 & H4); [lia|].
      split; [lia|]. split; [lia|]. split; [lia|].
      intros Hall. inversion Hall as [|? ? _ Hrest]; subst.
      destruct (H4 Hrest). lia.
Qed.

Lemma bisection_test_iff (code : string) :
  let lowered := PyStr.lower code in
  existsb (fun tok => PyStr.contains tok lowered)
    ["low"; "high"; "start"; "end"; "left"; "right"]
  && existsb (fun cond => PyStr.contains cond lowered) analysis_engine.bisect_conditions
  && (PyStr.contains "mid" lowered
      && (PyStr.contains "/ 2" lowered || PyStr.contains ">> 1" lowered)) = true
  <-> looks_like_bisection code.
Proof.
  cbv zeta. unfold looks_like_bisection.
  rewrite !andb_true_iff, !existsb_contains_iff.
  rewrite <- (existsb_contains_iff ["/ 2"; ">> 1"]). cbn [existsb].
  rewrite orb_false_r. unfold has_substring. rewrite (contains_iff "mid"). tauto.
Qed.

(** X8: for a language that is not Python, [_estimate_big_o] reads the
    text.  Code that looks like a bisection is O(log n).  Other code is
    judged by its lines that open a loop (they start with "for " or
    "while " after stripping): none gives O(1) and only none does, one
    gives O(n), and O(n^2) needs two or more; when no line closes a block,
    two or more loop lines give O(n^2) whether the loops are nested or
    follow each other. *)
Theorem text_big_o_counts_loop_lines
    (ast_parse : string -> ast.parse_result) (ast_unparse : ast.node -> string)
    (code : string) (language : option string) :
  analysis_engine.is_python (PyStr.lower (default "" language)) = false ->
  let result := analysis_engine._estimate_big_o ast_parse ast_unparse code language in
  let loops := length (loop_lines code) in
  (looks_like_bisection code -> result = "O(log n)")
  /\ (~ looks_like_bisection code ->
      (result = "O(1)" <-> loops = 0)
      /\ (loops = 1 -> result = "O(n)")
      /\ (result = "O(n^2)" -> 2 <= loops)
      /\ In result ["O(1)"; "O(n)"; "O(n^2)"]
      /\ (List.Forall (fun line => block_exit line = false) (PyStr.splitlines code) ->
          (result = "O(n^2)" <-> 2 <= loops))).
Proof.
  intros Hpy. cbv zeta. unfold analysis_engine._estimate_big_o. rewrite Hpy.
  pose proof (bisection_test_iff code) as Hb. cbv zeta in Hb.
  destruct (_ && _ && _) eqn:Htest.
  - split; [reflexivity|]. intros Hnot. exfalso. apply Hnot. now apply Hb.
  - split; [intros H; apply Hb in H; discriminate H|]. intros _.
    pose proof (text_depth_bounds (PyStr.splitlines code) 0 0 ltac:(lia)) as Hd.
    cbv zeta in Hd. fold (loop_lines code) in Hd.
    destruct (fold_left _ (PyStr.splitlines code) _) as [m c].
    destruct Hd as (H1 & H2 & H3 & H4).
    destruct (Z.leb_spec 2 m) as [Hm2|Hm2];
      [|destruct (Z.eqb_spec m 1) as [Hm1|Hm1]].
    + split; [split; [discriminate | lia]|]. split; [lia|]. split; [lia|].
      split; [cbn; auto|]. intros Hall. split; [lia | reflexivity].
    + split; [split; [discriminate | lia]|]. split; [reflexivity|].
      split; [discriminate|]. split; [cbn; auto|].
      intros Hall. destruct (H4 Hall). split; [discriminate | lia].
    + split; [split; [lia | reflexivity]|]. split; [lia|].
      split; [discriminate|]. split; [cbn; auto|].
      intros Hall. destruct (H4 Hall). split; [discriminate | lia].
Qed.

(** X8, the theorem at two loops of C that follow each other: O(n^2). *)
Lemma text_big_o_counts_loop_lines_witness :
  let code :=
    line "for (i = 0; i < n; i++) { a(i); }"
    ++ line "for (j = 0; j < n; j++) { b(j); }" in
  let result :=
    analysis_engine._estimate_big_o reject_all unparse_blank code (Some "c") in
  analysis_engine.is_python (PyStr.lower (default "" (Some "c"))) = false
  /\ result = "O(n^2)"
  /\ (looks_like_bisection code -> result = "O(log n)")
  /\ (~ looks_like_bisection code ->
      (result = "O(1)" <-> length (loop_lines code) = 0)
      /\ (length (loop_lines code) = 1 -> result = "O(n)")
      /\ (result = "O(n^2)" -> 2 <= length (loop_lines code))
      /\ In result ["O(1)"; "O(n)"; "O(n^2)"]
      /\ (List.Forall (fun line => block_exit line = false) (PyStr.splitlines code) ->
          (result = "O(n^2)" <-> 2 <= length (loop_lines code)))).
Proof.
  intros code result.
  split; [reflexivity|]. split; [reflexivity|].
  apply (text_big_o_counts_loop_lines reject_all unparse_blank code (Some "c")).
  reflexivity.
Defined.

(* ===================================================================== *)
(** ** The space estimate ([_estimate_space_complexity]) *)
(* ===================================================================== *)

Lemma walk_is_space_children (cs : list ast.node) :
  forall self,
    (fix walk (children : list ast.node) (self : analysis_engine.SpaceVisitor) :=
       match children with
       | [] => self
       | child :: rest => walk rest (analysis_engine.space_visit child self)
       end) cs self
    = space_children cs self.
Proof.
  induction cs as [|c cs IH]; intros self; [reflexivity|]. cbn. apply IH.
Qed.

Lemma space_children_summarise (cs : list ast.node) :
  List.Forall space_summarises cs ->
  forall self,
    space_advanced (existsb has_comprehension cs)
      (fun f => sum_of (map (own_calls f) cs))
      (fun f => sum_of (map (counted f) cs))
      self (space_children cs self).
Proof.
  induction 1 as [|c cs Hc _ IH]; intros self.
  - unfold space_advanced. cbn. split; [reflexivity|].
    split; [now rewrite orb_false_r|]. intros f. destruct (inside _ f); lia.
  - cbn [space_children fold_left].
    fold (space_children cs (analysis_engine.space_visit c self)).
    destruct (Hc self) as (Hc1 & Hl1 & Hk1).
    destruct (IH (analysis_engine.space_visit c self)) as (Hc2 & Hl2 & Hk2).
    unfold space_advanced. cbn [map sum_of existsb fold_right].
    split; [congruence|]. split; [rewrite Hl2, Hl1; now rewrite orb_assoc|].
    intros f. rewrite Hk2, Hk1, Hc1.
    fold (sum_of (map (own_calls f) cs)). fold (sum_of (map (counted f) cs)).
    destruct (inside _ f); lia.
Qed.

(** The space visitor computes the summary of the tree it walks. *)
Lemma space_visit_summarises (n : ast.node) : space_summarises n.
Proof.
  induction n as [name cs IH|func cs IHf IH|id|cs IH|cs IH|cs IH|cs IH|cs IH|cs IH]
    using node_induction; intros self.
  - (* FunctionDef *)
    cbn [analysis_engine.space_visit]. rewrite walk_is_space_children.
    match goal with
    | |- context [space_children cs ?s] => set (self1 := s)
    end.
    destruct (space_children_summarise cs IH self1) as (Hc & Hl & Hk).
    unfold space_advanced. cbn [analysis_engine.sp_current_func
      analysis_engine.has_linear_allocation analysis_engine.sp_self_calls_per_func
      has_comprehension own_calls counted].
    split; [reflexivity|]. split; [exact Hl|].
    intros f. rewrite Hk. subst self1.
    cbn [analysis_engine.sp_self_calls_per_func analysis_engine.sp_current_func inside].
    rewrite count_in_setdefault0.
    destruct (String.eqb_spec name f) as [->|Hne]; cbn [andb].
    + rewrite andb_true_r. destruct (inside _ f), (PyStr.truthy f); lia.
    + rewrite andb_false_r. destruct (inside _ f); lia.
  - (* Call *)
    cbn [analysis_engine.space_visit]. rewrite walk_is_space_children.
    match goal with
    | |- context [analysis_engine.space_visit func ?s] => set (self1 := s)
    end.
    assert (H1 : analysis_engine.sp_current_func self1
                 = analysis_engine.sp_current_func self
                 /\ analysis_engine.has_linear_allocation self1
                    = analysis_engine.has_linear_allocation self
                 /\ forall f,
                     count_in (analysis_engine.sp_self_calls_per_func self1) f
                     = (count_in (analysis_engine.sp_self_calls_per_func self) f
                        + (if inside (analysis_engine.sp_current_func self) f
                           then match func with
                                | ast.Name id => if String.eqb id f then 1 else 0
                                | _ => 0
                                end
                           else 0))%Z).
    { subst self1. unfold analysis_engine.is_self_call, inside.
      destruct func as [| |id| | | | | |];
        try (repeat split; try reflexivity; intros f;
             destruct (analysis_engine.sp_current_func self) as [g|];
             try destruct (PyStr.truthy g && String.eqb g f); lia).
      destruct (analysis_engine.sp_current_func self) as [g|] eqn:Hg;
        [|repeat split; try reflexivity; try assumption; intros f; lia].
      destruct (PyStr.truthy g) eqn:Ht; cbn [andb];
        [|repeat split; try reflexivity; try assumption; intros f; lia].
      destruct (String.eqb_spec id g) as [->|Hne].
      - cbn [analysis_engine.sp_current_func analysis_engine.has_linear_allocation
          analysis_engine.sp_self_calls_per_func].
        repeat split; try assumption. intros f. rewrite count_in_increment.
        destruct (String.eqb g f); lia.
      - repeat split; try reflexivity; try assumption. intros f.
        destruct (String.eqb_spec g f) as [->|Hgf]; [|lia].
        destruct (String.eqb_spec id f); [contradiction | lia]. }
    destruct H1 as (Hc1 & Hl1 & Hk1).
    destruct (IHf self1) as (Hc2 & Hl2 & Hk2).
    destruct (space_children_summarise cs IH (analysis_engine.space_visit func self1))
      as (Hc3 & Hl3 & Hk3).
    unfold space_advanced. cbn [has_comprehension own_calls counted].
    split; [congruence|]. split; [rewrite Hl3, Hl2, Hl1; now rewrite orb_assoc|].
    intros f. rewrite Hk3, Hk2, Hk1, Hc2, Hc1.
    destruct (inside _ f); lia.
  - (* Name *)
    cbn [analysis_engine.space_visit]. unfold space_advanced.
    cbn [has_comprehension own_calls counted].
    split; [reflexivity|]. split; [now rewrite orb_false_r|].
    intros f. destruct (inside _ f); lia.
  - cbn [analysis_engine.space_visit]. rewrite walk_is_space_children.
    exact (space_children_summarise cs IH self).
  - cbn [analysis_engine.space_visit]. rewrite walk_is_space_children.
    exact (space_children_summarise cs IH self).
  - (* ListComp *)
    cbn [analysis_engine.space_visit]. rewrite walk_is_space_children.
    match goal with
    | |- context [space_children cs ?s] => set (self1 := s)
    end.
    destruct (space_children_summarise cs IH self1) as (Hc & Hl & Hk).
    unfold space_advanced. cbn [has_comprehension own_calls counted].
    split; [exact Hc|]. split; [|exact Hk].
    rewrite Hl. subst self1. cbn. now rewrite orb_true_r.
  - cbn [analysis_engine.space_visit]. rewrite walk_is_space_children.
    match goal with
    | |- context [space_children cs ?s] => set (self1 := s)
    end.
    destruct (space_children_summarise cs IH self1) as (Hc & Hl & Hk).
    unfold space_advanced. cbn [has_comprehension own_calls counted].
    split; [exact Hc|]. split; [|exact Hk].
    rewrite Hl. subst self1. cbn. now rewrite orb_true_r.
  - cbn [analysis_engine.space_visit]. rewrite walk_is_space_children.
    match goal with
    | |- context [space_children cs ?s] => set (self1 := s)
    end.
    destruct (space_children_summarise cs IH self1) as (Hc & Hl & Hk).
    unfold space_advanced. cbn [has_comprehension own_calls counted].
    split; [exact Hc|]. split; [|exact Hk].
    rewrite Hl. subst self1. cbn. now rewrite orb_true_r.
  - cbn [analysis_engine.space_visit]. rewrite walk_is_space_children.
    exact (space_children_summarise cs IH self).
Qed.

(** The state of the space visitor after the walk of a whole tree. *)
Lemma space_visited_tree (tree : ast.node) :
  let v := analysis_engine.space_visit tree SpaceVisitor_init in
  analysis_engine.has_linear_allocation v = has_comprehension tree
  /\ forall f,
      count_in (analysis_engine.sp_self_calls_per_func v) f = counted f tree.
Proof.
  cbv zeta. destruct (space_visit_summarises tree SpaceVisitor_init) as (_ & Hl & Hk).
  split; [exact Hl|].
  intros f. rewrite Hk. unfold count_in. cbn. rewrite lookup_empty. cbn. lia.
Qed.

(** The greatest value of a dict whose counts are those of the tree. *)
Lemma max_values_of_counts (d : gmap string Z) (tree : ast.node) :
  (forall f, count_in d f = counted f tree) ->
  (forall f, (1 <= counted f tree)%Z -> (counted f tree <= analysis_engine.max_values d)%Z)
  /\ (analysis_engine.max_values d = 0%Z
      \/ exists f, counted f tree = analysis_engine.max_values d).
Proof.
  intros Hk. destruct (max_values_spec d) as (Hle & Hmax). split.
  - intros f Hf. specialize (Hk f). unfold count_in in Hk.
    destruct (d !! f) as [v|] eqn:Hv; cbn in Hk; [|lia].
    subst v. now apply (Hle f).
  - destruct Hmax as [[_ H0]|[k Hk']]; [now left|].
    right. exists k. rewrite <- Hk. unfold count_in. now rewrite Hk'.
Qed.

(** X9: for Python code that parses, the space estimate is O(n) exactly
    when some function name has a direct self-call or the tree holds a
    list, dict or set comprehension, and O(1) otherwise; code that does not
    parse is O(1). *)
Theorem estimate_space_complexity_python
    (ast_parse : string -> ast.parse_result) (code : string) (language : option string) :
  analysis_engine.is_python (PyStr.lower (default "" language)) = true ->
  let result := analysis_engine._estimate_space_complexity ast_parse code language in
  (forall msg, ast_parse code = ast.SyntaxError msg -> result = "O(1)")
  /\ (forall tree,
      ast_parse code = ast.Parsed tree ->
      (result = "O(n)"
       <-> (exists f, (1 <= counted f tree)%Z) \/ has_comprehension tree = true)
      /\ (result = "O(1)"
          <-> (forall f, (counted f tree <= 0)%Z) /\ has_comprehension tree = false)).
Proof.
  intros Hpy. cbv zeta. unfold analysis_engine._estimate_space_complexity.
  rewrite Hpy. cbn [negb]. split.
  - intros msg ->. reflexivity.
  - intros tree ->. fold SpaceVisitor_init.
    destruct (space_visited_tree tree) as (Hl & Hk). cbv zeta in Hl, Hk.
    destruct (max_values_of_counts _ tree Hk) as (Hle & Hmax).
    set (v := analysis_engine.space_visit tree SpaceVisitor_init) in *.
    set (m := analysis_engine.max_values (analysis_engine.sp_self_calls_per_func v)) in *.
    rewrite Hl.
    destruct (Z.leb_spec 1 m) as [Hm|Hm].
    + assert (Hex : exists f, (1 <= counted f tree)%Z).
      { destruct Hmax as [H0|[f Hf]]; [lia|]. exists f. lia. }
      split; split; try discriminate; auto.
      intros [Hall _]. destruct Hex as [f Hf]. specialize (Hall f). lia.
    + assert (Hall : forall f, (counted f tree <= 0)%Z).
      { intros f. destruct (Z.le_gt_cases (counted f tree) 0) as [H|H]; [exact H|].
        specialize (Hle f). lia. }
      destruct (has_comprehension tree).
      * split; split; try discriminate; auto. intros [_ H]. discriminate H.
      * split; split; try discriminate; auto.
        intros [[f Hf]|H]; [specialize (Hall f); lia | discriminate H].
Qed.

(** X9, the theorem at an assignment of a list comprehension: O(n). *)
Lemma estimate_space_complexity_python_witness :
  let ast_parse := parses_to squares_source squares_tree in
  let result :=
    analysis_engine._estimate_space_complexity ast_parse squares_source
      (Some "python") in
  analysis_engine.is_python (PyStr.lower (default "" (Some "python"))) = true
  /\ ast_parse squares_source = ast.Parsed squares_tree
  /\ has_comprehension squares_tree = true
  /\ result = "O(n)"
  /\ (forall msg, ast_parse squares_source = ast.SyntaxError msg -> result = "O(1)")
  /\ (forall tree,
      ast_parse squares_source = ast.Parsed tree ->
      (result = "O(n)"
       <-> (exists f, (1 <= counted f tree)%Z) \/ has_comprehension tree = true)
      /\ (result = "O(1)"
          <-> (forall f, (counted f tree <= 0)%Z) /\ has_comprehension tree = false)).
Proof.
  intros ast_parse result.
  split; [reflexivity|]. split; [reflexivity|]. split; [reflexivity|].
  split; [reflexivity|].
  apply (estimate_space_complexity_python ast_parse squares_source (Some "python")).
  reflexivity.
Defined.

(** X10: an exponential time estimate comes with a linear space estimate:
    whenever [_estimate_big_o] answers O(2^n), which it does for Python
    code only, [_estimate_space_complexity] answers O(n) on the same code;
    and for a language that is not Python the space estimate is O(1). *)
Theorem exponential_time_has_linear_space
    (ast_parse : string -> ast.parse_result) (ast_unparse : ast.node -> string)
    (code : string) (language : option string) :
  (analysis_engine._estimate_big_o ast_parse ast_unparse code language = "O(2^n)" ->
   analysis_engine.is_python (PyStr.lower (default "" language)) = true
   /\ analysis_engine._estimate_space_complexity ast_parse code language = "O(n)")
  /\ (analysis_engine.is_python (PyStr.lower (default "" language)) = false ->
      analysis_engine._estimate_space_complexity ast_parse code language = "O(1)").
Proof.
  split.
  - intros Ht.
    destruct (analysis_engine.is_python (PyStr.lower (default "" language))) eqn:Hpy.
    + split; [reflexivity|].
      unfold analysis_engine._estimate_big_o in Ht. rewrite Hpy in Ht.
      unfold analysis_engine._estimate_space_complexity. rewrite Hpy. cbn [negb].
      destruct (ast_parse code) as [tree|msg]; [|discriminate Ht].
      fold SpaceVisitor_init.
      destruct (visited_tree ast_unparse tree) as (_ & _ & Hk1).
      destruct (space_visited_tree tree) as (_ & Hk2). cbv zeta in Hk1, Hk2.
      destruct (max_values_of_counts _ tree Hk1) as (_ & Hmax1).
      destruct (max_values_of_counts _ tree Hk2) as (Hle2 & _).
      unfold analysis_engine.big_o_of_visitor in Ht.
      set (m1 := analysis_engine.max_values _) in *.
      set (m2 := analysis_engine.max_values _).
      destruct (analysis_engine.has_log_loop _); [discriminate Ht|].
      destruct (Z.leb_spec 2 m1) as [Hm|Hm].
      * destruct Hmax1 as [H0|[f Hf]]; [lia|].
        specialize (Hle2 f).
        destruct (Z.leb_spec 1 m2); [reflexivity | lia].
      * repeat match type of Ht with
               | (if ?b then _ else _) = _ => destruct b; try discriminate Ht
               end.
    + exfalso. unfold analysis_engine._estimate_big_o in Ht. rewrite Hpy in Ht.
      destruct (_ && _ && _); [discriminate Ht|].
      destruct (fold_left _ _ _) as [m c].
      repeat match type of Ht with
             | (if ?b then _ else _) = _ => destruct b; try discriminate Ht
             end.
  - intros Hpy. unfold analysis_engine._estimate_space_complexity. now rewrite Hpy.
Qed.

(** *** The space visitor raises no [KeyError] *)

Lemma space_children_checked_none (cs : list ast.node) :
  fold_left
    (fun acc child =>
       match acc with Some self => space_visit_checked child self | None => None end)
    cs None = None.
Proof. induction cs as [|c cs IH]; [reflexivity | exact IH]. Qed.

Lemma walk_is_space_children_checked (cs : list ast.node) :
  forall self,
    (fix walk (children : list ast.node) (self : analysis_engine.SpaceVisitor) :=
       match children with
       | [] => Some self
       | child :: rest =>
           match space_visit_checked child self with
           | Some self' => walk rest self'
           | None => None
           end
       end) cs self
    = space_children_checked cs self.
Proof.
  induction cs as [|c cs IH]; intros self; [reflexivity|].
  unfold space_children_checked. cbn [fold_left].
  destruct (space_visit_checked c self) as [self'|].
  - apply IH.
  - now rewrite space_children_checked_none.
Qed.

Lemma space_keeps_keys_current self self' :
  space_current_is_key self -> space_keeps_keys self self' ->
  space_current_is_key self'.
Proof.
  intros Hk [Hc Hs] f Hf. rewrite Hc in Hf. apply Hs. now apply Hk.
Qed.

Lemma space_children_never_raise (cs : list ast.node) :
  List.Forall space_never_raises cs ->
  forall self,
    space_current_is_key self ->
    space_children_checked cs self = Some (space_children cs self)
    /\ space_keeps_keys self (space_children cs self).
Proof.
  induction 1 as [|c cs Hc _ IH]; intros self Hk.
  - split; [reflexivity|]. split; [reflexivity | auto].
  - destruct (Hc self Hk) as [He Hkeep].
    pose proof (space_keeps_keys_current _ _ Hk Hkeep) as Hk'.
    destruct (IH _ Hk') as [He' Hkeep'].
    unfold space_children_checked, space_children in *. cbn [fold_left].
    rewrite He. split; [exact He'|].
    destruct Hkeep as [H1 H2], Hkeep' as [H1' H2'].
    split; [congruence | auto].
Qed.

(** Whenever the space visitor adds 1 to the count of the current
    function, the count is there. *)
Lemma space_visit_never_raises (n : ast.node) : space_never_raises n.
Proof.
  induction n as [name cs IH|func cs IHf IH|id|cs IH|cs IH|cs IH|cs IH|cs IH|cs IH]
    using node_induction; intros self Hk.
  - cbn [space_visit_checked analysis_engine.space_visit].
    rewrite walk_is_space_children_checked, walk_is_space_children.
    match goal with
    | |- context [space_children cs ?s] => set (self1 := s)
    end.
    assert (Hk1 : space_current_is_key self1).
    { intros f [= <-]. apply setdefault0_key. }
    destruct (space_children_never_raise cs IH self1 Hk1) as [He [_ Hs]].
    rewrite He. split; [reflexivity|]. split; [reflexivity|].
    intros f Hf. cbn. apply Hs. subst self1. cbn. now apply setdefault0_keeps.
  - cbn [space_visit_checked analysis_engine.space_visit].
    rewrite walk_is_space_children.
    assert (Hup :
      exists self1,
        match analysis_engine.is_self_call func (analysis_engine.sp_current_func self)
        with
        | Some cf =>
            match analysis_engine.sp_self_calls_per_func self !! cf with
            | Some v =>
                Some (analysis_engine.mkSpaceVisitor
                        (<[cf := (v + 1)%Z]> (analysis_engine.sp_self_calls_per_func self))
                        (analysis_engine.sp_current_func self)
                        (analysis_engine.has_linear_allocation self))
            | None => None
            end
        | None => Some self
        end = Some self1
        /\ match analysis_engine.is_self_call func (analysis_engine.sp_current_func self)
           with
           | Some cf =>
               analysis_engine.mkSpaceVisitor
                 (analysis_engine.increment cf (analysis_engine.sp_self_calls_per_func self))
                 (analysis_engine.sp_current_func self)
                 (analysis_engine.has_linear_allocation self)
           | None => self
           end = self1
        /\ space_keeps_keys self self1).
    { destruct (analysis_engine.is_self_call func (analysis_engine.sp_current_func self))
        as [cf|] eqn:Hcall.
      - assert (Hcur : analysis_engine.sp_current_func self = Some cf).
        { unfold analysis_engine.is_self_call in Hcall.
          destruct func; try discriminate Hcall.
          destruct (analysis_engine.sp_current_func self) as [g|]; [|discriminate Hcall].
          destruct (PyStr.truthy g && String.eqb id g); now inversion Hcall. }
        destruct (Hk cf Hcur) as [v Hv]. rewrite Hv.
        eexists. split; [reflexivity|]. split.
        + unfold analysis_engine.increment. now rewrite Hv.
        + split; [reflexivity|]. intros f Hf. cbn.
          destruct (decide (cf = f)) as [->|Hne].
          * rewrite lookup_insert_eq. eauto.
          * now rewrite lookup_insert_ne.
      - exists self. split; [reflexivity|]. split; [reflexivity|].
        split; [reflexivity | auto]. }
    destruct Hup as (self1 & -> & -> & Hkeep1).
    pose proof (space_keeps_keys_current _ _ Hk Hkeep1) as Hk1.
    destruct (IHf self1 Hk1) as [He2 Hkeep2]. rewrite He2.
    rewrite walk_is_space_children_checked.
    pose proof (space_keeps_keys_current _ _ Hk1 Hkeep2) as Hk2.
    destruct (space_children_never_raise cs IH _ Hk2) as [He3 Hkeep3].
    split; [exact He3|].
    destruct Hkeep1 as [A1 B1], Hkeep2 as [A2 B2], Hkeep3 as [A3 B3].
    split; [congruence | auto].
  - split; [reflexivity|]. split; [reflexivity | auto].
  - cbn [space_visit_checked analysis_engine.space_visit].
    rewrite walk_is_space_children_checked, walk_is_space_children.
    exact (space_children_never_raise cs IH self Hk).
  - cbn [space_visit_checked analysis_engine.space_visit].
    rewrite walk_is_space_children_checked, walk_is_space_children.
    exact (space_children_never_raise cs IH self Hk).
  - cbn [space_visit_checked analysis_engine.space_visit].
    rewrite walk_is_space_children_checked, walk_is_space_children.
    match goal with
    | |- context [space_children cs ?s] => set (self1 := s)
    end.
    assert (Hk1 : space_current_is_key self1) by exact Hk.
    destruct (space_children_never_raise cs IH self1 Hk1) as [He [Hc Hs]].
    rewrite He. split; [reflexivity|]. split; [exact Hc | exact Hs].
  - cbn [space_visit_checked analysis_engine.space_visit].
    rewrite walk_is_space_children_checked, walk_is_space_children.
    match goal with
    | |- context [space_children cs ?s] => set (self1 := s)
    end.
    assert (Hk1 : space_current_is_key self1) by exact Hk.
    destruct (space_children_never_raise cs IH self1 Hk1) as [He [Hc Hs]].
    rewrite He. split; [reflexivity|]. split; [exact Hc | exact Hs].
  - cbn [space_visit_checked analysis_engine.space_visit].
    rewrite walk_is_space_children_checked, walk_is_space_children.
    match goal with
    | |- context [space_children cs ?s] => set (self1 := s)
    end.
    assert (Hk1 : space_current_is_key self1) by exact Hk.
    destruct (space_children_never_raise cs IH self1 Hk1) as [He [Hc Hs]].
    rewrite He. split; [reflexivity|]. split; [exact Hc | exact Hs].
  - cbn [space_visit_checked analysis_engine.space_visit].
    rewrite walk_is_space_children_checked, walk_is_space_children.
    exact (space_children_never_raise cs IH self Hk).
Qed.

(** X11: neither visitor ever raises [KeyError]: the statement
    [self.self_calls_per_func[self.current_func] += 1] of [visit_Call] runs
    only inside a function definition, whose [visit_FunctionDef] has put
    the name into the dict.  From its initial state, each visitor run with
    the lookup of Python returns the state that the visitor returns. *)
Theorem visitors_raise_no_key_error (ast_unparse : ast.node -> string)
    (tree : ast.node) :
  visit_checked ast_unparse tree analysis_engine.ComplexityVisitor_init
  = Some (analysis_engine.complexity_visit ast_unparse tree
            analysis_engine.ComplexityVisitor_init)
  /\ space_visit_checked tree SpaceVisitor_init
     = Some (analysis_engine.space_visit tree SpaceVisitor_init).
Proof.
  split.
  - apply visit_never_raises. intros f Hf. discriminate Hf.
  - apply space_visit_never_raises. intros f Hf. discriminate Hf.
Qed.

(* ===================================================================== *)
(** ** Stripping and slicing *)
(* ===================================================================== *)

(** [s[:n]] is [s] when [s] has at most [n] characters. *)
Lemma slice_to_short (s : string) :
  forall n, PyStr.len s <= n -> PyStr.slice_to n s = s.
Proof.
  induction s as [|c s IH]; intros n Hn; cbn [PyStr.slice_to PyStr.len] in *;
    [reflexivity|].
  destruct (PyStr.is_continuation c).
  - now rewrite IH.
  - destruct n as [|n]; [lia|]. rewrite IH; [reflexivity | lia].
Qed.

(** [s[:n]] has at most [n] characters. *)
Lemma len_slice_to (s : string) : forall n, PyStr.len (PyStr.slice_to n s) <= n.
Proof.
  induction s as [|c s IH]; intros n; cbn [PyStr.slice_to PyStr.len]; [lia|].
  destruct (PyStr.is_continuation c) eqn:Hc.
  - cbn [PyStr.len]. rewrite Hc. apply IH.
  - destruct n as [|n]; cbn [PyStr.len]; [lia|]. rewrite Hc.
    specialize (IH n). lia.
Qed.

(* ===================================================================== *)
(** ** The attempt at a correction ([attempt_auto_correction]) *)
(* ===================================================================== *)

Lemma ends_with_app (a t s : string) :
  (exists pre, t = pre ++ s) -> exists pre, a ++ t = pre ++ s.
Proof. intros [pre ->]. exists (a ++ pre). now rewrite append_assoc. Qed.

Lemma ends_with_refl (s : string) : exists pre, s = pre ++ s.
Proof. now exists "". Qed.

(** X12: [attempt_auto_correction] asks the client once, for a prompt that
    ends with the first 6000 characters of the code.  It returns the code
    as submitted when the reply is blank or holds "stubbed ai" in any
    letter case, and else the stripped reply; so what it returns for code
    that is not blank is never blank, and a reply it accepts starts and
    ends with no space. *)
Theorem attempt_auto_correction_result (W : Type) (client : ai_client.AIClient W)
    (language code : string) (w : W) :
  let outcome := analysis_engine.attempt_auto_correction client language code w in
  exists prompt,
    let reply := fst (ai_client.chat client prompt None w) in
    snd outcome = snd (ai_client.chat client prompt None w)
    /\ (exists pre, prompt = pre ++ PyStr.slice_to 6000 code)
    /\ (has_substring "stubbed ai" (PyStr.lower reply) \/ whitespace_only reply ->
        fst outcome = code)
    /\ (~ has_substring "stubbed ai" (PyStr.lower reply) -> ~ whitespace_only reply ->
        fst outcome = PyStr.strip reply
        /\ ~ whitespace_only (fst outcome)
        /\ PyStr.lstrip (fst outcome) = fst outcome
        /\ PyStr.rstrip (fst outcome) = fst outcome)
    /\ (~ whitespace_only code -> ~ whitespace_only (fst outcome)).
Proof.
  cbv zeta. unfold analysis_engine.attempt_auto_correction, Async.bind.
  match goal with
  | |- context [ai_client.chat client ?p None w] =>
      exists p;
      assert (Hprompt : exists pre, p = pre ++ PyStr.slice_to 6000 code)
        by (repeat apply ends_with_app; apply ends_with_refl)
  end.
  destruct (ai_client.chat client _ None w) as [reply w1]. cbn [fst snd].
  pose proof (contains_iff "stubbed ai" (PyStr.lower reply)) as Hmark.
  pose proof (strip_empty_iff reply) as Hblank.
  destruct (strip_is_stripped reply) as (Hl & Hr & Hs).
  assert (Hstripped : whitespace_only (PyStr.strip reply) <-> whitespace_only reply).
  { rewrite <- (strip_empty_iff (PyStr.strip reply)), Hs. exact Hblank. }
  fold (has_substring "stubbed ai" (PyStr.lower reply)) in Hmark.
  destruct (PyStr.contains "stubbed ai" (PyStr.lower reply)) eqn:Hc; cbn [orb].
  - assert (Hm : has_substring "stubbed ai" (PyStr.lower reply)) by now apply Hmark.
    unfold Async.ret. cbn [fst snd].
    split; [reflexivity|]. split; [exact Hprompt|].
    split; [reflexivity|]. split; [contradiction | trivial].
  - assert (Hm : ~ has_substring "stubbed ai" (PyStr.lower reply)).
    { intros H. apply Hmark in H. discriminate H. }
    destruct (PyStr.truthy (PyStr.strip reply)) eqn:Ht; cbn [negb];
      unfold Async.ret; cbn [fst snd].
    + assert (Hnb : ~ whitespace_only reply).
      { intros H. apply Hblank in H. discriminate H. }
      split; [reflexivity|]. split; [exact Hprompt|].
      split; [intros [H|H]; contradiction|].
      split; [intros _ _; repeat split; try assumption; now rewrite Hstripped|].
      intros _. now rewrite Hstripped.
    + assert (Hb : whitespace_only reply) by now apply Hblank.
      split; [reflexivity|]. split; [exact Hprompt|].
      split; [reflexivity|]. split; [contradiction | trivial].
Qed.

(* ===================================================================== *)
(** ** The language of an analysis *)
(* ===================================================================== *)

Lemma alias_is_canonical (token lang : string) :
  analysis_engine.assoc_get token analysis_engine.alias_map = Some lang ->
  In lang canonical_languages.
Proof.
  unfold analysis_engine.alias_map, canonical_languages.
  cbn [analysis_engine.assoc_get].
  repeat match goal with
         | |- context [String.eqb token ?k] => destruct (String.eqb token k)
         end; intros [= <-]; cbn [In]; auto 10.
Qed.

(** What [_detect_language_via_ai] can answer. *)
Lemma detect_language_via_ai_cases (W : Type) (client : ai_client.AIClient W)
    (code fallback : string) (conf : Q) (w : W) :
  let outcome := analysis_engine._detect_language_via_ai client code fallback conf w in
  let lang := fst (fst outcome) in
  let c := snd (fst outcome) in
  (lang = analysis_engine.str_or fallback "generic" /\ c = conf)
  \/ (In lang canonical_languages /\ c = PyFloat.round64 (9 # 10))
  \/ (lang = "generic" /\ c = 0%Q).
Proof.
  cbv zeta. unfold analysis_engine._detect_language_via_ai, Async.bind.
  destruct (ai_client.chat client _ None w) as [reply w1].
  destruct (_ || _); [left; split; reflexivity|].
  destruct (analysis_engine.assoc_get _ analysis_engine.alias_map) as [lang|] eqn:Ha.
  - right. left. cbn. split; [|reflexivity]. now apply alias_is_canonical in Ha.
  - right. right. split; reflexivity.
Qed.

(** X13: whatever the client says, [_detect_language_via_ai] answers with
    a normalised language: the fallback it was given ("generic" when that
    is empty) with the confidence it was given, or one of python,
    javascript, typescript, java, cpp and c with the confidence 0.9, or
    "generic" with the confidence 0.  The language is never empty. *)
Theorem detect_language_via_ai_is_normalised (W : Type)
    (client : ai_client.AIClient W) (code fallback : string) (conf : Q) (w : W) :
  let outcome := analysis_engine._detect_language_via_ai client code fallback conf w in
  let lang := fst (fst outcome) in
  let c := snd (fst outcome) in
  ((lang = fallback /\ fallback <> "" /\ c = conf)
   \/ (lang = "generic" /\ fallback = "" /\ c = conf)
   \/ (In lang canonical_languages /\ c = PyFloat.round64 (9 # 10))
   \/ (lang = "generic" /\ c = 0%Q))
  /\ lang <> "".
Proof.
  cbv zeta.
  destruct (detect_language_via_ai_cases W client code fallback conf w)
    as [[Hl Hc]|[[Hl Hc]|[Hl Hc]]]; cbv zeta in *.
  - unfold analysis_engine.str_or in Hl. destruct fallback as [|a f]; cbn in Hl.
    + split; [right; left; repeat split; assumption|]. rewrite Hl. discriminate.
    + split; [left; repeat split; [assumption | discriminate | assumption]|].
      rewrite Hl. discriminate.
  - split; [right; right; left; now split|].
    unfold canonical_languages in Hl. cbn [In] in Hl.
    intros H0. rewrite H0 in Hl. intuition discriminate.
  - split; [right; right; right; now split|]. rewrite Hl. discriminate.
Qed.

Lemma known_language_is_plain (lang : string) :
  In lang known_languages ->
  PyStr.lower (analysis_engine.str_or lang "generic") = lang
  /\ analysis_engine.str_or lang "generic" = lang.
Proof.
  unfold known_languages, canonical_languages. cbn [In].
  intros H. repeat (destruct H as [<-|H]; [split; reflexivity|]). contradiction.
Qed.

Lemma detected_is_known (code : string) :
  In (language_detector.language (language_detector.detect_language code))
    known_languages
  /\ (0 <= language_detector.confidence (language_detector.detect_language code) <= 1)%Q.
Proof.
  destruct (detect_language_cases code) as [[_ Hr]|(lang & ps & Hw & Hl & Hc)];
    cbv zeta in *.
  - rewrite Hr. cbn. split; [now left | lra].
  - destruct Hw as (Hin & Hpos & _ & _).
    pose proof (hits_bounds code ps) as [_ Hhi].
    pose proof (signals_sizes lang ps Hin) as Hsize.
    destruct (confidence_value (hits code ps) (Z.of_nat (length ps)))
      as (_ & Hc0 & Hc1); [lia|lia|]. cbv zeta in *. rewrite <- Hc in *.
    split; [|split; [now apply Qlt_le_weak | exact Hc1]].
    rewrite Hl. unfold language_detector.signals in Hin. cbn [In] in Hin.
    unfold known_languages, canonical_languages. cbn [In].
    repeat (destruct Hin as [[= <- _]|Hin]; [auto 10|]). contradiction.
Qed.

Lemma healed_known (lang code : string) :
  In lang known_languages -> In (healed lang code) known_languages.
Proof.
  unfold healed. destruct (_ && _); [|trivial].
  intros _. unfold known_languages, canonical_languages. cbn [In]. auto 10.
Qed.

Section language_stage.

Context {W : Type}.
Variable client : ai_client.AIClient W.

(** The first stage of [analyze_code]: a language that is asked for is
    taken, healed, without a call to the client; else the language is one
    of the known ones. *)
Lemma resolve_language_cases (code : string) (language : option string) (w : W) :
  let outcome := resolve_language client code language w in
  let d := language_detector.detect_language code in
  (override_of language <> "" ->
   outcome = (healed (override_of language) code, language_detector.confidence d, w))
  /\ (override_of language = "" ->
      In (fst (fst outcome)) known_languages
      /\ (0 <= snd (fst outcome) <= 1)%Q).
Proof.
  cbv zeta. unfold resolve_language. fold (override_of language).
  destruct (detected_is_known code) as [Hk Hc].
  destruct (known_language_is_plain _ Hk) as [Hlow Hor].
  rewrite Hlow.
  set (d := language_detector.detect_language code) in *.
  split.
  - intros Hne. destruct (override_of language) as [|a o] eqn:Ho; [congruence|].
    reflexivity.
  - intros ->. cbn [PyStr.truthy negb andb analysis_engine.str_or].
    fold (analysis_engine.str_or (language_detector.language d) "generic").
    rewrite Hor. fold (healed (language_detector.language d) code).
    destruct (PyFloat.ltb (language_detector.confidence d) (1 # 2)).
    + destruct (detect_language_via_ai_cases W client code
                  (language_detector.language d) (language_detector.confidence d) w)
        as [[Hl Hq]|[[Hl Hq]|[Hl Hq]]]; cbv zeta in *; rewrite Hq.
      * rewrite Hl, Hor. now split.
      * split; [now right | split; vm_compute; discriminate].
      * rewrite Hl. split; [now left | lra].
    + unfold Async.ret. cbn [fst snd]. split; [now apply healed_known | exact Hc].
Qed.

End language_stage.

Section result_fields.

Context {W : Type}.
Variable client : ai_client.AIClient W.
Variable ast_parse : string -> ast.parse_result.
Variable ast_unparse : ast.node -> string.

(** The fields of a result that do not depend on the metrics. *)
Lemma final_metrics_flags lang conf original_valid final_code was_corrected (w : W) :
  let r :=
    fst (final_metrics client ast_parse ast_unparse lang conf original_valid
           final_code was_corrected w) in
  analysis_engine.language_detected r = Some lang
  /\ analysis_engine.detection_confidence r = conf
  /\ analysis_engine.original_valid r = original_valid
  /\ analysis_engine.was_corrected r = was_corrected
  /\ analysis_engine.corrected_code r = (if was_corrected then Some final_code else None)
  /\ analysis_engine.error r = None
  /\ analysis_engine.message r = None.
Proof.
  unfold final_metrics, Async.bind.
  destruct (analysis_engine._ai_suggestion_summary client final_code w) as [s w1].
  destruct (_ w1) as [refined w2]. cbn. repeat split.
Qed.

(** The language and the confidence of a result are those of the first
    stage. *)
Lemma analyze_code_language (code : string) (language : option string) (w : W) :
  let r :=
    fst (analysis_engine.analyze_code client ast_parse ast_unparse code language w) in
  analysis_engine.language_detected r = Some (resolved_language client code language w)
  /\ analysis_engine.detection_confidence r
     = resolved_confidence client code language w.
Proof.
  cbv zeta. rewrite analyze_code_stages.
  unfold resolved_language, resolved_confidence, resolved.
  destruct (resolve_language client code language w) as [[lang conf] w1].
  cbn [fst snd]. cbv zeta.
  destruct (validators.valid (validators.validate_code ast_parse lang code)).
  - destruct (final_metrics_flags lang conf true code false w1) as (H1 & H2 & _).
    now split.
  - destruct (analysis_engine.attempt_auto_correction client lang code w1)
      as [corrected w2].
    destruct (validators.valid (validators.validate_code ast_parse lang corrected)).
    + destruct (final_metrics_flags lang conf false corrected true w2) as (H1 & H2 & _).
      now split.
    + split; reflexivity.
Qed.

End result_fields.

(** The language an analysis settles on is not empty and is written in
    lower case. *)
Lemma resolved_language_plain (W : Type) (client : ai_client.AIClient W)
    (code : string) (language : option string) (w : W) :
  resolved_language client code language w <> ""
  /\ PyStr.lower (resolved_language client code language w)
     = resolved_language client code language w.
Proof.
  unfold resolved_language, resolved.
  destruct (resolve_language_cases client code language w) as [Ho Hk].
  cbv zeta in Ho, Hk.
  destruct (string_dec (override_of language) "") as [He|Hne].
  - destruct (Hk He) as [Hin _].
    destruct (known_language_is_plain _ Hin) as [Hlow Hor]. rewrite Hor in Hlow.
    split; [|exact Hlow].
    intros H0. rewrite H0 in Hin. unfold known_languages, canonical_languages in Hin.
    cbn [In] in Hin. intuition discriminate.
  - rewrite (Ho Hne). cbn [fst]. unfold healed.
    destruct (_ && _); [split; [discriminate | reflexivity]|].
    split; [exact Hne|]. unfold override_of. apply lower_idempotent.
Qed.



(** X15: when no language is asked for, the language of the result is one
    of generic, python, javascript, typescript, java, cpp and c, whatever
    the client answers, and the confidence lies between 0 and 1. *)
Theorem analyze_code_settles_on_a_known_language
    (W : Type) (client : ai_client.AIClient W)
    (ast_parse : string -> ast.parse_result) (ast_unparse : ast.node -> string)
    (code : string) (language : option string) (w : W) :
  override_of language = "" ->
  let r :=
    fst (analysis_engine.analyze_code client ast_parse ast_unparse code language w) in
  (exists lang,
      analysis_engine.language_detected r = Some lang /\ In lang known_languages)
  /\ (0 <= analysis_engine.detection_confidence r <= 1)%Q.
Proof.
  intros Hno. cbv zeta.
  destruct (analyze_code_language client ast_parse ast_unparse code language w)
    as [Hl Hc]. cbv zeta in Hl, Hc. rewrite Hl, Hc.
  unfold resolved_language, resolved_confidence, resolved.
  destruct (resolve_language_cases client code language w) as [_ Hk].
  cbv zeta in Hk. destruct (Hk Hno) as [Hin Hq].
  split; [eexists; split; [reflexivity | exact Hin] | exact Hq].
Qed.

(** X15, the theorem at a client that answers "Rust" for code without a
    signal: the result settles on "generic". *)
Lemma analyze_code_settles_on_a_known_language_witness :
  let r :=
    fst (analysis_engine.analyze_code (scripted_client "Rust") reject_all
           unparse_blank "fn main() {}" None tt) in
  override_of None = ""
  /\ analysis_engine.language_detected r = Some "generic"
  /\ (exists lang,
        analysis_engine.language_detected r = Some lang /\ In lang known_languages)
  /\ (0 <= analysis_engine.detection_confidence r <= 1)%Q.
Proof.
  intros r.
  split; [reflexivity|]. split; [reflexivity|].
  exact (analyze_code_settles_on_a_known_language unit (scripted_client "Rust")
           reject_all unparse_blank "fn main() {}" None tt eq_refl).
Defined.

(* ===================================================================== *)
(** ** The result of an analysis ([analyze_code]) *)
(* ===================================================================== *)

Section result_invariants.

Context {W : Type}.
Variable client : ai_client.AIClient W.
Variable ast_parse : string -> ast.parse_result.
Variable ast_unparse : ast.node -> string.

(** [analyze_code] by the two validations. *)
Lemma analyze_code_outcomes (code : string) (language : option string) (w : W) :
  let r :=
    fst (analysis_engine.analyze_code client ast_parse ast_unparse code language w) in
  let lang := resolved_language client code language w in
  let conf := resolved_confidence client code language w in
  let w1 := snd (resolved client code language w) in
  let corrected := fst (correction client code language w) in
  let w2 := snd (correction client code language w) in
  (validators.valid (first_validation client ast_parse code language w) = true
   /\ r = fst (final_metrics client ast_parse ast_unparse lang conf true code false w1))
  \/ (validators.valid (first_validation client ast_parse code language w) = false
      /\ validators.valid (second_validation client ast_parse code language w) = true
      /\ r = fst (final_metrics client ast_parse ast_unparse lang conf false corrected
                    true w2))
  \/ (invalid_after_correction client ast_parse code language w
      /\ r = analysis_engine._syntax_error_response (Some lang) conf false false None
               (first_validation_message
                  (first_validation client ast_parse code language w))).
Proof.
  cbv zeta. rewrite analyze_code_stages.
  unfold invalid_after_correction, first_validation, second_validation, correction,
    resolved_language, resolved_confidence, resolved.
  destruct (resolve_language client code language w) as [[lang conf] w1].
  cbn [fst snd]. cbv zeta.
  destruct (validators.valid (validators.validate_code ast_parse lang code)) eqn:H1.
  - left. now split.
  - destruct (analysis_engine.attempt_auto_correction client lang code w1)
      as [corrected w2]. cbn [fst snd].
    destruct (validators.valid (validators.validate_code ast_parse lang corrected))
      eqn:H2.
    + right. left. repeat split.
    + right. right. repeat split.
Qed.

(** The risk, the trend and the summary of a result are computed from the
    metrics it reports and from the findings on the final code. *)
Lemma final_metrics_risk lang conf original_valid final_code was_corrected (w : W) :
  let r :=
    fst (final_metrics client ast_parse ast_unparse lang conf original_valid
           final_code was_corrected w) in
  (analysis_engine.risk_score r, analysis_engine.risk_level r)
  = analysis_engine._compute_risk (analysis_engine.big_o r)
      (analysis_engine.cyclomatic_complexity r) (findings_of final_code)
      (analysis_engine.maintainability r)
  /\ analysis_engine.security_summary r
     = analysis_engine._summarise_security (findings_of final_code)
  /\ analysis_engine.complexity_trend r
     = analysis_engine._estimate_complexity_trend
         (analysis_engine.cyclomatic_complexity r)
  /\ analysis_engine.time_complexity r <> None
  /\ analysis_engine.space_complexity r <> None.
Proof.
  unfold final_metrics, Async.bind.
  destruct (analysis_engine._ai_suggestion_summary client final_code w) as [s w1].
  destruct (_ w1) as [refined w2]. cbn [fst Async.ret].
  cbn [analysis_engine.risk_score analysis_engine.risk_level analysis_engine.big_o
       analysis_engine.cyclomatic_complexity analysis_engine.maintainability
       analysis_engine.security_summary analysis_engine.complexity_trend
       analysis_engine.time_complexity analysis_engine.space_complexity].
  split; [now destruct (analysis_engine._compute_risk _ _ _ _)|].
  split; [reflexivity|]. split; [reflexivity|].
  destruct refined; split; discriminate.
Qed.

End result_invariants.

(** X16: the flags of a result agree.  The error is absent or
    "SyntaxError", and it comes with a message and only then; it is present
    exactly when the code was neither valid as submitted nor corrected;
    code that is reported as corrected was not valid as submitted, and the
    corrected code is given exactly then: it is the candidate of the
    attempt at a correction, and it is valid.  Every result, with or
    without error, names a language, which is not empty and is written in
    lower case. *)
Theorem analyze_code_flags_agree
    (W : Type) (client : ai_client.AIClient W)
    (ast_parse : string -> ast.parse_result) (ast_unparse : ast.node -> string)
    (code : string) (language : option string) (w : W) :
  let r :=
    fst (analysis_engine.analyze_code client ast_parse ast_unparse code language w) in
  (exists lang,
      analysis_engine.language_detected r = Some lang
      /\ lang <> "" /\ PyStr.lower lang = lang)
  /\ (analysis_engine.error r = None \/ analysis_engine.error r = Some "SyntaxError")
  /\ (analysis_engine.error r = None <-> analysis_engine.message r = None)
  /\ (analysis_engine.error r = None
      <-> analysis_engine.original_valid r = true
          \/ analysis_engine.was_corrected r = true)
  /\ (analysis_engine.original_valid r
      = validators.valid (first_validation client ast_parse code language w))
  /\ (analysis_engine.was_corrected r = true ->
      analysis_engine.original_valid r = false)
  /\ (analysis_engine.was_corrected r = true
      <-> analysis_engine.corrected_code r <> None)
  /\ (forall fixed,
      analysis_engine.corrected_code r = Some fixed ->
      fixed = fst (correction client code language w)
      /\ validators.valid
           (validators.validate_code ast_parse
              (resolved_language client code language w) fixed) = true).
Proof.
  cbv zeta. split.
  { exists (resolved_language client code language w).
    split; [apply analyze_code_language | apply resolved_language_plain]. }
  destruct (analyze_code_outcomes client ast_parse ast_unparse code language w)
    as [[H1 Hr]|[(H1 & H2 & Hr)|([H1 H2] & Hr)]]; cbv zeta in Hr; rewrite Hr.
  - destruct (final_metrics_flags client ast_parse ast_unparse
                (resolved_language client code language w)
                (resolved_confidence client code language w) true code false
                (snd (resolved client code language w)))
      as (_ & _ & Ho & Hw & Hc & He & Hm).
    cbv zeta in *. rewrite Ho, Hw, Hc, He, Hm, H1.
    repeat split; auto; try discriminate; try congruence.
  - destruct (final_metrics_flags client ast_parse ast_unparse
                (resolved_language client code language w)
                (resolved_confidence client code language w) false
                (fst (correction client code language w)) true
                (snd (correction client code language w)))
      as (_ & _ & Ho & Hw & Hc & He & Hm).
    cbv zeta in *. rewrite Ho, Hw, Hc, He, Hm, H1.
    repeat split; auto; try discriminate; try congruence.
    match goal with H : Some _ = Some _ |- _ => injection H as <- end. exact H2.
  - cbn. rewrite H1.
    repeat split; auto; try discriminate; try congruence.
    intros [H|H]; discriminate H.
Qed.

Lemma findings_nonempty_iff (code : string) :
  findings_of code <> []
  <-> has_one_of security.suspicious_patterns (PyStr.lower code).
Proof.
  unfold findings_of. rewrite findings_are_found.
  rewrite <- existsb_contains_iff. unfold found_in.
  induction security.suspicious_patterns as [|p ps IH]; cbn [List.filter existsb map].
  - split; [congruence | discriminate].
  - destruct (PyStr.contains p (PyStr.lower code)); cbn [orb map].
    + split; [reflexivity | discriminate].
    + exact IH.
Qed.

(** The score is odd exactly when there are findings, which alone add an
    odd number of points. *)
Lemma compute_risk_parity (big_o : string) (cyclomatic : Z)
    (issues : list schemas.Issue) (maintainability : Q) :
  let risk := analysis_engine._compute_risk big_o cyclomatic issues maintainability in
  (Z.odd (fst risk) = true <-> issues <> [])
  /\ (issues <> [] -> (3 <= fst risk)%Z /\ snd risk <> "Low")
  /\ In (snd risk) risk_levels
  /\ (0 <= fst risk <= 9)%Z.
Proof.
  cbv zeta. unfold analysis_engine._compute_risk, risk_levels.
  destruct (PyStr.contains "n^2" big_o), (15 <? cyclomatic)%Z, issues,
    (PyFloat.ltb maintainability 50); cbn;
    (split; [split; intros H; first [discriminate H | reflexivity | now contradiction H | discriminate]|]);
    (split; [intros H; first [now contradiction H | split; [lia | discriminate]]|]);
    (split; [auto 10 | lia]).
Qed.

(** X17: in a result without error, the risk score is odd exactly when one
    of the seven suspicious patterns occurs in the lower-cased final code
    (the code as submitted when it was valid, and else its correction).
    With such a pattern the score is at least 3, the level is not Low and
    the summary lists the concerns; without one the summary says that no
    issue was found.  The level is one of Low, Medium, High and Critical,
    and the score lies between 0 and 9. *)
Theorem analyze_code_risk_reflects_findings
    (W : Type) (client : ai_client.AIClient W)
    (ast_parse : string -> ast.parse_result) (ast_unparse : ast.node -> string)
    (code : string) (language : option string) (w : W) :
  let r :=
    fst (analysis_engine.analyze_code client ast_parse ast_unparse code language w) in
  let final := PyStr.lower (final_code client ast_parse code language w) in
  analysis_engine.error r = None ->
  (Z.odd (analysis_engine.risk_score r) = true
   <-> has_one_of security.suspicious_patterns final)
  /\ (has_one_of security.suspicious_patterns final ->
      (3 <= analysis_engine.risk_score r)%Z
      /\ analysis_engine.risk_level r <> "Low"
      /\ exists kinds,
          analysis_engine.security_summary r
          = "Potential security concerns: " ++ PyStr.join ", " kinds ++ ".")
  /\ (~ has_one_of security.suspicious_patterns final ->
      analysis_engine.security_summary r
      = "No obvious security issues detected by simple rules.")
  /\ In (analysis_engine.risk_level r) risk_levels
  /\ (0 <= analysis_engine.risk_score r <= 9)%Z.
Proof.
  cbv zeta. intros Herr.
  assert (Hfm : exists lang conf ov wc w',
    fst (analysis_engine.analyze_code client ast_parse ast_unparse code language w)
    = fst (final_metrics client ast_parse ast_unparse lang conf ov
             (final_code client ast_parse code language w) wc w')).
  { destruct (analyze_code_outcomes client ast_parse ast_unparse code language w)
      as [[H1 Hr]|[(H1 & H2 & Hr)|(_ & Hr)]]; cbv zeta in Hr.
    - unfold final_code. rewrite H1. eauto 10.
    - unfold final_code. rewrite H1. eauto 10.
    - rewrite Hr in Herr. discriminate Herr. }
  destruct Hfm as (lang & conf & ov & wc & w' & Hr). rewrite Hr.
  set (fc := final_code client ast_parse code language w).
  destruct (final_metrics_risk client ast_parse ast_unparse lang conf ov fc wc w')
    as (Hrisk & Hsum & _). cbv zeta in Hrisk, Hsum.
  set (r := fst (final_metrics client ast_parse ast_unparse lang conf ov fc wc w')) in *.
  destruct (compute_risk_parity (analysis_engine.big_o r)
              (analysis_engine.cyclomatic_complexity r) (findings_of fc)
              (analysis_engine.maintainability r)) as (Hodd & Hthree & Hlev & Hrange).
  cbv zeta in Hodd, Hthree, Hlev, Hrange. rewrite <- Hrisk in *. cbn [fst snd] in *.
  pose proof (findings_nonempty_iff fc) as Hf.
  split; [now rewrite Hodd|]. split; [|split; [|split; assumption]].
  - intros Hp. apply Hf in Hp. destruct (Hthree Hp) as [H3 Hlow].
    split; [exact H3|]. split; [exact Hlow|].
    rewrite Hsum. destruct (findings_of fc) as [|i rest]; [congruence|].
    eexists. reflexivity.
  - intros Hnp. rewrite Hsum.
    destruct (findings_of fc) as [|i rest] eqn:Hfc; [reflexivity|].
    exfalso. apply Hnp, Hf. discriminate.
Qed.

(** X17, the theorem at a line that calls [eval], with the stub client:
    the score is 3 and the level Medium. *)
Lemma analyze_code_risk_reflects_findings_witness :
  let client := ai_client.StubAIClient unit in
  let code := "result = eval(expression)" in
  let r :=
    fst (analysis_engine.analyze_code client reject_all unparse_blank code
           (Some "generic") tt) in
  let final :=
    PyStr.lower (final_code client reject_all code (Some "generic") tt) in
  analysis_engine.error r = None
  /\ analysis_engine.risk_score r = 3%Z
  /\ analysis_engine.risk_level r = "Medium"
  /\ (Z.odd (analysis_engine.risk_score r) = true
      <-> has_one_of security.suspicious_patterns final)
  /\ (has_one_of security.suspicious_patterns final ->
      (3 <= analysis_engine.risk_score r)%Z
      /\ analysis_engine.risk_level r <> "Low"
      /\ exists kinds,
          analysis_engine.security_summary r
          = "Potential security concerns: " ++ PyStr.join ", " kinds ++ ".")
  /\ (~ has_one_of security.suspicious_patterns final ->
      analysis_engine.security_summary r
      = "No obvious security issues detected by simple rules.")
  /\ In (analysis_engine.risk_level r) risk_levels
  /\ (0 <= analysis_engine.risk_score r <= 9)%Z.
Proof.
  intros client code r final.
  split; [reflexivity|]. split; [reflexivity|]. split; [reflexivity|].
  exact (analyze_code_risk_reflects_findings unit client reject_all unparse_blank
           code (Some "generic") tt eq_refl).
Defined.

(* ===================================================================== *)
(** ** The pipeline without an AI backend ([StubAIClient]) *)
(* ===================================================================== *)

Section stub_pipeline.

Variable W : Type.
Variable ast_parse : string -> ast.parse_result.
Variable ast_unparse : ast.node -> string.

Local Abbreviation stub := (ai_client.StubAIClient W).

Lemma stub_refine (code time_c space_c : string) (w : W) :
  analysis_engine._refine_python_complexity_with_gemini stub code time_c space_c w
  = (None, w).
Proof.
  unfold analysis_engine._refine_python_complexity_with_gemini, Async.bind.
  cbn [ai_client.openai_json ai_client.StubAIClient].
  rewrite lookup_insert_ne by discriminate. rewrite lookup_insert_eq.
  reflexivity.
Qed.

Lemma stub_final_metrics lang conf original_valid final_code was_corrected (w : W) :
  let outcome :=
    final_metrics stub ast_parse ast_unparse lang conf original_valid final_code
      was_corrected w in
  let r := fst outcome in
  snd outcome = w
  /\ analysis_engine.big_o r
     = analysis_engine._estimate_big_o ast_parse ast_unparse final_code (Some lang)
  /\ analysis_engine.time_complexity r = Some (analysis_engine.big_o r)
  /\ analysis_engine.space_complexity r
     = Some (analysis_engine._estimate_space_complexity ast_parse final_code (Some lang))
  /\ analysis_engine.algorithm r = None
  /\ analysis_engine.recommendation r = None
  /\ analysis_engine.explanation r = None
  /\ (exists rest,
        analysis_engine.ai_summary r = "(stubbed AI) You said: " ++ rest).
Proof.
  cbv zeta. unfold final_metrics, Async.bind.
  unfold analysis_engine._ai_suggestion_summary.
  cbn [ai_client.chat ai_client.StubAIClient].
  destruct (analysis_engine.is_python lang); [rewrite stub_refine|];
    unfold Async.ret;
    cbn [fst snd analysis_engine.big_o analysis_engine.time_complexity
         analysis_engine.space_complexity analysis_engine.algorithm
         analysis_engine.recommendation analysis_engine.explanation
         analysis_engine.ai_summary option_map];
    (split; [reflexivity|]); (split; [reflexivity|]); (split; [reflexivity|]);
    (split; [reflexivity|]); (split; [reflexivity|]); (split; [reflexivity|]);
    (split; [reflexivity|]); eexists; reflexivity.
Qed.

End stub_pipeline.

Lemma stub_resolve_language_world (W : Type) (code : string)
    (language : option string) (w : W) :
  snd (resolve_language (ai_client.StubAIClient W) code language w) = w.
Proof.
  unfold resolve_language.
  destruct (_ && _); [|reflexivity].
  now rewrite stub_detect_language_via_ai.
Qed.

(** X18: without an AI backend (the stub client) the analysis changes
    nothing outside and rescues nothing: no result is reported as
    corrected, and a result carries the error exactly when the code as
    submitted is invalid.  A result without error holds the estimates of
    the rules on the code as submitted: the time complexity is the Big-O
    label, the space complexity is the space estimate, there is no
    algorithm, recommendation or explanation, and the summary is the echo
    of the stub. *)
Theorem analyze_code_without_backend
    (W : Type) (ast_parse : string -> ast.parse_result)
    (ast_unparse : ast.node -> string)
    (code : string) (language : option string) (w : W) :
  let outcome :=
    analysis_engine.analyze_code (ai_client.StubAIClient W) ast_parse ast_unparse
      code language w in
  let r := fst outcome in
  snd outcome = w
  /\ analysis_engine.was_corrected r = false
  /\ analysis_engine.corrected_code r = None
  /\ (analysis_engine.error r = None <-> analysis_engine.original_valid r = true)
  /\ (analysis_engine.error r = None ->
      exists lang,
        analysis_engine.language_detected r = Some lang
        /\ analysis_engine.big_o r
           = analysis_engine._estimate_big_o ast_parse ast_unparse code (Some lang)
        /\ analysis_engine.time_complexity r = Some (analysis_engine.big_o r)
        /\ analysis_engine.space_complexity r
           = Some (analysis_engine._estimate_space_complexity ast_parse code
                     (Some lang))
        /\ analysis_engine.algorithm r = None
        /\ analysis_engine.recommendation r = None
        /\ analysis_engine.explanation r = None
        /\ exists rest,
            analysis_engine.ai_summary r = "(stubbed AI) You said: " ++ rest).
Proof.
  cbv zeta. rewrite analyze_code_stages.
  pose proof (stub_resolve_language_world W code language w) as Hw.
  destruct (resolve_language (ai_client.StubAIClient W) code language w)
    as [[lang conf] w1]. cbn [snd] in Hw. subst w1. cbv zeta.
  rewrite stub_attempt_auto_correction.
  destruct (validators.valid (validators.validate_code ast_parse lang code)) eqn:Hv.
  - destruct (stub_final_metrics W ast_parse ast_unparse lang conf true code false w)
      as (H0 & H1 & H2 & H3 & H4 & H5 & H6 & H7).
    destruct (final_metrics_flags (ai_client.StubAIClient W) ast_parse ast_unparse
                lang conf true code false w) as (F1 & _ & F3 & F4 & F5 & F6 & _).
    cbv zeta in *. rewrite F4, F5, F6, F3.
    split; [exact H0|]. split; [reflexivity|]. split; [reflexivity|].
    split; [tauto|]. intros _. exists lang. repeat split; assumption.
  - cbn. split; [reflexivity|]. split; [reflexivity|]. split; [reflexivity|].
    split; [split; discriminate | discriminate].
Qed.

(* ===================================================================== *)
(** ** The refinement by the client
       ([_refine_python_complexity_with_gemini]) *)
(* ===================================================================== *)

Lemma get_str_or_lacking (d : gmap string ai_client.json) (k default : string) :
  lacks d k -> ai_client.get_str_or d k default = default.
Proof. unfold lacks, ai_client.get_str_or. now intros ->. Qed.

(** X19: [_refine_python_complexity_with_gemini] asks the client once.  A
    reply that is flagged as stubbed or as unparsed gives no refinement.
    Any other reply gives one with all five fields: a field that the reply
    lacks (no key, or a value that is not true) takes its default, which
    is "Unknown" for the algorithm, the preliminary estimates for the two
    complexities and the empty text for the rest; and the explanation has
    at most 300 characters. *)
Theorem refine_fills_in_defaults (W : Type) (client : ai_client.AIClient W)
    (code time_c space_c : string) (w : W) :
  let outcome :=
    analysis_engine._refine_python_complexity_with_gemini client code time_c space_c w in
  exists system_prompt user_prompt hint,
    let reply := fst (ai_client.openai_json client system_prompt user_prompt hint w) in
    snd outcome = snd (ai_client.openai_json client system_prompt user_prompt hint w)
    /\ hint !! "time_complexity" = Some (ai_client.JStr time_c)
    /\ hint !! "space_complexity" = Some (ai_client.JStr space_c)
    /\ (flagged reply = true <-> fst outcome = None)
    /\ (forall refined,
        fst outcome = Some refined ->
        PyStr.len (analysis_engine.ref_explanation refined) <= 300
        /\ (lacks reply "algorithm" ->
            analysis_engine.ref_algorithm refined = "Unknown")
        /\ (lacks reply "time_complexity" ->
            analysis_engine.ref_time_complexity refined = time_c)
        /\ (lacks reply "space_complexity" ->
            analysis_engine.ref_space_complexity refined = space_c)
        /\ (lacks reply "recommendation" ->
            analysis_engine.ref_recommendation refined = "")
        /\ (lacks reply "explanation" ->
            analysis_engine.ref_explanation refined = "")
        /\ (forall text,
            reply !! "explanation" = Some (ai_client.JStr text) ->
            analysis_engine.ref_explanation refined = PyStr.slice_to 300 text)).
Proof.
  cbv zeta. unfold analysis_engine._refine_python_complexity_with_gemini, Async.bind.
  match goal with
  | |- context [ai_client.openai_json client ?s ?u ?h w] => exists s, u, h
  end.
  destruct (ai_client.openai_json client _ _ _ w) as [reply w1]. cbn [fst snd].
  fold (flagged reply).
  split; [now destruct (flagged reply)|].
  split; [now rewrite lookup_insert_ne, lookup_insert_eq by discriminate|].
  split; [now rewrite !lookup_insert_ne, lookup_insert_eq by discriminate|].
  destruct (flagged reply); unfold Async.ret; cbn [fst].
  - split; [tauto|]. intros refined H. discriminate H.
  - split; [split; discriminate|]. intros refined [= <-].
    cbn [analysis_engine.ref_explanation analysis_engine.ref_algorithm
         analysis_engine.ref_time_complexity analysis_engine.ref_space_complexity
         analysis_engine.ref_recommendation].
    split.
    { destruct (Nat.ltb_spec 300 (PyStr.len (ai_client.get_str_or reply "explanation" "")));
        [apply len_slice_to | lia]. }
    split; [apply get_str_or_lacking|]. split; [apply get_str_or_lacking|].
    split; [apply get_str_or_lacking|]. split; [apply get_str_or_lacking|].
    split.
    + intros Hl. rewrite (get_str_or_lacking _ _ _ Hl). reflexivity.
    + intros text Ht. unfold ai_client.get_str_or. rewrite Ht.
      cbn [ai_client.json_truthy ai_client.json_str].
      destruct text as [|a text]; [reflexivity|]. cbn [PyStr.truthy].
      destruct (Nat.ltb_spec 300 (PyStr.len (String a text))) as [Hlong|Hshort];
        [reflexivity|].
      symmetry. now apply slice_to_short.
Qed.

Lemma refine_explanation_bound (W : Type) (client : ai_client.AIClient W)
    (code time_c space_c : string) (w : W) (refined : analysis_engine.Refined) :
  fst (analysis_engine._refine_python_complexity_with_gemini client code time_c
         space_c w) = Some refined ->
  PyStr.len (analysis_engine.ref_explanation refined) <= 300.
Proof.
  unfold analysis_engine._refine_python_complexity_with_gemini, Async.bind.
  destruct (ai_client.openai_json client _ _ _ w) as [reply w1].
  destruct (_ || _); unfold Async.ret; cbn [fst]; [discriminate|].
  intros [= <-]. cbn [analysis_engine.ref_explanation].
  destruct (Nat.ltb_spec 300 (PyStr.len (ai_client.get_str_or reply "explanation" "")));
    [apply len_slice_to | lia].
Qed.

Lemma estimate_big_o_in_labels
    (ast_parse : string -> ast.parse_result) (ast_unparse : ast.node -> string)
    (code : string) (language : option string) :
  In (analysis_engine._estimate_big_o ast_parse ast_unparse code language)
    big_o_labels.
Proof.
  unfold analysis_engine._estimate_big_o, analysis_engine.big_o_of_visitor,
    big_o_labels.
  destruct (analysis_engine.is_python _).
  - destruct (ast_parse code) as [tree|msg]; [|cbn [In]; auto 10].
    repeat match goal with
           | |- context [if ?b then _ else _] => destruct b
           end; cbn [In]; auto 10.
  - destruct (_ && _ && _); [cbn [In]; auto 10|].
    destruct (fold_left _ _ _) as [m c].
    repeat match goal with
           | |- context [if ?b then _ else _] => destruct b
           end; cbn [In]; auto 10.
Qed.

Section refinement.

Context {W : Type}.
Variable client : ai_client.AIClient W.
Variable ast_parse : string -> ast.parse_result.
Variable ast_unparse : ast.node -> string.

(** The fields of a result that come from the refinement. *)
Lemma final_metrics_refinement lang conf original_valid final_code was_corrected
    (w : W) :
  let r :=
    fst (final_metrics client ast_parse ast_unparse lang conf original_valid
           final_code was_corrected w) in
  let estimate :=
    analysis_engine._estimate_big_o ast_parse ast_unparse final_code (Some lang) in
  exists refined : option analysis_engine.Refined,
    (analysis_engine.is_python lang = false -> refined = None)
    /\ (forall rf, refined = Some rf ->
          PyStr.len (analysis_engine.ref_explanation rf) <= 300)
    /\ analysis_engine.big_o r
       = match refined with
         | Some rf =>
             analysis_engine.str_or (analysis_engine.ref_time_complexity rf) estimate
         | None => estimate
         end
    /\ analysis_engine.algorithm r = option_map analysis_engine.ref_algorithm refined
    /\ analysis_engine.recommendation r
       = option_map analysis_engine.ref_recommendation refined
    /\ analysis_engine.explanation r
       = option_map analysis_engine.ref_explanation refined
    /\ analysis_engine.time_complexity r
       = match refined with
         | Some rf => Some (analysis_engine.ref_time_complexity rf)
         | None => Some estimate
         end
    /\ analysis_engine.space_complexity r
       = match refined with
         | Some rf => Some (analysis_engine.ref_space_complexity rf)
         | None =>
             Some (analysis_engine._estimate_space_complexity ast_parse final_code
                     (Some lang))
         end.
Proof.
  cbv zeta. unfold final_metrics, Async.bind.
  destruct (analysis_engine._ai_suggestion_summary client final_code w) as [s w1].
  destruct (analysis_engine.is_python lang).
  - pose proof (refine_explanation_bound W client final_code
                  (analysis_engine._estimate_big_o ast_parse ast_unparse final_code
                     (Some lang))
                  (analysis_engine._estimate_space_complexity ast_parse final_code
                     (Some lang)) w1) as Hb.
    destruct (analysis_engine._refine_python_complexity_with_gemini _ _ _ _ w1)
      as [refined w2]. cbn [fst] in Hb.
    exists refined. unfold Async.ret. cbn [fst].
    split; [discriminate|]. split; [intros rf ->; now apply Hb|].
    destruct refined; repeat (split; [reflexivity|]); reflexivity.
  - exists None. unfold Async.ret. cbn [fst].
    split; [reflexivity|]. split; [discriminate|].
    repeat (split; [reflexivity|]). reflexivity.
Qed.

End refinement.

(** X20: the Big-O label of a result is never empty.  The algorithm, the
    recommendation and the explanation are given together or not at all,
    and an explanation has at most 300 characters.  When they are not
    given in a result without error, the label is one of the five labels of
    the estimator and the time complexity repeats it.  For a language other
    than "python" and "py" the client is not asked for a refinement: the
    three fields are absent and the space complexity is O(1). *)
Theorem analyze_code_refined_fields
    (W : Type) (client : ai_client.AIClient W)
    (ast_parse : string -> ast.parse_result) (ast_unparse : ast.node -> string)
    (code : string) (language : option string) (w : W) :
  let r :=
    fst (analysis_engine.analyze_code client ast_parse ast_unparse code language w) in
  analysis_engine.big_o r <> ""
  /\ (forall text,
      analysis_engine.explanation r = Some text -> PyStr.len text <= 300)
  /\ (analysis_engine.algorithm r = None <-> analysis_engine.explanation r = None)
  /\ (analysis_engine.algorithm r = None <-> analysis_engine.recommendation r = None)
  /\ (analysis_engine.error r = None ->
      analysis_engine.algorithm r = None ->
      In (analysis_engine.big_o r) big_o_labels
      /\ analysis_engine.time_complexity r = Some (analysis_engine.big_o r))
  /\ (forall lang,
      analysis_engine.language_detected r = Some lang ->
      analysis_engine.is_python lang = false ->
      analysis_engine.algorithm r = None
      /\ (analysis_engine.error r = None ->
          analysis_engine.space_complexity r = Some "O(1)")).
Proof.
  cbv zeta.
  destruct (analyze_code_language client ast_parse ast_unparse code language w)
    as [Hlang _]. cbv zeta in Hlang.
  assert (Hcases :
    (exists conf ov fc wc w',
        fst (analysis_engine.analyze_code client ast_parse ast_unparse code language w)
        = fst (final_metrics client ast_parse ast_unparse
                 (resolved_language client code language w) conf ov fc wc w'))
    \/ exists conf msg,
        fst (analysis_engine.analyze_code client ast_parse ast_unparse code language w)
        = analysis_engine._syntax_error_response
            (Some (resolved_language client code language w)) conf false false None msg).
  { destruct (analyze_code_outcomes client ast_parse ast_unparse code language w)
      as [[_ Hr]|[(_ & _ & Hr)|(_ & Hr)]]; cbv zeta in Hr; eauto 10. }
  destruct Hcases as [(conf & ov & fc & wc & w' & Hr)|(conf & msg & Hr)];
    rewrite Hr in *.
  - set (lang := resolved_language client code language w) in *.
    destruct (final_metrics_refinement client ast_parse ast_unparse lang conf ov fc wc w')
      as (refined & Hnp & Hlen & Hb & Ha & Hrec & He & Ht & Hs).
    destruct (final_metrics_flags client ast_parse ast_unparse lang conf ov fc wc w')
      as (_ & _ & _ & _ & _ & Herr & _).
    cbv zeta in *. rewrite Hb, Ha, Hrec, He, Ht, Hs.
    pose proof (estimate_big_o_in_labels ast_parse ast_unparse fc (Some lang)) as Hin.
    assert (Hne : analysis_engine._estimate_big_o ast_parse ast_unparse fc (Some lang)
                  <> "").
    { intros H0. rewrite H0 in Hin. unfold big_o_labels in Hin. cbn [In] in Hin.
      intuition discriminate. }
    split.
    { destruct refined as [rf|]; [|exact Hne].
      unfold analysis_engine.str_or.
      destruct (analysis_engine.ref_time_complexity rf); [exact Hne | discriminate]. }
    split.
    { intros text. destruct refined as [rf|]; [|discriminate].
      intros [= <-]. now apply Hlen. }
    split; [destruct refined; split; (discriminate || reflexivity)|].
    split; [destruct refined; split; (discriminate || reflexivity)|].
    split.
    { intros _. destruct refined; [discriminate|]. intros _. now split. }
    intros l Hl Hpy. rewrite Hlang in Hl. injection Hl as <-.
    rewrite (Hnp Hpy). split; [reflexivity|]. intros _.
    unfold analysis_engine._estimate_space_complexity.
    cbn [default from_option id]. subst lang.
    rewrite (proj2 (resolved_language_plain W client code language w)), Hpy.
    reflexivity.
  - cbn. split; [discriminate|]. split; [discriminate|].
    split; [tauto|]. split; [tauto|]. split; [discriminate|].
    intros l _ _. split; [reflexivity | discriminate].
Qed.

(* ===================================================================== *)
(** ** The notes of a comparison ([compare_codes]) *)
(* ===================================================================== *)

Section comparison_notes.

Context {W : Type}.
Variable client : ai_client.AIClient W.
Variable ast_parse : string -> ast.parse_result.
Variable ast_unparse : ast.node -> string.

(** [compare_codes] compares the analysis of the first code with the
    analysis of the second code, run after it. *)
Lemma compare_codes_is_compare_results (code_a code_b : string)
    (language : option string) (w : W) :
  let first := analysis_engine.analyze_code client ast_parse ast_unparse code_a language w in
  let second :=
    analysis_engine.analyze_code client ast_parse ast_unparse code_b language
      (snd first) in
  compare.compare_codes client ast_parse ast_unparse code_a code_b language w
  = (compare.compare_results (fst first) (fst second), snd second)
  /\ compare.is_compilation_error (fst first) = false
  /\ compare.is_compilation_error (fst second) = false.
Proof.
  cbv zeta. unfold compare.compare_codes, Async.bind, Async.ret.
  split; [|split; apply analyze_code_no_compilation_error].
  destruct (analysis_engine.analyze_code client ast_parse ast_unparse code_a language w)
    as [a w1]. cbn [fst snd].
  now destruct (analysis_engine.analyze_code client ast_parse ast_unparse code_b
                  language w1) as [b w2].
Qed.

End comparison_notes.

(** X21: a comparison gives three notes, on the Big-O label, on the
    cyclomatic complexity and on the risk score, and a verdict that is A or
    B.  The note on the risk score never contradicts the verdict: when the
    risk of B is lower the verdict is B and the note reads "decreased,
    good; better: B", when it is higher the verdict is A and the note reads
    "increased, worse; better: A", and when the risks are equal the note
    reads "no change". *)
Theorem compare_codes_risk_note_fits_verdict
    (W : Type) (client : ai_client.AIClient W)
    (ast_parse : string -> ast.parse_result) (ast_unparse : ast.node -> string)
    (code_a code_b : string) (language : option string) (w : W) :
  let first :=
    analysis_engine.analyze_code client ast_parse ast_unparse code_a language w in
  let second :=
    analysis_engine.analyze_code client ast_parse ast_unparse code_b language
      (snd first) in
  let risk_a := analysis_engine.risk_score (fst first) in
  let risk_b := analysis_engine.risk_score (fst second) in
  let r :=
    fst (compare.compare_codes client ast_parse ast_unparse code_a code_b language w) in
  exists verdict big_o_note cyclomatic_note risk_note,
    compare.better_version r = Some verdict
    /\ (verdict = "A" \/ verdict = "B")
    /\ compare.improvement_notes r = Some [big_o_note; cyclomatic_note; risk_note]
    /\ (risk_a = risk_b ->
        risk_note = "Risk score: no change (" ++ PyStr.of_Z risk_a ++ ").")
    /\ ((risk_b < risk_a)%Z ->
        verdict = "B"
        /\ risk_note
           = "Risk score: " ++ PyStr.of_Z risk_a ++ " → " ++ PyStr.of_Z risk_b
             ++ " (decreased, good; better: B).")
    /\ ((risk_a < risk_b)%Z ->
        verdict = "A"
        /\ risk_note
           = "Risk score: " ++ PyStr.of_Z risk_a ++ " → " ++ PyStr.of_Z risk_b
             ++ " (increased, worse; better: A).").
Proof.
  cbv zeta.
  destruct (compare_codes_is_compare_results client ast_parse ast_unparse code_a code_b
              language w) as (Heq & Ha & Hb). cbv zeta in Heq, Ha, Hb.
  rewrite Heq. cbn [fst].
  set (a := fst (analysis_engine.analyze_code client ast_parse ast_unparse code_a
                   language w)) in *.
  set (b := fst (analysis_engine.analyze_code client ast_parse ast_unparse code_b
                   language _)) in *.
  unfold compare.compare_results. rewrite Ha, Hb. cbn [orb].
  cbn [compare.better_version compare.improvement_notes].
  unfold compare._notes_for_metric, compare._notes_for_delta, compare._pick_better.
  set (ra := analysis_engine.risk_score a). set (rb := analysis_engine.risk_score b).
  destruct (Z.eqb_spec ra rb) as [Heqr|Hne]; cbn [negb].
  - destruct (String.eqb _ _), (Z.eqb_spec (analysis_engine.cyclomatic_complexity a)
                                  (analysis_engine.cyclomatic_complexity b));
      cbn [negb app];
      eexists _, _, _, _;
      (split; [reflexivity|]);
      (split; [repeat match goal with
                      | |- context [if ?c then _ else _] => destruct c
                      end; auto|]);
      (split; [reflexivity|]);
      (split; [reflexivity|]); split; intros; lia.
  - destruct (Z.ltb_spec ra rb) as [Hlt|Hge], (Z.ltb_spec rb ra) as [Hlt'|Hge'];
      try lia;
      destruct (String.eqb _ _), (Z.eqb_spec (analysis_engine.cyclomatic_complexity a)
                                    (analysis_engine.cyclomatic_complexity b));
      cbn [negb app];
      eexists _, _, _, _;
      (split; [reflexivity|]);
      (split; [auto|]);
      (split; [reflexivity|]);
      (split; [intros; lia|]);
      split; intros; first [lia | split; reflexivity].
Qed.

(** X22: a code compared with itself, by a client that answers by a
    function of the request, ties with itself: the verdict is A, the three
    notes read "no change", the two sides of the table are equal and both
    deltas are 0. *)
Theorem compare_codes_with_itself (W : Type)
    (chat_reply : string -> option string -> string)
    (json_reply : string -> string -> gmap string ai_client.json
                  -> gmap string ai_client.json)
    (ast_parse : string -> ast.parse_result) (ast_unparse : ast.node -> string)
    (code : string) (language : option string) (w : W) :
  let client := pure_client W chat_reply json_reply in
  let a := fst (analysis_engine.analyze_code client ast_parse ast_unparse code language w) in
  let r := fst (compare.compare_codes client ast_parse ast_unparse code code language w) in
  compare.error r = None
  /\ compare.better_version r = Some "A"
  /\ compare.improvement_notes r
     = Some [ "Big‑O: no change (" ++ analysis_engine.big_o a ++ ").";
              "Cyclomatic complexity: no change ("
              ++ PyStr.of_Z (analysis_engine.cyclomatic_complexity a) ++ ").";
              "Risk score: no change (" ++ PyStr.of_Z (analysis_engine.risk_score a)
              ++ ")." ]
  /\ exists table,
      compare.metrics_comparison r = Some table
      /\ compare.metrics_A table = compare.metrics_B table
      /\ compare.delta table = compare.mkDelta 0 0.
Proof.
  cbv zeta.
  destruct (compare_codes_is_compare_results (pure_client W chat_reply json_reply)
              ast_parse ast_unparse code code language w) as (Heq & Ha & _).
  cbv zeta in Heq, Ha. rewrite Heq. cbn [fst].
  destruct (stateless_analyze_code W chat_reply json_reply ast_parse ast_unparse
              code language) as [a Hst].
  rewrite !Hst in *. cbn [fst snd] in *. rewrite ?Hst. cbn [fst].
  unfold compare.compare_results. rewrite Ha. cbn [orb].
  cbn [compare.error compare.better_version compare.improvement_notes
       compare.metrics_comparison].
  unfold compare._notes_for_metric, compare._notes_for_delta, compare._pick_better.
  rewrite String.eqb_refl, !Z.eqb_refl. cbn [negb app].
  split; [reflexivity|]. split; [reflexivity|]. split; [reflexivity|].
  eexists. split; [reflexivity|].
  cbn [compare.metrics_A compare.metrics_B compare.delta].
  split; [reflexivity|]. now rewrite !Z.sub_diag.
Qed.

(* ===================================================================== *)
(** ** The raw diff, the other way round ([compare_versions]) *)
(* ===================================================================== *)

Lemma filter_nil_iff (keep : string -> bool) (xs : list string) :
  List.filter keep xs = [] <-> forall x, In x xs -> keep x = false.
Proof.
  induction xs as [|y ys IH]; cbn [List.filter].
  - split; [intros _ x [] | reflexivity].
  - destruct (keep y) eqn:Hy.
    + split; [discriminate|]. intros H. specialize (H y (or_introl eq_refl)). congruence.
    + rewrite IH. split.
      * intros H x [<-|Hx]; [exact Hy | now apply H].
      * intros H x Hx. apply H. now right.
Qed.

(** X23: exchanging the two versions exchanges the added and the removed
    lines and keeps the risk score, which is the number of added and
    removed lines as a float (the number itself, up to 2^53); the score is
    0 exactly when each version holds every line of the other, whatever
    their order and their repetitions.  The lines are those that the line
    boundaries of Python cut the two texts into. *)
Theorem compare_versions_swapped (payload : schemas.CodeCompareRequest) :
  let r := compare.compare_versions payload in
  let r' := compare.compare_versions (swapped payload) in
  let original_lines := PyStr.splitlines (schemas.original_code payload) in
  let modified_lines := PyStr.splitlines (schemas.modified_code payload) in
  let count :=
    Z.of_nat (length (schemas.added (schemas.diff r))
              + length (schemas.removed (schemas.diff r))) in
  lines_of (schemas.original_code payload) original_lines
  /\ lines_of (schemas.modified_code payload) modified_lines
  /\ schemas.added (schemas.diff r') = schemas.removed (schemas.diff r)
  /\ schemas.removed (schemas.diff r') = schemas.added (schemas.diff r)
  /\ schemas.diff_risk_score r' = schemas.diff_risk_score r
  /\ schemas.diff_risk_score r = Some (PyFloat.of_Z count)
  /\ ((2 ^ 53 < count)%Z \/ schemas.diff_risk_score r = Some (inject_Z count))
  /\ (schemas.diff_risk_score r = Some 0%Q
      <-> forall line, In line original_lines <-> In line modified_lines).
Proof.
  cbv zeta. unfold compare.compare_versions, swapped.
  cbn [schemas.original_code schemas.modified_code schemas.diff schemas.added
       schemas.removed schemas.diff_risk_score].
  set (original_lines := PyStr.splitlines (schemas.original_code payload)).
  set (modified_lines := PyStr.splitlines (schemas.modified_code payload)).
  set (added := List.filter _ modified_lines).
  set (removed := List.filter _ original_lines).
  split; [apply lines_of_splitlines|]. split; [apply lines_of_splitlines|].
  split; [reflexivity|]. split; [reflexivity|].
  split; [now rewrite Nat.add_comm|]. split; [reflexivity|].
  split.
  { destruct (Z_le_gt_dec (Z.of_nat (length added + length removed)) (2 ^ 53))
      as [Hle|Hgt]; [right | left; lia].
    now rewrite of_Z_exact by lia. }
  assert (Hzero : Some (PyFloat.of_Z (Z.of_nat (length added + length removed)))
                  = Some 0%Q <-> added = [] /\ removed = []).
  { split.
    - intros [= H].
      destruct added, removed; cbn [length] in H; try (now split); exfalso.
      all: match type of H with
           | PyFloat.of_Z ?n = _ =>
               pose proof (of_Z_ge_1 n ltac:(lia)) as Hone; rewrite H in Hone;
               now apply Hone
           end.
    - intros [-> ->]. vm_compute. reflexivity. }
  rewrite Hzero. subst added removed. rewrite !filter_nil_iff. split.
  - intros [Ha Hr] line. split; intros Hin.
    + specialize (Hr line Hin). apply negb_false_iff, mem_iff in Hr. exact Hr.
    + specialize (Ha line Hin). apply negb_false_iff, mem_iff in Ha. exact Ha.
  - intros Hall. split; intros line Hin; apply negb_false_iff, mem_iff; now apply Hall.
Qed.

(* ===================================================================== *)
(** ** The route of the comparison ([routes_compare.compare_code]) *)
(* ===================================================================== *)

(** X24: the response of [POST /compare] never carries an error or a
    message, also when one version or both stay invalid: it always holds
    the raw diff of [compare_versions] with its risk score and summary,
    and the metrics table of [compare_codes], whose deltas are the metrics
    of the second analysis minus those of the first. *)
Theorem compare_route_reports_no_error
    (W : Type) (client : ai_client.AIClient W)
    (ast_parse : string -> ast.parse_result) (ast_unparse : ast.node -> string)
    (payload : schemas.CodeCompareRequest) (w : W) :
  let r := fst (routes_compare.compare_code client ast_parse ast_unparse payload w) in
  let base := compare.compare_versions payload in
  let first :=
    analysis_engine.analyze_code client ast_parse ast_unparse
      (schemas.original_code payload) (schemas.cmp_language payload) w in
  let second :=
    analysis_engine.analyze_code client ast_parse ast_unparse
      (schemas.modified_code payload) (schemas.cmp_language payload) (snd first) in
  routes_compare.error r = None
  /\ routes_compare.message r = None
  /\ routes_compare.diff r = schemas.diff base
  /\ routes_compare.risk_score r = schemas.diff_risk_score base
  /\ routes_compare.summary r
     = Some "Basic diff calculated. Replace with smarter analysis as needed."
  /\ exists table,
      routes_compare.metrics_comparison r = Some table
      /\ compare.delta_cyclomatic_complexity (compare.delta table)
         = (analysis_engine.cyclomatic_complexity (fst second)
            - analysis_engine.cyclomatic_complexity (fst first))%Z
      /\ compare.delta_risk_score (compare.delta table)
         = (analysis_engine.risk_score (fst second)
            - analysis_engine.risk_score (fst first))%Z.
Proof.
  cbv zeta. unfold routes_compare.compare_code, Async.bind.
  destruct (compare_codes_is_compare_results client ast_parse ast_unparse
              (schemas.original_code payload) (schemas.modified_code payload)
              (schemas.cmp_language payload) w) as (Heq & Ha & Hb).
  cbv zeta in Heq, Ha, Hb. rewrite Heq. unfold Async.ret. cbn [fst].
  unfold compare.compare_results. rewrite Ha, Hb. cbn [orb].
  cbn [routes_compare.error routes_compare.message routes_compare.diff
       routes_compare.risk_score routes_compare.summary
       routes_compare.metrics_comparison compare.error compare.message
       compare.metrics_comparison ai_client.truthy_opt negb].
  split; [reflexivity|]. split; [reflexivity|]. split; [reflexivity|].
  split; [reflexivity|]. split; [reflexivity|].
  eexists. split; [reflexivity|]. split; reflexivity.
Qed.

(* ===================================================================== *)
(** ** The chat ([chat_with_ai], [routes_chat.chat]) *)
(* ===================================================================== *)

Lemma find_none_iff {A : Type} (f : A -> bool) (xs : list A) :
  List.find f xs = None <-> forall x, In x xs -> f x = false.
Proof.
  induction xs as [|y ys IH]; cbn [List.find].
  - split; [intros _ x [] | reflexivity].
  - destruct (f y) eqn:Hy.
    + split; [discriminate|]. intros H. specialize (H y (or_introl eq_refl)). congruence.
    + rewrite IH. split.
      * intros H x [<-|Hx]; [exact Hy | now apply H].
      * intros H x Hx. apply H. now right.
Qed.

Lemma find_app {A : Type} (f : A -> bool) (xs ys : list A) :
  List.find f xs = None -> List.find f (xs ++ ys)%list = List.find f ys.
Proof.
  induction xs as [|x xs IH]; [reflexivity|]. cbn [List.find app].
  destruct (f x); [discriminate | exact IH].
Qed.

(** X25: [POST /chat] answers with the messages of the request followed by
    one message of the assistant, the reply of the client, asked once, with
    the context snippet of the request.  The prompt is the content of the
    last message whose role is "user", whatever follows it, and the empty
    text when no message has that role. *)
Theorem chat_answers_the_last_user_message
    (W : Type) (client : ai_client.AIClient W)
    (payload : schemas.ChatRequest) (w : W) :
  let outcome := routes_chat.chat client payload w in
  exists prompt,
    let answer := ai_client.chat client prompt (schemas.context_snippet payload) w in
    schemas.chat_messages (fst outcome)
    = (schemas.messages payload ++ [schemas.mkChatMessage "assistant" (fst answer)])%list
    /\ snd outcome = snd answer
    /\ ((forall m, In m (schemas.messages payload) -> schemas.role m <> "user") ->
        prompt = "")
    /\ (forall before m after,
        schemas.messages payload = (before ++ m :: after)%list ->
        schemas.role m = "user" ->
        (forall m', In m' after -> schemas.role m' <> "user") ->
        prompt = schemas.content m).
Proof.
  cbv zeta. unfold routes_chat.chat, ai_service.chat_with_ai, Async.bind.
  match goal with
  | |- context [ai_client.chat client ?p _ w] => exists p
  end.
  destruct (ai_client.chat client _ _ w) as [reply w1]. unfold Async.ret.
  cbn [fst snd schemas.chat_messages].
  split; [reflexivity|]. split; [reflexivity|]. split.
  - intros Hnone.
    assert (List.find (fun m => String.eqb (schemas.role m) "user")
              (List.rev (schemas.messages payload)) = None) as ->; [|reflexivity].
    apply find_none_iff. intros m Hm. apply List.in_rev in Hm.
    apply String.eqb_neq. now apply Hnone.
  - intros before m after Hm Hrole Hafter. rewrite Hm.
    rewrite List.rev_app_distr. cbn [List.rev]. rewrite <- List.app_assoc.
    rewrite find_app.
    + cbn [app List.find]. rewrite Hrole. reflexivity.
    + apply find_none_iff. intros m' Hm'. apply List.in_rev in Hm'.
      apply String.eqb_neq. now apply Hafter.
Qed.

(* ===================================================================== *)
(** ** The Gemini client ([GeminiClient]) *)
(* ===================================================================== *)

Lemma stripped_not_blank (t : string) :
  PyStr.strip t <> "" -> ~ whitespace_only (PyStr.strip t).
Proof.
  intros Hne Hb. apply strip_empty_iff in Hb.
  rewrite (proj2 (proj2 (strip_is_stripped t))) in Hb.
  destruct (PyStr.strip t); [congruence | discriminate Hb].
Qed.

Lemma error_marker_kept (rest : string) :
  PyStr.contains "stubbed ai"
    (PyStr.lower ("(stubbed AI due to Gemini error) You said: " ++ rest)) = true
  /\ PyStr.contains "stubbed ai"
       (PyStr.strip
          (PyStr.lower ("(stubbed AI due to Gemini error) You said: " ++ rest))) = true.
Proof.
  change (PyStr.lower ("(stubbed AI due to Gemini error) You said: " ++ rest))
    with ("(stubbed ai due to gemini error" ++ String ")" (" you said: " ++ PyStr.lower rest)).
  split; [reflexivity|].
  unfold PyStr.strip. rewrite rstrip_app_nonspace by reflexivity. reflexivity.
Qed.

Section gemini_chat.

Context {W : Type}.
Variable generate_content : string -> W -> option ai_client.Response * W.
Variable json_loads : string -> ai_client.loads_result.

(** [GeminiClient.chat] by the outcome of its one request. *)
Lemma gemini_chat_cases (prompt : string) (context : option string) (w : W) :
  exists merged,
    (exists pre, merged = pre ++ prompt)
    /\ (ai_client.truthy_opt context = false -> merged = prompt)
    /\ ai_client.GeminiClient_chat generate_content prompt context w
       = (match fst (generate_content merged w) with
          | None => gemini_error_reply prompt context
          | Some response =>
              if PyStr.truthy (ai_client.response_text response)
              then ai_client.response_text response
              else stub_chat_reply prompt context
          end, snd (generate_content merged w)).
Proof.
  unfold ai_client.GeminiClient_chat, ai_client._call.
  match goal with
  | |- context [generate_content ?m w] => exists m
  end.
  split.
  { destruct (ai_client.truthy_opt context);
      [repeat apply ends_with_app|]; apply ends_with_refl. }
  split; [now intros ->|].
  destruct (generate_content _ w) as [[response|] w1]; cbn [fst snd option_map].
  - destruct (PyStr.truthy (ai_client.response_text response)); reflexivity.
  - reflexivity.
Qed.

End gemini_chat.

(** X26: [GeminiClient.chat] makes one request, for the prompt alone or,
    with a context that is not empty, for the context followed by the
    prompt.  Its reply is never blank: it is the stripped text of the
    response or, when the request fails or the response holds no text, a
    fallback that carries the words "stubbed AI", the marker by which the
    engine recognises a reply that is none. *)
Theorem gemini_chat_is_never_blank (W : Type)
    (generate_content : string -> W -> option ai_client.Response * W)
    (json_loads : string -> ai_client.loads_result)
    (prompt : string) (context : option string) (w : W) :
  let client := ai_client.GeminiClient generate_content json_loads in
  let outcome := ai_client.chat client prompt context w in
  ~ whitespace_only (fst outcome)
  /\ exists merged,
      snd outcome = snd (generate_content merged w)
      /\ (exists pre, merged = pre ++ prompt)
      /\ (ai_client.truthy_opt context = false -> merged = prompt)
      /\ (forall response,
          fst (generate_content merged w) = Some response ->
          ai_client.response_text response <> "" ->
          fst outcome = ai_client.response_text response
          /\ PyStr.strip (fst outcome) = fst outcome)
      /\ (forall response,
          fst (generate_content merged w) = Some response ->
          ai_client.response_text response = "" ->
          fst outcome = stub_chat_reply prompt context
          /\ has_substring "stubbed ai" (PyStr.lower (fst outcome)))
      /\ (fst (generate_content merged w) = None ->
          fst outcome = gemini_error_reply prompt context
          /\ has_substring "stubbed ai" (PyStr.lower (fst outcome))).
Proof.
  cbv zeta. cbn [ai_client.chat ai_client.GeminiClient].
  destruct (gemini_chat_cases generate_content prompt context w)
    as (merged & Hpre & Hplain & Heq).
  rewrite Heq. cbn [fst snd].
  assert (Hstub : has_substring "stubbed ai" (PyStr.lower (stub_chat_reply prompt context))).
  { apply contains_iff. unfold stub_chat_reply. apply stub_marker_kept. }
  assert (Herr : has_substring "stubbed ai"
                   (PyStr.lower (gemini_error_reply prompt context))).
  { apply contains_iff. unfold gemini_error_reply. apply error_marker_kept. }
  split.
  - destruct (fst (generate_content merged w)) as [response|].
    + destruct (PyStr.truthy (ai_client.response_text response)) eqn:Ht.
      * unfold ai_client.response_text in *. apply stripped_not_blank.
        intros H0. rewrite H0 in Ht. discriminate Ht.
      * now apply not_blank_cons.
    + now apply not_blank_cons.
  - exists merged. split; [reflexivity|]. split; [exact Hpre|]. split; [exact Hplain|].
    destruct (fst (generate_content merged w)) as [response|].
    + split; [|split; [|discriminate]].
      * intros r [= <-] Hne.
        destruct (ai_client.response_text response) as [|a t] eqn:Hr; [congruence|].
        cbn [PyStr.truthy]. split; [reflexivity|].
        rewrite <- Hr. unfold ai_client.response_text.
        apply strip_is_stripped.
      * intros r [= <-] ->. cbn [PyStr.truthy]. now split.
    + split; [discriminate|]. split; [discriminate|]. intros _. now split.
Qed.

(* ===================================================================== *)
(** ** The analysis when the client gives no answer *)
(* ===================================================================== *)

(** The marker, which starts and ends with a letter, survives [strip]. *)
Lemma marker_survives_strip (s : string) :
  has_substring "stubbed ai" s -> has_substring "stubbed ai" (PyStr.strip s).
Proof.
  intros (pre & post & ->). unfold PyStr.strip.
  replace (pre ++ "stubbed ai" ++ post)
    with ((pre ++ "stubbed a") ++ String "i" post)
    by (rewrite append_assoc; reflexivity).
  rewrite rstrip_app_nonspace by reflexivity.
  replace ((pre ++ "stubbed a") ++ String "i" (PyStr.rstrip post))
    with (pre ++ String "s" ("tubbed ai" ++ PyStr.rstrip post))
    by (rewrite append_assoc; reflexivity).
  rewrite lstrip_app_nonspace by reflexivity.
  exists (PyStr.lstrip pre), (PyStr.rstrip post). reflexivity.
Qed.

Lemma lower_strip (s : string) :
  has_substring "stubbed ai" (PyStr.lower s) ->
  PyStr.contains "stubbed ai" (PyStr.strip (PyStr.lower s)) = true.
Proof. intros H. apply contains_iff. now apply marker_survives_strip. Qed.

Section no_answer.

Context {W : Type}.
Variable client : ai_client.AIClient W.
Variable ast_parse : string -> ast.parse_result.
Variable ast_unparse : ast.node -> string.
Hypothesis Hnone : gives_no_answer client.

Lemma no_answer_attempt (lang code : string) (w : W) :
  fst (analysis_engine.attempt_auto_correction client lang code w) = code.
Proof.
  unfold analysis_engine.attempt_auto_correction, Async.bind.
  destruct Hnone as [Hchat _].
  match goal with
  | |- context [ai_client.chat client ?p None w] => specialize (Hchat p None w)
  end.
  destruct (ai_client.chat client _ None w) as [reply w1]. cbn [fst] in Hchat.
  apply contains_iff in Hchat. rewrite Hchat. reflexivity.
Qed.

Lemma no_answer_detect (code fallback : string) (conf : Q) (w : W) :
  fst (analysis_engine._detect_language_via_ai client code fallback conf w)
  = (analysis_engine.str_or fallback "generic", conf).
Proof.
  unfold analysis_engine._detect_language_via_ai, Async.bind.
  destruct Hnone as [Hchat _].
  match goal with
  | |- context [ai_client.chat client ?p None w] => specialize (Hchat p None w)
  end.
  destruct (ai_client.chat client _ None w) as [reply w1]. cbn [fst] in Hchat.
  rewrite (lower_strip _ Hchat). reflexivity.
Qed.

Lemma no_answer_refine (code time_c space_c : string) (w : W) :
  fst (analysis_engine._refine_python_complexity_with_gemini client code time_c
         space_c w) = None.
Proof.
  unfold analysis_engine._refine_python_complexity_with_gemini, Async.bind.
  destruct Hnone as [_ Hjson].
  match goal with
  | |- context [ai_client.openai_json client ?s ?u ?h w] => specialize (Hjson s u h w)
  end.
  destruct (ai_client.openai_json client _ _ _ w) as [reply w1]. cbn [fst] in Hjson.
  unfold flagged in Hjson. rewrite Hjson. reflexivity.
Qed.

(** With a client that gives no answer, the analysis rests on the rules. *)
Lemma no_answer_analysis (code : string) (language : option string) (w : W) :
  let r :=
    fst (analysis_engine.analyze_code client ast_parse ast_unparse code language w) in
  analysis_engine.was_corrected r = false
  /\ analysis_engine.corrected_code r = None
  /\ (analysis_engine.error r = None <-> analysis_engine.original_valid r = true)
  /\ analysis_engine.algorithm r = None
  /\ analysis_engine.recommendation r = None
  /\ analysis_engine.explanation r = None
  /\ (analysis_engine.error r = None ->
      In (analysis_engine.big_o r) big_o_labels
      /\ analysis_engine.time_complexity r = Some (analysis_engine.big_o r)).
Proof.
  cbv zeta. rewrite analyze_code_stages.
  destruct (resolve_language client code language w) as [[lang conf] w1]. cbv zeta.
  pose proof (no_answer_attempt lang code w1) as Hatt.
  destruct (analysis_engine.attempt_auto_correction client lang code w1)
    as [corrected w2]. cbn [fst] in Hatt. subst corrected.
  destruct (validators.valid (validators.validate_code ast_parse lang code)) eqn:Hv.
  - destruct (final_metrics_flags client ast_parse ast_unparse lang conf true code
                false w1) as (_ & _ & F3 & F4 & F5 & F6 & _).
    destruct (final_metrics_refinement client ast_parse ast_unparse lang conf true code
                false w1) as (refined & _ & _ & Hb & Ha & Hrec & He & Ht & _).
    cbv zeta in *.
    assert (Href : refined = None).
    { unfold final_metrics, Async.bind in Ha.
      destruct (analysis_engine._ai_suggestion_summary client code w1) as [s w3].
      destruct (analysis_engine.is_python lang).
      - pose proof (no_answer_refine code
          (analysis_engine._estimate_big_o ast_parse ast_unparse code (Some lang))
          (analysis_engine._estimate_space_complexity ast_parse code (Some lang)) w3)
          as Hr.
        destruct (analysis_engine._refine_python_complexity_with_gemini _ _ _ _ w3)
          as [rf w4]. cbn [fst] in Hr. subst rf.
        unfold Async.ret in Ha. cbn in Ha. now destruct refined.
      - unfold Async.ret in Ha. cbn in Ha. now destruct refined. }
    subst refined. cbn [option_map] in *.
    rewrite F3, F4, F5, F6, Ha, Hrec, He, Hb, Ht.
    repeat split; auto. apply estimate_big_o_in_labels.
  - cbn. repeat split; auto; discriminate.
Qed.

End no_answer.

Lemma failing_gemini_gives_no_answer (W : Type)
    (generate_content : string -> W -> option ai_client.Response * W)
    (json_loads : string -> ai_client.loads_result) :
  (forall prompt w, fst (generate_content prompt w) = None) ->
  gives_no_answer (ai_client.GeminiClient generate_content json_loads).
Proof.
  intros Hfail. split.
  - intros prompt context w. cbn [ai_client.chat ai_client.GeminiClient].
    destruct (gemini_chat_cases generate_content prompt context w)
      as (merged & _ & _ & Heq).
    rewrite Heq, Hfail. cbn [fst].
    apply contains_iff. unfold gemini_error_reply. apply error_marker_kept.
  - intros system_prompt user_prompt hint w.
    cbn [ai_client.openai_json ai_client.GeminiClient].
    unfold ai_client.GeminiClient_openai_json, ai_client._call.
    match goal with
    | |- context [generate_content ?p w] => specialize (Hfail p w)
    end.
    destruct (generate_content _ w) as [response w1]. cbn [fst] in Hfail.
    subst response. cbn [option_map fst]. unfold flagged.
    rewrite lookup_insert_ne by discriminate. rewrite lookup_insert_eq.
    reflexivity.
Qed.

(** X27: when every request to Gemini fails, the analysis with the Gemini
    client rests on the rules alone, as with the stub: the fallback texts
    of the client are never taken for code or for a language.  No result
    is reported as corrected, a result carries the error exactly when the
    code as submitted is invalid, there is no algorithm, recommendation or
    explanation, and in a result without error the Big-O label is one of
    the five labels of the estimator, repeated as the time complexity. *)
Theorem analysis_survives_a_failing_backend (W : Type)
    (generate_content : string -> W -> option ai_client.Response * W)
    (json_loads : string -> ai_client.loads_result)
    (ast_parse : string -> ast.parse_result) (ast_unparse : ast.node -> string)
    (code : string) (language : option string) (w : W) :
  (forall prompt w, fst (generate_content prompt w) = None) ->
  let client := ai_client.GeminiClient generate_content json_loads in
  let r :=
    fst (analysis_engine.analyze_code client ast_parse ast_unparse code language w) in
  (forall lang, fst (analysis_engine.attempt_auto_correction client lang code w) = code)
  /\ analysis_engine.was_corrected r = false
  /\ analysis_engine.corrected_code r = None
  /\ (analysis_engine.error r = None <-> analysis_engine.original_valid r = true)
  /\ analysis_engine.algorithm r = None
  /\ analysis_engine.recommendation r = None
  /\ analysis_engine.explanation r = None
  /\ (analysis_engine.error r = None ->
      In (analysis_engine.big_o r) big_o_labels
      /\ analysis_engine.time_complexity r = Some (analysis_engine.big_o r)).
Proof.
  intros Hfail. cbv zeta.
  pose proof (failing_gemini_gives_no_answer W generate_content json_loads Hfail)
    as Hnone.
  split; [intros lang; now apply no_answer_attempt|].
  exact (no_answer_analysis _ ast_parse ast_unparse Hnone code language w).
Qed.

(** X27, the theorem at a backend that always fails and JavaScript whose
    bracket is not closed: the result is the error, with nothing
    corrected. *)
Lemma analysis_survives_a_failing_backend_witness :
  let client := ai_client.GeminiClient (failing_backend unit) loads_nothing in
  let r :=
    fst (analysis_engine.analyze_code client reject_all unparse_blank "f(" 
           (Some "javascript") tt) in
  (forall prompt w, fst (failing_backend unit prompt w) = None)
  /\ analysis_engine.error r = Some "SyntaxError"
  /\ (forall lang, fst (analysis_engine.attempt_auto_correction client lang "f(" tt) = "f(")
  /\ analysis_engine.was_corrected r = false
  /\ analysis_engine.corrected_code r = None
  /\ (analysis_engine.error r = None <-> analysis_engine.original_valid r = true)
  /\ analysis_engine.algorithm r = None
  /\ analysis_engine.recommendation r = None
  /\ analysis_engine.explanation r = None
  /\ (analysis_engine.error r = None ->
      In (analysis_engine.big_o r) big_o_labels
      /\ analysis_engine.time_complexity r = Some (analysis_engine.big_o r)).
Proof.
  intros client r.
  split; [reflexivity|]. split; [reflexivity|].
  exact (analysis_survives_a_failing_backend unit (failing_backend unit) loads_nothing
           reject_all unparse_blank "f(" (Some "javascript") tt
           (fun prompt w => eq_refl)).
Defined.

(* ===================================================================== *)
(** ** The JSON replies of Gemini ([_safe_json_loads], [openai_json]) *)
(* ===================================================================== *)

Lemma next_index_le (i : Z) (c : ascii) : (i <= PyStr.next_index i c)%Z.
Proof. unfold PyStr.next_index. destruct (PyStr.is_continuation c); lia. Qed.

(** [s.find(sub)] is -1 exactly when [sub] does not occur in [s]. *)
Lemma find_from_spec (sub s : string) :
  forall i, (0 <= i)%Z ->
    (PyStr.contains sub s = false -> PyStr.find_from i sub s = (-1)%Z)
    /\ (PyStr.contains sub s = true -> (i <= PyStr.find_from i sub s)%Z).
Proof.
  induction s as [|c s IH]; intros i Hi; cbn [PyStr.find_from PyStr.contains].
  - destruct (PyStr.startswith sub ""); cbn [orb]; split; intros; (lia || congruence).
  - destruct (PyStr.startswith sub (String c s)); cbn [orb].
    + split; intros; (lia || congruence).
    + pose proof (next_index_le i c).
      destruct (IH (PyStr.next_index i c)) as [H1 H2]; [lia|].
      split; [exact H1|]. intros Hc. specialize (H2 Hc). lia.
Qed.

Lemma rfind_from_spec (sub s : string) :
  forall i, (0 <= i)%Z ->
    (PyStr.contains sub s = false -> PyStr.rfind_from i sub s = (-1)%Z)
    /\ (PyStr.contains sub s = true -> (i <= PyStr.rfind_from i sub s)%Z).
Proof.
  induction s as [|c s IH]; intros i Hi; cbn [PyStr.rfind_from PyStr.contains].
  - destruct (PyStr.startswith sub ""); cbn [orb]; split; intros; (lia || congruence).
  - pose proof (next_index_le i c).
    destruct (IH (PyStr.next_index i c)) as [H1 H2]; [lia|].
    destruct (PyStr.contains sub s) eqn:Hc.
    + specialize (H2 eq_refl). rewrite orb_true_r.
      destruct (Z.eqb_spec (PyStr.rfind_from (PyStr.next_index i c) sub s) (-1)); [lia|].
      split; [discriminate | intros _; lia].
    + rewrite (H1 eq_refl), Z.eqb_refl, orb_false_r.
      destruct (PyStr.startswith sub (String c s)); split; intros; (lia || congruence).
Qed.

Lemma skip_continuation_suffix (s : string) :
  exists pre, s = pre ++ PyStr.skip_continuation s.
Proof.
  induction s as [|c s [pre IH]]; [now exists ""|]. cbn [PyStr.skip_continuation].
  destruct (PyStr.is_continuation c); [|now exists ""].
  exists (String c pre). rewrite append_cons. now rewrite <- IH.
Qed.

Lemma slice_from_suffix (n : nat) :
  forall s, exists pre, s = pre ++ PyStr.slice_from n s.
Proof.
  induction n as [|n IH]; intros s; [now exists ""|].
  destruct s as [|c s]; [now exists ""|]. cbn [PyStr.slice_from].
  destruct (skip_continuation_suffix s) as [p1 H1].
  destruct (IH (PyStr.skip_continuation s)) as [p2 H2].
  exists (String c (p1 ++ p2)). rewrite append_cons, append_assoc, <- H2, <- H1.
  reflexivity.
Qed.

Lemma slice_to_prefix (s : string) :
  forall n, exists post, s = PyStr.slice_to n s ++ post.
Proof.
  induction s as [|c s IH]; intros n; [now exists ""|]. cbn [PyStr.slice_to].
  destruct (PyStr.is_continuation c).
  - destruct (IH n) as [post H]. exists post. rewrite append_cons. now rewrite <- H.
  - destruct n as [|n]; [now exists (String c s)|].
    destruct (IH n) as [post H]. exists post. rewrite append_cons. now rewrite <- H.
Qed.

(** A slice of a text is a part of the text. *)
Lemma slice_is_substring (start stop : Z) (s : string) :
  has_substring (PyStr.slice start stop s) s.
Proof.
  unfold PyStr.slice, has_substring.
  destruct (slice_from_suffix (Z.to_nat start) s) as [pre Hpre].
  destruct (slice_to_prefix (PyStr.slice_from (Z.to_nat start) s) (Z.to_nat (stop - start)))
    as [post Hpost].
  exists pre, post. now rewrite <- Hpost.
Qed.

(** [_safe_json_loads] by the outcome of [json.loads]. *)
Lemma safe_json_loads_cases (json_loads : string -> ai_client.loads_result)
    (text : string) :
  (forall d, json_loads text = ai_client.Dict d ->
      ai_client._safe_json_loads json_loads text = Some d)
  /\ (json_loads text = ai_client.NotDict ->
      ai_client._safe_json_loads json_loads text = None)
  /\ (json_loads text = ai_client.Raised ->
      ~ has_substring "{" text \/ ~ has_substring "}" text ->
      ai_client._safe_json_loads json_loads text = None)
  /\ (forall d,
      ai_client._safe_json_loads json_loads text = Some d ->
      json_loads text = ai_client.Dict d
      \/ (json_loads text = ai_client.Raised
          /\ has_substring "{" text /\ has_substring "}" text
          /\ exists candidate,
              has_substring candidate text
              /\ json_loads candidate = ai_client.Dict d)).
Proof.
  unfold ai_client._safe_json_loads.
  destruct (find_from_spec "{" text 0 (Z.le_refl 0)) as [Hf0 Hf1].
  destruct (rfind_from_spec "}" text 0 (Z.le_refl 0)) as [Hr0 Hr1].
  fold (PyStr.find "{" text) in Hf0, Hf1. fold (PyStr.rfind "}" text) in Hr0, Hr1.
  pose proof (contains_iff "{" text) as Hco. pose proof (contains_iff "}" text) as Hcc.
  fold (has_substring "{" text) in Hco. fold (has_substring "}" text) in Hcc.
  destruct (json_loads text) as [d0| |].
  - split; [now intros d [= <-]|]. split; [discriminate|]. split; [discriminate|].
    intros d [= <-]. now left.
  - split; [discriminate|]. split; [reflexivity|]. split; [discriminate|]. discriminate.
  - split; [discriminate|]. split; [discriminate|]. split.
    + intros _ [Hno|Hno].
      * destruct (PyStr.contains "{" text) eqn:Hc; [exfalso; apply Hno; now apply Hco|].
        now rewrite (Hf0 eq_refl).
      * destruct (PyStr.contains "}" text) eqn:Hc; [exfalso; apply Hno; now apply Hcc|].
        rewrite (Hr0 eq_refl). cbn [Z.eqb]. now rewrite orb_true_r.
    + intros d Hd. right. split; [reflexivity|].
      destruct (PyStr.contains "{" text) eqn:Hc1;
        [|rewrite (Hf0 eq_refl) in Hd; discriminate Hd].
      destruct (PyStr.contains "}" text) eqn:Hc2;
        [|rewrite (Hr0 eq_refl) in Hd; cbn [Z.eqb] in Hd;
          rewrite orb_true_r in Hd; discriminate Hd].
      split; [now apply Hco|]. split; [now apply Hcc|].
      destruct (_ || _ || _); [discriminate Hd|].
      exists (PyStr.slice (PyStr.find "{" text) (PyStr.rfind "}" text + 1) text).
      split; [apply slice_is_substring|].
      destruct (json_loads (PyStr.slice _ _ text)); [now injection Hd as -> | discriminate Hd..].
Qed.

(** X28: [GeminiClient.openai_json] makes one request and always answers
    with a dict.  A failed request gives the hint flagged as stubbed.  A
    reply that parses to a dict is returned as it is; a reply that parses
    to another value, or that does not parse and lacks one of the braces,
    gives the hint flagged as unparsed, with the first 2000 characters of
    the reply.  A dict that is returned was parsed from the reply or from a
    part of it, and both flagged answers make the engine keep its own
    estimates. *)
Theorem gemini_json_outcomes (W : Type)
    (generate_content : string -> W -> option ai_client.Response * W)
    (json_loads : string -> ai_client.loads_result)
    (system_prompt user_prompt : string) (hint : gmap string ai_client.json) (w : W) :
  let client := ai_client.GeminiClient generate_content json_loads in
  let outcome := ai_client.openai_json client system_prompt user_prompt hint w in
  exists prompt,
    let content := option_map ai_client.response_text (fst (generate_content prompt w)) in
    snd outcome = snd (generate_content prompt w)
    /\ (content = None -> fst outcome = request_failed_reply hint)
    /\ (forall text d,
        content = Some text -> json_loads text = ai_client.Dict d -> fst outcome = d)
    /\ (forall text,
        content = Some text ->
        json_loads text = ai_client.NotDict
        \/ (json_loads text = ai_client.Raised
            /\ (~ has_substring "{" text \/ ~ has_substring "}" text)) ->
        fst outcome = parse_error_reply hint text)
    /\ (forall text,
        content = Some text ->
        fst outcome = parse_error_reply hint text
        \/ exists candidate,
            has_substring candidate text
            /\ json_loads candidate = ai_client.Dict (fst outcome))
    /\ flagged (request_failed_reply hint) = true
    /\ (forall text, flagged (parse_error_reply hint text) = true).
Proof.
  cbv zeta. cbn [ai_client.openai_json ai_client.GeminiClient].
  unfold ai_client.GeminiClient_openai_json, ai_client._call.
  match goal with
  | |- context [generate_content ?p w] => exists p
  end.
  destruct (generate_content _ w) as [[response|] w1]; cbn [fst snd option_map].
  - set (text := ai_client.response_text response).
    destruct (safe_json_loads_cases json_loads text) as (H1 & H2 & H3 & H4).
    split; [now destruct (ai_client._safe_json_loads json_loads text)|].
    split; [discriminate|]. split; [|split; [|split; [|split]]].
    + intros t d [= <-] Hd. now rewrite (H1 d Hd).
    + intros t [= <-] [Hn|[Hr Hb]]; [now rewrite (H2 Hn) | now rewrite (H3 Hr Hb)].
    + intros t [= <-].
      destruct (ai_client._safe_json_loads json_loads text) as [d|] eqn:Hs;
        [|now left].
      right. cbn [fst]. destruct (H4 d eq_refl) as [Hd|(_ & _ & _ & c & Hc & Hd)].
      * exists text. split; [now exists "", ""; rewrite append_nil_r | exact Hd].
      * now exists c.
    + unfold flagged, request_failed_reply.
      rewrite lookup_insert_ne by discriminate. now rewrite lookup_insert_eq.
    + intros t. unfold flagged, parse_error_reply.
      rewrite !(lookup_insert_ne _ "raw") by discriminate.
      rewrite lookup_insert_eq. cbn. apply orb_true_r.
  - split; [reflexivity|]. split; [reflexivity|].
    split; [discriminate|]. split; [discriminate|]. split; [discriminate|].
    split.
    + unfold flagged, request_failed_reply.
      rewrite lookup_insert_ne by discriminate. now rewrite lookup_insert_eq.
    + intros t. unfold flagged, parse_error_reply.
      rewrite !(lookup_insert_ne _ "raw") by discriminate.
      rewrite lookup_insert_eq. cbn. apply orb_true_r.
Qed.

(* ===================================================================== *)
(** ** The names of a text ([analyze_structure]) *)
(* ===================================================================== *)

Lemma after_prefix_spec (p s : string) :
  PyStr.startswith p s = true -> s = p ++ PyStr.after_prefix p s.
Proof.
  revert s. induction p as [|a p IH]; intros s H; [reflexivity|].
  destruct s as [|b s]; [discriminate H|]. cbn [PyStr.startswith] in H.
  apply andb_true_iff in H. destruct H as [Hab H]. apply Ascii.eqb_eq in Hab. subst b.
  cbn [PyStr.after_prefix]. rewrite append_cons. now rewrite <- IH.
Qed.

(** [s.split(sep, 1)[1]] is there when [s] starts with [sep]: it is what
    follows [sep]. *)
Lemma split_has_second (sep s : string) :
  PyStr.startswith sep s = true ->
  PyStr.split_once sep s = [""; PyStr.after_prefix sep s]
  /\ structure.item 1 (PyStr.split_once sep s) = PyStr.after_prefix sep s.
Proof.
  intros H. destruct s as [|c s]; cbn [PyStr.split_once]; rewrite H; now split.
Qed.

Lemma split_once_not_empty (sep s : string) : PyStr.split_once sep s <> [].
Proof.
  induction s as [|c s IH]; cbn [PyStr.split_once].
  - now destruct (PyStr.startswith sep "").
  - destruct (PyStr.startswith sep (String c s)); [discriminate|].
    destruct (PyStr.split_once sep s); [congruence | discriminate].
Qed.

(** [t.split(c, 1)[0]] for a character [c]: what stands before the first
    [c], or [t] when it holds none. *)
Lemma split_once_head (c : ascii) (t : string) :
  let head := structure.item 0 (PyStr.split_once (String c "") t) in
  exists rest,
    t = head ++ rest
    /\ ~ has_substring (String c "") head
    /\ (rest = "" \/ exists r, rest = String c r).
Proof.
  cbv zeta. induction t as [|d t (rest & Ht & Hno & Hrest)]; cbn [PyStr.split_once].
  - cbn. exists "". split; [reflexivity|]. split; [|now left].
    intros H. apply contains_iff in H. discriminate H.
  - cbn [PyStr.startswith]. rewrite andb_true_r.
    destruct (Ascii.eqb_spec c d) as [->|Hne].
    + cbn. exists (String d t). split; [reflexivity|]. split; [|right; now exists t].
      intros H. apply contains_iff in H. discriminate H.
    + pose proof (split_once_not_empty (String c "") t) as Hne'.
      destruct (PyStr.split_once (String c "") t) as [|before after]; [congruence|].
      cbn [structure.item nth] in *. exists rest.
      split; [rewrite append_cons; now rewrite <- Ht|]. split; [|exact Hrest].
      intros H. apply contains_iff in H. cbn [PyStr.contains PyStr.startswith] in H.
      rewrite andb_true_r in H. apply Ascii.eqb_neq in Hne. rewrite Hne in H.
      cbn [orb] in H. apply Hno. now apply contains_iff.
Qed.

Lemma substring_of_prefix (sub h r : string) :
  ~ has_substring sub (h ++ r) -> ~ has_substring sub h.
Proof.
  intros Hno (pre & post & ->). apply Hno. exists pre, (post ++ r).
  now rewrite !append_assoc.
Qed.

Lemma def_is_no_class (s : string) :
  PyStr.startswith "def " s = true -> PyStr.startswith "class " s = false.
Proof.
  destruct s as [|a s]; [discriminate|]. cbn [PyStr.startswith].
  destruct (Ascii.eqb_spec "d" a) as [<-|]; [reflexivity | discriminate].
Qed.

Lemma function_name_spec (line : string) :
  def_line line = true ->
  defines_function line
    (structure.item 0
       (PyStr.split_once "("
          (structure.item 1 (PyStr.split_once "def " (PyStr.strip line))))).
Proof.
  unfold def_line. intros Hd.
  destruct (split_has_second _ _ Hd) as [_ ->].
  pose proof (after_prefix_spec _ _ Hd) as Hs.
  destruct (split_once_head "(" (PyStr.after_prefix "def " (PyStr.strip line)))
    as (rest & Ht & Hno & Hrest). cbv zeta in *.
  exists rest. split; [|split; assumption].
  rewrite Hs at 1. now rewrite Ht at 1.
Qed.

Lemma class_name_spec (line : string) :
  class_line line = true ->
  defines_class line
    (structure.item 0
       (PyStr.split_once ":"
          (structure.item 0
             (PyStr.split_once "("
                (structure.item 1 (PyStr.split_once "class " (PyStr.strip line))))))).
Proof.
  unfold class_line. intros Hd.
  destruct (split_has_second _ _ Hd) as [_ ->].
  pose proof (after_prefix_spec _ _ Hd) as Hs.
  destruct (split_once_head "(" (PyStr.after_prefix "class " (PyStr.strip line)))
    as (r1 & Ht1 & Hno1 & Hrest1). cbv zeta in *.
  set (h1 := structure.item 0 (PyStr.split_once "(" _)) in *.
  destruct (split_once_head ":" h1) as (r2 & Ht2 & Hno2 & Hrest2). cbv zeta in *.
  set (h2 := structure.item 0 (PyStr.split_once ":" h1)) in *.
  exists (r2 ++ r1). split; [|split; [|split]].
  - rewrite Hs at 1. rewrite Ht1 at 1. rewrite Ht2 at 1. now rewrite append_assoc.
  - rewrite Ht2 in Hno1. now apply substring_of_prefix in Hno1.
  - exact Hno2.
  - destruct Hrest2 as [->|[r ->]].
    + destruct Hrest1 as [->|[r ->]]; [now left|]. right. exists r. now left.
    + right. exists (r ++ r1). right. now rewrite append_cons.
Qed.

Lemma structure_loop (lines : list string) :
  forall functions classes,
    exists found_functions found_classes,
      fold_left structure.structure_step lines (functions, classes)
      = ((functions ++ found_functions)%list, (classes ++ found_classes)%list)
      /\ List.Forall2 defines_function (List.filter def_line lines) found_functions
      /\ List.Forall2 defines_class (List.filter class_line lines) found_classes.
Proof.
  induction lines as [|line lines IH]; intros functions classes.
  - exists [], []. cbn. rewrite !List.app_nil_r. repeat split; constructor.
  - cbn [fold_left List.filter]. unfold structure.structure_step at 2.
    fold (def_line line). fold (class_line line).
    destruct (def_line line) eqn:Hd.
    + assert (Hc : class_line line = false) by now apply def_is_no_class.
      rewrite Hc.
      destruct (IH (functions ++ [structure.item 0 (PyStr.split_once "("
                     (structure.item 1 (PyStr.split_once "def " (PyStr.strip line))))])%list
                  classes) as (F & C & Heq & HF & HC).
      eexists (_ :: F), C. rewrite Heq, <- List.app_assoc.
      split; [reflexivity|]. split; [|exact HC].
      constructor; [now apply function_name_spec | exact HF].
    + destruct (class_line line) eqn:Hc.
      * destruct (IH functions
                    (classes ++ [structure.item 0 (PyStr.split_once ":"
                       (structure.item 0 (PyStr.split_once "("
                          (structure.item 1
                             (PyStr.split_once "class " (PyStr.strip line))))))])%list)
          as (F & C & Heq & HF & HC).
        exists F. eexists (_ :: C). rewrite Heq, <- List.app_assoc.
        split; [reflexivity|]. split; [exact HF|].
        constructor; [now apply class_name_spec | exact HC].
      * apply IH.
Qed.

(** X29: [analyze_structure] lists one function for each line that starts
    with "def " after stripping and one class for each line that starts
    with "class ", in the order of the lines: the name of a function is
    what stands between "def " and the first opening parenthesis, the name
    of a class what stands between "class " and the first parenthesis or
    colon, or the rest of the line when it holds none.  No index of its
    splits is out of range.  The file path and the language of the request
    are handed back. *)
Theorem analyze_structure_names (payload : schemas.CodeAnalysisRequest) :
  let r := structure.analyze_structure payload in
  let lines := PyStr.splitlines (schemas.req_code payload) in
  structure.file_path r = schemas.req_file_path payload
  /\ structure.language r = schemas.req_language payload
  /\ (forall line,
      def_line line = true ->
      exists after,
        PyStr.split_once "def " (PyStr.strip line) = [""; after])
  /\ (forall line,
      class_line line = true ->
      exists after,
        PyStr.split_once "class " (PyStr.strip line) = [""; after])
  /\ exists info,
      structure.structure r = Some info
      /\ List.Forall2 defines_function (List.filter def_line lines)
           (schemas.functions info)
      /\ List.Forall2 defines_class (List.filter class_line lines)
           (schemas.classes info).
Proof.
  cbv zeta. unfold structure.analyze_structure.
  destruct (structure_loop (PyStr.splitlines (schemas.req_code payload)) [] [])
    as (F & C & Heq & HF & HC).
  rewrite Heq. cbn [structure.file_path structure.language structure.structure app].
  split; [reflexivity|]. split; [reflexivity|].
  split; [intros line H; eexists; apply (split_has_second _ _ H)|].
  split; [intros line H; eexists; apply (split_has_second _ _ H)|].
  eexists. split; [reflexivity|]. now split.
Qed.

(* ===================================================================== *)
(** ** The languages and the risky modules of a set of files
       ([analyze_file_structure]) *)
(* ===================================================================== *)

(** *** The counter *)

Lemma counter_get_add (l k : string) (c : list (string * Z)) :
  counter_get l (structure.counter_add k c)
  = if String.eqb l k then (counter_get l c + 1)%Z else counter_get l c.
Proof.
  induction c as [|[k' n] c IH]; cbn [structure.counter_add counter_get].
  - now destruct (String.eqb l k).
  - destruct (String.eqb_spec k k') as [->|Hk]; cbn [counter_get].
    + now destruct (String.eqb l k').
    + destruct (String.eqb_spec l k') as [->|Hl]; [|exact IH].
      destruct (String.eqb_spec k' k) as [->|_]; [now contradiction Hk | reflexivity].
Qed.

Lemma counter_add_names (k : string) (c : list (string * Z)) :
  forall x, In x (map fst (structure.counter_add k c)) <-> x = k \/ In x (map fst c).
Proof.
  induction c as [|[k' n] c IH]; intros x; cbn [structure.counter_add map fst In].
  - intuition.
  - destruct (String.eqb_spec k k') as [->|Hk]; cbn [map fst In].
    + intuition.
    + rewrite IH. intuition.
Qed.

Lemma counter_add_distinct (k : string) (c : list (string * Z)) :
  List.NoDup (map fst c) -> List.NoDup (map fst (structure.counter_add k c)).
Proof.
  induction c as [|[k' n] c IH]; intros Hnd; cbn [structure.counter_add map fst].
  - constructor; [intros [] | constructor].
  - inversion Hnd as [|? ? Hnot Hrest]; subst.
    destruct (String.eqb_spec k k') as [->|Hk]; cbn [map fst].
    + now constructor.
    + constructor; [|now apply IH].
      intros Hin. apply counter_add_names in Hin. destruct Hin as [->|Hin];
        [now contradiction Hk | now contradiction Hnot].
Qed.

Lemma counter_add_positive (k : string) (c : list (string * Z)) :
  List.Forall (fun kv => (0 < snd kv)%Z) c ->
  List.Forall (fun kv => (0 < snd kv)%Z) (structure.counter_add k c).
Proof.
  induction 1 as [|[k' n] c Hn Hc IH]; cbn [structure.counter_add].
  - constructor; [cbn; lia | constructor].
  - cbn [snd] in Hn. destruct (String.eqb k k').
    + constructor; [cbn; lia | exact Hc].
    + constructor; [exact Hn | exact IH].
Qed.

Lemma counter_add_total (k : string) (c : list (string * Z)) :
  total_of (structure.counter_add k c) = (total_of c + 1)%Z.
Proof.
  unfold total_of. induction c as [|[k' n] c IH]; cbn [structure.counter_add].
  - reflexivity.
  - destruct (String.eqb k k'); cbn [map snd fold_right] in *; [lia|].
    rewrite IH. lia.
Qed.

(** The entries of a counter with distinct keys and positive counts. *)
Lemma counter_entries (c : list (string * Z)) :
  List.NoDup (map fst c) ->
  List.Forall (fun kv => (0 < snd kv)%Z) c ->
  forall l n, In (l, n) c <-> (0 < n)%Z /\ n = counter_get l c.
Proof.
  induction c as [|[k m] c IH]; intros Hnd Hpos l n; cbn [In counter_get].
  - split; [intros [] | intros [Hn ->]; lia].
  - inversion Hnd as [|? ? Hnot Hrest]; subst.
    inversion Hpos as [|? ? Hm Hc]; subst. cbn [snd] in Hm.
    destruct (String.eqb_spec l k) as [->|Hl].
    + split.
      * intros [Heq|Hin]; [injection Heq as <-; now split|].
        contradiction Hnot. apply (in_map fst) in Hin. exact Hin.
      * intros [_ ->]. now left.
    + rewrite (IH Hrest Hc). split; [|now right].
      intros [Heq|H]; [injection Heq as -> ->; now contradiction Hl | exact H].
Qed.

(** *** The sort of the breakdown *)

Lemma key_le_total (a b : string * Z) :
  structure.key_le a b = false -> structure.key_le b a = true.
Proof.
  unfold structure.key_le. intros H.
  apply orb_false_iff in H. destruct H as [Hlt H].
  apply Z.ltb_ge in Hlt. apply orb_true_iff.
  destruct (Z.ltb_spec (snd a) (snd b)) as [Hab|Hab]; [now left|]. right.
  assert (Heq : snd a = snd b) by lia.
  rewrite Heq, Z.eqb_refl in *. cbn [andb] in *.
  rewrite String.compare_antisym.
  now destruct (String.compare (fst a) (fst b)).
Qed.

Lemma key_le_strict (a b : string * Z) :
  structure.key_le a b = true -> fst a <> fst b -> ranked_before a b.
Proof.
  unfold structure.key_le, ranked_before. intros H Hne.
  apply orb_true_iff in H. destruct H as [H|H]; [left; now apply Z.ltb_lt|].
  apply andb_true_iff in H. destruct H as [Heq H]. apply Z.eqb_eq in Heq.
  right. split; [exact Heq|].
  destruct (String.compare (fst a) (fst b)) eqn:Hc; [|reflexivity|discriminate H].
  apply String.compare_eq_iff in Hc. now contradiction Hne.
Qed.

Lemma insert_by_key_perm (x : string * Z) (xs : list (string * Z)) :
  Permutation (structure.insert_by_key x xs) (x :: xs).
Proof.
  induction xs as [|y ys IH]; cbn [structure.insert_by_key]; [reflexivity|].
  destruct (structure.key_le y x); [|reflexivity].
  rewrite IH. apply perm_swap.
Qed.

Lemma insert_by_key_sorted (x : string * Z) (xs : list (string * Z)) :
  Sorted (fun a b => structure.key_le a b = true) xs ->
  Sorted (fun a b => structure.key_le a b = true) (structure.insert_by_key x xs).
Proof.
  induction 1 as [|y ys Hs IH Hhd]; cbn [structure.insert_by_key].
  - repeat constructor.
  - destruct (structure.key_le y x) eqn:Hyx.
    + constructor; [exact IH|].
      destruct ys as [|z zs]; cbn [structure.insert_by_key].
      * now constructor.
      * destruct (structure.key_le z x); constructor; [|exact Hyx].
        now inversion Hhd.
    + constructor; [now constructor|]. constructor. now apply key_le_total.
Qed.

Lemma sorted_by_key_spec (xs : list (string * Z)) :
  Permutation (structure.sorted_by_key xs) xs
  /\ Sorted (fun a b => structure.key_le a b = true) (structure.sorted_by_key xs).
Proof.
  unfold structure.sorted_by_key.
  assert (H : forall acc,
             Sorted (fun a b => structure.key_le a b = true) acc ->
             Permutation
               (fold_left (fun acc x => structure.insert_by_key x acc) xs acc)
               (acc ++ xs)
             /\ Sorted (fun a b => structure.key_le a b = true)
                  (fold_left (fun acc x => structure.insert_by_key x acc) xs acc)).
  { induction xs as [|x xs IH]; intros acc Hacc; cbn [fold_left].
    - rewrite List.app_nil_r. now split.
    - destruct (IH (structure.insert_by_key x acc)) as [Hp Hs];
        [now apply insert_by_key_sorted|].
      split; [|exact Hs]. rewrite Hp, insert_by_key_perm.
      apply Permutation_middle. }
  destruct (H []) as [Hp Hs]; [constructor|]. now split.
Qed.

Lemma sorted_strictly (xs : list (string * Z)) :
  Sorted (fun a b => structure.key_le a b = true) xs ->
  List.NoDup (map fst xs) ->
  Sorted ranked_before xs.
Proof.
  induction 1 as [|x xs Hs IH Hhd]; intros Hnd; [constructor|].
  cbn [map] in Hnd. inversion Hnd as [|? ? Hnot Hrest]; subst.
  constructor; [now apply IH|].
  destruct Hhd as [|y ys Hxy]; constructor.
  apply key_le_strict; [exact Hxy|].
  intros Heq. apply Hnot. cbn [map]. left. now symmetry.
Qed.

(** The first entry of a ranked list has the greatest count. *)
Lemma ranked_first_is_greatest (x : string * Z) (xs : list (string * Z)) :
  Sorted ranked_before (x :: xs) ->
  forall y, In y (x :: xs) -> (snd y <= snd x)%Z.
Proof.
  intros Hs.
  assert (Hw : Sorted (fun a b => (snd b <= snd a)%Z) (x :: xs)).
  { clear -Hs. induction Hs as [|a l Hs IH Hhd]; constructor; [exact IH|].
    destruct Hhd as [|b l Hab]; constructor.
    destruct Hab as [H|[H _]]; lia. }
  apply Sorted_StronglySorted in Hw; [|intros a b c Hab Hbc; lia].
  inversion Hw as [|? ? _ Hall]; subst.
  intros y [<-|Hin]; [lia|].
  rewrite List.Forall_forall in Hall. now apply Hall.
Qed.

Lemma total_of_perm (xs ys : list (string * Z)) :
  Permutation xs ys -> total_of xs = total_of ys.
Proof.
  unfold total_of. induction 1; cbn [map fold_right] in *; lia.
Qed.

(** *** The loop over the paths *)

Lemma file_step_spec (fs : structure.FileSystem) (p : structure.Path)
    (counts : list (string * Z)) (risky : list structure.RiskyModule) :
  structure.file_step fs (counts, risky) p
  = (structure.counter_add (structure._language_from_path p) counts,
     (risky ++ map (report_of fs) (List.filter (reported fs) [p]))%list).
Proof.
  unfold structure.file_step. cbn [List.filter].
  unfold reported, report_of, reasons_of.
  destruct (structure._risk_reasons_for_path p
            ++ structure._risk_reasons_for_content fs p)%list eqn:Hreasons;
    cbn [map]; [now rewrite List.app_nil_r | now rewrite Hreasons].
Qed.

Lemma file_loop (fs : structure.FileSystem) (paths : list structure.Path) :
  fold_left (structure.file_step fs) paths ([], [])
  = (fold_left
       (fun c p => structure.counter_add (structure._language_from_path p) c)
       paths [],
     map (report_of fs) (List.filter (reported fs) paths)).
Proof.
  induction paths as [|p paths IH] using rev_ind; [reflexivity|].
  rewrite !fold_left_app, IH, List.filter_app, List.map_app.
  cbn [fold_left]. apply file_step_spec.
Qed.

Lemma language_counts_spec (paths : list structure.Path) :
  let counts :=
    fold_left
      (fun c p => structure.counter_add (structure._language_from_path p) c)
      paths [] in
  List.NoDup (map fst counts)
  /\ List.Forall (fun kv => (0 < snd kv)%Z) counts
  /\ total_of counts = Z.of_nat (length paths)
  /\ forall l, counter_get l counts = files_in l paths.
Proof.
  cbv zeta. induction paths as [|p paths (Hnd & Hpos & Htot & Hget)] using rev_ind.
  - cbn. repeat split; constructor.
  - rewrite fold_left_app. cbn [fold_left].
    split; [now apply counter_add_distinct|].
    split; [now apply counter_add_positive|].
    split.
    + rewrite counter_add_total, Htot, List.length_app. cbn [length]. lia.
    + intros l. rewrite counter_get_add, Hget. unfold files_in.
      rewrite List.filter_app, List.length_app. cbn [List.filter].
      rewrite (String.eqb_sym l).
      destruct (String.eqb (structure._language_from_path p) l); cbn [length]; lia.
Qed.

Lemma report_of_reports (fs : structure.FileSystem) (p : structure.Path) :
  reported fs p = true -> reports fs p (report_of fs p).
Proof.
  unfold reported, reports, report_of. intros Hrep.
  cbn [structure.risky_file_path structure.risky_language structure.reasons].
  destruct (sorted_set_spec (reasons_of fs p)) as [Hasc Hin].
  split; [reflexivity|]. split; [reflexivity|]. split; [|split; assumption].
  destruct (reasons_of fs p) as [|x xs]; [discriminate Hrep|].
  intros Hnil. specialize (Hin x). rewrite Hnil in Hin.
  apply Hin. now left.
Qed.

(** X30: [analyze_file_structure] counts every path once: [total_files] is
    the number of the paths, and the counts of the language breakdown add
    up to it.  The breakdown holds a language exactly when some path has
    it, with the number of these paths, and it is ranked: the greater count
    first, equal counts by name.  The risky modules are, in the order of
    the paths, the entries of the paths for which a reason was found, each
    with its reasons sorted and without repetition.  Without paths the
    summary is "No files provided."; otherwise it names the first language
    of the breakdown, whose count is the greatest: the fallback to "other"
    is never taken. *)
Theorem analyze_file_structure_counts
    (Path_of : string -> structure.Path) (fs : structure.FileSystem)
    (file_paths : list string) :
  let r := structure.analyze_file_structure Path_of fs file_paths in
  let paths := map Path_of file_paths in
  structure.total_files r = Z.of_nat (length file_paths)
  /\ total_of (structure.language_breakdown r) = structure.total_files r
  /\ (forall l n,
      In (l, n) (structure.language_breakdown r)
      <-> (0 < n)%Z /\ n = files_in l paths)
  /\ Sorted ranked_before (structure.language_breakdown r)
  /\ List.Forall2 (reports fs) (List.filter (reported fs) paths)
       (structure.risky_modules r)
  /\ match file_paths with
     | [] =>
         structure.language_breakdown r = []
         /\ structure.risky_modules r = []
         /\ structure.summary r = "No files provided."
     | _ :: _ =>
         exists top count rest,
           structure.language_breakdown r = (top, count) :: rest
           /\ (forall l n,
               In (l, n) (structure.language_breakdown r) -> (n <= count)%Z)
           /\ structure.summary r
              = scan_summary (structure.total_files r) top count
                  (Z.of_nat (length (structure.risky_modules r)))
     end.
Proof.
  cbv zeta. unfold structure.analyze_file_structure. rewrite file_loop.
  cbn [structure.total_files structure.language_breakdown structure.risky_modules
       structure.summary].
  set (paths := map Path_of file_paths).
  destruct (language_counts_spec paths) as (Hnd & Hpos & Htot & Hget).
  cbv zeta in Hnd, Hpos, Htot, Hget.
  set (counts := fold_left _ paths []) in *.
  destruct (sorted_by_key_spec counts) as [Hperm Hsorted].
  assert (Hlen : length paths = length file_paths) by apply List.length_map.
  assert (Hranked : Sorted ranked_before (structure.sorted_by_key counts)).
  { apply sorted_strictly; [exact Hsorted|].
    apply (Permutation_NoDup (l := map fst counts)); [|exact Hnd].
    apply Permutation_map. now symmetry. }
  assert (Hentries : forall l n,
             In (l, n) (structure.sorted_by_key counts)
             <-> (0 < n)%Z /\ n = files_in l paths).
  { intros l n. rewrite <- Hget, <- (counter_entries counts Hnd Hpos). split.
    - now apply Permutation_in.
    - apply Permutation_in. now symmetry. }
  assert (Hsum : total_of (structure.sorted_by_key counts) = Z.of_nat (length paths)).
  { now rewrite (total_of_perm _ _ Hperm). }
  split; [now rewrite Hlen|]. split; [exact Hsum|]. split; [exact Hentries|].
  split; [exact Hranked|]. split.
  { clear. induction paths as [|p ps IH]; cbn [List.filter]; [constructor|].
    destruct (reported fs p) eqn:Hp; [|exact IH].
    cbn [map]. constructor; [now apply report_of_reports | exact IH]. }
  destruct file_paths as [|f file_paths]; [now split|].
  destruct (structure.sorted_by_key counts) as [|[top count] rest] eqn:Hbreak.
  { cbn [total_of map fold_right] in Hsum. cbn [map length] in Hsum. unfold paths in Hsum.
    cbn [map length] in Hsum. lia. }
  exists top, count, rest. split; [reflexivity|]. split.
  - intros l n Hin. apply (ranked_first_is_greatest _ _ Hranked (l, n) Hin).
  - unfold structure._structure_summary.
    destruct (Z.eqb_spec (Z.of_nat (length paths)) 0) as [H0|_];
      [unfold paths in H0; cbn [map length] in H0; lia|].
    reflexivity.
Qed.
